(* ===== verification/_CoqProject ===== *)
-Q . S2P
Prelude.v
Model.v
Query.v
Pricing.v
Orders.v
Cart.v
Auth.v
Restaurants.v
Menu.v
Users.v
Seed.v
Admin.v
OrderLists.v
Analytics.v
Contact.v
Validation.v
CartSlice.v
ClientJson.v
ClientApi.v
ClientAuth.v
ClientSlices.v
ClientServer.v
ClientAdmin.v
Store.v
ClientUi.v
AuthDialog.v
ClientPages.v
ClientContent.v
ClientTypes.v
ClientView.v
ClientStatic.v
App.v
PageViews.v
AppViews.v
Endpoints.v
Scenarios.v
