(* ===== verification/Prelude.v ===== *)
(** * Dine-flow: a verification development of the food-ordering backend
      and its Redux client

    The program (under [src/]) is an Express/Mongoose server
    ([src/backend]) with a React/Redux client ([src/frontend]).  The
    server's route files read and write five MongoDB collections (users,
    restaurants, menu items, carts, orders); the middleware of
    [middleware/auth.js] authenticates each private route; the client keeps
    its own copy of the cart in a Redux slice and in [localStorage].

    ** The model

    A route handler [async (req, res) => {...}] becomes a function of the
    store [DB] (one [gmap ObjectId _] per collection, with the next fresh
    id) that returns a [result] (the answered value or an [http_error]
    with its status and message) and the store it leaves behind: the
    [handler] state monad of this file.  Its bind stops at the first error
    and keeps the writes done before, as an early [return res.status(..)]
    does; [guard] and [found] are the [if (...) return ...] tests.  Each
    [express-validator] chain is a boolean function run by the handler's
    first [guard]; the library validators whose definition is not in the
    repository ([isEmail], [isMobilePhone], [normalizeEmail], [isURL]) are
    the class [Model.FormatValidators], and every theorem holds for every
    instance.  JavaScript numbers used for money are exact rationals [Q]
    ([Math.round] is [js_round], [reduce] sums are [Qsum_left]); the
    floating-point error of the real program is not modelled.  Quantities
    and dates (milliseconds) are [Z].  Only [$group] needs fuel: the
    other loops of the code are folds over lists and the sorts are
    stdpp's [merge_sort]; the grouping of [$group], whose recursion is not
    structural, runs on fuel proved sufficient.

    ** Files (the order of [_CoqProject])

    - [Prelude]: the handler monad, [js_round], [Qsum_left], the [dine]
      hint database and the tactic [hrun] that takes a handler run apart.
    - [Model]: the documents of [models/*.js] as records and enums (the
      fields the handlers read or write), the store [DB].
    - [Query]: [Model.find(query)] ([find_docs]), [.sort(..)]
      ([newest_first], [sort_docs]), [.limit().skip()] ([paginate]) and the
      [pagination] block; their lemmas (permutation, sortedness, the pages
      of a listing partition it).
    - [Pricing]: the customization loop of [routes/orders.js] and
      [routes/cart.js] ([item_price]), fees, tax and totals.
    - [Orders]: [routes/orders.js]: [create_order], [get_order],
      [update_order_status], [cancel_order], [rate_order].
    - [Cart]: [routes/cart.js]: [get_cart], [add_to_cart],
      [update_cart_item], [remove_cart_item], [clear_cart], and the
      [JSON.stringify] comparison of customizations as token lists.
    - [Auth]: [middleware/auth.js] ([auth], [restaurantAuth], [adminAuth])
      as functions and as middleware outcomes recording every response
      attempted; [jwt.verify] is the class [JwtVerifier].
    - [Restaurants], [Menu]: [routes/restaurants.js] and [routes/menu.js];
      a request body written into a document by [new Model(req.body)] or
      [findByIdAndUpdate(id, req.body)] is [apply_body]/[apply_item_body].
    - [Users]: [routes/auth.js] (register, login, profile, password);
      bcrypt and [jwt.sign] are the classes [PasswordHasher] and
      [JwtIssuer] with the laws the routes rely on.
    - [Seed]: [scripts/createAdmin.js], the only code that creates an
      administrator: its lookup, the new document, the exit code and the
      console lines of each branch ([create_admin]).
    - [Admin]: the writes, lists, dashboard counters and broadcast of
      [routes/admin.js]; [OrderLists]: the order listings of
      [routes/orders.js] and [GET /api/admin/orders].
    - [Contact]: [routes/contact.js]: the validators and sanitizers, the
      two mail bodies and the two sends in order, over an outbox; the
      three templates of [utils/emailTemplates.js], which no route uses,
      and the order number of [models/Order.js] as strings.
    - [Validation]: the validator chains of [middleware/validation.js]
      and [utils/validation.js], which no route mounts, compared with the
      routes' inline chains.
    - [Analytics]: the aggregation pipelines of [routes/admin.js]
      (revenue and order analytics, the dashboard's charts and recent
      activity, the system health's order figures): [$group] is
      [group_by], run on fuel ([group_fuel_enough]: the number of
      documents is enough fuel), [$sort] a stable [merge_sort], the
      calendar operators the class [DateParts].
    - [CartSlice]: [store/slices/cartSlice.ts], every case reducer as one
      [cart_reducer] over the state and the [localStorage] entry.
    - [ClientJson]: parsed JSON as the client holds it ([jsv], after
      qcert's JSON values), the JavaScript reads ([v.k] is [js_get], with
      [None] the [TypeError] on [undefined]), truthiness, [||], and the
      array updates the slices write ([push], [unshift], [filter] by [_id],
      [findIndex]-and-assign); the server's list and error bodies.
    - [ClientApi]: [services/api.ts] (both axios interceptors),
      [localStorage]'s token and user entries with
      [JSON.parse(JSON.stringify(..))] ([json_norm]), and the settlement of
      a [createAsyncThunk] thunk ([thunk_result], [settle]).
    - [ClientAuth]: [authSlice.ts] (its [initialState], every reducer
      case, one run of the login thunk through the interceptors) and the
      login answer of the server as the client receives it.
    - [ClientSlices]: [orderSlice.ts], [restaurantSlice.ts], [menuSlice.ts];
      [ClientAdmin]: [adminSlice.ts]; each slice's reducer returns [None]
      where the JavaScript case throws.
    - [Store]: [store/store.ts]: the six slices under one state and one
      [localStorage] ([RootState], [root_reducer]), every action reaching
      the slice that declares it.
    - [ClientServer]: the fetch thunks of the three slices fed with the
      server's real list answers, and [components/restaurant-grid.tsx]
      ([grid_view]).
    - [ClientUi]: the components with state of their own: the header,
      the sign-in/sign-up dialog ([modal_submit] composes its submission,
      the thunk and the server's route), the filter sidebar and the
      three-step restaurant registration page, each [useState] a record
      field and each handler a function.
    - [AuthDialog]: the header, the sign-in/sign-up dialog, the auth
      slice, [localStorage] and the server as one state machine ([Shell],
      [shell_step]): every click and keystroke, the browser's check of the
      required inputs, the two effects of the dialog run after each
      render, the requests in flight with the answers the server gave,
      delivered in any order ([Answer i]), and the reload of a 401;
      [reachable] is the states a page load and any steps reach.
    - [ClientPages]: [App.tsx]'s routes with react-router's matching, the
      links the header, hero and footer render and the pages they reach
      ([navigable]); the sample table of [restaurant-info.tsx] and its
      lookup through ECMAScript's [Number()] ([js_number], a double
      rounding class [ToDouble]); the admin dashboard's constant tables
      and badges; the contact page's form and its browser submission.
    - [ClientContent]: the tables the menu page and the home page's
      sections render from their own source (dishes, featured dishes,
      testimonials, features) and what their cards show.
    - [ClientTypes]: the interfaces of [types/index.ts] as structural
      types ([TsType], [ts_check]) against the JSON the server sends.
    - [App]: the whole client as one state machine: the page shown, the
      [Shell] of [AuthDialog] and the local state of each page's
      components; links remount the page, "Sign Out" navigates home, the
      contact form's submission and a 401 reload the document, and the
      controls without a handler are events that change nothing.
    - [ClientView]: the element trees a component renders ([Node]: text,
      interpolated values, links, anchors, buttons with their [onClick],
      form controls with [value], [required] and [onChange]) and what a
      browser reads of them: texts, link targets, the events the buttons
      dispatch, and the constraint validation of a form ([form_submits]).
    - [ClientStatic]: the footer, the hero and call-to-action sections,
      the about page and the contact page as [Node]s, transcribed from
      their JSX with class names and layout-only [<div>]s left out.
    - [PageViews]: the header (its account area from the auth slice, its
      buttons dispatching [AuthDialog]'s events), the sign-in dialog (its
      form by mode and loading state), the home page's
      sections, the filter sidebar, the menu, restaurant and admin
      pages' content and the registration wizard (the card of the
      current step, its inputs fed from [formData]) as [Node]s, and
      [page_view], the whole page of an [App] state.
    - [AppViews]: what each part of a rendered page dispatches
      ([ClientView.node_events]: clicks, changes, and the submission of a
      form with an enabled submit button), and that [App.app_step]
      accepts all of it.
    - [Endpoints]: the route declarations of the seven routers and every
      request path of the slices and service modules, matched as Express
      matches them.
    - [Scenarios]: concrete instances of the classes, a small store, and
      the runs that instantiate each theorem with hypotheses.

    The MongoDB text index ([$text]) and the case-insensitive regex are
    section variables of the listings ([text_match], [regex_i]).

    ** What is proved

    - Orders: the success of each order route (its guards, what it writes,
      the timeline and restaurant statistics); a failed creation leaves the
      store unchanged; cancellation and rating refuse terminal or already
      rated orders; the restaurant's average stays in 1..5; the status route
      has no transition check; option prices come from the client, so any
      order total is possible.
    - Pricing: a line's price is its base price plus all option prices;
      fee and tax rounding bounds.
    - Carts: [add_to_cart] keeps every cart of one restaurant; the
      [JSON.stringify] comparison merges only lines without customizations;
      the stored totals are never updated; [get_cart]'s view; ordering a
      valid cart gives the subtotal the cart shows (a refinement of the
      cart view by the order pricing).
    - Authentication: [auth] exactly characterised (no [isActive] test), the
      role middleware, the double response when [auth] fails, route access
      control for order reads; a deactivated user keeps access with an old
      token.
    - Users: registration keeps e-mails unique and never creates an
      admin; a new user can log in and the issued token authenticates.
    - Seeding: the script exits with 0 exactly when it reached the
      database and found the address or saved the administrator, and
      writes only in that last case; a seeded administrator passes
      [adminAuth] after logging in, provided [normalizeEmail] leaves the
      address alone (with a dotted Gmail address it cannot log in).
    - Restaurants and menus: registration and update write the body as
      sent (status and owner included); deletion cascades to the menu
      items; an item update can move an item between restaurants and break
      the carts' invariant; the public listings are sound and their pages
      complete; the menu lists unavailable items by default.
    - Contact: the route sends the administrator's copy, then the
      confirmation, and answers 500 after the first when the second is
      refused; the form's fields reach the HTML unescaped.
    - Validation: the register and profile chains of
      [utils/validation.js] accept exactly what the routes accept; the
      middleware's stricter password rule is dead code.
    - Analytics: the revenue summary's totals are exact (grouping by
      day, week or month loses nothing), but its average order value is
      the mean of the periods' averages (a counterexample); the dashboard
      chart counts cancelled orders where the analytics do not; the top
      restaurants are at most ten, sorted, existing, with their own
      figures; the order analytics partition the period's orders; the
      health figures are consistent.
    - Listings and admin: order listings are scoped to their owner;
      [isActive=1] selects inactive users; cancellation keeps the
      dashboard revenue.
    - Client cart: every action keeps the totals and a single restaurant;
      after a reload the cart can mix restaurants.
    - Client and server together: a login through the client stores the
      token that then authenticates every request (a round trip through
      [auth_header] and [auth]); a refused login either keeps the stale
      token (400) or is taken for an expired session (401); the order
      slice keeps its declared types on well-typed payloads, but the
      answers the server really sends make the order, user and menu lists
      ill-typed and the restaurant grid always empty; the admin's user
      status control is always refused; eight of the slices' requests
      reach no route.
    - Components: signing up through the dialog creates a customer whose
      token authenticates later requests, and closes the dialog with its
      form cleared; the registration page always shows one of its three
      steps and reaches the submit step in at most two clicks (a liveness
      property over every sequence of clicks); the filter sidebar's list
      of cuisines implements the set toggled an odd number of times, and
      removing an active filter's badge removes that badge only; of the
      service modules' 44 requests, 17 reach no route.
    - The page as a system ([AuthDialog]): in every reachable state an
      authenticated session has no dialog open, nothing loading and an
      empty form, and every request in flight was a filled submission
      (an invariant by rule induction over [reachable]); opening the
      dialog, typing accepted credentials, submitting and receiving the
      answer logs the user in and closes the dialog (liveness); while a
      login is awaited "Forgot your password?" submits it again.
    - Pages ([ClientPages]): from the home page the links reach exactly the
      home, menu, about and contact pages; a MongoDB id with a letter a,
      c, d or f makes the restaurant page's lookup NaN and shows "Not
      Found", while a decimal id round-trips to the sample restaurant with
      that id; the contact form never sends its fields anywhere; were the
      restaurant grid rendered, its cards for the server's restaurants
      would link to that Not Found page.
    - Types ([ClientTypes]): a list body is an [ApiResponse<T[]>] exactly
      when its documents are [T]s; no answer of [GET /api/orders] has the
      type [fetchOrders] declares; three server statuses are outside the
      client's [Order["status"]].
    - The client as a whole ([App]): in every state reachable from a
      page load by any sequence of events on any page, the server's
      restaurants, menu items, carts and orders are those it started with
      (rule induction over [app_reachable], from the fact that the shell
      reaches the server only through login and registration).
    - The store ([Store]): no sequence of auth actions touches the cart
      slice or the stored cart, so after Sign Out the next visitor on
      the browser, or a reload, has the previous visitor's cart.
    - Rendered pages ([ClientStatic], [PageViews]): the header renders
      the Sign In, Sign Up and Sign Out buttons exactly when [handle]
      accepts their clicks; the dialog's form submits exactly when
      [form_valid] holds and a submit button is enabled, "Forgot your
      password?" staying enabled while a login is awaited; the
      registration form's constraint validation
      submits exactly when [wizard_submission] does and requires exactly
      [step_required]'s fields; the contact form's is [contact_submit]'s;
      the sidebar's checkboxes and radios are [App.sidebar_view]'s; the
      link table [page_links] is, as a set, the links every routed page
      renders; the controls a page renders without a handler are exactly
      [App]'s inert controls there; and ([AppViews]) every event a
      routed page can be made to dispatch, and every link it renders,
      is accepted by [app_step] in the state that renders it, so
      [App]'s events are exactly what a visitor can do on screen.  The
      content contradicts
      itself and the server: two brand names, two sets of support
      addresses, and a promise of delivery in 30 minutes against the
      server's estimate of 45.

    ** Not modelled

    The geographic [$near] filter, [populate] and [select] projections,
    the calendar itself ([$dateToString], [$hour], [$dayOfWeek] are a
    class), the process and database figures of [/system/health], the
    SMTP transport (whether it accepts a mail is a parameter of
    [Contact.contact]), the validator library's format checks ([isEmail],
    [isMobilePhone], [isPostalCode] and [normalizeEmail] are a class or a
    parameter), JavaScript's [Date] and [Number] printing, token expiry (a [jwt_verify] without clock), the
    database exceptions answered 500 by the [catch] blocks other than
    those the code provokes itself.  On the client: the styling of the
    markup (classes, icons, animations); the open state of the header's
    mobile [Sheet] (its content is rendered as if open), the header's search input and theme, and the modules the
    repository does not contain ([components/ui/*], [cart-sidebar],
    [lib/cart-context], [theme-provider], [main.tsx]): their behaviour is
    assumed where the code relies on it (a [Button] without [type] is a
    submit button).  Rounding a decimal literal to a double is the class
    [ToDouble], exact on integers up to 2^53.  The answers of the
    service modules of [services/] are not modelled beyond their request
    paths.  Every thunk run is a finite sequence of reducer steps; the
    interleaving of several runs is [AuthDialog]'s [Answer i]. *)

From Stdlib Require Export QArith Qround Lqa ZArith.
From stdpp Require Export base gmap strings list.

(* set_solver clears hypotheses by name and warns when one is absent *)
#[export] Set Warnings "-clear-no-such-hyp".

Declare Scope dine_scope.
Delimit Scope dine_scope with dine.

(** ** Results and errors *)

(** An error response: its HTTP status and the [message] field of the
    JSON body [{success: false, message}]. *)
Record http_error := HttpError { err_status : N; err_message : string }.

Inductive result (A : Type) : Type :=
| Ok (a : A)
| Err (e : http_error).
Arguments Ok {A} a.
Arguments Err {A} e.

#[export] Instance http_error_eq_dec : EqDecision http_error.
Proof. solve_decision. Defined.

Definition is_ok {A} (r : result A) : bool :=
  match r with Ok _ => true | Err _ => false end.

Definition err_code {A} (r : result A) : option N :=
  match r with Ok _ => None | Err e => Some (err_status e) end.

(** ** The handler monad *)

Definition handler (S A : Type) : Type := S -> result A * S.

Definition ret {S A} (a : A) : handler S A := fun s => (Ok a, s).

Definition bind {S A B} (m : handler S A) (k : A -> handler S B) : handler S B :=
  fun s =>
    match m s with
    | (Ok a, s') => k a s'
    | (Err e, s') => (Err e, s')
    end.

(** [return res.status(code).json({success: false, message: msg})] *)
Definition fail {S A} (code : N) (msg : string) : handler S A :=
  fun s => (Err (HttpError code msg), s).

Definition get_state {S} : handler S S := fun s => (Ok s, s).
Definition put_state {S} (s : S) : handler S unit := fun _ => (Ok tt, s).
Definition modify {S} (f : S -> S) : handler S unit := fun s => (Ok tt, f s).

(** [if (!cond) return res.status(code).json(...)] *)
Definition guard {S} (cond : bool) (code : N) (msg : string) : handler S unit :=
  if cond then ret tt else fail code msg.

(** A lookup that answers [code] when the document is missing. *)
Definition found {S A} (o : option A) (code : N) (msg : string) : handler S A :=
  match o with Some a => ret a | None => fail code msg end.

(** A pure computation that may fail, lifted into a handler. *)
Definition from_result {S A} (r : result A) : handler S A := fun s => (r, s).

Notation "x <- m ;; k" := (bind m (fun x => k))
  (at level 100, m at next level, right associativity) : dine_scope.
Notation "m ;; k" := (bind m (fun _ => k))
  (at level 100, right associativity) : dine_scope.

Open Scope dine_scope.

(** The outcome of running a handler on a state. *)
Definition run {S A} (m : handler S A) (s : S) : result A * S := m s.

(** A handler preserves a state predicate when every run from a state
    satisfying it ends in a state satisfying it, errors included. *)
Definition preserves {S A} (P : S -> Prop) (m : handler S A) : Prop :=
  forall s, P s -> P (snd (m s)).

(** ** JavaScript helpers *)

Open Scope Q_scope.

(** [Math.round x]: the integer nearest to [x], halves rounded up. *)
Definition js_round (x : Q) : Z := Qfloor (x + (1 # 2)).

(** [let acc = 0; for (x of l) acc += x] *)
Definition Qsum_left (l : list Q) : Q := fold_left Qplus l 0.

(** [o || d] on an optional string: [undefined] and [""] are falsy. *)
Definition js_or_str (o : option string) (d : string) : string :=
  match o with
  | Some s => if String.eqb s "" then d else s
  | None => d
  end.

(** [x < y] on numbers. *)
Definition Qltb (x y : Q) : bool := negb (Qle_bool y x).

(** [o || 0] on an optional number: [undefined] and [0] give [0]. *)
Definition js_or_zero (o : option Q) : Q :=
  match o with Some q => q | None => 0 end.

(** ** Lemmas on strings *)

Lemma length_append (s t : string) : String.length (String.append s t) = (String.length s + String.length t)%nat.
Proof. induction s as [|c s IH]; simpl; [done | by rewrite IH]. Qed.

Lemma append_empty_r (s : string) : String.append s "" = s.
Proof.
  induction s as [|c s IH]; [reflexivity |].
  change (String.append (String c s) "") with (String c (String.append s "")). by rewrite IH.
Qed.

(** ** Lemmas on the monad *)

Create HintDb dine.
Create Rewrite HintDb dine_rw.

Section MonadLemmas.
Context {S : Type}.

Lemma bind_ok {A B} (m : handler S A) (k : A -> handler S B) s a s' :
  m s = (Ok a, s') -> bind m k s = k a s'.
Proof. intros H. unfold bind. by rewrite H. Qed.

Lemma bind_err {A B} (m : handler S A) (k : A -> handler S B) s e s' :
  m s = (Err e, s') -> bind m k s = (Err e, s').
Proof. intros H. unfold bind. by rewrite H. Qed.

Lemma bind_ret {A B} (a : A) (k : A -> handler S B) s : bind (ret a) k s = k a s.
Proof. reflexivity. Qed.

Lemma bind_assoc {A B C} (m : handler S A) (k : A -> handler S B)
  (h : B -> handler S C) s :
  bind (bind m k) h s = bind m (fun a => bind (k a) h) s.
Proof. unfold bind. destruct (m s) as [[a|e] s']; reflexivity. Qed.

Lemma guard_true code msg s : guard (S:=S) true code msg s = (Ok tt, s).
Proof. reflexivity. Qed.

Lemma guard_false code msg s :
  guard (S:=S) false code msg s = (Err (HttpError code msg), s).
Proof. reflexivity. Qed.

Lemma preserves_ret {A} (P : S -> Prop) (a : A) : preserves P (ret a).
Proof. by intros s. Qed.

Lemma preserves_fail {A} (P : S -> Prop) code msg : preserves P (fail (A:=A) code msg).
Proof. by intros s. Qed.

Lemma preserves_guard (P : S -> Prop) b code msg : preserves P (guard b code msg).
Proof. destruct b; by intros s. Qed.

Lemma preserves_found {A} (P : S -> Prop) (o : option A) code msg :
  preserves P (found o code msg).
Proof. destruct o; by intros s. Qed.

Lemma preserves_from_result {A} (P : S -> Prop) (r : result A) : preserves P (from_result r).
Proof. by intros s. Qed.

Lemma preserves_get (P : S -> Prop) : preserves P get_state.
Proof. by intros s. Qed.

Lemma preserves_put (P : S -> Prop) s' : P s' -> preserves P (put_state s').
Proof. by intros ? s. Qed.

Lemma preserves_modify (P : S -> Prop) f :
  (forall s, P s -> P (f s)) -> preserves P (modify f).
Proof. intros Hf s. apply Hf. Qed.

Lemma preserves_bind {A B} (P : S -> Prop) (m : handler S A) (k : A -> handler S B) :
  preserves P m -> (forall a, preserves P (k a)) -> preserves P (bind m k).
Proof.
  intros Hm Hk s Hs. unfold bind.
  specialize (Hm s Hs). destruct (m s) as [[a|e] s']; simpl in *; [by apply Hk | done].
Qed.

(** The state a handler leaves, when the handler reads the state first. *)
Lemma preserves_read {A} (P : S -> Prop) (k : S -> handler S A) :
  (forall s0, preserves P (k s0)) -> preserves P (bind get_state k).
Proof. intros Hk. apply preserves_bind; [apply preserves_get | exact Hk]. Qed.

End MonadLemmas.

#[export] Hint Resolve preserves_ret preserves_fail preserves_guard preserves_found preserves_from_result
  preserves_get preserves_put preserves_modify : dine.

(** [preserves_tac] decomposes a handler built with bind and closes the
    leaves with the hint database. *)
Ltac preserves_tac :=
  repeat match goal with
    | |- preserves _ (bind _ _) => apply preserves_bind; [|intros ?]
    | |- preserves _ (match ?x with _ => _ end) => destruct x
    | |- preserves _ (if ?b then _ else _) => destruct b
    end;
  eauto with dine.

(** [hrun H] executes the handler applied in hypothesis [H] (a run
    [m s = (r, s')]): it unfolds the monad and splits on every test the
    handler makes, leaving one goal per path with the path's conditions as
    hypotheses. *)
Ltac hrun_split H :=
  match type of H with
  | context [if ?b then _ else _] => destruct b eqn:?
  | context [match ?x with Some _ => _ | None => _ end] => destruct x eqn:?
  | context [match ?x with Ok _ => _ | Err _ => _ end] => destruct x eqn:?
  | context [match ?x with (_, _) => _ end] => destruct x eqn:?
  | context [match ?x with [] => _ | _ :: _ => _ end] => destruct x eqn:?
  end.

Ltac hrun H :=
  unfold bind, ret, fail, guard, found, from_result, get_state, put_state, modify in H;
  simpl in H;
  repeat (hrun_split H; simpl in H; try discriminate H).

(** ** Lemmas on rounding and sums *)

Lemma js_round_spec (x : Q) :
  inject_Z (js_round x) <= x + (1 # 2) < inject_Z (js_round x) + 1.
Proof.
  unfold js_round. split; [apply Qfloor_le |].
  pose proof (Qlt_floor (x + (1 # 2))) as H.
  rewrite inject_Z_plus in H. exact H.
Qed.

#[export] Instance js_round_proper : Proper (Qeq ==> eq) js_round.
Proof. intros x y H. unfold js_round. apply Qfloor_comp. by rewrite H. Qed.

Lemma js_round_le_mono (x y : Q) : x <= y -> (js_round x <= js_round y)%Z.
Proof. intros H. unfold js_round. apply Qfloor_resp_le. lra. Qed.

Lemma js_round_inject (z : Z) : js_round (inject_Z z) = z.
Proof.
  pose proof (js_round_spec (inject_Z z)) as [H1 H2].
  assert (inject_Z (js_round (inject_Z z)) < inject_Z (z + 1)) as H3
    by (rewrite inject_Z_plus; change (inject_Z 1) with (1 # 1); lra).
  assert (inject_Z z < inject_Z (js_round (inject_Z z) + 1)) as H4
    by (rewrite inject_Z_plus; change (inject_Z 1) with (1 # 1); lra).
  rewrite <- Zlt_Qlt in H3, H4. lia.
Qed.

(** Rounding an amount between two integers stays between them. *)
Lemma js_round_between (lo hi : Z) (x : Q) :
  inject_Z lo <= x -> x <= inject_Z hi -> (lo <= js_round x <= hi)%Z.
Proof.
  intros Hlo Hhi. rewrite <- (js_round_inject lo), <- (js_round_inject hi).
  split; by apply js_round_le_mono.
Qed.

Lemma js_round_nonneg (x : Q) : 0 <= x -> (0 <= js_round x)%Z.
Proof.
  intros H. rewrite <- (js_round_inject 0). by apply js_round_le_mono.
Qed.

Lemma fold_left_Qplus_shift (l : list Q) (a : Q) :
  fold_left Qplus l a == a + fold_left Qplus l 0.
Proof.
  revert a. induction l as [|x l IH]; intros a; simpl; [ring |].
  rewrite (IH (a + x)), (IH (0 + x)). ring.
Qed.

Lemma Qsum_left_cons (x : Q) (l : list Q) : Qsum_left (x :: l) == x + Qsum_left l.
Proof. unfold Qsum_left. simpl. rewrite fold_left_Qplus_shift. ring. Qed.

Lemma Qsum_left_perm (l1 l2 : list Q) : l1 ≡ₚ l2 -> Qsum_left l1 == Qsum_left l2.
Proof.
  induction 1 as [|x l1 l2 _ IH|x y l|l1 l2 l3 _ IH1 _ IH2].
  - reflexivity.
  - rewrite !Qsum_left_cons, IH. reflexivity.
  - rewrite !Qsum_left_cons. ring.
  - by rewrite IH1, IH2.
Qed.

Lemma Qsum_left_app (l1 l2 : list Q) :
  Qsum_left (l1 ++ l2) == Qsum_left l1 + Qsum_left l2.
Proof.
  induction l1 as [|x l1 IH]; simpl.
  - unfold Qsum_left at 2. simpl. ring.
  - rewrite !Qsum_left_cons, IH. ring.
Qed.

Lemma Qsum_left_nonneg (l : list Q) : Forall (Qle 0) l -> 0 <= Qsum_left l.
Proof.
  induction 1 as [|x l Hx _ IH]; [apply Qle_refl |].
  rewrite Qsum_left_cons. lra.
Qed.

Lemma Qltb_true (x y : Q) : Qltb x y = true <-> x < y.
Proof.
  unfold Qltb. rewrite negb_true_iff. split.
  - intros H. apply Qnot_le_lt. intros Hle. apply Qle_bool_iff in Hle. congruence.
  - intros H. destruct (Qle_bool y x) eqn:E; [|done].
    apply Qle_bool_iff in E. lra.
Qed.

Lemma Qltb_false (x y : Q) : Qltb x y = false <-> y <= x.
Proof.
  unfold Qltb. rewrite negb_false_iff. apply Qle_bool_iff.
Qed.

(** The [a || b || c] access tests of the handlers, on decided propositions. *)
Lemma bool_decide_or3 (P1 P2 P3 : Prop) `{Decision P1} `{Decision P2} `{Decision P3} :
  bool_decide P1 || bool_decide P2 || bool_decide P3 = true <-> P1 \/ P2 \/ P3.
Proof.
  rewrite !orb_true_iff, !bool_decide_eq_true. tauto.
Qed.

Lemma js_or_str_none d : js_or_str None d = d.
Proof. reflexivity. Qed.

#[export] Hint Rewrite Qsum_left_cons Qsum_left_app : dine_rw.
#[export] Hint Resolve Qsum_left_nonneg js_round_nonneg : dine.

Lemma Qsum_left_bounds (lo hi : Q) (l : list Q) :
  Forall (fun x => lo <= x <= hi) l ->
  lo * inject_Z (Z.of_nat (length l)) <= Qsum_left l <= hi * inject_Z (Z.of_nat (length l)).
Proof.
  induction 1 as [|x l Hx _ IH].
  - unfold Qsum_left. cbn [length Z.of_nat fold_left]. change (inject_Z 0) with 0.
    rewrite !Qmult_0_r. lra.
  - rewrite Qsum_left_cons. cbn [length]. rewrite Nat2Z.inj_succ, <- Z.add_1_r, inject_Z_plus.
    change (inject_Z 1) with (1 # 1).
    set (n := inject_Z (Z.of_nat (length l))) in *.
    assert (lo * (n + 1) == lo * n + lo) as -> by ring.
    assert (hi * (n + 1) == hi * n + hi) as -> by ring.
    lra.
Qed.

(** The mean of a non-empty list of values between [lo] and [hi]. *)
Lemma Qmean_bounds (lo hi : Q) (l : list Q) :
  l <> [] -> Forall (fun x => lo <= x <= hi) l ->
  lo <= Qsum_left l / inject_Z (Z.of_nat (length l)) <= hi.
Proof.
  intros Hne Hb. pose proof (Qsum_left_bounds lo hi l Hb) as [H1 H2].
  assert (0 < inject_Z (Z.of_nat (length l))) as Hpos.
  { destruct l as [|y l]; [done|]. cbn [length].
    change (inject_Z 0 < inject_Z (Z.of_nat (S (length l)))). rewrite <- Zlt_Qlt. lia. }
  split; [apply Qle_shift_div_l | apply Qle_shift_div_r]; lra.
Qed.

(** [Math.round(x * 10) / 10] keeps a value between two integers between them. *)
Lemma round_tenth_bounds (lo hi : Z) (x : Q) :
  inject_Z lo <= x <= inject_Z hi ->
  inject_Z lo <= inject_Z (js_round (x * 10)) / 10 <= inject_Z hi.
Proof.
  intros [Hlo Hhi].
  destruct (js_round_between (lo * 10) (hi * 10) (x * 10)) as [R1 R2];
    [rewrite inject_Z_mult; change (inject_Z 10) with (10 # 1); lra
    |rewrite inject_Z_mult; change (inject_Z 10) with (10 # 1); lra|].
  rewrite Zle_Qle in R1, R2. rewrite inject_Z_mult in R1, R2.
  change (inject_Z 10) with (10 # 1) in R1, R2.
  split; [apply Qle_shift_div_l | apply Qle_shift_div_r]; lra.
Qed.

(** ** Integer sums *)

Definition Zsum (l : list Z) : Z := foldr Z.add 0%Z l.

Lemma Zsum_app (l1 l2 : list Z) : Zsum (l1 ++ l2) = (Zsum l1 + Zsum l2)%Z.
Proof. induction l1 as [|x l1 IH]; simpl; [done | unfold Zsum in *; simpl; lia]. Qed.

Lemma Zsum_map_insert {A} (f : A -> Z) (l : list A) (i : nat) (x y : A) :
  l !! i = Some y -> Zsum (map f (<[i := x]> l)) = (Zsum (map f l) - f y + f x)%Z.
Proof.
  revert i. induction l as [|z l IH]; intros [|i] Hi; simpl in *; try done.
  - injection Hi as ->. unfold Zsum. simpl. lia.
  - unfold Zsum in *. simpl. rewrite (IH i Hi). lia.
Qed.

Lemma Qsum_left_map_ext {A} (f g : A -> Q) (l : list A) :
  (forall x, x ∈ l -> f x == g x) -> Qsum_left (map f l) == Qsum_left (map g l).
Proof.
  induction l as [|x l IH]; intros Hfg; [reflexivity |]. cbn [map].
  rewrite !Qsum_left_cons, (Hfg x) by (left). rewrite IH; [reflexivity |].
  intros y Hy. apply Hfg. by right.
Qed.

(** A filter that keeps the length of a list keeps every element. *)
Lemma filter_length_eq {A} (P : A -> Prop) `{forall x, Decision (P x)} (l : list A) :
  length (filter P l) = length l -> Forall P l.
Proof.
  intros Hlen. apply Forall_forall. intros x Hx.
  destruct (decide (P x)) as [Hp|Hp]; [done |].
  pose proof (length_filter_lt P l x Hx Hp). lia.
Qed.

Lemma filter_all {A} (P : A -> Prop) `{forall x, Decision (P x)} (l : list A) :
  Forall P l -> filter P l = l.
Proof.
  induction 1 as [|x l Hx _ IH]; [done |]. rewrite filter_cons_True by done. by rewrite IH.
Qed.
