(* ===== verification/Model.v ===== *)
(** * Model: the documents of the MongoDB store and the store itself

    One record per Mongoose schema of [src/backend/models/] (User,
    Restaurant, MenuItem, Cart, Order), restricted to the paths that the
    route handlers read or write, and one inductive type per string enum of
    the schemas.  The store [DB] holds one [gmap] per collection, keyed by
    ObjectId; ObjectIds are modelled as [N], and the ids MongoDB would
    generate come from the counter [db_next_id]. *)

From S2P Require Import Prelude.

Open Scope Q_scope.

Abbreviation ObjectId := N.

#[export] Instance Q_eq_dec : EqDecision Q.
Proof. solve_decision. Defined.

(** ** Users (models/User.js) *)

Inductive Role := role_customer | role_restaurant | role_admin.

Record User := mkUser {
  u_name : string;
  u_email : string;
  u_password : string;
  u_phone : string;
  u_role : Role;
  u_isActive : bool;
  u_lastLogin : option Z;
  u_avatar : string;
  u_createdAt : Z
}.

(** ** Restaurants (models/Restaurant.js) *)

Inductive RestaurantStatus := rs_pending | rs_approved | rs_rejected | rs_suspended.

Record Restaurant := mkRestaurant {
  r_name : string;
  r_owner : ObjectId;
  r_deliveryFee : Q;
  r_minimumOrder : Q;
  r_rating_average : Q;
  r_rating_count : Z;
  r_status : RestaurantStatus;
  r_isActive : bool;
  r_totalOrders : Z;
  r_totalRevenue : Q;
  r_cuisine : list string;
  r_createdAt : Z;
  r_estimatedDeliveryTime : string
}.

(** ** Menu items (models/MenuItem.js) *)

Record MenuItem := mkMenuItem {
  mi_restaurant : ObjectId;
  mi_name : string;
  mi_price : Q;
  mi_isAvailable : bool;
  mi_category : string
}.

(** ** Customizations

    A customization selected by the client, as the request body carries it
    ([{name, selectedOptions: [{name, price}]}], every field optional), and
    the same customization once stored in a cart: Mongoose gives each array
    subdocument an [_id] and fills the [price] default [0]. *)

Record ReqOption := mkReqOption { ro_name : option string; ro_price : option Q }.
Record ReqCustomization := mkReqCustomization {
  rc_name : option string;
  rc_selectedOptions : list ReqOption
}.

Record StoredOption := mkStoredOption { so_id : ObjectId; so_name : option string; so_price : Q }.
Record StoredCustomization := mkStoredCustomization {
  sc_id : ObjectId;
  sc_name : option string;
  sc_selectedOptions : list StoredOption
}.

(** ** Carts (models/Cart.js) *)

Record CartEntry := mkCartEntry {
  ce_id : ObjectId;
  ce_menuItem : ObjectId;
  ce_quantity : Z;
  ce_customizations : list StoredCustomization;
  ce_specialInstructions : string
}.

Record Cart := mkCart {
  cart_id : ObjectId;
  cart_user : ObjectId;
  cart_restaurant : option ObjectId;
  cart_items : list CartEntry;
  cart_subtotal : Q;
  cart_itemCount : Z;
  cart_lastUpdated : Z
}.

(** ** Orders (models/Order.js) *)

Inductive OrderStatus :=
| os_pending | os_confirmed | os_preparing | os_ready | os_picked_up
| os_out_for_delivery | os_delivered | os_cancelled | os_refunded.

Inductive OrderType := ot_delivery | ot_pickup.

Inductive PaymentMethod := pm_cash | pm_card | pm_digital_wallet | pm_online_payment.

Inductive PaymentStatus := pay_pending | pay_completed | pay_failed | pay_refunded.

Record Address := mkAddress { a_street : string; a_city : string; a_state : string; a_zipCode : string }.

Record OrderItem := mkOrderItem {
  oi_menuItem : ObjectId;
  oi_name : string;
  oi_price : Q;
  oi_quantity : Z;
  oi_customizations : list ReqCustomization;
  oi_itemTotal : Q;
  oi_specialInstructions : option string
}.

Record Pricing := mkPricing {
  pr_subtotal : Q;
  pr_deliveryFee : Q;
  pr_serviceFee : Q;
  pr_tax : Q;
  pr_discount : Q;
  pr_total : Q
}.

Record Rating := mkRating {
  rt_food : Z;
  rt_delivery : Z;
  rt_overall : Z;
  rt_comment : string;
  rt_ratedAt : Z
}.

Record TimelineEntry := mkTimelineEntry { tl_status : OrderStatus; tl_timestamp : Z; tl_note : string }.

(** [`ORD${Date.now()}${String(count + 1).padStart(4, "0")}`]: the two
    numbers the string is built from. *)
Record OrderNumber := mkOrderNumber { on_timestamp : Z; on_seq : Z }.

Record Order := mkOrder {
  o_orderNumber : option OrderNumber;
  o_customer : ObjectId;
  o_restaurant : ObjectId;
  o_items : list OrderItem;
  o_pricing : Pricing;
  o_deliveryAddress : Address;
  o_phone : string;
  o_email : string;
  o_paymentMethod : PaymentMethod;
  o_paymentStatus : PaymentStatus;
  o_status : OrderStatus;
  o_orderType : OrderType;
  o_estimatedDeliveryTime : Z;
  o_actualDeliveryTime : option Z;
  o_specialInstructions : option string;
  o_cancellationReason : option string;
  o_rating : option Rating;
  o_timeline : list TimelineEntry;
  (** [timestamps: true] *)
  o_createdAt : Z
}.

(** ** Format checks

    The checks of the [validator] library the routes use ([isEmail],
    [isMobilePhone], [isURL], and the [normalizeEmail] sanitizer); the theorems hold
    for any implementation of them. *)
Class FormatValidators := {
  isMobilePhone : string -> bool;
  isEmail : string -> bool;
  normalizeEmail : string -> string;
  isURL : string -> bool
}.

(** [body(f).notEmpty()] on a string field. *)
Definition notEmpty (s : string) : bool := negb (String.eqb s "").

(** ** Decidable equality *)

#[export] Instance Role_eq_dec : EqDecision Role. Proof. solve_decision. Defined.
#[export] Instance RestaurantStatus_eq_dec : EqDecision RestaurantStatus. Proof. solve_decision. Defined.
#[export] Instance OrderStatus_eq_dec : EqDecision OrderStatus. Proof. solve_decision. Defined.
#[export] Instance OrderType_eq_dec : EqDecision OrderType. Proof. solve_decision. Defined.
#[export] Instance PaymentMethod_eq_dec : EqDecision PaymentMethod. Proof. solve_decision. Defined.
#[export] Instance ReqOption_eq_dec : EqDecision ReqOption. Proof. solve_decision. Defined.
#[export] Instance ReqCustomization_eq_dec : EqDecision ReqCustomization. Proof. solve_decision. Defined.
#[export] Instance StoredOption_eq_dec : EqDecision StoredOption. Proof. solve_decision. Defined.
#[export] Instance StoredCustomization_eq_dec : EqDecision StoredCustomization. Proof. solve_decision. Defined.
#[export] Instance CartEntry_eq_dec : EqDecision CartEntry. Proof. solve_decision. Defined.

(** ** The store *)

Record DB := mkDB {
  db_users : gmap ObjectId User;
  db_restaurants : gmap ObjectId Restaurant;
  db_menu : gmap ObjectId MenuItem;
  (** [Cart.user] is [unique: true]: at most one cart per user, so the
      collection is keyed by the owning user's id. *)
  db_carts : gmap ObjectId Cart;
  db_orders : gmap ObjectId Order;
  db_next_id : ObjectId
}.

Definition set_users (db : DB) (m : gmap ObjectId User) : DB :=
  mkDB m (db_restaurants db) (db_menu db) (db_carts db) (db_orders db) (db_next_id db).
Definition set_restaurants (db : DB) (m : gmap ObjectId Restaurant) : DB :=
  mkDB (db_users db) m (db_menu db) (db_carts db) (db_orders db) (db_next_id db).
Definition set_menu (db : DB) (m : gmap ObjectId MenuItem) : DB :=
  mkDB (db_users db) (db_restaurants db) m (db_carts db) (db_orders db) (db_next_id db).
Definition set_carts (db : DB) (m : gmap ObjectId Cart) : DB :=
  mkDB (db_users db) (db_restaurants db) (db_menu db) m (db_orders db) (db_next_id db).
Definition set_orders (db : DB) (m : gmap ObjectId Order) : DB :=
  mkDB (db_users db) (db_restaurants db) (db_menu db) (db_carts db) m (db_next_id db).

(** A new ObjectId (for a new document or array subdocument). *)
Definition fresh_id : handler DB ObjectId :=
  fun db => (Ok (db_next_id db),
             mkDB (db_users db) (db_restaurants db) (db_menu db) (db_carts db)
                  (db_orders db) (N.succ (db_next_id db))).

(** Every id in use is below the counter, so [fresh_id] never returns an
    id in use. *)
Definition ids_below (db : DB) : Prop :=
  (forall k, is_Some (db_users db !! k) -> (k < db_next_id db)%N) /\
  (forall k, is_Some (db_restaurants db !! k) -> (k < db_next_id db)%N) /\
  (forall k, is_Some (db_menu db !! k) -> (k < db_next_id db)%N) /\
  (forall k, is_Some (db_orders db !! k) -> (k < db_next_id db)%N).

Lemma fresh_id_run db :
  fresh_id db = (Ok (db_next_id db),
                 mkDB (db_users db) (db_restaurants db) (db_menu db) (db_carts db)
                      (db_orders db) (N.succ (db_next_id db))).
Proof. reflexivity. Qed.
