(* ===== verification/Query.v ===== *)
(** * Query: [find], [sort], [skip]/[limit] and the pagination block

    The list routes (GET /api/orders, GET /api/orders/restaurant/:id,
    GET /api/restaurants, GET /api/admin/users, GET /api/admin/orders,
    GET /api/admin/restaurants/pending) all run

      [Model.find(query).sort(...).limit(limit).skip((page - 1) * limit)]

    followed by [Model.countDocuments(query)] and answer the page with
    [{current: page, pages: Math.ceil(total / limit), total, limit}].
    [find_docs] is the filter of a collection by the query's predicate,
    [newest_first] the [sort({createdAt: -1})] (a stable merge sort),
    [paginate] the skip/limit slice and [pagination] the block.  The
    theorems show that the pages a client walks through, from 1 to
    [pages], return every match exactly once and in order. *)

From stdpp Require Import sorting numbers.
From S2P Require Import Prelude Model.

Open Scope Z_scope.

(** [Model.find(query)]: the matching documents with their ids. *)
Definition find_docs {A} (m : gmap ObjectId A) (p : A -> bool) : list (ObjectId * A) :=
  filter (fun kv => p kv.2 = true) (map_to_list m).

(** [x] was created no earlier than [y]. *)
Definition newer {A} (created : A -> Z) (x y : ObjectId * A) : Prop := created y.2 <= created x.2.

#[export] Instance newer_dec {A} (created : A -> Z) : RelDecision (newer created).
Proof. intros x y. unfold newer. apply _. Defined.

(** [.sort({createdAt: -1})] *)
Definition newest_first {A} (created : A -> Z) (l : list (ObjectId * A)) : list (ObjectId * A) :=
  merge_sort (newer created) l.

(** [.sort({key: 1})] for a key compared by [le]; [.sort({key: -1})] is
    the same with the arguments of [le] swapped. *)
Definition doc_le {A} (le : A -> A -> bool) (x y : ObjectId * A) : Prop := le x.2 y.2 = true.

#[export] Instance doc_le_dec {A} (le : A -> A -> bool) : RelDecision (doc_le le).
Proof. intros x y. unfold doc_le. apply _. Defined.

Definition sort_docs {A} (le : A -> A -> bool) (l : list (ObjectId * A)) : list (ObjectId * A) :=
  merge_sort (doc_le le) l.

(** [.limit(limit).skip((page - 1) * limit)]: MongoDB applies the skip
    before the limit whatever the order of the calls. *)
Definition paginate {A} (page limit : Z) (l : list A) : list A :=
  take (Z.to_nat limit) (drop (Z.to_nat ((page - 1) * limit)) l).

Record Pagination := mkPagination {
  pg_current : Z;
  pg_pages : Z;
  pg_total : Z;
  pg_limit : Z
}.

(** [{current: page, pages: Math.ceil(total / limit), total, limit}] *)
Definition pagination (page limit total : Z) : Pagination :=
  mkPagination page (Qceiling (inject_Z total / inject_Z limit)) total limit.

(** A list route's answer: the page of the sorted matches, and the
    pagination block counting all matches. *)
Definition list_page {A} (page limit : Z) (l : list A) : list A * Pagination :=
  (paginate page limit l, pagination page limit (Z.of_nat (length l))).

(** The page numbers [1 .. n]. *)
Definition page_numbers (n : Z) : list Z := map (fun i => Z.of_nat i + 1) (seq 0 (Z.to_nat n)).

(** ** Lemmas *)

Lemma newest_first_perm {A} (created : A -> Z) l : newest_first created l ≡ₚ l.
Proof. apply merge_sort_Permutation. Qed.

Lemma newest_first_sorted {A} (created : A -> Z) l :
  Sorted (newer created) (newest_first created l).
Proof. apply Sorted_merge_sort. intros x y. unfold newer. lia. Qed.

Lemma sort_docs_perm {A} (le : A -> A -> bool) l : sort_docs le l ≡ₚ l.
Proof. apply merge_sort_Permutation. Qed.

Lemma elem_of_find_docs {A} (m : gmap ObjectId A) p k x :
  (k, x) ∈ find_docs m p <-> m !! k = Some x /\ p x = true.
Proof. unfold find_docs. rewrite list_elem_of_filter, elem_of_map_to_list. simpl. tauto. Qed.

(** The only match of a query that one document alone matches. *)
Lemma find_docs_unique {A} (m : gmap ObjectId A) (p : A -> bool) k x :
  (forall k' y, m !! k' = Some y -> p y = true -> k' = k) -> m !! k = Some x -> p x = true ->
  find_docs m p = [(k, x)].
Proof.
  intros Honly Hk Hx.
  assert (Hperm : find_docs m p ≡ₚ [(k, x)]).
  { apply NoDup_Permutation.
    - apply NoDup_filter, NoDup_map_to_list.
    - apply NoDup_singleton.
    - intros [k' y]. rewrite elem_of_find_docs, list_elem_of_singleton. split.
      + intros [Hl Hp]. pose proof (Honly _ _ Hl Hp) as ->. rewrite Hk in Hl. by injection Hl as ->.
      + intros [= -> ->]. done. }
  by apply Permutation_singleton_r in Hperm.
Qed.

(** The only match after inserting the only matching document. *)
Lemma find_docs_insert_only {A} (m : gmap ObjectId A) (p : A -> bool) k x :
  (forall k' y, m !! k' = Some y -> p y = false) -> p x = true ->
  find_docs (<[k := x]> m) p = [(k, x)].
Proof.
  intros Hnone Hx. apply find_docs_unique; [| apply lookup_insert_eq | done].
  intros k' y Hl Hp. apply lookup_insert_Some in Hl as [[-> _] | [_ Hl]]; [done |].
  rewrite (Hnone _ _ Hl) in Hp. discriminate.
Qed.

Lemma pages_ceiling total limit :
  0 < limit ->
  (Qceiling (inject_Z total / inject_Z limit) - 1) * limit < total <=
  Qceiling (inject_Z total / inject_Z limit) * limit.
Proof.
  intros Hl. set (x := (inject_Z total / inject_Z limit)%Q).
  pose proof (Qle_ceiling x) as H1. pose proof (Qceiling_lt x) as H2.
  assert (Hx : (x * inject_Z limit == inject_Z total)%Q).
  { unfold x. field. intros E. unfold Qeq in E. simpl in E. lia. }
  assert (Hpos : (0 < inject_Z limit)%Q).
  { change 0%Q with (inject_Z 0). rewrite <- Zlt_Qlt. exact Hl. }
  set (c := Qceiling x) in *. split.
  - rewrite Zlt_Qlt, inject_Z_mult, <- Hx. apply (proj2 (Qmult_lt_r _ _ _ Hpos)).
    exact H2.
  - rewrite Zle_Qle, inject_Z_mult, <- Hx. apply (proj2 (Qmult_le_r _ _ _ Hpos)). exact H1.
Qed.

Lemma paginate_nat {A} (i : nat) (limit : Z) (l : list A) :
  0 < limit ->
  paginate (Z.of_nat i + 1) limit l = take (Z.to_nat limit) (drop (i * Z.to_nat limit) l).
Proof.
  intros Hl. unfold paginate. f_equal. f_equal.
  replace ((Z.of_nat i + 1 - 1) * limit) with (Z.of_nat i * limit) by lia.
  rewrite Z2Nat.inj_mul, Nat2Z.id by lia. reflexivity.
Qed.

Lemma concat_pages {A} (k n : nat) (l : list A) :
  concat (map (fun i => take k (drop (i * k) l)) (seq 0 n)) = take (n * k) l.
Proof.
  induction n as [|n IH]; [done |].
  rewrite seq_S, map_app, concat_app, IH. simpl. rewrite app_nil_r.
  rewrite take_take_drop. f_equal. lia.
Qed.

(** ** Properties of the pagination *)

(** Walking through the pages [1 .. pages] that the pagination block
    announces returns every match exactly once, in the sorted order. *)
Theorem pages_enumerate {A} (limit : Z) (l : list A) :
  0 < limit ->
  concat (map (fun p => paginate p limit l)
                (page_numbers (pg_pages (pagination 1 limit (Z.of_nat (length l)))))) = l.
Proof.
  intros Hl. unfold page_numbers, pagination. simpl.
  set (n := Qceiling _). rewrite map_map.
  rewrite (map_ext _ (fun i => take (Z.to_nat limit) (drop (i * Z.to_nat limit) l)))
    by (intros i; by apply paginate_nat).
  rewrite concat_pages. apply take_ge.
  destruct (pages_ceiling (Z.of_nat (length l)) limit Hl) as [_ H2]. fold n in H2.
  assert (0 <= n).
  { destruct (Z.le_gt_cases 0 n) as [|Hn]; [done |]. nia. }
  rewrite <- (Z2Nat.id n) in H2 by lia. nia.
Qed.

(** A page holds at most [limit] documents, all of them matches, in the
    order of the sorted matches. *)
Theorem paginate_sublist {A} (page limit : Z) (l : list A) :
  (length (paginate page limit l) <= Z.to_nat limit)%nat /\ sublist (paginate page limit l) l.
Proof.
  unfold paginate. rewrite length_take. split; [lia |].
  etrans; [apply sublist_take | apply sublist_drop].
Qed.
