(* ===== verification/Pricing.v ===== *)
(** * Pricing: line prices, fees, tax and order totals

    The price arithmetic of the backend: the customization loop that both
    [GET /api/cart] (routes/cart.js) and [POST /api/orders]
    (routes/orders.js) run over a line's selected options, the line total
    [itemPrice * quantity], and the fee, tax and total computation of order
    creation.  The loop is written once, generically over the class
    [OptionPrices] of customization representations: the request body's
    [ReqCustomization] (prices may be missing, read as [option.price || 0])
    and the cart's [StoredCustomization] (prices filled with the schema
    default [0]). *)

From S2P Require Import Prelude Model.

Open Scope Q_scope.

(** ** The customization loop *)

(** What the loop reads of one customization: the [option.price || 0] of
    each of its [selectedOptions], in order. *)
Class OptionPrices (C : Type) := option_prices : C -> list Q.

#[export] Instance ReqCustomization_prices : OptionPrices ReqCustomization :=
  fun c => map (fun o => js_or_zero (ro_price o)) (rc_selectedOptions c).

#[export] Instance StoredCustomization_prices : OptionPrices StoredCustomization :=
  fun c => map (fun o => js_or_zero (Some (so_price o))) (sc_selectedOptions c).

(** [let itemPrice = base;
     for (const customization of customizations)
       for (const option of customization.selectedOptions)
         itemPrice += option.price || 0] *)
Definition customization_loop {C} `{OptionPrices C} (base : Q) (cs : list C) : Q :=
  fold_left (fun acc c => fold_left Qplus (option_prices c) acc) cs base.

(** [if (item.customizations) { ...loop... }]: an absent list adds nothing. *)
Definition item_price {C} `{OptionPrices C} (base : Q) (cs : option (list C)) : Q :=
  match cs with
  | Some l => customization_loop base l
  | None => base
  end.

(** [const itemTotal = itemPrice * item.quantity] *)
Definition item_total (price : Q) (quantity : Z) : Q := price * inject_Z quantity.

(** ** Fees, tax, total (routes/orders.js, "Calculate pricing") *)

Definition delivery_fee (ot : OrderType) (r : Restaurant) : Q :=
  match ot with ot_delivery => r_deliveryFee r | ot_pickup => 0 end.

(** [Math.round(subtotal * 0.05)] *)
Definition service_fee (subtotal : Q) : Q := inject_Z (js_round (subtotal * (5 # 100))).

(** [Math.round(subtotal * 0.08)] *)
Definition tax (subtotal : Q) : Q := inject_Z (js_round (subtotal * (8 # 100))).

Definition order_pricing (ot : OrderType) (r : Restaurant) (subtotal : Q) : Pricing :=
  let deliveryFee := delivery_fee ot r in
  let serviceFee := service_fee subtotal in
  let t := tax subtotal in
  mkPricing subtotal deliveryFee serviceFee t 0 (subtotal + deliveryFee + serviceFee + t).

(** ** Stored customizations

    [cart.items.push({..., customizations: customizations || []})]: Mongoose
    casts each request customization into a subdocument with a fresh [_id]
    and each option price to its default [0] when missing.  [store_options]
    numbers the subdocuments from [next]. *)
Fixpoint store_options (next : ObjectId) (os : list ReqOption) : list StoredOption :=
  match os with
  | [] => []
  | o :: rest => mkStoredOption next (ro_name o) (js_or_zero (ro_price o)) :: store_options (N.succ next) rest
  end.

Fixpoint store_customizations (next : ObjectId) (cs : list ReqCustomization)
  : list StoredCustomization :=
  match cs with
  | [] => []
  | c :: rest =>
      let os := rc_selectedOptions c in
      mkStoredCustomization next (rc_name c) (store_options (N.succ next) os)
        :: store_customizations (next + 1 + N.of_nat (length os))%N rest
  end.

(** Read back a stored customization as the request form that produced it. *)
Definition unstore_customization (c : StoredCustomization) : ReqCustomization :=
  mkReqCustomization (sc_name c)
    (map (fun o => mkReqOption (so_name o) (Some (so_price o))) (sc_selectedOptions c)).

(** ** Lemmas *)

Lemma fold_left_Qplus_compat (l : list Q) (a b : Q) :
  a == b -> fold_left Qplus l a == fold_left Qplus l b.
Proof.
  intros H. rewrite (fold_left_Qplus_shift l a), (fold_left_Qplus_shift l b), H. reflexivity.
Qed.

Lemma customization_loop_shift {C} `{OptionPrices C} (cs : list C) (a : Q) :
  customization_loop a cs == a + customization_loop 0 cs.
Proof.
  unfold customization_loop. revert a.
  induction cs as [|c cs IH]; intros a; simpl; [ring |].
  rewrite (IH (fold_left Qplus (option_prices c) a)), (IH (fold_left Qplus (option_prices c) 0)).
  rewrite (fold_left_Qplus_shift _ a). ring.
Qed.

Lemma customization_loop_cons {C} `{OptionPrices C} (a : Q) (c : C) (cs : list C) :
  customization_loop a (c :: cs) == a + Qsum_left (option_prices c) + customization_loop 0 cs.
Proof.
  unfold customization_loop at 1. simpl. fold (customization_loop (fold_left Qplus (option_prices c) a) cs).
  rewrite customization_loop_shift, fold_left_Qplus_shift. reflexivity.
Qed.

Lemma js_or_zero_some (q : Q) : js_or_zero (Some q) = q.
Proof. reflexivity. Qed.

Lemma unstore_prices (c : StoredCustomization) :
  option_prices (unstore_customization c) = option_prices c.
Proof.
  unfold option_prices, ReqCustomization_prices, StoredCustomization_prices, unstore_customization.
  simpl. rewrite map_map. reflexivity.
Qed.

Lemma store_options_prices next (os : list ReqOption) :
  map (fun o => js_or_zero (Some (so_price o))) (store_options next os) =
  map (fun o => js_or_zero (ro_price o)) os.
Proof. revert next. induction os as [|o os IH]; intros next; simpl; [done | by rewrite IH]. Qed.

Lemma store_customizations_prices next (cs : list ReqCustomization) :
  map option_prices (store_customizations next cs) = map option_prices cs.
Proof.
  revert next. induction cs as [|c cs IH]; intros next; simpl; [done |].
  rewrite IH. f_equal. apply store_options_prices.
Qed.

Lemma customization_loop_map {C D} `{OptionPrices C} `{OptionPrices D}
  (a : Q) (cs : list C) (ds : list D) :
  map option_prices cs = map option_prices ds ->
  customization_loop a cs = customization_loop a ds.
Proof.
  unfold customization_loop. revert a ds.
  induction cs as [|c cs IH]; intros a [|d ds] Hm; simpl in *; try done.
  injection Hm as Hcd Hm. rewrite Hcd. by apply IH.
Qed.

#[export] Hint Rewrite @customization_loop_cons js_or_zero_some : dine_rw.

(** ** Properties of the price arithmetic *)

Lemma customization_loop_sum {C} `{OptionPrices C} (a : Q) (l : list C) :
  customization_loop a l == a + Qsum_left (concat (map option_prices l)).
Proof.
  revert a. induction l as [|c l IH]; intros a.
  - unfold customization_loop, Qsum_left. simpl. ring.
  - rewrite customization_loop_cons, IH. cbn [map concat].
    rewrite Qsum_left_app. ring.
Qed.

(** C3: the effective price of a line is its base price plus the sum of the
    prices of all its selected options ([option.price || 0]); absent
    customizations leave the base price. *)
Theorem item_price_spec {C} `{OptionPrices C} (base : Q) (cs : option (list C)) :
  item_price base cs ==
  base + match cs with Some l => Qsum_left (concat (map option_prices l)) | None => 0 end.
Proof. destruct cs as [l|]; simpl; [apply customization_loop_sum | ring]. Qed.

(** C4: the service fee and the tax are the 5% and 8% of the subtotal
    rounded to the nearest integer: each is an integer within one half of
    the exact percentage, and neither is negative on a non-negative
    subtotal. *)
Theorem fees_rounding_bounds (subtotal : Q) :
  subtotal * (5 # 100) - (1 # 2) < service_fee subtotal <= subtotal * (5 # 100) + (1 # 2) /\
  subtotal * (8 # 100) - (1 # 2) < tax subtotal <= subtotal * (8 # 100) + (1 # 2) /\
  (0 <= subtotal -> 0 <= service_fee subtotal /\ 0 <= tax subtotal).
Proof.
  unfold service_fee, tax.
  pose proof (js_round_spec (subtotal * (5 # 100))) as [A1 A2].
  pose proof (js_round_spec (subtotal * (8 # 100))) as [B1 B2].
  split; [lra|]. split; [lra|].
  intros Hs. rewrite <- (Zle_Qle 0), <- (Zle_Qle 0).
  split; apply js_round_nonneg; lra.
Qed.
