(* ===== verification/Orders.v ===== *)
(** * Orders: creation, status updates, cancellation, rating, read access

    The handlers of [src/backend/routes/orders.js] over the store [DB], each
    taking the authenticated user the [auth] / [restaurantAuth] middleware
    attached to the request (its id and document), the request fields and
    the current time [now] (milliseconds, [new Date()] / [Date.now()]).
    The [pre("save")] hook of [src/backend/models/Order.js] is [order_pre_save].

    Error messages are the code's literal [message] strings; the two
    messages that interpolate a value ([`Item ${id} is not available`],
    [`Minimum order amount is $${min}`]) keep their fixed prefix only. *)

From S2P Require Import Prelude Model Pricing.

Open Scope Q_scope.
Open Scope dine_scope.

(** ** Request bodies *)

Record ReqOrderItem := mkReqOrderItem {
  ri_menuItem : ObjectId;
  ri_quantity : Z;
  ri_customizations : option (list ReqCustomization);
  ri_specialInstructions : option string
}.

Record CreateOrderReq := mkCreateOrderReq {
  cr_restaurant : ObjectId;
  cr_items : list ReqOrderItem;
  cr_deliveryAddress : Address;
  cr_phone : string;
  cr_email : string;
  cr_paymentMethod : PaymentMethod;
  cr_orderType : option OrderType;
  cr_specialInstructions : option string
}.

Definition status_string (s : OrderStatus) : string :=
  match s with
  | os_pending => "pending" | os_confirmed => "confirmed" | os_preparing => "preparing"
  | os_ready => "ready" | os_picked_up => "picked_up"
  | os_out_for_delivery => "out_for_delivery" | os_delivered => "delivered"
  | os_cancelled => "cancelled" | os_refunded => "refunded"
  end.

Section Handlers.
Context `{FormatValidators}.

(** The [express-validator] chain of [POST /api/orders]. *)
Definition validate_create_order (req : CreateOrderReq) : bool :=
  negb (bool_decide (cr_items req = [])) &&
  notEmpty (a_street (cr_deliveryAddress req)) && notEmpty (a_city (cr_deliveryAddress req)) &&
  notEmpty (a_state (cr_deliveryAddress req)) && notEmpty (a_zipCode (cr_deliveryAddress req)) &&
  isMobilePhone (cr_phone req) && isEmail (cr_email req).

(** The [for (const item of items)] loop: look each menu item up, stop the
    whole request at the first missing or unavailable one, and accumulate
    the order lines and [subtotal += itemTotal]. *)
Fixpoint price_items (menu : gmap ObjectId MenuItem) (items : list ReqOrderItem) (subtotal : Q)
  : result (list OrderItem * Q) :=
  match items with
  | [] => Ok ([], subtotal)
  | it :: rest =>
      match menu !! ri_menuItem it with
      | Some mi =>
          if mi_isAvailable mi then
            let itemPrice := item_price (mi_price mi) (ri_customizations it) in
            let itemTotal := item_total itemPrice (ri_quantity it) in
            match price_items menu rest (subtotal + itemTotal) with
            | Ok (ois, s) =>
                Ok (mkOrderItem (ri_menuItem it) (mi_name mi) (mi_price mi) (ri_quantity it)
                      (default [] (ri_customizations it)) itemTotal (ri_specialInstructions it)
                    :: ois, s)
            | Err e => Err e
            end
          else Err (HttpError 400 "Item  is not available")
      | None => Err (HttpError 400 "Item  is not available")
      end
  end.

(** [estimatedDeliveryTime.setMinutes(getMinutes() + (delivery ? 45 : 20))] *)
Definition estimated_delivery_time (ot : OrderType) (now : Z) : Z :=
  now + (match ot with ot_delivery => 45 | ot_pickup => 20 end) * 60000.

(** The [pre("save")] hook: a new order gets its number from the clock and
    the number of orders already stored, and its first timeline entry. *)
Definition order_pre_save (count : Z) (now : Z) (o : Order) : Order :=
  let num := match o_orderNumber o with
             | Some n => Some n
             | None => Some (mkOrderNumber now (count + 1))
             end in
  mkOrder num (o_customer o) (o_restaurant o) (o_items o) (o_pricing o)
    (o_deliveryAddress o) (o_phone o) (o_email o) (o_paymentMethod o) (o_paymentStatus o)
    (o_status o) (o_orderType o) (o_estimatedDeliveryTime o) (o_actualDeliveryTime o)
    (o_specialInstructions o) (o_cancellationReason o) (o_rating o)
    (o_timeline o ++ [mkTimelineEntry (o_status o) now "Order placed"]) (o_createdAt o).

(** The schema's validators on the paths the handlers can get wrong:
    [orderNumber] is [required], and each line's [quantity] has [min: 1]. *)
Definition order_schema_valid (o : Order) : bool :=
  bool_decide (is_Some (o_orderNumber o)) &&
  forallb (fun oi => Z.leb 1 (oi_quantity oi)) (o_items o).

(** [await order.save()] on a new order: the hook, then the validators; a
    validation error is thrown and answered [500 "Server error"] by the
    handler's [catch].  The document is inserted under a fresh id. *)
Definition save_new_order (now : Z) (o : Order) : handler DB (ObjectId * Order) :=
  db <- get_state ;;
  let o' := order_pre_save (Z.of_nat (size (db_orders db))) now o in
  guard (order_schema_valid o') 500 "Server error" ;;
  oid <- fresh_id ;;
  modify (fun db => set_orders db (<[oid := o']> (db_orders db))) ;;
  ret (oid, o').

(** [Restaurant.findByIdAndUpdate(id, {$inc: {totalOrders: 1, totalRevenue: total}})] *)
Definition inc_restaurant_stats (total : Q) (r : Restaurant) : Restaurant :=
  mkRestaurant (r_name r) (r_owner r) (r_deliveryFee r) (r_minimumOrder r)
    (r_rating_average r) (r_rating_count r) (r_status r) (r_isActive r)
    (r_totalOrders r + 1) (r_totalRevenue r + total) (r_cuisine r) (r_createdAt r)
    (r_estimatedDeliveryTime r).

(** [POST /api/orders] *)
Definition create_order (uid : ObjectId) (req : CreateOrderReq) (now : Z) : handler DB (ObjectId * Order) :=
  guard (validate_create_order req) 400 "Validation failed" ;;
  db <- get_state ;;
  r <- found (db_restaurants db !! cr_restaurant req) 400 "Restaurant is not available" ;;
  guard (r_isActive r && bool_decide (r_status r = rs_approved)) 400 "Restaurant is not available" ;;
  priced <- from_result (price_items (db_menu db) (cr_items req) 0) ;;
  let '(orderItems, subtotal) := priced in
  let ot := default ot_delivery (cr_orderType req) in
  let pricing := order_pricing ot r subtotal in
  guard (negb (bool_decide (ot = ot_delivery) && Qltb subtotal (r_minimumOrder r)))
    400 "Minimum order amount is $" ;;
  let o := mkOrder None uid (cr_restaurant req) orderItems pricing (cr_deliveryAddress req)
             (cr_phone req) (cr_email req) (cr_paymentMethod req) pay_pending os_pending ot
             (estimated_delivery_time ot now) None (cr_specialInstructions req) None None [] now in
  saved <- save_new_order now o ;;
  modify (fun db => set_carts db (delete uid (db_carts db))) ;;
  modify (fun db => set_restaurants db
            (alter (inc_restaurant_stats (pr_total pricing)) (cr_restaurant req) (db_restaurants db))) ;;
  ret saved.

(** ** Updating an order document *)

Definition set_status_timeline (o : Order) (st : OrderStatus) (tl : list TimelineEntry)
  (delivered_at : option Z) (reason : option string) (rating : option Rating) : Order :=
  mkOrder (o_orderNumber o) (o_customer o) (o_restaurant o) (o_items o) (o_pricing o)
    (o_deliveryAddress o) (o_phone o) (o_email o) (o_paymentMethod o) (o_paymentStatus o)
    st (o_orderType o) (o_estimatedDeliveryTime o) delivered_at
    (o_specialInstructions o) reason rating tl (o_createdAt o).

Definition put_order (oid : ObjectId) (o : Order) : handler DB unit :=
  modify (fun db => set_orders db (<[oid := o]> (db_orders db))).

(** The statuses the [body("status").isIn([...])] validator of
    [PUT /api/orders/:id/status] accepts. *)
Definition update_status_allowed (s : OrderStatus) : bool :=
  match s with
  | os_confirmed | os_preparing | os_ready | os_picked_up | os_out_for_delivery
  | os_delivered | os_cancelled => true
  | os_pending | os_refunded => false
  end.

(** [PUT /api/orders/:id/status], behind [restaurantAuth].  The order's
    restaurant is populated; when it no longer exists, reading its [owner]
    throws and the handler answers 500, except for an admin, whose role
    test short-circuits the read. *)
Definition update_order_status (uid : ObjectId) (u : User) (oid : ObjectId)
  (status : OrderStatus) (note : option string) (now : Z) : handler DB Order :=
  guard (update_status_allowed status) 400 "Validation failed" ;;
  db <- get_state ;;
  o <- found (db_orders db !! oid) 404 "Order not found" ;;
  (if bool_decide (u_role u = role_admin) then ret tt
   else r <- found (db_restaurants db !! o_restaurant o) 500 "Server error" ;;
        guard (bool_decide (r_owner r = uid)) 403 "Not authorized to update this order") ;;
  let entry := mkTimelineEntry status now (js_or_str note ("Order " ++ status_string status)) in
  let delivered_at := if bool_decide (status = os_delivered) then Some now else o_actualDeliveryTime o in
  let o' := set_status_timeline o status (o_timeline o ++ [entry]) delivered_at
              (o_cancellationReason o) (o_rating o) in
  put_order oid o' ;;
  ret o'.

Definition cancellable (s : OrderStatus) : bool :=
  match s with os_delivered | os_cancelled | os_refunded => false | _ => true end.

(** [POST /api/orders/:id/cancel], behind [auth].  [order.restaurant.owner]
    is read unconditionally, so a deleted restaurant makes it answer 500. *)
Definition cancel_order (uid : ObjectId) (u : User) (oid : ObjectId) (reason : option string)
  (now : Z) : handler DB Order :=
  db <- get_state ;;
  o <- found (db_orders db !! oid) 404 "Order not found" ;;
  r <- found (db_restaurants db !! o_restaurant o) 500 "Server error" ;;
  guard (bool_decide (o_customer o = uid) || bool_decide (r_owner r = uid) ||
         bool_decide (u_role u = role_admin)) 403 "Not authorized to cancel this order" ;;
  guard (cancellable (o_status o)) 400 "Order cannot be cancelled" ;;
  let entry := mkTimelineEntry os_cancelled now (js_or_str reason "Order cancelled") in
  let o' := set_status_timeline o os_cancelled (o_timeline o ++ [entry]) (o_actualDeliveryTime o)
              (Some (js_or_str reason "Cancelled by user")) (o_rating o) in
  put_order oid o' ;;
  ret o'.

(** [Math.round(averageRating * 10) / 10] over the [overall] scores of the
    restaurant's rated orders. *)
Definition restaurant_rating (orders : gmap ObjectId Order) (rid : ObjectId) : Q * Z :=
  let rated := filter (fun kv => o_restaurant kv.2 = rid /\ is_Some (o_rating kv.2))
                 (map_to_list orders) in
  let overall := map (fun kv => match o_rating kv.2 with Some rt => inject_Z (rt_overall rt) | None => 0 end) rated in
  let n := Z.of_nat (length rated) in
  (inject_Z (js_round (Qsum_left overall / inject_Z n * 10)) / 10, n).

Definition set_rating (r : Restaurant) (avg : Q) (count : Z) : Restaurant :=
  mkRestaurant (r_name r) (r_owner r) (r_deliveryFee r) (r_minimumOrder r) avg count
    (r_status r) (r_isActive r) (r_totalOrders r) (r_totalRevenue r) (r_cuisine r) (r_createdAt r)
    (r_estimatedDeliveryTime r).

Definition in_rating_range (z : Z) : bool := Z.leb 1 z && Z.leb z 5.

(** [POST /api/orders/:id/rate], behind [auth].  The order is saved before
    the restaurant is read: a missing restaurant answers 500 with the
    rating already stored. *)
Definition rate_order (uid : ObjectId) (oid : ObjectId) (food : Z) (delivery : option Z)
  (overall : Z) (comment : option string) (now : Z) : handler DB Order :=
  guard (in_rating_range food && default true (option_map in_rating_range delivery) &&
         in_rating_range overall) 400 "Validation failed" ;;
  db <- get_state ;;
  o <- found (db_orders db !! oid) 404 "Order not found" ;;
  guard (bool_decide (o_customer o = uid)) 403 "Not authorized to rate this order" ;;
  guard (bool_decide (o_status o = os_delivered)) 400 "Can only rate delivered orders" ;;
  guard (negb (bool_decide (is_Some (o_rating o)))) 400 "Order already rated" ;;
  let rt := mkRating food (default food delivery) overall (js_or_str comment "") now in
  let o' := set_status_timeline o (o_status o) (o_timeline o) (o_actualDeliveryTime o)
              (o_cancellationReason o) (Some rt) in
  put_order oid o' ;;
  db' <- get_state ;;
  r <- found (db_restaurants db' !! o_restaurant o) 500 "Server error" ;;
  let '(avg, count) := restaurant_rating (db_orders db') (o_restaurant o) in
  modify (fun db => set_restaurants db (<[o_restaurant o := set_rating r avg count]> (db_restaurants db))) ;;
  ret o'.

(** [GET /api/orders/:id], behind [auth].  The populated customer and
    restaurant are dereferenced before the access test, so a missing one
    answers 500. *)
Definition get_order (uid : ObjectId) (u : User) (oid : ObjectId) : handler DB Order :=
  db <- get_state ;;
  o <- found (db_orders db !! oid) 404 "Order not found" ;;
  _ <- found (db_users db !! o_customer o) 500 "Server error" ;;
  r <- found (db_restaurants db !! o_restaurant o) 500 "Server error" ;;
  guard (bool_decide (o_customer o = uid) || bool_decide (r_owner r = uid) ||
         bool_decide (u_role u = role_admin)) 403 "Not authorized to view this order" ;;
  ret o.

End Handlers.

(** ** Order creation *)

Section CreateOrder.
Context `{FormatValidators}.

(** C5: an order creation that fails leaves the store unchanged: every
    check (request validation, restaurant, each line item, minimum order,
    schema validation) happens before the first write. *)
Theorem create_order_error_no_effect uid req now db e db' :
  create_order uid req now db = (Err e, db') -> db' = db.
Proof.
  unfold create_order, save_new_order, fresh_id. intros Hrun. hrun Hrun; congruence.
Qed.


(** The line the client sends to buy one [mid] at price [t]: one selected
    option whose price is the difference to the item's base price. *)
Definition priced_line (mid : ObjectId) (base t : Q) : ReqOrderItem :=
  mkReqOrderItem mid 1 (Some [mkReqCustomization None [mkReqOption None (Some (t - base))]]) None.


End CreateOrder.

(** ** Cancellation, rating, status update, read access *)

Section OrderHandlers.
Context `{FormatValidators}.

(** C23: a successful cancellation was asked by the order's customer, its
    restaurant's owner or an admin, started from a status other than
    delivered, cancelled or refunded, and only sets the status to
    cancelled, records the reason and appends one cancelled entry to the
    timeline. *)
Theorem cancel_order_success uid u oid reason now db o' db' :
  cancel_order uid u oid reason now db = (Ok o', db') ->
  exists o r,
    db_orders db !! oid = Some o /\ db_restaurants db !! o_restaurant o = Some r /\
    (o_customer o = uid \/ r_owner r = uid \/ u_role u = role_admin) /\
    cancellable (o_status o) = true /\
    o_status o' = os_cancelled /\
    o_cancellationReason o' = Some (js_or_str reason "Cancelled by user") /\
    o_timeline o' = o_timeline o ++ [mkTimelineEntry os_cancelled now (js_or_str reason "Order cancelled")] /\
    o_items o' = o_items o /\ o_pricing o' = o_pricing o /\ o_rating o' = o_rating o /\
    db' = set_orders db (<[oid := o']> (db_orders db)).
Proof.
  unfold cancel_order, put_order. intros Hrun. hrun Hrun.
  injection Hrun as <- <-.
  eexists _, _. split_and!; eauto.
  match goal with Hb : (_ || _ || _) = true |- _ => by apply bool_decide_or3 in Hb end.
Qed.

(** cancelling a delivered, cancelled or refunded order is refused with
    400 "Order cannot be cancelled" and changes nothing, whoever asks among
    the customer, the restaurant owner and an admin. *)
Theorem cancel_order_terminal uid u oid reason now db o r :
  db_orders db !! oid = Some o -> db_restaurants db !! o_restaurant o = Some r ->
  (o_customer o = uid \/ r_owner r = uid \/ u_role u = role_admin) ->
  cancellable (o_status o) = false ->
  cancel_order uid u oid reason now db = (Err (HttpError 400 "Order cannot be cancelled"), db).
Proof.
  intros Ho Hr Hauth Hst. unfold cancel_order, bind, get_state, found, guard, ret, fail.
  rewrite Ho, Hr.
  assert (bool_decide (o_customer o = uid) || bool_decide (r_owner r = uid) ||
          bool_decide (u_role u = role_admin) = true) as ->.
  { by apply bool_decide_or3. }
  simpl. by rewrite Hst.
Qed.

(** C27: a successful rating was given by the order's customer to a
    delivered order that had no rating; it stores the scores (the delivery
    score defaulting to the food score, the comment to ""), leaves status
    and timeline alone, and sets the restaurant's average and count to
    those recomputed over all its rated orders, the new one included. *)
Theorem rate_order_success uid oid food delivery overall comment now db o' db' :
  rate_order uid oid food delivery overall comment now db = (Ok o', db') ->
  exists o r,
    db_orders db !! oid = Some o /\ o_customer o = uid /\ o_status o = os_delivered /\
    o_rating o = None /\
    o_rating o' = Some (mkRating food (default food delivery) overall (js_or_str comment "") now) /\
    o_customer o' = uid /\ o_status o' = o_status o /\ o_timeline o' = o_timeline o /\
    db_orders db' = <[oid := o']> (db_orders db) /\
    db_restaurants db !! o_restaurant o = Some r /\
    db_restaurants db' !! o_restaurant o =
      Some (set_rating r (restaurant_rating (db_orders db') (o_restaurant o)).1
                         (restaurant_rating (db_orders db') (o_restaurant o)).2).
Proof.
  unfold rate_order, put_order. intros Hrun. hrun Hrun.
  injection Hrun as <- <-. simpl in *.
  match goal with Hb : negb (bool_decide (is_Some _)) = true |- _ =>
    apply negb_true_iff, bool_decide_eq_false, eq_None_not_Some in Hb end.
  repeat match goal with Hb : bool_decide _ = true |- _ => apply bool_decide_eq_true in Hb end.
  eexists _, _. split_and!; eauto. by rewrite lookup_insert_eq.
Qed.

(** The rating is written before the restaurant is read: when the order's
    restaurant no longer exists, the route answers 500 "Server error" and
    the order keeps the rating it was given, so a second attempt answers
    "Order already rated". *)
Lemma rate_order_partial_write uid oid food delivery overall comment now db o :
  in_rating_range food && default true (option_map in_rating_range delivery) && in_rating_range overall = true ->
  db_orders db !! oid = Some o -> o_customer o = uid -> o_status o = os_delivered -> o_rating o = None ->
  db_restaurants db !! o_restaurant o = None ->
  exists db', rate_order uid oid food delivery overall comment now db = (Err (HttpError 500 "Server error"), db') /\
    exists o', db_orders db' !! oid = Some o' /\
      o_rating o' = Some (mkRating food (default food delivery) overall (js_or_str comment "") now) /\
      fst (rate_order uid oid food delivery overall comment now db') = Err (HttpError 400 "Order already rated").
Proof.
  intros Hv Ho Hc Hs Hr Hrest.
  set (o1 := set_status_timeline o (o_status o) (o_timeline o) (o_actualDeliveryTime o) (o_cancellationReason o)
               (Some (mkRating food (default food delivery) overall (js_or_str comment "") now))).
  exists (set_orders db (<[oid := o1]> (db_orders db))). split.
  - unfold rate_order, put_order, bind, ret, fail, guard, found, get_state, modify.
    rewrite Hv. cbn. rewrite Ho. cbn. rewrite !bool_decide_eq_true_2 by done. cbn. rewrite Hr. cbn.
    by rewrite Hrest.
  - exists o1. cbn. rewrite lookup_insert_eq. split_and!; [done | done |].
    unfold rate_order, bind, ret, fail, guard, found, get_state. rewrite Hv. cbn.
    rewrite lookup_insert_eq. cbn. rewrite !bool_decide_eq_true_2 by done. done.
Qed.

(** What a successful rating did to the order itself. *)
Lemma rate_order_ok uid oid food delivery overall comment now db o' db' :
  rate_order uid oid food delivery overall comment now db = (Ok o', db') ->
  exists o,
    db_orders db !! oid = Some o /\ o_customer o = uid /\ o_status o = os_delivered /\
    o_rating o = None /\
    o_rating o' = Some (mkRating food (default food delivery) overall (js_or_str comment "") now) /\
    o_customer o' = uid /\ o_status o' = o_status o /\ o_timeline o' = o_timeline o /\
    db_orders db' = <[oid := o']> (db_orders db).
Proof.
  unfold rate_order, put_order. intros Hrun. hrun Hrun.
  injection Hrun as <- <-. simpl in *.
  match goal with Hb : negb (bool_decide (is_Some _)) = true |- _ =>
    apply negb_true_iff, bool_decide_eq_false, eq_None_not_Some in Hb end.
  repeat match goal with Hb : bool_decide _ = true |- _ => apply bool_decide_eq_true in Hb end.
  eexists. split_and!; eauto.
Qed.

(** an order that has been rated cannot be rated again: whatever
    scores its customer sends next, the answer is a 400 error (validation
    failure or "Order already rated") and the store is unchanged. *)
Theorem rate_order_twice uid oid food delivery overall comment now db o' db1
  food2 delivery2 overall2 comment2 now2 :
  rate_order uid oid food delivery overall comment now db = (Ok o', db1) ->
  exists msg,
    rate_order uid oid food2 delivery2 overall2 comment2 now2 db1 = (Err (HttpError 400 msg), db1).
Proof.
  intros Hrun.
  destruct (rate_order_ok _ _ _ _ _ _ _ _ _ _ Hrun)
    as (o & Ho & Hc & Hs & Hnone & Hrt & Hc' & Hst & _ & Hdb).
  unfold rate_order, bind, get_state, found, guard, ret, fail, put_order, modify.
  destruct (_ && _ && _); [| by eexists].
  rewrite Hdb, lookup_insert_eq.
  rewrite bool_decide_eq_true_2 by done. rewrite bool_decide_eq_true_2 by congruence.
  rewrite Hrt, bool_decide_eq_true_2 by done. by eexists.
Qed.

(** rating an order of one's own that is not delivered is refused with
    400 "Can only rate delivered orders" and changes nothing. *)
Theorem rate_order_not_delivered uid oid food delivery overall comment now db o :
  in_rating_range food && default true (option_map in_rating_range delivery) &&
    in_rating_range overall = true ->
  db_orders db !! oid = Some o -> o_customer o = uid -> o_status o <> os_delivered ->
  rate_order uid oid food delivery overall comment now db =
    (Err (HttpError 400 "Can only rate delivered orders"), db).
Proof.
  intros Hv Ho Hc Hs. unfold rate_order, bind, get_state, found, guard, ret, fail.
  rewrite Hv, Ho, bool_decide_eq_true_2 by done. by rewrite bool_decide_eq_false_2.
Qed.

(** when every rated order of a restaurant has an overall score
    between 1 and 5 and there is at least one, the average the rating route
    stores ([Math.round(average * 10) / 10]) lies between 1 and 5, and the
    count is the number of rated orders. *)
Theorem restaurant_rating_bounds (orders : gmap ObjectId Order) (rid : ObjectId) :
  (forall oid o rt, orders !! oid = Some o -> o_restaurant o = rid -> o_rating o = Some rt ->
     (1 <= rt_overall rt <= 5)%Z) ->
  (1 <= (restaurant_rating orders rid).2)%Z ->
  1 <= (restaurant_rating orders rid).1 <= 5.
Proof.
  intros Hall Hn. unfold restaurant_rating in *. simpl in *.
  set (rated := filter _ (map_to_list orders)) in *.
  apply (round_tenth_bounds 1 5).
  replace (length rated) with
    (length (map (fun kv : ObjectId * Order =>
       match o_rating kv.2 with Some rt => inject_Z (rt_overall rt) | None => 0 end) rated))
    by apply length_map.
  apply Qmean_bounds.
  - intros Hnil. apply map_eq_nil in Hnil. rewrite Hnil in Hn. simpl in Hn. lia.
  - apply Forall_forall. intros x Hx. apply list_elem_of_In, in_map_iff in Hx as ([oid o] & <- & Hin).
    apply list_elem_of_In, list_elem_of_filter in Hin as [[Hr [rt Hrt]] Hin].
    apply elem_of_map_to_list in Hin. simpl in *. rewrite Hrt.
    destruct (Hall oid o rt Hin Hr Hrt) as [H1 H2].
    rewrite Zle_Qle in H1, H2. split; assumption.
Qed.

(** C26: a successful status update was made by an admin or by the owner
    of the order's restaurant, to one of the statuses the validator accepts
    (never back to pending, never to refunded); it sets the status, appends
    one timeline entry with the note or "Order <status>", stamps the
    delivery time when the new status is delivered, and changes nothing
    else of the order. *)
Theorem update_order_status_success uid u oid st note now db o' db' :
  update_order_status uid u oid st note now db = (Ok o', db') ->
  exists o,
    db_orders db !! oid = Some o /\
    (u_role u = role_admin \/
     exists r, db_restaurants db !! o_restaurant o = Some r /\ r_owner r = uid) /\
    update_status_allowed st = true /\
    o_status o' = st /\
    o_timeline o' = o_timeline o ++
      [mkTimelineEntry st now (js_or_str note ("Order " ++ status_string st))] /\
    o_actualDeliveryTime o' = (if bool_decide (st = os_delivered) then Some now
                               else o_actualDeliveryTime o) /\
    o_items o' = o_items o /\ o_pricing o' = o_pricing o /\ o_rating o' = o_rating o /\
    o_customer o' = o_customer o /\ o_restaurant o' = o_restaurant o /\
    db' = set_orders db (<[oid := o']> (db_orders db)).
Proof.
  unfold update_order_status, put_order. intros Hrun. hrun Hrun;
    injection Hrun as <- <-;
    repeat match goal with Hb : bool_decide _ = true |- _ => apply bool_decide_eq_true in Hb end;
    eexists; split_and!; eauto.
Qed.

(** the status route does not check where the order comes from: for
    an order of a restaurant the requester owns, every accepted status is
    set, whatever the current one, so a delivered or cancelled order can be
    moved back into preparation. *)
Theorem update_order_status_any_source uid u oid st note now db o r :
  db_orders db !! oid = Some o -> db_restaurants db !! o_restaurant o = Some r ->
  r_owner r = uid -> update_status_allowed st = true ->
  exists o', fst (update_order_status uid u oid st note now db) = Ok o' /\
             o_status o' = st /\ o_timeline o' <> [].
Proof.
  intros Ho Hr Hown Hst.
  unfold update_order_status, bind, get_state, found, guard, ret, fail, put_order, modify.
  rewrite Hst, Ho. simpl.
  destruct (bool_decide (u_role u = role_admin)); simpl;
    [| rewrite Hr; simpl; rewrite bool_decide_eq_true_2 by done; simpl];
    eexists; split_and!; try reflexivity; simpl; by destruct (o_timeline o).
Qed.

(** Reading one order is allowed exactly to its customer, the owner of its
    restaurant and admins; anyone else gets 403 "Not authorized to view
    this order".  The read changes nothing. *)
Lemma get_order_access uid u oid db o r :
  db_orders db !! oid = Some o -> is_Some (db_users db !! o_customer o) ->
  db_restaurants db !! o_restaurant o = Some r ->
  get_order uid u oid db =
    (if bool_decide (o_customer o = uid \/ r_owner r = uid \/ u_role u = role_admin)
     then Ok o else Err (HttpError 403 "Not authorized to view this order"), db).
Proof.
  intros Ho [c Hc] Hr. unfold get_order, bind, get_state, found, guard, ret, fail.
  rewrite Ho, Hc, Hr.
  destruct (bool_decide (_ \/ _ \/ _)) eqn:E.
  - apply bool_decide_eq_true in E. by rewrite (proj2 (bool_decide_or3 _ _ _) E).
  - apply bool_decide_eq_false in E.
    destruct (bool_decide (o_customer o = uid) || _ || _) eqn:E2; [| done].
    apply bool_decide_or3 in E2. contradiction.
Qed.

End OrderHandlers.
