(* ===== verification/Cart.v ===== *)
(** * Cart: the per-user cart of the backend (routes/cart.js, models/Cart.js)

    The five handlers of [src/backend/routes/cart.js] over the store [DB]:
    [get_cart] (GET /api/cart), [add_to_cart] (POST /api/cart/add),
    [update_cart_item] (PUT /api/cart/update/:itemId), [remove_cart_item]
    (DELETE /api/cart/remove/:itemId) and [clear_cart] (DELETE
    /api/cart/clear), each behind [auth] and taking the user's id.

    [add_to_cart] merges the new line into an existing one when the menu
    item is the same and [JSON.stringify] of the stored customizations
    equals [JSON.stringify] of the requested ones.  We model [JSON.stringify]
    as the token sequence it prints ([json_tok]): a stored customization is
    a Mongoose subdocument, printed with its [_id] key; a request
    customization is the plain object of the body, printed with the keys it
    has ([name], [selectedOptions], [price], never [_id]). *)

From S2P Require Import Prelude Model Pricing Orders.

Open Scope Q_scope.
Open Scope dine_scope.

(** ** [JSON.stringify] of customization lists *)

Inductive json_tok :=
| TArrOpen | TArrClose | TObjOpen | TObjClose
| TKey (k : string) | TStr (s : string) | TNum (q : Q) | TId (id : ObjectId).

#[export] Instance json_tok_eq_dec : EqDecision json_tok.
Proof. solve_decision. Defined.

Definition json_opt_str (k : string) (o : option string) : list json_tok :=
  match o with Some s => [TKey k; TStr s] | None => [] end.

Definition json_opt_num (k : string) (o : option Q) : list json_tok :=
  match o with Some q => [TKey k; TNum (Qred q)] | None => [] end.

Definition json_array {A} (f : A -> list json_tok) (l : list A) : list json_tok :=
  [TArrOpen] ++ concat (map f l) ++ [TArrClose].

Definition json_req_option (o : ReqOption) : list json_tok :=
  [TObjOpen] ++ json_opt_str "name" (ro_name o) ++ json_opt_num "price" (ro_price o) ++ [TObjClose].

Definition json_req_customization (c : ReqCustomization) : list json_tok :=
  [TObjOpen] ++ json_opt_str "name" (rc_name c) ++
  [TKey "selectedOptions"] ++ json_array json_req_option (rc_selectedOptions c) ++ [TObjClose].

Definition json_stored_option (o : StoredOption) : list json_tok :=
  [TObjOpen] ++ json_opt_str "name" (so_name o) ++ [TKey "price"; TNum (Qred (so_price o))] ++
  [TKey "_id"; TId (so_id o); TObjClose].

Definition json_stored_customization (c : StoredCustomization) : list json_tok :=
  [TObjOpen] ++ json_opt_str "name" (sc_name c) ++
  [TKey "selectedOptions"] ++ json_array json_stored_option (sc_selectedOptions c) ++
  [TKey "_id"; TId (sc_id c); TObjClose].

(** ** Requests and the cart view *)

Record AddReq := mkAddReq {
  ar_menuItem : ObjectId;
  ar_quantity : Z;
  ar_customizations : option (list ReqCustomization);
  ar_specialInstructions : option string
}.

(** The [data] of a successful GET: the surviving lines and the totals. *)
Record CartView := mkCartView {
  cv_restaurant : option ObjectId;
  cv_items : list CartEntry;
  cv_subtotal : Q;
  cv_itemCount : Z
}.

Definition set_cart_items (c : Cart) (items : list CartEntry) (rest : option ObjectId) : Cart :=
  mkCart (cart_id c) (cart_user c) rest items (cart_subtotal c) (cart_itemCount c) (cart_lastUpdated c).

(** [await cart.save()]: the [pre("save")] hook stamps [lastUpdated]. *)
Definition save_cart (uid : ObjectId) (now : Z) (c : Cart) : handler DB Cart :=
  let c' := mkCart (cart_id c) (cart_user c) (cart_restaurant c) (cart_items c)
              (cart_subtotal c) (cart_itemCount c) now in
  modify (fun db => set_carts db (<[uid := c']> (db_carts db))) ;;
  ret c'.

(** [n] new ObjectIds in a row; the first is returned. *)
Definition fresh_ids (n : N) : handler DB ObjectId :=
  fun db => (Ok (db_next_id db),
             mkDB (db_users db) (db_restaurants db) (db_menu db) (db_carts db)
                  (db_orders db) (db_next_id db + n)%N).

(** The number of subdocuments Mongoose creates for a customization list. *)
Definition subdoc_count (cs : list ReqCustomization) : N :=
  foldr (fun c n => 1 + N.of_nat (length (rc_selectedOptions c)) + n)%N 0%N cs.

(** ** GET /api/cart *)

(** The line's price as the filter callback computes it from the populated
    menu item, or [None] when the item is gone or unavailable. *)
Definition line_price (menu : gmap ObjectId MenuItem) (e : CartEntry) : option Q :=
  match menu !! ce_menuItem e with
  | Some mi => if mi_isAvailable mi
               then Some (item_total (customization_loop (mi_price mi) (ce_customizations e))
                                     (ce_quantity e))
               else None
  | None => None
  end.

Definition line_valid (menu : gmap ObjectId MenuItem) (e : CartEntry) : bool :=
  bool_decide (is_Some (line_price menu e)).

Definition cart_subtotal_of (menu : gmap ObjectId MenuItem) (items : list CartEntry) : Q :=
  Qsum_left (map (fun e => default 0 (line_price menu e)) items).

Definition cart_count_of (items : list CartEntry) : Z :=
  fold_left Z.add (map ce_quantity items) 0%Z.

Definition get_cart (uid : ObjectId) (now : Z) : handler DB CartView :=
  db <- get_state ;;
  match db_carts db !! uid with
  | None => ret (mkCartView None [] 0 0)
  | Some c =>
      let valid := filter (fun e => line_valid (db_menu db) e = true) (cart_items c) in
      let subtotal := cart_subtotal_of (db_menu db) valid in
      let itemCount := cart_count_of valid in
      (if bool_decide (length valid = length (cart_items c)) then ret tt
       else _ <- save_cart uid now (mkCart (cart_id c) (cart_user c) (cart_restaurant c) valid
                                      subtotal itemCount (cart_lastUpdated c)) ;; ret tt) ;;
      ret (mkCartView (cart_restaurant c) valid subtotal itemCount)
  end.

(** ** POST /api/cart/add *)

(** The [findIndex] test: same menu item and same [JSON.stringify] of the
    customizations. *)
Definition same_line (mid : ObjectId) (cs : list ReqCustomization) (e : CartEntry) : Prop :=
  ce_menuItem e = mid /\
  json_array json_stored_customization (ce_customizations e) = json_array json_req_customization cs.

#[export] Instance same_line_dec mid cs e : Decision (same_line mid cs e).
Proof. unfold same_line. apply _. Defined.

(** [cart.items[i].quantity += quantity; ...specialInstructions =
    specialInstructions || cart.items[i].specialInstructions] *)
Definition bump_line (q : Z) (si : option string) (e : CartEntry) : CartEntry :=
  mkCartEntry (ce_id e) (ce_menuItem e) (ce_quantity e + q) (ce_customizations e)
    (js_or_str si (ce_specialInstructions e)).

Definition add_to_cart (uid : ObjectId) (req : AddReq) (now : Z) : handler DB Cart :=
  guard (Z.leb 1 (ar_quantity req)) 400 "Validation failed" ;;
  db <- get_state ;;
  mi <- found (db_menu db !! ar_menuItem req) 400 "Menu item is not available" ;;
  guard (mi_isAvailable mi) 400 "Menu item is not available" ;;
  (* [menuItem.restaurant] is populated; a missing restaurant throws on [.isActive] *)
  r <- found (db_restaurants db !! mi_restaurant mi) 500 "Server error" ;;
  guard (r_isActive r && bool_decide (r_status r = rs_approved)) 400 "Restaurant is not available" ;;
  cart0 <- (match db_carts db !! uid with
            | Some c => ret c
            | None => cid <- fresh_ids 1 ;; ret (mkCart cid uid (Some (mi_restaurant mi)) [] 0 0 now)
            end) ;;
  let cart1 := match cart_restaurant cart0 with
               | Some rid => if bool_decide (rid = mi_restaurant mi) then cart0
                             else set_cart_items cart0 [] (Some (mi_restaurant mi))
               | None => cart0
               end in
  let cs := default [] (ar_customizations req) in
  match list_find (same_line (ar_menuItem req) cs) (cart_items cart1) with
  | Some (i, e) =>
      save_cart uid now (set_cart_items cart1
        (<[i := bump_line (ar_quantity req) (ar_specialInstructions req) e]> (cart_items cart1))
        (cart_restaurant cart1))
  | None =>
      eid <- fresh_ids (1 + subdoc_count cs) ;;
      let e := mkCartEntry eid (ar_menuItem req) (ar_quantity req)
                 (store_customizations (N.succ eid) cs) (js_or_str (ar_specialInstructions req) "") in
      save_cart uid now (set_cart_items cart1 (cart_items cart1 ++ [e]) (cart_restaurant cart1))
  end.

(** ** PUT /api/cart/update/:itemId, DELETE /api/cart/remove/:itemId,
       DELETE /api/cart/clear *)

Definition set_line_quantity (q : Z) (e : CartEntry) : CartEntry :=
  mkCartEntry (ce_id e) (ce_menuItem e) q (ce_customizations e) (ce_specialInstructions e).

Definition update_cart_item (uid : ObjectId) (itemId : ObjectId) (q : Z) (now : Z) : handler DB Cart :=
  guard (Z.leb 0 q) 400 "Validation failed" ;;
  db <- get_state ;;
  c <- found (db_carts db !! uid) 404 "Cart not found" ;;
  ie <- found (list_find (fun e => ce_id e = itemId) (cart_items c)) 404 "Item not found in cart" ;;
  let '(i, e) := ie in
  let items := if bool_decide (q = 0%Z) then delete i (cart_items c)
               else <[i := set_line_quantity q e]> (cart_items c) in
  save_cart uid now (set_cart_items c items (cart_restaurant c)).

Definition remove_cart_item (uid : ObjectId) (itemId : ObjectId) (now : Z) : handler DB Cart :=
  db <- get_state ;;
  c <- found (db_carts db !! uid) 404 "Cart not found" ;;
  ie <- found (list_find (fun e => ce_id e = itemId) (cart_items c)) 404 "Item not found in cart" ;;
  save_cart uid now (set_cart_items c (delete ie.1 (cart_items c)) (cart_restaurant c)).

(** [Cart.findOneAndDelete({user})]: no error when there is no cart. *)
Definition clear_cart (uid : ObjectId) : handler DB unit :=
  modify (fun db => set_carts db (delete uid (db_carts db))).

(** ** The cart invariant

    Every stored cart is scoped to a restaurant, and each of its lines has a
    quantity of at least 1 (the schema's [min: 1]) and refers to a menu item
    of that restaurant. *)

Definition line_ok (menu : gmap ObjectId MenuItem) (rid : ObjectId) (e : CartEntry) : Prop :=
  (1 <= ce_quantity e)%Z /\ exists mi, menu !! ce_menuItem e = Some mi /\ mi_restaurant mi = rid.

Definition cart_ok (menu : gmap ObjectId MenuItem) (c : Cart) : Prop :=
  exists rid, cart_restaurant c = Some rid /\ Forall (line_ok menu rid) (cart_items c).

Definition carts_wf (db : DB) : Prop :=
  forall uid c, db_carts db !! uid = Some c -> cart_ok (db_menu db) c.

(** Saving a well-formed cart into a store that has the same menu and
    carts as a well-formed one (possibly a later id counter). *)
Lemma carts_wf_insert db0 db uid c :
  carts_wf db -> db_menu db0 = db_menu db ->
  cart_ok (db_menu db) c -> carts_wf (set_carts db0 (<[uid := c]> (db_carts db))).
Proof.
  intros Hwf Hm Hc u c'. simpl. rewrite Hm, lookup_insert.
  case_decide; [intros [= <-]; done | apply Hwf].
Qed.

Lemma carts_wf_delete db uid : carts_wf db -> carts_wf (set_carts db (delete uid (db_carts db))).
Proof. intros Hwf u c'. simpl. rewrite lookup_delete. case_decide; [done | apply Hwf]. Qed.

Lemma carts_wf_next db n :
  carts_wf db -> carts_wf (mkDB (db_users db) (db_restaurants db) (db_menu db) (db_carts db) (db_orders db) n).
Proof. done. Qed.

Lemma cart_ok_stamp menu c now :
  cart_ok menu c ->
  cart_ok menu (mkCart (cart_id c) (cart_user c) (cart_restaurant c) (cart_items c)
                  (cart_subtotal c) (cart_itemCount c) now).
Proof. done. Qed.

Lemma cart_ok_items menu c items :
  (exists rid, cart_restaurant c = Some rid /\ Forall (line_ok menu rid) items) ->
  cart_ok menu (set_cart_items c items (cart_restaurant c)).
Proof. done. Qed.

Lemma line_ok_new menu mid mi eid q cs si :
  menu !! mid = Some mi -> (1 <= q)%Z -> line_ok menu (mi_restaurant mi) (mkCartEntry eid mid q cs si).
Proof. intros Hm Hq. split; [done | eauto]. Qed.

Lemma line_ok_bump menu rid e q si :
  line_ok menu rid e -> (1 <= q)%Z -> line_ok menu rid (bump_line q si e).
Proof. intros [Hq He] Hq'. split; [simpl; lia | exact He]. Qed.

Lemma line_ok_set menu rid e q :
  line_ok menu rid e -> (1 <= q)%Z -> line_ok menu rid (set_line_quantity q e).
Proof. intros [Hq He] Hq'. split; [simpl; lia | exact He]. Qed.

Lemma Forall_list_find {A} (P : A -> Prop) `{forall x, Decision (P x)} (Q : A -> Prop) l i x :
  list_find P l = Some (i, x) -> Forall Q l -> Q x.
Proof.
  intros Hf Hall. apply list_find_Some in Hf as (Hi & _ & _).
  eapply Forall_lookup_1; eauto.
Qed.

#[export] Hint Resolve carts_wf_insert carts_wf_delete carts_wf_next cart_ok_stamp cart_ok_items : dine.

(** [cart_wf_tac] closes an invariant goal left by [hrun] on a cart
    handler: it re-establishes [carts_wf] after the cart is saved, from the
    invariant of the cart read and the handler's guards. *)
Ltac cart_wf_tac Hwf :=
  simpl in *; try discriminate; try done;
  (eapply carts_wf_insert; [exact Hwf | reflexivity | ]); simpl;
  repeat match goal with
    | Hb : bool_decide _ = true |- _ => apply bool_decide_eq_true in Hb
    | Hb : (_ <=? _)%Z = true |- _ => apply Z.leb_le in Hb
    | Hb : bool_decide _ = false |- _ => apply bool_decide_eq_false in Hb
    end;
  try match goal with Hc : db_carts _ !! _ = Some ?c |- _ =>
        destruct (Hwf _ _ Hc) as (rid & Hrid & Hall); rewrite Hrid in * end;
  try discriminate;
  repeat match goal with H : Some _ = Some _ |- _ => injection H as H end; subst;
  eexists; (split; [reflexivity |]);
  cbn [cart_items set_cart_items];
  repeat lazymatch goal with
    | |- Forall _ (_ ++ _) => apply Forall_app_2
    | |- Forall _ (<[_ := _]> _) => apply Forall_insert
    | |- Forall _ (delete _ _) => apply Forall_delete
    | |- Forall _ [_] => apply Forall_singleton
    | |- Forall _ [] => apply Forall_nil_2
    end;
  first [ assumption
        | eapply line_ok_bump; [eapply Forall_list_find; eassumption | lia]
        | eapply line_ok_new; [eassumption | lia]
        | eapply line_ok_set; [eapply Forall_list_find; eassumption | lia] ].

(** C28: adding an item keeps every cart scoped to a single restaurant:
    the new line refers to an item of the cart's restaurant (the cart is
    emptied and rescoped when the item comes from another one), and every
    quantity stays at least 1. *)
Theorem add_to_cart_preserves_wf uid req now : preserves carts_wf (add_to_cart uid req now).
Proof.
  intros db Hwf. destruct (add_to_cart uid req now db) as [res db'] eqn:Hrun. simpl.
  unfold add_to_cart, save_cart, fresh_ids in Hrun. hrun Hrun; injection Hrun as _ <-;
    cart_wf_tac Hwf.
Qed.

(** The other cart handlers keep the invariant too: a quantity update
    removes the line at 0 and otherwise sets a quantity of at least 1;
    removal, clearing and the read (which only drops lines) keep it. *)
Lemma update_cart_item_preserves_wf uid itemId q now :
  preserves carts_wf (update_cart_item uid itemId q now).
Proof.
  intros db Hwf. destruct (update_cart_item uid itemId q now db) as [res db'] eqn:Hrun. simpl.
  unfold update_cart_item, save_cart in Hrun. hrun Hrun; injection Hrun as _ <-;
    cart_wf_tac Hwf.
Qed.

Lemma remove_cart_item_preserves_wf uid itemId now :
  preserves carts_wf (remove_cart_item uid itemId now).
Proof.
  intros db Hwf. destruct (remove_cart_item uid itemId now db) as [res db'] eqn:Hrun. simpl.
  unfold remove_cart_item, save_cart in Hrun. hrun Hrun; injection Hrun as _ <-;
    cart_wf_tac Hwf.
Qed.

Lemma clear_cart_preserves_wf uid : preserves carts_wf (clear_cart uid).
Proof. intros db Hwf. by apply carts_wf_delete. Qed.

Lemma get_cart_preserves_wf uid now : preserves carts_wf (get_cart uid now).
Proof.
  intros db Hwf. destruct (get_cart uid now db) as [res db'] eqn:Hrun. simpl.
  unfold get_cart, save_cart in Hrun. hrun Hrun; injection Hrun as _ <-; try done.
  eapply carts_wf_insert; [exact Hwf | reflexivity |].
  match goal with Hc : db_carts _ !! _ = Some _ |- _ => destruct (Hwf _ _ Hc) as (rid & Hrid & Hall) end.
  exists rid. split; [done |]. simpl.
  apply Forall_forall. intros e He. apply list_elem_of_filter in He as [_ He].
  by eapply Forall_forall in Hall.
Qed.

(** ** The line-merging test *)

Definition id_free (toks : list json_tok) : Prop := TKey "_id" ∉ toks.

Lemma id_free_app l1 l2 : id_free l1 -> id_free l2 -> id_free (l1 ++ l2).
Proof. unfold id_free. rewrite elem_of_app. tauto. Qed.

Lemma id_free_concat (ls : list (list json_tok)) : Forall id_free ls -> id_free (concat ls).
Proof.
  induction 1 as [|l ls Hl _ IH]; simpl; [apply not_elem_of_nil | by apply id_free_app].
Qed.

Lemma id_free_req_option o : id_free (json_req_option o).
Proof.
  unfold json_req_option, json_opt_str, json_opt_num.
  destruct (ro_name o), (ro_price o); unfold id_free; set_solver.
Qed.

Lemma id_free_req_customization c : id_free (json_req_customization c).
Proof.
  unfold json_req_customization, json_array, json_opt_str.
  repeat apply id_free_app; try (destruct (rc_name c); unfold id_free; set_solver).
  apply id_free_concat, Forall_forall. intros t Ht.
  apply list_elem_of_In, in_map_iff in Ht as (o & <- & _). apply id_free_req_option.
Qed.

(** Equal stringifications force both customization lists to be empty. *)
Lemma stringify_eq_empty (stored : list StoredCustomization) (cs : list ReqCustomization) :
  json_array json_stored_customization stored = json_array json_req_customization cs ->
  stored = [] /\ cs = [].
Proof.
  intros Heq. assert (Hfree : id_free (json_array json_req_customization cs)).
  { unfold json_array. repeat apply id_free_app; try (unfold id_free; set_solver).
    apply id_free_concat, Forall_forall. intros t Ht.
    apply list_elem_of_In, in_map_iff in Ht as (c & <- & _). apply id_free_req_customization. }
  destruct stored as [|sc stored].
  - split; [done |]. destruct cs as [|c cs]; [done |].
    unfold json_array, json_req_customization in Heq. simpl in Heq. discriminate.
  - exfalso. apply Hfree. rewrite <- Heq. unfold json_array, json_stored_customization.
    simpl. set_solver.
Qed.

(** [JSON.stringify] of a cart line's stored customizations equals
    that of the requested ones only when both lists are empty: a stored
    customization always prints its [_id], a request one never does.  So
    the same item with the same non-empty customizations is never merged. *)
Theorem same_customizations_only_empty (stored : list StoredCustomization) (cs : list ReqCustomization) :
  json_array json_stored_customization stored = json_array json_req_customization cs <->
  stored = [] /\ cs = [].
Proof. split; [apply stringify_eq_empty | by intros [-> ->]]. Qed.

(** ** The lines [add_to_cart] starts from *)

(** The lines of the user's cart after the [if (!cart)] creation and the
    [if (cart.restaurant && ... !== ...)] reset, for an item of restaurant
    [rid]. *)
Definition lines_before (db : DB) (uid : ObjectId) (rid : ObjectId) : list CartEntry :=
  match db_carts db !! uid with
  | Some c => match cart_restaurant c with
              | Some r => if bool_decide (r = rid) then cart_items c else []
              | None => cart_items c
              end
  | None => []
  end.

Lemma add_to_cart_lines uid req now db c' db' :
  add_to_cart uid req now db = (Ok c', db') ->
  exists mi, db_menu db !! ar_menuItem req = Some mi /\ (1 <= ar_quantity req)%Z /\
  let prev := lines_before db uid (mi_restaurant mi) in
  let cs := default [] (ar_customizations req) in
  (exists i e, list_find (same_line (ar_menuItem req) cs) prev = Some (i, e) /\
     cart_items c' = <[i := bump_line (ar_quantity req) (ar_specialInstructions req) e]> prev) \/
  (list_find (same_line (ar_menuItem req) cs) prev = None /\
     exists eid, cart_items c' = prev ++
       [mkCartEntry eid (ar_menuItem req) (ar_quantity req) (store_customizations (N.succ eid) cs)
          (js_or_str (ar_specialInstructions req) "")]).
Proof.
  unfold add_to_cart, save_cart, fresh_ids. intros Hrun. hrun Hrun;
    injection Hrun as <- <-; apply Z.leb_le in Heqb;
    (eexists; split; [reflexivity | split; [done |]]);
    unfold lines_before; simpl;
    repeat match goal with H : db_carts _ !! _ = _ |- _ => rewrite H end;
    repeat match goal with H : cart_restaurant _ = _ |- _ => rewrite H end;
    repeat match goal with H : bool_decide _ = _ |- _ => rewrite H end;
    simpl in *.
  all: try (left; by eauto). all: try (right; by eauto).
Qed.

(** ** What [add_to_cart] does to the cart's contents *)

(** The abstract content of a cart: for each menu item, the total quantity
    of its lines without customizations. *)
Definition plain_qty (mid : ObjectId) (items : list CartEntry) : Z :=
  Zsum (map (fun e => if bool_decide (ce_menuItem e = mid /\ ce_customizations e = [])
                      then ce_quantity e else 0%Z) items).

Lemma same_line_plain mid e : same_line mid [] e -> ce_menuItem e = mid /\ ce_customizations e = [].
Proof. intros [Hm Hj]. split; [done |]. by apply stringify_eq_empty in Hj as [-> _]. Qed.

(** for lines without customizations the cart behaves as a multiset
    of menu items: adding [q] of item [m] raises the plain quantity of [m]
    by [q] and leaves every other item's alone, starting from the lines
    the cart had (none when it was scoped to another restaurant). *)
Theorem add_to_cart_plain_qty uid req now db c' db' :
  add_to_cart uid req now db = (Ok c', db') -> default [] (ar_customizations req) = [] ->
  exists mi, db_menu db !! ar_menuItem req = Some mi /\
  forall m, plain_qty m (cart_items c') =
            (plain_qty m (lines_before db uid (mi_restaurant mi)) +
             if bool_decide (m = ar_menuItem req) then ar_quantity req else 0)%Z.
Proof.
  intros Hrun Hcs. destruct (add_to_cart_lines _ _ _ _ _ _ Hrun) as (mi & Hmi & Hq & Hlines).
  exists mi. split; [done |]. intros m. rewrite Hcs in Hlines.
  destruct Hlines as [(i & e & Hf & ->) | (Hf & eid & ->)]; unfold plain_qty.
  - apply list_find_Some in Hf as (Hi & Hsame & _).
    apply same_line_plain in Hsame as [Hm He].
    rewrite (Zsum_map_insert _ _ _ _ _ Hi). simpl.
    repeat case_bool_decide; naive_solver lia.
  - rewrite map_app, Zsum_app. cbn [map].
    assert (forall z, Zsum [z] = z) as -> by (intros; unfold Zsum; simpl; lia).
    simpl. repeat case_bool_decide; naive_solver lia.
Qed.

(** a line with customizations is never merged: adding an item with
    a non-empty customization list always appends a new line, even when an
    identical line (same item, same selections) is already in the cart. *)
Theorem add_to_cart_customized_appends uid req now db c' db' cs :
  add_to_cart uid req now db = (Ok c', db') -> ar_customizations req = Some cs -> cs <> [] ->
  exists mi e, db_menu db !! ar_menuItem req = Some mi /\
    cart_items c' = lines_before db uid (mi_restaurant mi) ++ [e] /\
    ce_menuItem e = ar_menuItem req /\ ce_quantity e = ar_quantity req.
Proof.
  intros Hrun Hcs Hne. destruct (add_to_cart_lines _ _ _ _ _ _ Hrun) as (mi & Hmi & Hq & Hlines).
  rewrite Hcs in Hlines. simpl in Hlines.
  destruct Hlines as [(i & e & Hf & _) | (_ & eid & ->)].
  - apply list_find_Some in Hf as (_ & [_ Hj] & _).
    apply stringify_eq_empty in Hj as [_ ->]. done.
  - by eexists _, _.
Qed.

(** [add_to_cart] never recomputes the totals stored on the cart
    document: after adding, the stored [totals.subtotal] and
    [totals.itemCount] are those the cart had before, even when lines were
    added or the cart was emptied for another restaurant. *)
Theorem add_to_cart_keeps_stored_totals uid req now db c c' db' :
  db_carts db !! uid = Some c -> add_to_cart uid req now db = (Ok c', db') ->
  cart_subtotal c' = cart_subtotal c /\ cart_itemCount c' = cart_itemCount c.
Proof.
  intros Hc Hrun. unfold add_to_cart, save_cart, fresh_ids in Hrun.
  hrun Hrun; injection Hrun as <- <-; try discriminate;
    repeat match goal with H : Some _ = Some _ |- _ => injection H as H; subst end; done.
Qed.

(** ** What [get_cart] returns *)

Lemma line_valid_spec menu e :
  line_valid menu e = true <-> exists mi, menu !! ce_menuItem e = Some mi /\ mi_isAvailable mi = true.
Proof.
  unfold line_valid, line_price. rewrite bool_decide_eq_true.
  destruct (menu !! ce_menuItem e) as [mi|]; [destruct (mi_isAvailable mi) eqn:Ea|];
    split; intros H; try done; try (destruct H as [? H]; discriminate);
    try (destruct H as (? & [= <-] & ?); congruence); eauto.
Qed.

(** The price of a surviving line, as the specification states it: base
    price plus option prices, times the quantity. *)
Definition line_spec_price (menu : gmap ObjectId MenuItem) (e : CartEntry) : Q :=
  match menu !! ce_menuItem e with
  | Some mi => (mi_price mi + Qsum_left (concat (map option_prices (ce_customizations e)))) *
               inject_Z (ce_quantity e)
  | None => 0
  end.

(** reading a cart returns exactly its lines whose menu item still
    exists and is available, with the subtotal of their prices (base price
    plus option prices, times quantity) and their total quantity; the cart
    document is rewritten, with the surviving lines and these totals, only
    when some line was dropped. *)
Theorem get_cart_view uid now db c v db' :
  db_carts db !! uid = Some c -> get_cart uid now db = (Ok v, db') ->
  (forall e, e ∈ cv_items v <->
     e ∈ cart_items c /\ exists mi, db_menu db !! ce_menuItem e = Some mi /\ mi_isAvailable mi = true) /\
  cv_subtotal v == Qsum_left (map (line_spec_price (db_menu db)) (cv_items v)) /\
  cv_itemCount v = cart_count_of (cv_items v) /\
  (length (cv_items v) = length (cart_items c) -> db' = db) /\
  (length (cv_items v) <> length (cart_items c) ->
     exists c'', db_carts db' !! uid = Some c'' /\ cart_items c'' = cv_items v /\
                 cart_subtotal c'' = cv_subtotal v /\ cart_itemCount c'' = cv_itemCount v).
Proof.
  intros Hc Hrun. unfold get_cart, save_cart in Hrun. hrun Hrun;
    injection Hrun as <- <-; simpl;
    try discriminate;
    repeat match goal with H : Some _ = Some _ |- _ => injection H as H; subst end.
  all: split; [intros e; rewrite list_elem_of_filter, line_valid_spec; tauto |].
  all: split; [apply Qsum_left_map_ext; intros e He;
               apply list_elem_of_filter in He as [He _];
               apply line_valid_spec in He as (mi & Hmi & Ha);
               unfold line_price, line_spec_price; rewrite Hmi, Ha; cbn [default];
               unfold item_total; by rewrite customization_loop_sum |].
  all: split; [done |].
  all: repeat match goal with H : bool_decide _ = _ |- _ =>
         first [apply bool_decide_eq_true in H | apply bool_decide_eq_false in H] end.
  all: split; intros Hlen; try done.
  eexists. rewrite lookup_insert_eq. done.
Qed.

(** ** Checking out a cart *)

(** The order line a client sends for a cart line. *)
Definition cart_line_request (e : CartEntry) : ReqOrderItem :=
  mkReqOrderItem (ce_menuItem e) (ce_quantity e)
    (Some (map unstore_customization (ce_customizations e))) None.

Lemma price_items_cart_lines menu (items : list CartEntry) (s : Q) :
  Forall (fun e => line_valid menu e = true) items ->
  exists ois sub, price_items menu (map cart_line_request items) s = Ok (ois, sub) /\
                  sub == s + cart_subtotal_of menu items.
Proof.
  revert s. induction items as [|e items IH]; intros s Hall.
  - eexists _, _. split; [reflexivity |]. unfold cart_subtotal_of, Qsum_left. simpl. ring.
  - apply Forall_cons in Hall as [He Hall].
    unfold line_valid, line_price in He. simpl.
    destruct (menu !! ce_menuItem e) as [mi|] eqn:Em; [| by apply bool_decide_eq_true in He as []].
    destruct (mi_isAvailable mi) eqn:Ea; [| by apply bool_decide_eq_true in He as []].
    edestruct IH as (ois & sub & Hp & Hsub); [exact Hall |]. rewrite Hp.
    eexists _, _. split; [reflexivity |]. rewrite Hsub.
    unfold cart_subtotal_of. cbn [map]. rewrite Qsum_left_cons. fold (cart_subtotal_of menu items).
    unfold line_price. rewrite Em, Ea. simpl.
    rewrite (customization_loop_map (mi_price mi) (map unstore_customization (ce_customizations e))
               (ce_customizations e)); [ring |].
    rewrite map_map. apply map_ext. apply unstore_prices.
Qed.

(** the cart and the order route price a cart the same way: when all
    lines of a cart are valid, sending them as the lines of an order
    (same items, quantities and selected options) gives an order subtotal
    equal to the subtotal [GET /api/cart] shows. *)
Theorem checkout_subtotal_matches_cart uid now db c v db' :
  db_carts db !! uid = Some c -> get_cart uid now db = (Ok v, db') ->
  length (cv_items v) = length (cart_items c) ->
  exists ois sub, price_items (db_menu db) (map cart_line_request (cart_items c)) 0 = Ok (ois, sub) /\
                  sub == cv_subtotal v.
Proof.
  intros Hc Hrun Hlen. unfold get_cart, save_cart in Hrun. hrun Hrun;
    injection Hrun as <- <-; simpl in *;
    try discriminate;
    repeat match goal with H : Some _ = Some _ |- _ => injection H as H; subst end.
  all: repeat match goal with H : bool_decide _ = _ |- _ =>
         first [apply bool_decide_eq_true in H | apply bool_decide_eq_false in H] end; try done.
  match goal with H : length (filter _ ?l) = length ?l |- _ =>
    apply filter_length_eq in H; rename H into Hall end.
  destruct (price_items_cart_lines (db_menu db) _ 0 Hall) as (ois & sub & Hp & Hs).
  exists ois, sub. split; [done |]. rewrite Hs, filter_all by done. ring.
Qed.
