(* ===== verification/Auth.v ===== *)
(** * Auth: the authentication middleware and the guarded routes

    [src/backend/middleware/auth.js]: [auth] reads the [Authorization]
    header, verifies the bearer token with [jwt.verify], loads the user and
    attaches it to the request; [restaurantAuth] and [adminAuth] call
    [auth] with a no-op [next] and then test [req.user.role].

    A middleware may write a response, call [next], or both.  Its outcome
    is [MwOutcome]: the statuses of the responses it tries to send, in
    order, and the user it hands to the route handler when it calls the
    real [next].  [jwt.verify] is the interface [JwtVerifier]: the theorems
    hold for every verifier. *)

From S2P Require Import Prelude Model Pricing Orders Cart.

Open Scope dine_scope.
Open Scope nat_scope.

(** ** Tokens *)

Inductive JwtResult := jwt_ok (id : ObjectId) | jwt_expired | jwt_invalid.

(** [jwt.verify(token, process.env.JWT_SECRET)]: the decoded [id], or the
    error it throws ([TokenExpiredError] or any other). *)
Class JwtVerifier := { jwt_verify : string -> JwtResult }.

(** The characters [String.prototype.trim] removes that can occur in an
    ASCII header. *)
Definition is_js_space (a : Ascii.ascii) : bool :=
  existsb (Nat.eqb (Ascii.nat_of_ascii a)) [9; 10; 11; 12; 13; 32]%nat.

Fixpoint drop_spaces (s : string) : string :=
  match s with
  | String a rest => if is_js_space a then drop_spaces rest else s
  | EmptyString => EmptyString
  end.

Fixpoint string_reverse (s : string) : string :=
  match s with
  | String a rest => (string_reverse rest ++ String a EmptyString)%string
  | EmptyString => EmptyString
  end.

(** [s.trim()]: drop the leading spaces, then the trailing ones. *)
Definition js_trim (s : string) : string :=
  string_reverse (drop_spaces (string_reverse (drop_spaces s))).

Definition bearer : string := "Bearer ".

(** [authHeader.replace("Bearer ", "").trim()] on a header that starts with
    ["Bearer "]: the first occurrence is the prefix. *)
Definition bearer_token (h : string) : string :=
  js_trim (String.substring (String.length bearer) (String.length h - String.length bearer) h).

Section Middleware.
Context `{JwtVerifier}.

(** [auth] as a handler: the user's id and document, or the 401 it sends. *)
Definition auth (authHeader : option string) : handler DB (ObjectId * User) :=
  match authHeader with
  | None => fail 401 "Authorization header missing or invalid"
  | Some h =>
      guard (String.prefix bearer h) 401 "Authorization header missing or invalid" ;;
      match jwt_verify (bearer_token h) with
      | jwt_expired => fail 401 "Token expired. Please log in again."
      | jwt_invalid => fail 401 "Invalid token"
      | jwt_ok id =>
          db <- get_state ;;
          u <- found (db_users db !! id) 401 "User not found for this token" ;;
          ret (id, u)
      end
  end.

Record MwOutcome := mkMwOutcome {
  mw_sent : list N;
  mw_next : option (ObjectId * User)
}.

(** [auth] used as route middleware. *)
Definition auth_mw (authHeader : option string) (db : DB) : MwOutcome :=
  match fst (auth authHeader db) with
  | Ok x => mkMwOutcome [] (Some x)
  | Err e => mkMwOutcome [err_status e] None
  end.

(** [restaurantAuth] (and [adminAuth] with [allowed] the admin role only):
    [await auth(req, res, () => {})]; when [auth] answered an error,
    [req.user] is unset, reading [req.user.role] throws, and the [catch]
    tries to send a second response, 401 "Authorization failed". *)
Definition role_auth_mw (allowed : Role -> bool) (authHeader : option string) (db : DB) : MwOutcome :=
  match fst (auth authHeader db) with
  | Ok (id, u) =>
      if allowed (u_role u) then mkMwOutcome [] (Some (id, u)) else mkMwOutcome [403%N] None
  | Err e => mkMwOutcome [err_status e; 401%N] None
  end.

Definition restaurant_roles (r : Role) : bool :=
  match r with role_restaurant | role_admin => true | role_customer => false end.

Definition admin_roles (r : Role) : bool :=
  match r with role_admin => true | _ => false end.

Definition restaurantAuth := role_auth_mw restaurant_roles.
Definition adminAuth := role_auth_mw admin_roles.

(** ** Routes: a middleware followed by its handler *)

Definition guarded {A} (mw : option string -> DB -> MwOutcome) (hdr : option string)
  (h : ObjectId -> User -> handler DB A) : DB -> list N * option (result A) * DB :=
  fun db =>
    let o := mw hdr db in
    match mw_next o with
    | Some (id, u) => let '(r, db') := h id u db in (mw_sent o, Some r, db')
    | None => (mw_sent o, None, db)
    end.

(** [GET /api/orders/:id] *)
Definition route_get_order (hdr : option string) (oid : ObjectId) :=
  guarded auth_mw hdr (fun id u => get_order id u oid).

(** [PUT /api/orders/:id/status] *)
Definition route_update_status (hdr : option string) (oid : ObjectId) st note now :=
  guarded restaurantAuth hdr (fun id u => update_order_status id u oid st note now).

End Middleware.

(** ** Properties of the middleware *)

Section MiddlewareProps.
Context `{JwtVerifier}.

Lemma auth_no_effect hdr db : snd (auth hdr db) = db.
Proof.
  unfold auth, bind, guard, ret, fail, get_state, found. destruct hdr as [h|]; [| done].
  destruct (String.prefix bearer h); simpl; try done;
    destruct (jwt_verify _); simpl; try done; by destruct (db_users db !! _).
Qed.

Lemma substring_all s : String.substring 0 (String.length s) s = s.
Proof. induction s as [|a s IH]; simpl; [done | by rewrite IH]. Qed.

Lemma prefix_app p t : String.prefix p (String.append p t) = true.
Proof.
  induction p as [|a p IH]; simpl; [by destruct t |].
  destruct (Ascii.ascii_dec a a); [exact IH | done].
Qed.

(** The token [auth] reads from the header ["Bearer " ++ tok]. *)
Lemma bearer_token_app tok : bearer_token (String.append bearer tok) = js_trim tok.
Proof.
  unfold bearer_token, bearer. f_equal. simpl. rewrite Nat.sub_0_r. apply substring_all.
Qed.

(** [auth] on a well-formed header. *)
Lemma auth_bearer db tok id u :
  jwt_verify (js_trim tok) = jwt_ok id -> db_users db !! id = Some u ->
  fst (auth (Some (String.append bearer tok)) db) = Ok (id, u).
Proof.
  intros Hv Hu. unfold auth, bind, guard, get_state, found, ret, fail.
  rewrite ?prefix_app, bearer_token_app, Hv. simpl. by rewrite Hu.
Qed.

(** C6: [auth] accepts a request exactly when its header starts with
    "Bearer ", the token verifies to a user id, and that user exists; it
    changes nothing in the store.  Nothing else about the user is checked:
    a deactivated account ([isActive] false) keeps full access. *)
Theorem auth_spec hdr db id u :
  fst (auth hdr db) = Ok (id, u) <->
  exists h, hdr = Some h /\ String.prefix bearer h = true /\
            jwt_verify (bearer_token h) = jwt_ok id /\ db_users db !! id = Some u.
Proof.
  unfold auth. split.
  - destruct hdr as [h|]; [| done]. unfold bind, guard, ret, fail.
    destruct (String.prefix bearer h) eqn:Ep; [| done]. simpl.
    destruct (jwt_verify _) as [id'| |] eqn:Ev; try done.
    unfold bind, get_state, found, ret, fail. simpl.
    destruct (db_users db !! id') eqn:Eu; [| done]. simpl. intros [= <- <-]. eauto.
  - intros (h & -> & Hp & Hv & Hu). unfold bind, guard, ret, fail. rewrite Hp. simpl.
    rewrite Hv. unfold bind, get_state, found, ret, fail. by rewrite Hu.
Qed.

(** [restaurantAuth] hands the request on exactly for authenticated
    users whose role is restaurant or admin, and answers 403 to an
    authenticated customer. *)
Theorem restaurantAuth_spec hdr db id u :
  fst (auth hdr db) = Ok (id, u) ->
  (u_role u = role_restaurant \/ u_role u = role_admin ->
     restaurantAuth hdr db = mkMwOutcome [] (Some (id, u))) /\
  (u_role u = role_customer -> restaurantAuth hdr db = mkMwOutcome [403%N] None).
Proof.
  intros Ha. unfold restaurantAuth, role_auth_mw. rewrite Ha.
  split; [intros [E|E] | intros E]; by rewrite E.
Qed.

(** when [auth] rejects a request, [restaurantAuth] and [adminAuth]
    try to answer it twice: the 401 of [auth], then, after reading the
    unset [req.user] throws, the 401 "Authorization failed" of their
    [catch]; the handler is never reached. *)
Theorem role_auth_double_response allowed hdr db e :
  fst (auth hdr db) = Err e ->
  role_auth_mw allowed hdr db = mkMwOutcome [err_status e; 401%N] None /\ err_status e = 401%N.
Proof.
  intros Ha. unfold role_auth_mw. rewrite Ha. split; [done |].
  revert Ha. unfold auth. destruct hdr as [h|]; [| by intros [= <-]].
  unfold bind, guard, ret, fail. destruct (String.prefix bearer h); [| by intros [= <-]]. simpl.
  destruct (jwt_verify _); try by intros [= <-].
  unfold bind, get_state, found, ret, fail. destruct (db_users db !! id); simpl; by intros [= <-].
Qed.

(** [GET /api/orders/:id] answers 401 without running the handler to
    a request with no credentials, and 403 to an authenticated user who is
    neither the order's customer, nor its restaurant's owner, nor an admin;
    neither request changes the store. *)
Theorem route_get_order_denied hdr db oid o r id u :
  route_get_order None oid db = ([401%N], None, db) /\
  (fst (auth hdr db) = Ok (id, u) ->
   db_orders db !! oid = Some o -> is_Some (db_users db !! o_customer o) ->
   db_restaurants db !! o_restaurant o = Some r ->
   o_customer o <> id -> r_owner r <> id -> u_role u <> role_admin ->
   route_get_order hdr oid db = ([], Some (Err (HttpError 403 "Not authorized to view this order")), db)).
Proof.
  split; [reflexivity |].
  intros Ha Ho Hu Hr Hc Hown Hadm. unfold route_get_order, guarded, auth_mw. rewrite Ha. simpl.
  rewrite (get_order_access id u oid db o r Ho Hu Hr).
  rewrite bool_decide_eq_false_2; [done | naive_solver].
Qed.

End MiddlewareProps.
