(* ===== verification/Restaurants.v ===== *)
(** * Restaurants: the routes of [src/backend/routes/restaurants.js]

    Registration ([POST /]) builds the document as
    [new Restaurant({...req.body, owner: req.user.id})], and the update
    ([PUT /:id]) runs [findByIdAndUpdate(id, req.body)]: in both the
    client's body is written into the document as it is.  The body is
    [RestaurantBody]: every path of the document the model keeps, each
    optional, the nested objects [deliveryInfo] and [rating] as a whole
    (a nested object in the body replaces the stored one, and the paths it
    leaves out read back as the schema defaults), and the paths that are
    only validated ([email], [phone], [description], [address],
    [images.logo], [businessInfo]).  [apply_body] is that write, for the
    creation (on top of the schema defaults) and for the update alike.

    The listing ([GET /]) is the filter of [find_docs], a sort and the
    pagination of [Query]; its [$text] search is the section variable
    [text_match] (MongoDB's text index), and the [$near] geographic filter
    is not modelled: the query record has no coordinates. *)

From S2P Require Import Prelude Model Query Auth.

Open Scope Q_scope.
Open Scope dine_scope.

(** ** Request bodies *)

Record DeliveryInfoBody := mkDeliveryInfoBody {
  dib_deliveryFee : option Q;
  dib_minimumOrder : option Q;
  dib_estimatedDeliveryTime : option string
}.

Record RatingBody := mkRatingBody {
  rbd_average : option Q;
  rbd_count : option Z
}.

Record RestaurantBody := mkRestaurantBody {
  rb_name : option string;
  rb_owner : option ObjectId;
  rb_deliveryInfo : option DeliveryInfoBody;
  rb_rating : option RatingBody;
  rb_status : option RestaurantStatus;
  rb_isActive : option bool;
  rb_totalOrders : option Z;
  rb_totalRevenue : option Q;
  rb_cuisine : option (list string);
  (* validated, not kept by the model *)
  rb_email : option string;
  rb_phone : option string;
  rb_description : option string;
  rb_address : option Address;
  rb_lat : option Q;
  rb_lng : option Q;
  rb_logo : option string;
  rb_licenseNumber : option string;
  rb_taxId : option string
}.

(** ** Writing a body into a document *)

(** The body's paths over the document [r]: a path the body carries
    replaces the stored one; a nested object replaces the whole object,
    its missing paths reading back as the schema defaults. *)
Definition apply_body (b : RestaurantBody) (r : Restaurant) : Restaurant :=
  let di := rb_deliveryInfo b in
  let rt := rb_rating b in
  mkRestaurant (default (r_name r) (rb_name b)) (default (r_owner r) (rb_owner b))
    (match di with Some d => default 0 (dib_deliveryFee d) | None => r_deliveryFee r end)
    (match di with Some d => default 0 (dib_minimumOrder d) | None => r_minimumOrder r end)
    (match rt with Some x => default 0 (rbd_average x) | None => r_rating_average r end)
    (match rt with Some x => default 0%Z (rbd_count x) | None => r_rating_count r end)
    (default (r_status r) (rb_status b)) (default (r_isActive r) (rb_isActive b))
    (default (r_totalOrders r) (rb_totalOrders b)) (default (r_totalRevenue r) (rb_totalRevenue b))
    (default (r_cuisine r) (rb_cuisine b)) (r_createdAt r)
    (match di with Some d => default "30-45 mins" (dib_estimatedDeliveryTime d)
                 | None => r_estimatedDeliveryTime r end).

(** The schema defaults of a new restaurant ([status: "pending"],
    [isActive: true], zero fees, rating and totals). *)
Definition restaurant_defaults (owner : ObjectId) (now : Z) : Restaurant :=
  mkRestaurant "" owner 0 0 0 0 rs_pending true 0 0 [] now "30-45 mins".

(** [new Restaurant({...req.body, owner: req.user.id})]: the explicit
    [owner] comes last and wins over the body's. *)
Definition new_restaurant (uid : ObjectId) (b : RestaurantBody) (now : Z) : Restaurant :=
  let r := apply_body b (restaurant_defaults uid now) in
  mkRestaurant (r_name r) uid (r_deliveryFee r) (r_minimumOrder r) (r_rating_average r)
    (r_rating_count r) (r_status r) (r_isActive r) (r_totalOrders r) (r_totalRevenue r)
    (r_cuisine r) (r_createdAt r) (r_estimatedDeliveryTime r).

(** [cuisine: {type: [String], enum: [...]}] *)
Definition cuisine_enum : list string :=
  ["Italian"; "Chinese"; "Indian"; "Mexican"; "American"; "Japanese"; "Thai"; "Mediterranean";
   "French"; "Korean"; "Vietnamese"; "Greek"; "Spanish"; "Lebanese"; "Turkish"; "Other"].

Definition cuisine_valid (cs : list string) : bool :=
  forallb (fun c => bool_decide (c ∈ cuisine_enum)) cs.

Definition name_valid (s : string) : bool :=
  notEmpty s && (String.length s <=? 100)%nat.

Definition average_valid (a : Q) : bool := Qle_bool 0 a && Qle_bool a 5.

(** The schema's validators on the paths the model keeps: [name] is
    required with [maxlength: 100], [cuisine] values are in the enum, and
    [rating.average] has [min: 0, max: 5].  [save()] runs them all. *)
Definition restaurant_schema_valid (r : Restaurant) : bool :=
  name_valid (r_name r) && cuisine_valid (r_cuisine r) && average_valid (r_rating_average r).

(** [runValidators: true] on an update runs the validators of the paths
    the update sets, and only those. *)
Definition body_paths_valid (b : RestaurantBody) : bool :=
  default true (option_map name_valid (rb_name b)) &&
  default true (option_map cuisine_valid (rb_cuisine b)) &&
  match rb_rating b with
  | Some x => average_valid (default 0 (rbd_average x))
  | None => true
  end.

Section Routes.
Context `{FormatValidators}.

Definition length_between (lo hi : nat) (s : string) : bool :=
  (lo <=? String.length s)%nat && (String.length s <=? hi)%nat.

Definition opt_check (f : string -> bool) (o : option string) : bool :=
  match o with Some s => f s | None => false end.

(** The [express-validator] chain of [POST /api/restaurants]; [name] and
    [description] are checked after [.trim()]. *)
Definition validate_register (b : RestaurantBody) : bool :=
  opt_check (fun s => length_between 2 100 (js_trim s)) (rb_name b) &&
  opt_check isEmail (rb_email b) && opt_check isMobilePhone (rb_phone b) &&
  opt_check (fun s => length_between 10 500 (js_trim s)) (rb_description b) &&
  (match rb_cuisine b with Some (_ :: _) => true | _ => false end) &&
  (match rb_address b with
   | Some a => notEmpty (a_street a) && notEmpty (a_city a) && notEmpty (a_state a) &&
               notEmpty (a_zipCode a)
   | None => false
   end) &&
  bool_decide (is_Some (rb_lat b)) && bool_decide (is_Some (rb_lng b)) &&
  opt_check isURL (rb_logo b) && opt_check notEmpty (rb_licenseNumber b) &&
  opt_check notEmpty (rb_taxId b).

(** [body("name").trim()] and [body("description").trim()] rewrite the
    body before the handler reads it. *)
Definition trim_body (b : RestaurantBody) : RestaurantBody :=
  mkRestaurantBody (option_map js_trim (rb_name b)) (rb_owner b) (rb_deliveryInfo b) (rb_rating b)
    (rb_status b) (rb_isActive b) (rb_totalOrders b) (rb_totalRevenue b) (rb_cuisine b)
    (rb_email b) (rb_phone b) (option_map js_trim (rb_description b)) (rb_address b)
    (rb_lat b) (rb_lng b) (rb_logo b) (rb_licenseNumber b) (rb_taxId b).

Definition owned_by (uid : ObjectId) (r : Restaurant) : bool := bool_decide (r_owner r = uid).

(** [POST /api/restaurants], behind [auth]. *)
Definition register_restaurant (uid : ObjectId) (b : RestaurantBody) (now : Z)
  : handler DB (ObjectId * Restaurant) :=
  guard (validate_register b) 400 "Validation failed" ;;
  db <- get_state ;;
  guard (bool_decide (find_docs (db_restaurants db) (owned_by uid) = []))
    400 "You already have a registered restaurant" ;;
  let r := new_restaurant uid (trim_body b) now in
  guard (restaurant_schema_valid r) 500 "Server error" ;;
  rid <- fresh_id ;;
  modify (fun db => set_restaurants db (<[rid := r]> (db_restaurants db))) ;;
  ret (rid, r).

(** [GET /api/restaurants/:id] *)
Definition get_restaurant (rid : ObjectId) : handler DB Restaurant :=
  db <- get_state ;;
  found (db_restaurants db !! rid) 404 "Restaurant not found".

(** [PUT /api/restaurants/:id], behind [restaurantAuth].  With
    [runValidators] the update validates the paths it sets; a failure is
    thrown and answered 500. *)
Definition update_restaurant (uid : ObjectId) (u : User) (rid : ObjectId) (b : RestaurantBody)
  : handler DB Restaurant :=
  db <- get_state ;;
  r <- found (db_restaurants db !! rid) 404 "Restaurant not found" ;;
  guard (bool_decide (u_role u = role_admin) || owned_by uid r)
    403 "Not authorized to update this restaurant" ;;
  guard (body_paths_valid b) 500 "Server error" ;;
  let r' := apply_body b r in
  modify (fun db => set_restaurants db (<[rid := r']> (db_restaurants db))) ;;
  ret r'.

(** [DELETE /api/restaurants/:id], behind [adminAuth]: the restaurant and
    its menu items ([MenuItem.deleteMany({restaurant: id})]). *)
Definition delete_restaurant (rid : ObjectId) : handler DB unit :=
  db <- get_state ;;
  _ <- found (db_restaurants db !! rid) 404 "Restaurant not found" ;;
  modify (fun db => set_restaurants db (delete rid (db_restaurants db))) ;;
  modify (fun db => set_menu db (filter (fun kv => mi_restaurant kv.2 <> rid) (db_menu db))).

Definition set_restaurant_status (r : Restaurant) (st : RestaurantStatus) : Restaurant :=
  mkRestaurant (r_name r) (r_owner r) (r_deliveryFee r) (r_minimumOrder r) (r_rating_average r)
    (r_rating_count r) st (r_isActive r) (r_totalOrders r) (r_totalRevenue r) (r_cuisine r)
    (r_createdAt r) (r_estimatedDeliveryTime r).

(** [body("status").isIn(["approved", "rejected", "suspended"])] *)
Definition admin_status_allowed (st : RestaurantStatus) : bool :=
  match st with rs_pending => false | _ => true end.

(** [PUT /api/restaurants/:id/status], behind [adminAuth]. *)
Definition update_restaurant_status (rid : ObjectId) (st : RestaurantStatus) : handler DB Restaurant :=
  guard (admin_status_allowed st) 400 "Validation failed" ;;
  db <- get_state ;;
  r <- found (db_restaurants db !! rid) 404 "Restaurant not found" ;;
  let r' := set_restaurant_status r st in
  modify (fun db => set_restaurants db (<[rid := r']> (db_restaurants db))) ;;
  ret r'.

End Routes.

(** ** GET /api/restaurants *)

Record RestaurantQuery := mkRestaurantQuery {
  rq_page : Z;
  rq_limit : Z;
  rq_cuisine : option string;
  rq_rating : option Q;
  rq_search : option string;
  rq_sortBy : option string;
  rq_sortOrder : option string
}.

Section Listing.
(** [$text: {$search: s}]: whether the text index matches [s] on a
    restaurant's name, description or cuisine. *)
Variable text_match : string -> Restaurant -> bool.

(** The query validators: [page] at least 1, [limit] in 1..50, [rating]
    in 0..5. *)
Definition validate_restaurant_query (q : RestaurantQuery) : bool :=
  Z.leb 1 (rq_page q) && Z.leb 1 (rq_limit q) && Z.leb (rq_limit q) 50 &&
  default true (option_map (fun r => Qle_bool 0 r && Qle_bool r 5) (rq_rating q)).

(** [{status: "approved", isActive: true}] and the optional filters; an
    empty [cuisine] or [search] string is falsy and adds no filter. *)
Definition restaurant_matches (q : RestaurantQuery) (r : Restaurant) : bool :=
  bool_decide (r_status r = rs_approved) && r_isActive r &&
  (match rq_cuisine q with
   | Some c => if String.eqb c "" then true else bool_decide (c ∈ r_cuisine r)
   | None => true end) &&
  default true (option_map (fun m => Qle_bool m (r_rating_average r)) (rq_rating q)) &&
  (match rq_search q with
   | Some s => if String.eqb s "" then true else text_match s r
   | None => true end).

(** The sort options: [sortBy] defaults to ["rating.average"], which is
    none of the tested values, so the default sort is [{createdAt: -1}]. *)
Definition sort_restaurants (q : RestaurantQuery) (l : list (ObjectId * Restaurant))
  : list (ObjectId * Restaurant) :=
  let asc := String.eqb (default "desc" (rq_sortOrder q)) "asc" in
  let by_key {K} (le : K -> K -> bool) (key : Restaurant -> K) :=
    sort_docs (fun a b => if asc then le (key a) (key b) else le (key b) (key a)) l in
  let sortBy := default "rating.average" (rq_sortBy q) in
  if String.eqb sortBy "rating" then by_key Qle_bool r_rating_average
  else if String.eqb sortBy "name" then by_key String.leb r_name
  else if String.eqb sortBy "deliveryTime" then by_key String.leb r_estimatedDeliveryTime
  else newest_first r_createdAt l.

(** [GET /api/restaurants]: the page of matches and the pagination block. *)
Definition list_restaurants (q : RestaurantQuery)
  : handler DB (list (ObjectId * Restaurant) * Pagination) :=
  guard (validate_restaurant_query q) 400 "Validation failed" ;;
  db <- get_state ;;
  ret (list_page (rq_page q) (rq_limit q)
         (sort_restaurants q (find_docs (db_restaurants db) (restaurant_matches q)))).

End Listing.

(** ** Properties *)

Section Props.
Context `{FormatValidators}.

Lemma register_restaurant_ok uid b now db rid r db' :
  register_restaurant uid b now db = (Ok (rid, r), db') ->
  validate_register b = true /\ find_docs (db_restaurants db) (owned_by uid) = [] /\
  r = new_restaurant uid (trim_body b) now /\ restaurant_schema_valid r = true /\
  rid = db_next_id db /\ db_restaurants db' = <[rid := r]> (db_restaurants db).
Proof.
  unfold register_restaurant, fresh_id. intros Hrun. hrun Hrun.
  injection Hrun as <- <- <-.
  repeat match goal with Hb : bool_decide _ = true |- _ => apply bool_decide_eq_true in Hb end.
  split_and!; done.
Qed.

(** C39: Registration takes the status from the request body: a body that
    carries [status: "approved"] registers an approved restaurant, with no
    admin involved; without one the restaurant is pending.  The owner is
    always the requester, and the requester had no restaurant before. *)
Theorem register_restaurant_status uid b now db rid r db' :
  register_restaurant uid b now db = (Ok (rid, r), db') ->
  r_owner r = uid /\ r_status r = default rs_pending (rb_status b) /\
  db_restaurants db' !! rid = Some r /\
  (forall k r0, db_restaurants db !! k = Some r0 -> r_owner r0 <> uid).
Proof.
  intros Hrun. destruct (register_restaurant_ok _ _ _ _ _ _ _ Hrun) as (_ & Hnone & -> & _ & _ & Hdb).
  split_and!; [done | reflexivity | by rewrite Hdb, lookup_insert_eq |].
  intros k r0 Hk Hown. assert (Hin : (k, r0) ∈ find_docs (db_restaurants db) (owned_by uid)).
  { apply elem_of_find_docs. split; [done |]. by apply bool_decide_eq_true. }
  rewrite Hnone in Hin. set_solver.
Qed.

(** The update writes the whole body into the document: an owner who is
    not an admin can set every kept path, its approval [status], its
    [owner], its rating and its order totals included. *)
Theorem update_restaurant_applies_body uid u rid b db r :
  db_restaurants db !! rid = Some r -> r_owner r = uid -> body_paths_valid b = true ->
  update_restaurant uid u rid b db =
    (Ok (apply_body b r), set_restaurants db (<[rid := apply_body b r]> (db_restaurants db))).
Proof.
  intros Hr Hown Hb. unfold update_restaurant, bind, get_state, found, guard, ret, fail, modify.
  rewrite Hr. unfold owned_by. rewrite (bool_decide_eq_true_2 (r_owner r = uid)) by done.
  rewrite orb_true_r, Hb. reflexivity.
Qed.

(** Every successful update was made by an admin or the owner, and stores
    [apply_body] of the body over the stored document. *)
Theorem update_restaurant_success uid u rid b db r' db' :
  update_restaurant uid u rid b db = (Ok r', db') ->
  exists r, db_restaurants db !! rid = Some r /\ (u_role u = role_admin \/ r_owner r = uid) /\
    body_paths_valid b = true /\ r' = apply_body b r /\
    db' = set_restaurants db (<[rid := r']> (db_restaurants db)).
Proof.
  unfold update_restaurant, owned_by. intros Hrun. hrun Hrun. injection Hrun as <- <-.
  match goal with Ho : _ || _ = true |- _ =>
    apply orb_true_iff in Ho as [Ho | Ho]; apply bool_decide_eq_true in Ho end; eauto 10.
Qed.

(** Deleting a restaurant removes it and every menu item of it, and keeps
    the menu items of the other restaurants. *)
Theorem delete_restaurant_cascade rid db db' :
  delete_restaurant rid db = (Ok tt, db') ->
  db_restaurants db' !! rid = None /\
  (forall k mi, db_menu db' !! k = Some mi <-> db_menu db !! k = Some mi /\ mi_restaurant mi <> rid).
Proof.
  unfold delete_restaurant. intros Hrun. hrun Hrun. injection Hrun as <-. simpl.
  split; [apply lookup_delete_eq |]. intros k mi. rewrite map_lookup_filter_Some. done.
Qed.

End Props.

Section ListingProps.
Variable text_match : string -> Restaurant -> bool.

Lemma sort_restaurants_perm q l : sort_restaurants q l ≡ₚ l.
Proof.
  unfold sort_restaurants.
  repeat case_match; first [apply newest_first_perm | apply sort_docs_perm].
Qed.

(** Every restaurant the listing returns is stored, approved, active and
    matches the query's filters; the listing changes nothing. *)
Theorem list_restaurants_sound q db res db' :
  list_restaurants text_match q db = (Ok res, db') ->
  db' = db /\ forall k r, (k, r) ∈ res.1 ->
    db_restaurants db !! k = Some r /\ r_status r = rs_approved /\ r_isActive r = true /\
    restaurant_matches text_match q r = true.
Proof.
  unfold list_restaurants. intros Hrun. hrun Hrun. injection Hrun as <- <-.
  split; [done |]. intros k r Hin. simpl in Hin.
  eapply elem_of_sublist in Hin; [| apply paginate_sublist].
  rewrite sort_restaurants_perm, elem_of_find_docs in Hin. destruct Hin as [Hk Hm].
  split_and!; [done | | | done]; unfold restaurant_matches in Hm;
    repeat match goal with H : _ && _ = true |- _ => apply andb_true_iff in H as [H ?] end;
    [by apply bool_decide_eq_true in Hm | done].
Qed.

Definition with_page (q : RestaurantQuery) (p : Z) : RestaurantQuery :=
  mkRestaurantQuery p (rq_limit q) (rq_cuisine q) (rq_rating q) (rq_search q) (rq_sortBy q)
    (rq_sortOrder q).

(** The listing is complete: its pages are the slices of one ordering of
    all matching restaurants, and walking through the pages [1 .. pages]
    its pagination block announces returns every match exactly once. *)
Theorem list_restaurants_complete q db :
  validate_restaurant_query q = true ->
  exists all, all ≡ₚ find_docs (db_restaurants db) (restaurant_matches text_match q) /\
    (forall p, (1 <= p)%Z ->
       list_restaurants text_match (with_page q p) db =
         (Ok (paginate p (rq_limit q) all,
              pagination p (rq_limit q) (Z.of_nat (length all))), db)) /\
    concat (map (fun p => paginate p (rq_limit q) all)
                (page_numbers (pg_pages (pagination 1 (rq_limit q) (Z.of_nat (length all)))))) = all.
Proof.
  intros Hv. unfold validate_restaurant_query in Hv.
  apply andb_true_iff in Hv as [Hv Hr]. apply andb_true_iff in Hv as [Hv Hl2].
  apply andb_true_iff in Hv as [_ Hl1].
  exists (sort_restaurants q (find_docs (db_restaurants db) (restaurant_matches text_match q))).
  split; [apply sort_restaurants_perm |]. split.
  - intros p Hp. unfold list_restaurants, bind, guard, get_state, ret, validate_restaurant_query.
    simpl. rewrite Hr, Hl1, Hl2. replace (Z.leb 1 p) with true by lia. reflexivity.
  - apply pages_enumerate. lia.
Qed.

End ListingProps.
