(* ===== verification/Menu.v ===== *)
(** * Menu: the routes of [src/backend/routes/menu.js]

    Menu items are created with [new MenuItem(req.body)] and updated with
    [findByIdAndUpdate(id, req.body)], so, as for restaurants, the body is
    written into the document as it is ([MenuItemBody], [apply_item_body]).
    The ownership test of the update and the deletion is made on the
    restaurant the item belongs to {e before} the write, so an update can
    move an item into another restaurant.

    The listing groups the items of a restaurant by category, as the
    [reduce] of the route does, into an association list in the order the
    categories first appear ([group_by_category]). *)

From stdpp Require Import sorting.
From S2P Require Import Prelude Model Query Auth Cart.

Open Scope Q_scope.
Open Scope dine_scope.

Record MenuItemBody := mkMenuItemBody {
  mb_restaurant : option ObjectId;
  mb_name : option string;
  mb_price : option Q;
  mb_isAvailable : option bool;
  mb_category : option string;
  (* validated, not kept by the model *)
  mb_description : option string;
  mb_images : option (list string)
}.

(** [category: {enum: [...]}] *)
Definition category_enum : list string :=
  ["Appetizers"; "Main Course"; "Desserts"; "Beverages"; "Salads"; "Soups"; "Pizza"; "Burgers";
   "Sandwiches"; "Pasta"; "Rice"; "Noodles"; "Seafood"; "Vegetarian"; "Vegan"; "Specials";
   "Combos"; "Sides"].

(** The body's paths over the item [mi]. *)
Definition apply_item_body (b : MenuItemBody) (mi : MenuItem) : MenuItem :=
  mkMenuItem (default (mi_restaurant mi) (mb_restaurant b)) (default (mi_name mi) (mb_name b))
    (default (mi_price mi) (mb_price b)) (default (mi_isAvailable mi) (mb_isAvailable b))
    (default (mi_category mi) (mb_category b)).

(** The schema validators on the kept paths: [name] required with
    [maxlength: 100], [price] [min: 0], [category] in the enum. *)
Definition item_name_valid (s : string) : bool := notEmpty s && (String.length s <=? 100)%nat.
Definition item_price_valid (p : Q) : bool := Qle_bool 0 p.
Definition item_category_valid (c : string) : bool := bool_decide (c ∈ category_enum).

Definition menu_item_schema_valid (mi : MenuItem) : bool :=
  item_name_valid (mi_name mi) && item_price_valid (mi_price mi) &&
  item_category_valid (mi_category mi).

Definition item_body_paths_valid (b : MenuItemBody) : bool :=
  default true (option_map item_name_valid (mb_name b)) &&
  default true (option_map item_price_valid (mb_price b)) &&
  default true (option_map item_category_valid (mb_category b)).

Section Routes.

Definition between (lo hi : nat) (s : string) : bool :=
  (lo <=? String.length s)%nat && (String.length s <=? hi)%nat.

(** The [express-validator] chain of [POST /api/menu] ([name] and
    [description] after [.trim()]). *)
Definition validate_menu_item (b : MenuItemBody) : bool :=
  bool_decide (is_Some (mb_restaurant b)) &&
  default false (option_map (fun s => between 2 100 (js_trim s)) (mb_name b)) &&
  default false (option_map (fun s => between 10 300 (js_trim s)) (mb_description b)) &&
  default false (option_map notEmpty (mb_category b)) &&
  default false (option_map (fun p => Qle_bool 0 p) (mb_price b)) &&
  (match mb_images b with Some (_ :: _) => true | _ => false end).

(** The item a creation stores: the schema default [isAvailable: true],
    the trimmed name, the body's other paths. *)
Definition new_menu_item (b : MenuItemBody) : MenuItem :=
  apply_item_body (mkMenuItemBody (mb_restaurant b) (option_map js_trim (mb_name b)) (mb_price b)
                     (mb_isAvailable b) (mb_category b) (mb_description b) (mb_images b))
    (mkMenuItem 0%N "" 0 true "").

(** [req.user.role !== "admin" && restaurant.owner.toString() !== req.user.id] *)
Definition may_manage (uid : ObjectId) (u : User) (r : Restaurant) : bool :=
  bool_decide (u_role u = role_admin) || bool_decide (r_owner r = uid).

(** [POST /api/menu], behind [restaurantAuth]. *)
Definition create_menu_item (uid : ObjectId) (u : User) (b : MenuItemBody)
  : handler DB (ObjectId * MenuItem) :=
  guard (validate_menu_item b) 400 "Validation failed" ;;
  db <- get_state ;;
  r <- found (mb_restaurant b ≫= fun rid => db_restaurants db !! rid) 404 "Restaurant not found" ;;
  guard (may_manage uid u r) 403 "Not authorized to add items to this restaurant" ;;
  let mi := new_menu_item b in
  guard (menu_item_schema_valid mi) 500 "Server error" ;;
  id <- fresh_id ;;
  modify (fun db => set_menu db (<[id := mi]> (db_menu db))) ;;
  ret (id, mi).

(** [GET /api/menu/:id] *)
Definition get_menu_item (id : ObjectId) : handler DB MenuItem :=
  db <- get_state ;;
  found (db_menu db !! id) 404 "Menu item not found".

(** The ownership test of the update and the deletion: the item's
    restaurant is populated; for a non-admin a missing restaurant makes
    [.owner] throw (500). *)
Definition item_owner_check (uid : ObjectId) (u : User) (db : DB) (mi : MenuItem) (msg : string)
  : handler DB unit :=
  if bool_decide (u_role u = role_admin) then ret tt
  else r <- found (db_restaurants db !! mi_restaurant mi) 500 "Server error" ;;
       guard (bool_decide (r_owner r = uid)) 403 msg.

(** [PUT /api/menu/:id], behind [restaurantAuth]. *)
Definition update_menu_item (uid : ObjectId) (u : User) (id : ObjectId) (b : MenuItemBody)
  : handler DB MenuItem :=
  db <- get_state ;;
  mi <- found (db_menu db !! id) 404 "Menu item not found" ;;
  item_owner_check uid u db mi "Not authorized to update this menu item" ;;
  guard (item_body_paths_valid b) 500 "Server error" ;;
  let mi' := apply_item_body b mi in
  modify (fun db => set_menu db (<[id := mi']> (db_menu db))) ;;
  ret mi'.

(** [DELETE /api/menu/:id], behind [restaurantAuth].  Carts that hold
    the item are left as they are. *)
Definition delete_menu_item (uid : ObjectId) (u : User) (id : ObjectId) : handler DB unit :=
  db <- get_state ;;
  mi <- found (db_menu db !! id) 404 "Menu item not found" ;;
  item_owner_check uid u db mi "Not authorized to delete this menu item" ;;
  modify (fun db => set_menu db (delete id (db_menu db))).

End Routes.

(** ** GET /api/menu/restaurant/:restaurantId *)

Record MenuQuery := mkMenuQuery {
  mq_category : option string;
  mq_search : option string;
  (** the raw query string; the route's default is the boolean [true] *)
  mq_available : option string
}.

(** [acc[category].push(item)], creating the group on first use. *)
Fixpoint add_to_group {X} (c : string) (x : X) (acc : list (string * list X)) : list (string * list X) :=
  match acc with
  | [] => [(c, [x])]
  | (c', xs) :: rest => if String.eqb c c' then (c', xs ++ [x]) :: rest
                       else (c', xs) :: add_to_group c x rest
  end.

Definition group_by_category (items : list (ObjectId * MenuItem)) : list (string * list (ObjectId * MenuItem)) :=
  fold_left (fun acc kv => add_to_group (mi_category kv.2) kv acc) items [].

(** [.sort({category: 1, name: 1})] *)
Definition category_name_le (a b : MenuItem) : bool :=
  if String.eqb (mi_category a) (mi_category b) then String.leb (mi_name a) (mi_name b)
  else String.leb (mi_category a) (mi_category b).

Section Listing.
Variable text_match : string -> MenuItem -> bool.

(** [{restaurant: id}], [isAvailable: true] only when the query string is
    ["true"] (the default [true] is a boolean, not the string), the
    category and the text search when given. *)
Definition menu_matches (rid : ObjectId) (q : MenuQuery) (mi : MenuItem) : bool :=
  bool_decide (mi_restaurant mi = rid) &&
  (match mq_available q with Some s => if String.eqb s "true" then mi_isAvailable mi else true
                         | None => true end) &&
  (match mq_category q with Some c => if String.eqb c "" then true else String.eqb (mi_category mi) c
                        | None => true end) &&
  (match mq_search q with Some s => if String.eqb s "" then true else text_match s mi
                      | None => true end).

Definition menu_items_of (rid : ObjectId) (q : MenuQuery) (db : DB) : list (ObjectId * MenuItem) :=
  sort_docs category_name_le (find_docs (db_menu db) (menu_matches rid q)).

(** [query("available").optional().isBoolean()] *)
Definition validate_menu_query (q : MenuQuery) : bool :=
  match mq_available q with
  | Some s => bool_decide (s ∈ ["true"; "false"; "1"; "0"])
  | None => true
  end.

(** The answer [{data: groupedMenu, total: menuItems.length}]. *)
Definition list_menu (rid : ObjectId) (q : MenuQuery)
  : handler DB (list (string * list (ObjectId * MenuItem)) * nat) :=
  guard (validate_menu_query q) 400 "Validation failed" ;;
  db <- get_state ;;
  let items := menu_items_of rid q db in
  ret (group_by_category items, length items).

End Listing.

Definition str_le (a b : string) : Prop := String.leb a b = true.

#[export] Instance str_le_dec : RelDecision str_le.
Proof. intros a b. unfold str_le. apply _. Defined.

(** [MenuItem.distinct("category")] then [.sort()]. *)
Definition list_categories (db : DB) : list string :=
  merge_sort str_le
    (remove_dups (map (fun kv => mi_category kv.2) (map_to_list (db_menu db)))).

(** ** Properties *)

Lemma add_to_group_perm {X} c (x : X) acc :
  concat (map snd (add_to_group c x acc)) ≡ₚ concat (map snd acc) ++ [x].
Proof.
  induction acc as [|[c' xs] acc IH]; simpl; [done |].
  case_match; simpl; [solve_Permutation |]. rewrite IH. by rewrite app_assoc.
Qed.

Lemma add_to_group_keys {X} (key : X -> string) c x acc :
  key x = c -> Forall (fun g => Forall (fun y => key y = g.1) g.2) acc ->
  Forall (fun g => Forall (fun y => key y = g.1) g.2) (add_to_group c x acc).
Proof.
  intros Hx. induction acc as [|[c' xs] acc IH]; intros Hall; simpl.
  - repeat constructor. done.
  - apply Forall_cons in Hall as [Hg Hall]. case_match.
    + apply String.eqb_eq in H as <-. constructor; [| done]. simpl in *.
      apply Forall_app. split; [done | by constructor].
    + constructor; [done | by apply IH].
Qed.

Lemma add_to_group_nodup {X} c (x : X) acc :
  NoDup (map fst acc) -> NoDup (map fst (add_to_group c x acc)) /\
  map fst (add_to_group c x acc) ⊆ c :: map fst acc.
Proof.
  induction acc as [|[c' xs] acc IH]; intros Hnd; simpl.
  - split; [repeat constructor; set_solver | set_solver].
  - apply NoDup_cons in Hnd as [Hn Hnd]. case_match; simpl.
    + split; [by apply NoDup_cons | set_solver].
    + destruct (IH Hnd) as [Hnd' Hsub]. apply String.eqb_neq in H.
      split; [apply NoDup_cons; split; [set_solver | done] | set_solver].
Qed.

(** The [reduce] that groups the listed items by category loses and
    duplicates nothing, puts each item under its own category, and makes
    one group per category. *)
Theorem group_by_category_spec (items : list (ObjectId * MenuItem)) :
  concat (map snd (group_by_category items)) ≡ₚ items /\
  Forall (fun g => Forall (fun kv => mi_category kv.2 = g.1) g.2) (group_by_category items) /\
  NoDup (map fst (group_by_category items)).
Proof.
  unfold group_by_category.
  assert (forall acc, concat (map snd (fold_left (fun acc kv => add_to_group (mi_category kv.2) kv acc) items acc))
                      ≡ₚ concat (map snd acc) ++ items /\
    (Forall (fun g => Forall (fun kv => mi_category kv.2 = g.1) g.2) acc ->
     Forall (fun g => Forall (fun kv => mi_category kv.2 = g.1) g.2)
       (fold_left (fun acc kv => add_to_group (mi_category kv.2) kv acc) items acc)) /\
    (NoDup (map fst acc) ->
     NoDup (map fst (fold_left (fun acc kv => add_to_group (mi_category kv.2) kv acc) items acc))))
    as Hgen.
  { induction items as [|kv items IH]; intros acc; simpl; [by rewrite app_nil_r |].
    destruct (IH (add_to_group (mi_category kv.2) kv acc)) as (Hp & Hk & Hn).
    split_and!.
    - rewrite Hp, add_to_group_perm. by rewrite <- app_assoc.
    - intros Hall. apply Hk. by apply add_to_group_keys.
    - intros Hnd. apply Hn. by apply add_to_group_nodup. }
  destruct (Hgen []) as (Hp & Hk & Hn). split_and!; [done | apply Hk; constructor | apply Hn; constructor].
Qed.

Section ListingProps.
Variable text_match : string -> MenuItem -> bool.

(** Without an [available] query parameter the menu of a restaurant lists
    all its items, unavailable ones included: the route's default [true]
    is a boolean and never equals the string ["true"]. *)
Theorem list_menu_default_lists_unavailable rid db groups n db' :
  list_menu text_match rid (mkMenuQuery None None None) db = (Ok (groups, n), db') ->
  db' = db /\
  forall k mi, (k, mi) ∈ concat (map snd groups) <->
               db_menu db !! k = Some mi /\ mi_restaurant mi = rid.
Proof.
  unfold list_menu. intros Hrun. hrun Hrun. injection Hrun as <- <- <-.
  split; [done |]. intros k mi.
  rewrite (proj1 (group_by_category_spec _)). unfold menu_items_of.
  rewrite sort_docs_perm, elem_of_find_docs. unfold menu_matches. simpl.
  rewrite !andb_true_r, bool_decide_eq_true. done.
Qed.

End ListingProps.

(** The update tests the ownership of the restaurant the item belongs to
    before the write, and nothing about the restaurant the body names: the
    owner of an item can move it into any restaurant, one of another owner
    or one that does not exist. *)
Theorem update_menu_item_moves uid u id b db mi r rid2 :
  db_menu db !! id = Some mi -> db_restaurants db !! mi_restaurant mi = Some r ->
  r_owner r = uid -> mb_restaurant b = Some rid2 -> item_body_paths_valid b = true ->
  update_menu_item uid u id b db =
    (Ok (apply_item_body b mi), set_menu db (<[id := apply_item_body b mi]> (db_menu db))) /\
  mi_restaurant (apply_item_body b mi) = rid2.
Proof.
  intros Hmi Hr Hown Hb Hv. split; [| unfold apply_item_body; by rewrite Hb].
  unfold update_menu_item, item_owner_check, bind, get_state, found, guard, ret, fail, modify.
  rewrite Hmi. destruct (bool_decide (u_role u = role_admin)); simpl;
    [| rewrite Hr; simpl; rewrite bool_decide_eq_true_2 by done; simpl]; by rewrite Hv.
Qed.

(** C38: The single-restaurant invariant of carts ([Cart.carts_wf]) is kept by
    the cart routes but not by the menu routes: moving an item that sits in
    a cart into another restaurant leaves the cart scoped to the first
    restaurant with a line of the second. *)
Theorem update_menu_item_breaks_carts_wf :
  exists uid u id b db,
    carts_wf db /\ is_ok (fst (update_menu_item uid u id b db)) = true /\
    ~ carts_wf (snd (update_menu_item uid u id b db)).
Proof.
  set (r10 := mkRestaurant "A" 2%N 0 0 0 0 rs_approved true 0 0 [] 0 "").
  set (r11 := mkRestaurant "B" 3%N 0 0 0 0 rs_approved true 0 0 [] 0 "").
  set (dish := mkMenuItem 10%N "Dish" 9 true "Pizza").
  set (c := mkCart 50%N 1%N (Some 10%N) [mkCartEntry 51%N 20%N 1 [] ""] 0 0 0).
  set (db := mkDB ∅ {[10%N := r10; 11%N := r11]} {[20%N := dish]} {[1%N := c]} ∅ 100%N).
  set (u := mkUser "Bob" "b@x.io" "h" "1" role_restaurant true None "" 0).
  set (b := mkMenuItemBody (Some 11%N) None None None None None None).
  exists 2%N, u, 20%N, b, db. split_and!.
  - intros uid c' Hc. simpl in Hc. apply lookup_singleton_Some in Hc as [<- <-].
    exists 10%N. split; [done |]. repeat constructor; [simpl; lia |].
    exists dish. split; [by vm_compute | done].
  - by vm_compute.
  - intros Hwf. destruct (Hwf 1%N c) as (rid & Hrid & Hlines); [by vm_compute |].
    injection Hrid as <-. apply Forall_cons in Hlines as [(_ & mi & Hmi & Hr) _].
    vm_compute in Hmi. injection Hmi as <-. simpl in Hr. lia.
Qed.
