(* ===== verification/Users.v ===== *)
(** * Users: the routes of [src/backend/routes/auth.js]

    Registration, login, the profile, the password change.  Passwords are
    stored hashed by the [pre("save")] hook of [models/User.js] (bcrypt)
    and checked with [comparePassword]; tokens are made by
    [jwt.sign({id}, secret, {expiresIn: "7d"})].  Both libraries are
    interfaces: [PasswordHasher] with the one law the routes rely on (a
    password matches its own hash), and [JwtIssuer] with the law that a
    token just issued verifies to the id it was issued for, has no
    surrounding spaces and is not empty (a JWT is three dot-separated
    parts).  Token expiry is not modelled: [jwt_verify] has no
    clock.

    The schema's [match] patterns are checked on save: [phone_pattern] is
    the phone pattern [/^\+?[\d\s-()]+$/] written out, and the e-mail
    pattern is the section variable [email_pattern]. *)

From S2P Require Import Prelude Model Query Auth.

Open Scope dine_scope.

Class PasswordHasher := {
  hash_password : string -> string;
  compare_password : string -> string -> bool;
  compare_hash : forall p, compare_password p (hash_password p) = true
}.

Class JwtIssuer `{JwtVerifier} := {
  jwt_sign : ObjectId -> Z -> string;
  jwt_sign_verify : forall id now, jwt_verify (jwt_sign id now) = jwt_ok id;
  jwt_sign_trim : forall id now, js_trim (jwt_sign id now) = jwt_sign id now;
  jwt_sign_nonempty : forall id now, jwt_sign id now <> ""
}.

(** [/^\+?[\d\s-()]+$/]: an optional [+], then one or more digits, spaces,
    [-], [(] or [)]. *)
Definition phone_char (a : Ascii.ascii) : bool :=
  let n := Ascii.nat_of_ascii a in
  ((48 <=? n) && (n <=? 57))%nat || is_js_space a ||
  existsb (Nat.eqb n) [45; 40; 41]%nat.

Fixpoint all_phone_chars (s : string) : bool :=
  match s with
  | EmptyString => true
  | String a rest => phone_char a && all_phone_chars rest
  end.

Definition phone_pattern (s : string) : bool :=
  let body := match s with
              | String a rest => if (Ascii.nat_of_ascii a =? 43)%nat then rest else s
              | EmptyString => s
              end in
  match body with
  | String a rest => phone_char a && all_phone_chars rest
  | EmptyString => false
  end.

Record RegisterReq := mkRegisterReq {
  reg_name : string;
  reg_email : string;
  reg_password : string;
  reg_phone : string;
  reg_role : option Role
}.

Section Routes.
Context `{FormatValidators} `{PasswordHasher} `{JwtVerifier} `{!JwtIssuer}.
(** The schema's e-mail pattern. *)
Variable email_pattern : string -> bool.

Definition len_between (lo hi : nat) (s : string) : bool :=
  (lo <=? String.length s)%nat && (String.length s <=? hi)%nat.

(** The [express-validator] chain of [POST /api/auth/register]; the role
    may be customer or restaurant, never admin. *)
Definition validate_register_req (r : RegisterReq) : bool :=
  len_between 2 50 (js_trim (reg_name r)) && isEmail (reg_email r) &&
  (6 <=? String.length (reg_password r))%nat && isMobilePhone (reg_phone r) &&
  match reg_role r with Some role_admin => false | _ => true end.

(** [User.findOne({email})] *)
Definition find_user_by_email (db : DB) (email : string) : option (ObjectId * User) :=
  head (find_docs (db_users db) (fun u => String.eqb (u_email u) email)).

(** The schema's validators on a user document: [name] at most 50
    characters, the e-mail and phone patterns. *)
Definition user_schema_valid (u : User) : bool :=
  (String.length (u_name u) <=? 50)%nat && email_pattern (u_email u) && phone_pattern (u_phone u).

(** The [pre("save")] hook of [models/User.js] on a new document (whose
    password is always modified): the password is replaced by its hash. *)
Definition user_pre_save (u : User) : User :=
  mkUser (u_name u) (u_email u) (hash_password (u_password u)) (u_phone u) (u_role u)
    (u_isActive u) (u_lastLogin u) (u_avatar u) (u_createdAt u).

(** [POST /api/auth/register]: the new user's id and the token. *)
Definition register_user (r : RegisterReq) (now : Z) : handler DB (ObjectId * string) :=
  guard (validate_register_req r) 400 "Validation failed" ;;
  let email := normalizeEmail (reg_email r) in
  db <- get_state ;;
  guard (bool_decide (find_user_by_email db email = None)) 400 "User already exists with this email" ;;
  let u := mkUser (js_trim (reg_name r)) email (reg_password r) (reg_phone r)
             (default role_customer (reg_role r)) true None "" now in
  guard (user_schema_valid u) 500 "Server error during registration" ;;
  let u := user_pre_save u in
  id <- fresh_id ;;
  modify (fun db => set_users db (<[id := u]> (db_users db))) ;;
  ret (id, jwt_sign id now).

Definition set_last_login (u : User) (t : Z) : User :=
  mkUser (u_name u) (u_email u) (u_password u) (u_phone u) (u_role u) (u_isActive u) (Some t)
    (u_avatar u) (u_createdAt u).

(** [POST /api/auth/login] *)
Definition login_user (email password : string) (now : Z) : handler DB (ObjectId * string) :=
  guard (isEmail email) 400 "Validation failed" ;;
  db <- get_state ;;
  found_user <- found (find_user_by_email db (normalizeEmail email)) 401 "Invalid credentials" ;;
  let '(id, u) := found_user in
  guard (u_isActive u) 401 "Account has been deactivated" ;;
  guard (compare_password password (u_password u)) 401 "Invalid credentials" ;;
  modify (fun db => set_users db (<[id := set_last_login u now]> (db_users db))) ;;
  ret (id, jwt_sign id now).

(** [GET /api/auth/me]: [findById] of the authenticated id. *)
Definition get_me (uid : ObjectId) : handler DB (option User) :=
  db <- get_state ;;
  ret (db_users db !! uid).

Record ProfileReq := mkProfileReq {
  pf_name : option string;
  pf_phone : option string;
  pf_avatar : option string
}.

(** [if (name) user.name = name], and so on: an empty string is falsy and
    leaves the field alone. *)
Definition js_truthy_set (o : option string) (old : string) : string :=
  match o with Some s => if String.eqb s "" then old else s | None => old end.

(** [PUT /api/auth/profile] ([address] and [preferences], merged objects
    the model does not keep, are left out). *)
Definition update_profile (uid : ObjectId) (p : ProfileReq) : handler DB User :=
  guard (default true (option_map (fun s => len_between 2 50 (js_trim s)) (pf_name p)) &&
         default true (option_map isMobilePhone (pf_phone p))) 400 "Validation failed" ;;
  db <- get_state ;;
  u <- found (db_users db !! uid) 404 "User not found" ;;
  let u' := mkUser (js_truthy_set (option_map js_trim (pf_name p)) (u_name u)) (u_email u)
              (u_password u) (js_truthy_set (pf_phone p) (u_phone u)) (u_role u) (u_isActive u)
              (u_lastLogin u) (js_truthy_set (pf_avatar p) (u_avatar u)) (u_createdAt u) in
  guard (user_schema_valid u') 500 "Server error" ;;
  modify (fun db => set_users db (<[uid := u']> (db_users db))) ;;
  ret u'.

(** [PUT /api/auth/change-password] *)
Definition change_password (uid : ObjectId) (current new : string) : handler DB unit :=
  guard (6 <=? String.length new)%nat 400 "Validation failed" ;;
  db <- get_state ;;
  u <- found (db_users db !! uid) 404 "User not found" ;;
  guard (compare_password current (u_password u)) 400 "Current password is incorrect" ;;
  let u' := mkUser (u_name u) (u_email u) (hash_password new) (u_phone u) (u_role u)
              (u_isActive u) (u_lastLogin u) (u_avatar u) (u_createdAt u) in
  modify (fun db => set_users db (<[uid := u']> (db_users db))).

End Routes.

(** ** Properties *)

(** No two users share an e-mail address ([email: {unique: true}]). *)
Definition emails_unique (db : DB) : Prop :=
  forall i j ui uj, db_users db !! i = Some ui -> db_users db !! j = Some uj ->
                    u_email ui = u_email uj -> i = j.

Section Props.
Context `{FormatValidators} `{PasswordHasher} `{JwtVerifier} `{!JwtIssuer}.
Variable email_pattern : string -> bool.

Lemma find_user_by_email_none db e :
  find_user_by_email db e = None -> forall k u, db_users db !! k = Some u -> u_email u <> e.
Proof.
  unfold find_user_by_email. intros Hn k u Hk He.
  destruct (find_docs (db_users db) (fun u => String.eqb (u_email u) e)) eqn:Hf; [| done].
  assert (Hin : (k, u) ∈ find_docs (db_users db) (fun u => String.eqb (u_email u) e)).
  { apply elem_of_find_docs. split; [done |]. by apply String.eqb_eq. }
  rewrite Hf in Hin. set_solver.
Qed.

Lemma register_user_ok r now db id tok db' :
  register_user email_pattern r now db = (Ok (id, tok), db') ->
  validate_register_req r = true /\ find_user_by_email db (normalizeEmail (reg_email r)) = None /\
  id = db_next_id db /\ tok = jwt_sign id now /\
  db_users db' = <[id := user_pre_save (mkUser (js_trim (reg_name r)) (normalizeEmail (reg_email r))
                           (reg_password r) (reg_phone r)
                           (default role_customer (reg_role r)) true None "" now)]> (db_users db).
Proof.
  unfold register_user, fresh_id. intros Hrun. hrun Hrun. injection Hrun as <- <- <-.
  repeat match goal with Hb : bool_decide _ = true |- _ => apply bool_decide_eq_true in Hb end.
  split_and!; done.
Qed.

Lemma login_user_ok e pw now db id tok db' :
  login_user e pw now db = (Ok (id, tok), db') ->
  tok = jwt_sign id now /\ exists u, db_users db' !! id = Some u /\ u_isActive u = true.
Proof.
  unfold login_user. intros Hrun. hrun Hrun.
  match goal with p : (ObjectId * User)%type |- _ => destruct p as [id0 u0] end.
  hrun Hrun. injection Hrun as <- <- <-. split; [done |].
  eexists. simpl. rewrite lookup_insert_eq. split; [done |]. done.
Qed.

(** A token the server issued authenticates its user as long as the user
    exists. *)
Lemma issued_token_auth db id u now :
  db_users db !! id = Some u -> fst (auth (Some (String.append bearer (jwt_sign id now))) db) = Ok (id, u).
Proof. intros Hu. apply auth_bearer; [by rewrite jwt_sign_trim, jwt_sign_verify | done]. Qed.

(** Inserting a user whose address no user has keeps addresses unique. *)
Lemma emails_unique_insert db db' id u :
  emails_unique db -> find_user_by_email db (u_email u) = None ->
  db_users db' = <[id := u]> (db_users db) -> emails_unique db'.
Proof.
  intros Huniq Hnone Hdb. pose proof (find_user_by_email_none _ _ Hnone) as Hfresh.
  intros i j ui uj. rewrite Hdb, !lookup_insert_Some.
  intros [[<- <-] | [Hi Hui]] [[<- <-] | [Hj Huj]] He; try done.
  - exfalso. by apply (Hfresh _ _ Huj).
  - exfalso. by apply (Hfresh _ _ Hui).
  - by apply (Huniq i j ui uj).
Qed.

(** C11: Registration keeps e-mail addresses unique, and never creates an
    administrator: the new user is an active customer or restaurant owner
    whose stored password is the hash of the one sent. *)
Theorem register_user_spec r now db id tok db' :
  emails_unique db -> register_user email_pattern r now db = (Ok (id, tok), db') ->
  emails_unique db' /\
  exists u, db_users db' !! id = Some u /\ u_role u <> role_admin /\ u_isActive u = true /\
            u_password u = hash_password (reg_password r).
Proof.
  intros Huniq Hrun.
  destruct (register_user_ok _ _ _ _ _ _ Hrun) as (Hv & Hnone & _ & _ & Hdb).
  split.
  - eapply emails_unique_insert; [exact Huniq | | exact Hdb]. exact Hnone.
  - eexists. rewrite Hdb, lookup_insert_eq. split_and!; try done. simpl.
    unfold validate_register_req in Hv. destruct (reg_role r) as [[] |]; simpl in *; try done.
    by rewrite andb_false_r in Hv.
Qed.

(** C10: A user who just registered can log in with the same e-mail and
    password, and the token registration returned authenticates them. *)
Theorem register_then_login r now db id tok db' now' :
  register_user email_pattern r now db = (Ok (id, tok), db') ->
  (exists tok', fst (login_user (reg_email r) (reg_password r) now' db') = Ok (id, tok')) /\
  exists u, db_users db' !! id = Some u /\
            fst (auth (Some (String.append bearer tok)) db') = Ok (id, u).
Proof.
  intros Hrun.
  destruct (register_user_ok _ _ _ _ _ _ Hrun) as (Hv & Hnone & _ & -> & Hdb). split.
  - assert (Hem : isEmail (reg_email r) = true).
    { unfold validate_register_req in Hv. destruct (isEmail (reg_email r)); [done |].
      by rewrite andb_false_r, !andb_false_l in Hv. }
    pose proof (find_user_by_email_none _ _ Hnone) as Hfresh.
    unfold login_user, bind, guard, get_state, found, ret, fail, modify.
    rewrite Hem. simpl. unfold find_user_by_email. rewrite Hdb, find_docs_insert_only.
    + simpl. rewrite compare_hash. by eexists.
    + intros k u Hk. apply String.eqb_neq. by apply (Hfresh k u).
    + by apply String.eqb_eq.
  - eexists. split; [rewrite Hdb; apply lookup_insert_eq |].
    apply issued_token_auth. by rewrite Hdb, lookup_insert_eq.
Qed.

End Props.
