(* ===== verification/Seed.v ===== *)
(** * Seed: the administrator seeding script ([scripts/createAdmin.js])

    The only way the code creates an administrator: registration refuses
    the admin role (Users.register_user_spec) and no route sets it.  The
    script connects to the database, looks up [ADMIN_EMAIL], and, when no
    user has it, saves a new [User] with the name "Admin", the phone
    "+1234567890", the role admin and the password [ADMIN_PASSWORD]; it
    logs what it did and exits with 0, or with 1 from its [catch].

    - The environment ([process.env.ADMIN_EMAIL], [ADMIN_PASSWORD]) is the
      class [AdminEnv]; whether [mongoose.connect] succeeds is the section
      variable [connected].
    - The schema's [lowercase: true] on [email] is applied to the new
      document and, as Mongoose casts query filters through the schema's
      setters, to the [findOne] filter ([to_lower]; ASCII letters, where
      [toLowerCase] maps every Unicode letter).  The script does not run
      [normalizeEmail], which the login route applies to the address it
      looks up.
    - [save()] validates every path of a new document before the
      [pre("save")] hook hashes the password ([new_user_valid]); a failed
      validation throws into the [catch].
    - The run's observable result is the exit code and the lines written
      to the console ([ScriptRun]). *)

From S2P Require Import Prelude Model Query Auth Users.

Open Scope dine_scope.

Class AdminEnv := { ADMIN_EMAIL : string; ADMIN_PASSWORD : string }.

(** The [lowercase] setter on one character. *)
Definition ascii_lower (c : Ascii.ascii) : Ascii.ascii :=
  let n := Ascii.nat_of_ascii c in
  if ((65 <=? n) && (n <=? 90))%nat then Ascii.ascii_of_nat (n + 32) else c.

Fixpoint to_lower (s : string) : string :=
  match s with
  | EmptyString => EmptyString
  | String c s' => String (ascii_lower c) (to_lower s')
  end.

Record ScriptRun := mkScriptRun { sr_exit : Z; sr_log : list string }.

Section Script.
Context `{FormatValidators} `{PasswordHasher} `{AdminEnv}.
(** The schema's e-mail pattern. *)
Variable email_pattern : string -> bool.
(** [await mongoose.connect(process.env.MONGODB_URI)] succeeds. *)
Variable connected : bool.

(** [new User({...})]: [isVerified] is not part of the model's user. *)
Definition admin_user (now : Z) : User :=
  mkUser "Admin" (to_lower ADMIN_EMAIL) ADMIN_PASSWORD "+1234567890" role_admin true None "" now.

(** The validators [save()] runs on a new document: the four [required]
    strings, the password's [minlength] and the schema's other checks. *)
Definition new_user_valid (u : User) : bool :=
  notEmpty (u_name u) && notEmpty (u_email u) && notEmpty (u_password u) && notEmpty (u_phone u) &&
  (6 <=? String.length (u_password u))%nat && user_schema_valid email_pattern u.

Definition connected_log : string := "Connected to MongoDB".
Definition error_log : string := "Error creating admin:".

(** [createAdmin()] *)
Definition create_admin (now : Z) (db : DB) : ScriptRun * DB :=
  if negb connected then (mkScriptRun 1 [error_log], db) else
  match find_user_by_email db (to_lower ADMIN_EMAIL) with
  | Some _ => (mkScriptRun 0 [connected_log; "Admin user already exists"], db)
  | None =>
      let u := admin_user now in
      if new_user_valid u then
        (* [new User] draws the id; [save()] inserts the hashed document *)
        let id := db_next_id db in
        let db1 := snd (fresh_id db) in
        (mkScriptRun 0 [connected_log; "Admin user created successfully";
                        String.append "Email: " ADMIN_EMAIL; String.append "Password: " ADMIN_PASSWORD],
         set_users db1 (<[id := user_pre_save u]> (db_users db1)))
      else (mkScriptRun 1 [connected_log; error_log], db)
  end.

End Script.

(** ** Properties *)

Section SeedProps.
Context `{FormatValidators} `{PasswordHasher} `{JwtVerifier} `{!JwtIssuer} `{AdminEnv}.
Variable email_pattern : string -> bool.
Variable connected : bool.

(** [findOne({email})] finds a user as soon as one has the address. *)
Lemma find_user_by_email_some db e k u :
  db_users db !! k = Some u -> u_email u = e -> is_Some (find_user_by_email db e).
Proof.
  intros Hk He. unfold find_user_by_email.
  assert (Hin : (k, u) ∈ find_docs (db_users db) (fun u => String.eqb (u_email u) e)).
  { apply elem_of_find_docs. split; [done |]. by apply String.eqb_eq. }
  destruct (find_docs _ _); [set_solver | by eexists].
Qed.

(** Login with the address and password of a user just inserted, whom no
    other user shares the address with. *)
Lemma login_inserted db db' id u e pw now :
  find_user_by_email db (normalizeEmail e) = None -> db_users db' = <[id := u]> (db_users db) ->
  isEmail e = true -> u_email u = normalizeEmail e -> u_isActive u = true ->
  compare_password pw (u_password u) = true ->
  login_user e pw now db' = (Ok (id, jwt_sign id now), set_users db' (<[id := set_last_login u now]> (db_users db'))).
Proof.
  intros Hnone Hdb Hem Hue Hact Hpw. pose proof (find_user_by_email_none _ _ Hnone) as Hfresh.
  unfold login_user, bind, guard, get_state, found, ret, fail, modify.
  rewrite Hem. simpl. unfold find_user_by_email. rewrite Hdb, find_docs_insert_only.
  - simpl. by rewrite Hact, Hpw, Hdb.
  - intros k v Hk. apply String.eqb_neq. by apply (Hfresh k v).
  - by apply String.eqb_eq.
Qed.


(** The script keeps e-mail addresses unique. *)
Lemma create_admin_emails_unique now db run db' :
  emails_unique db -> create_admin email_pattern connected now db = (run, db') -> emails_unique db'.
Proof.
  intros Huniq Hrun. unfold create_admin in Hrun.
  destruct connected; simpl in Hrun; [| by injection Hrun as <- <-].
  destruct (find_user_by_email db _) eqn:Hf; [by injection Hrun as <- <- |].
  destruct (new_user_valid _ _); injection Hrun as <- <-; [| done].
  eapply emails_unique_insert; [exact Huniq | | reflexivity]. exact Hf.
Qed.

(** Running the script again after a run that exited with 0 changes
    nothing: it finds the address and reports the administrator. *)
Lemma create_admin_idempotent now now' db run db' :
  create_admin email_pattern connected now db = (run, db') -> sr_exit run = 0%Z ->
  create_admin email_pattern connected now' db' = (mkScriptRun 0 [connected_log; "Admin user already exists"], db').
Proof.
  intros Hrun Hexit. unfold create_admin in Hrun.
  destruct connected eqn:Hc; simpl in Hrun; [| by injection Hrun as <- <-].
  unfold create_admin. cbn [negb].
  destruct (find_user_by_email db _) eqn:Hf.
  { injection Hrun as <- <-. by rewrite Hf. }
  destruct (new_user_valid _ _); injection Hrun as <- <-; [| done].
  match goal with
  | |- context [find_user_by_email ?d (to_lower ADMIN_EMAIL)] =>
      destruct (find_user_by_email_some d (to_lower ADMIN_EMAIL) (db_next_id db)
                  (user_pre_save (admin_user now))) as [? ->]; [apply lookup_insert_eq | done | done]
  end.
Qed.

(** When the script creates the administrator and the login route's
    [normalizeEmail] leaves [ADMIN_EMAIL] as the schema's lower-casing
    does, the administrator can log in with [ADMIN_EMAIL] and
    [ADMIN_PASSWORD], and the token the login returns passes [adminAuth]
    on the store the login leaves. *)
Theorem seeded_admin_login now now' db run db' :
  create_admin email_pattern connected now db = (run, db') ->
  find_user_by_email db (to_lower ADMIN_EMAIL) = None -> sr_exit run = 0%Z ->
  isEmail ADMIN_EMAIL = true -> normalizeEmail ADMIN_EMAIL = to_lower ADMIN_EMAIL ->
  exists id tok db'' u,
    login_user ADMIN_EMAIL ADMIN_PASSWORD now' db' = (Ok (id, tok), db'') /\
    db_users db'' !! id = Some u /\ u_role u = role_admin /\
    adminAuth (Some (String.append bearer tok)) db'' = mkMwOutcome [] (Some (id, u)).
Proof.
  intros Hrun Hf Hexit Hem Hnorm. unfold create_admin in Hrun. rewrite Hf in Hrun.
  destruct connected; simpl in Hrun; [| by injection Hrun as <- <-].
  destruct (new_user_valid _ _); injection Hrun as <- <-; [| done].
  rewrite <- Hnorm in Hf.
  erewrite login_inserted; [| exact Hf | reflexivity | exact Hem | by rewrite Hnorm | done | apply compare_hash].
  do 4 eexists. split; [reflexivity |].
  assert (Hl : db_users (set_users (set_users (snd (fresh_id db))
                 (<[db_next_id db := user_pre_save (admin_user now)]> (db_users db))) (<[db_next_id db :=
                 set_last_login (user_pre_save (admin_user now)) now']> (<[db_next_id db :=
                 user_pre_save (admin_user now)]> (db_users db)))) !! db_next_id db =
               Some (set_last_login (user_pre_save (admin_user now)) now')) by apply lookup_insert_eq.
  split_and!; [exact Hl | done |].
  unfold adminAuth, role_auth_mw. by rewrite (issued_token_auth _ _ _ _ Hl).
Qed.

End SeedProps.
