(* ===== verification/Admin.v ===== *)
(** * Admin: the routes of [src/backend/routes/admin.js]

    The administrator's writes (activating and deactivating users,
    approving and rejecting restaurants), the lists (users, pending
    restaurants, orders) and the counters of the dashboard.  All the routes
    are behind [adminAuth].  The date-grouped analytics
    ([/analytics/revenue], [/analytics/orders], the [revenueByPeriod] of
    the dashboard), the broadcast's logging and [/system/health] (process
    and connection status) are not modelled.

    [{status: "rejected", rejectionReason: reason}]: the restaurant schema
    has no [rejectionReason] path, so Mongoose's strict mode drops it and
    the rejection stores the status only. *)

From S2P Require Import Prelude Model Query Auth Orders Restaurants Users.

Open Scope Q_scope.
Open Scope dine_scope.

Definition set_user_active (u : User) (b : bool) : User :=
  mkUser (u_name u) (u_email u) (u_password u) (u_phone u) (u_role u) b (u_lastLogin u)
    (u_avatar u) (u_createdAt u).

(** [body("isActive").isBoolean()]: the value as the validator sees it
    (a string), one of ["true"], ["false"], ["1"], ["0"]. *)
Definition is_boolean_str (s : string) : bool := bool_decide (s ∈ ["true"; "false"; "1"; "0"]).

(** Mongoose's cast of an accepted value to a [Boolean]. *)
Definition cast_boolean (s : string) : bool := String.eqb s "true" || String.eqb s "1".

(** [PUT /api/admin/users/:id/status]: [isActive] is [None] when the body
    has no such field. *)
Definition admin_set_user_status (id : ObjectId) (isActive : option string) : handler DB User :=
  guard (default false (option_map is_boolean_str isActive)) 400 "Validation failed" ;;
  db <- get_state ;;
  u <- found (db_users db !! id) 404 "User not found" ;;
  let u' := set_user_active u (default false (option_map cast_boolean isActive)) in
  modify (fun db => set_users db (<[id := u']> (db_users db))) ;;
  ret u'.

(** [PUT /api/admin/restaurants/:id/approve] *)
Definition admin_approve_restaurant (rid : ObjectId) : handler DB Restaurant :=
  db <- get_state ;;
  r <- found (db_restaurants db !! rid) 404 "Restaurant not found" ;;
  let r' := set_restaurant_status r rs_approved in
  modify (fun db => set_restaurants db (<[rid := r']> (db_restaurants db))) ;;
  ret r'.

(** [PUT /api/admin/restaurants/:id/reject]: [reason] must be non-empty;
    it is not stored. *)
Definition admin_reject_restaurant (rid : ObjectId) (reason : string) : handler DB Restaurant :=
  guard (notEmpty reason) 400 "Validation failed" ;;
  db <- get_state ;;
  r <- found (db_restaurants db !! rid) 404 "Restaurant not found" ;;
  let r' := set_restaurant_status r rs_rejected in
  modify (fun db => set_restaurants db (<[rid := r']> (db_restaurants db))) ;;
  ret r'.

(** ** Lists *)

(** [GET /api/admin/restaurants/pending] *)
Definition admin_pending_restaurants (page limit : Z) (db : DB)
  : list (ObjectId * Restaurant) * Pagination :=
  list_page page limit
    (newest_first r_createdAt
       (find_docs (db_restaurants db) (fun r => bool_decide (r_status r = rs_pending)))).

Record UserQuery := mkUserQuery {
  uq_page : Z;
  uq_limit : Z;
  uq_role : option Role;
  uq_search : option string;
  (** the raw query string, validated by [isBoolean()] *)
  uq_isActive : option string;
  uq_sortBy : option string;
  uq_sortOrder : option string
}.

Section UserList.
(** [{$regex: search, $options: "i"}] on a field. *)
Variable regex_i : string -> string -> bool.

Definition validate_user_query (q : UserQuery) : bool :=
  Z.leb 1 (uq_page q) && Z.leb 1 (uq_limit q) && Z.leb (uq_limit q) 100 &&
  default true (option_map (fun s => bool_decide (s ∈ ["true"; "false"; "1"; "0"])) (uq_isActive q)).

(** [if (role) query.role = role];
    [if (isActive !== undefined) query.isActive = isActive === "true"];
    [if (search) query.$or = [name, email, phone matching search]]. *)
Definition user_matches (q : UserQuery) (u : User) : bool :=
  default true (option_map (fun r => bool_decide (u_role u = r)) (uq_role q)) &&
  default true (option_map (fun s => Bool.eqb (u_isActive u) (String.eqb s "true")) (uq_isActive q)) &&
  (match uq_search q with
   | Some s => if String.eqb s "" then true
               else regex_i s (u_name u) || regex_i s (u_email u) || regex_i s (u_phone u)
   | None => true
   end).

(** [sortOptions[sortBy] = sortOrder === "asc" ? 1 : -1] for the paths the
    model keeps; a path the documents do not have sorts nothing. *)
Definition sort_users (q : UserQuery) (l : list (ObjectId * User)) : list (ObjectId * User) :=
  let asc := String.eqb (default "desc" (uq_sortOrder q)) "asc" in
  let by_key {K} (le : K -> K -> bool) (key : User -> K) :=
    sort_docs (fun a b => if asc then le (key a) (key b) else le (key b) (key a)) l in
  let sortBy := default "createdAt" (uq_sortBy q) in
  if String.eqb sortBy "createdAt" then by_key Z.leb u_createdAt
  else if String.eqb sortBy "name" then by_key String.leb u_name
  else if String.eqb sortBy "email" then by_key String.leb u_email
  else if String.eqb sortBy "phone" then by_key String.leb u_phone
  else l.

(** [GET /api/admin/users] *)
Definition admin_list_users (q : UserQuery) : handler DB (list (ObjectId * User) * Pagination) :=
  guard (validate_user_query q) 400 "Validation failed" ;;
  db <- get_state ;;
  ret (list_page (uq_page q) (uq_limit q) (sort_users q (find_docs (db_users db) (user_matches q)))).

End UserList.

(** ** The dashboard counters *)

Record Overview := mkOverview {
  ov_totalUsers : nat;
  ov_totalRestaurants : nat;
  ov_totalOrders : nat;
  ov_totalRevenue : Q;
  ov_pendingRestaurants : nat;
  ov_activeOrders : nat
}.

Definition count_docs {A} (m : gmap ObjectId A) (p : A -> bool) : nat := length (find_docs m p).

(** [status: {$in: ["confirmed", "preparing", "ready", "out_for_delivery"]}] *)
Definition active_status (s : OrderStatus) : bool :=
  match s with
  | os_confirmed | os_preparing | os_ready | os_out_for_delivery => true
  | _ => false
  end.

(** The [overview] of [GET /api/admin/dashboard]: [$sum] of
    [pricing.total] over all orders, whatever their status. *)
Definition dashboard_overview (db : DB) : Overview :=
  mkOverview
    (count_docs (db_users db) (fun u => bool_decide (u_role u = role_customer)))
    (count_docs (db_restaurants db) (fun r => bool_decide (r_status r = rs_approved)))
    (count_docs (db_orders db) (fun _ => true))
    (Qsum_left (map (fun kv => pr_total (o_pricing kv.2)) (map_to_list (db_orders db))))
    (count_docs (db_restaurants db) (fun r => bool_decide (r_status r = rs_pending)))
    (count_docs (db_orders db) (fun o => active_status (o_status o))).

(** [POST /api/admin/broadcast]: the number of recipients,
    [{isActive: true}] and the role the [userType] selects. *)
Definition broadcast_recipients (userType : string) (db : DB) : option nat :=
  if bool_decide (userType ∈ ["all"; "customers"; "restaurants"]) then
    Some (count_docs (db_users db) (fun u =>
      u_isActive u &&
      (if String.eqb userType "customers" then bool_decide (u_role u = role_customer)
       else if String.eqb userType "restaurants" then bool_decide (u_role u = role_restaurant)
       else true)))
  else None.

(** The body of [POST /api/admin/broadcast]. *)
Record BroadcastReq := mkBroadcastReq {
  bc_title : option string;
  bc_message : option string;
  bc_userType : option string;
  bc_priority : option string
}.

Record BroadcastResult := mkBroadcastResult {
  br_recipientCount : nat;
  br_title : string;
  br_message : string;
  br_userType : string;
  br_priority : string
}.

(** [title] and [message] [notEmpty()] (a missing field is empty),
    [userType] one of three, [priority] optional, one of three. *)
Definition validate_broadcast (b : BroadcastReq) : bool :=
  notEmpty (default "" (bc_title b)) && notEmpty (default "" (bc_message b)) &&
  bool_decide (default "" (bc_userType b) ∈ ["all"; "customers"; "restaurants"]) &&
  match bc_priority b with
  | Some p => bool_decide (p ∈ ["low"; "medium"; "high"])
  | None => true
  end.

(** [POST /api/admin/broadcast]: the recipients are counted and the
    broadcast logged; nothing is sent and nothing is written. *)
Definition admin_broadcast (b : BroadcastReq) : handler DB BroadcastResult :=
  guard (validate_broadcast b) 400 "Validation failed" ;;
  db <- get_state ;;
  let ut := default "" (bc_userType b) in
  n <- found (broadcast_recipients ut db) 400 "Validation failed" ;;
  ret (mkBroadcastResult n (default "" (bc_title b)) (default "" (bc_message b)) ut
         (default "medium" (bc_priority b))).

(** ** Properties *)

Lemma find_user_by_email_unique db id u :
  emails_unique db -> db_users db !! id = Some u ->
  find_user_by_email db (u_email u) = Some (id, u).
Proof.
  intros Huniq Hu. unfold find_user_by_email. rewrite (find_docs_unique _ _ id u); [done | | done |].
  - intros k y Hk He. apply String.eqb_eq in He. by apply (Huniq k id y u).
  - by apply String.eqb_eq.
Qed.

Lemma admin_set_user_status_ok id v db u' db' :
  admin_set_user_status id v db = (Ok u', db') ->
  exists s u, v = Some s /\ is_boolean_str s = true /\ db_users db !! id = Some u /\
              u' = set_user_active u (cast_boolean s) /\
              db' = set_users db (<[id := u']> (db_users db)).
Proof.
  unfold admin_set_user_status. intros Hrun. destruct v as [s |]; hrun Hrun; [| discriminate].
  injection Hrun as <- <-. by do 2 eexists.
Qed.

Lemma emails_unique_set_active db id u active :
  emails_unique db -> db_users db !! id = Some u ->
  emails_unique (set_users db (<[id := set_user_active u active]> (db_users db))).
Proof.
  intros Huniq Hu i j ui uj. simpl. rewrite !lookup_insert_Some.
  intros [[<- <-] | [_ Hi]] [[<- <-] | [_ Hj]]; simpl; intros He; try done;
    [eapply Huniq; [exact Hu | exact Hj | exact He]
    | eapply Huniq; [exact Hi | exact Hu | exact He]
    | eapply Huniq; [exact Hi | exact Hj | exact He]].
Qed.

(** C7: Deactivating a user does not take their access away: login is refused
    with 401 "Account has been deactivated", but every token already issued
    to them still passes [auth], which never reads [isActive]. *)
Theorem deactivated_user_keeps_access `{FormatValidators} `{PasswordHasher} `{JwtVerifier}
  `{!JwtIssuer} id db u' db' e pw now tok :
  emails_unique db -> admin_set_user_status id (Some "false") db = (Ok u', db') ->
  u_email u' = normalizeEmail e -> isEmail e = true -> jwt_verify (js_trim tok) = jwt_ok id ->
  login_user e pw now db' = (Err (HttpError 401 "Account has been deactivated"), db') /\
  fst (auth (Some (String.append bearer tok)) db') = Ok (id, u').
Proof.
  intros Huniq Hrun He Hem Hv.
  destruct (admin_set_user_status_ok _ _ _ _ _ Hrun) as (st & u & [= <-] & _ & Hu & -> & ->).
  change (cast_boolean "false") with false in *.
  assert (Hu' : db_users (set_users db (<[id := set_user_active u false]> (db_users db))) !! id =
                Some (set_user_active u false)) by apply lookup_insert_eq.
  split; [| by apply auth_bearer].
  unfold login_user, bind, guard, get_state, found, ret, fail. rewrite Hem. simpl.
  rewrite <- He, (find_user_by_email_unique _ _ _ (emails_unique_set_active _ _ _ _ Huniq Hu) Hu').
  reflexivity.
Qed.

(** [GET /api/admin/users?isActive=1] passes the [isBoolean()] validator
    but the route compares the string with ["true"]: it lists the inactive
    users. *)
Theorem admin_list_users_isActive_one regex_i q db res db' :
  uq_isActive q = Some "1"%string -> admin_list_users regex_i q db = (Ok res, db') ->
  forall k u, (k, u) ∈ res.1 -> db_users db !! k = Some u /\ u_isActive u = false.
Proof.
  intros Hq Hrun k u Hin. unfold admin_list_users in Hrun. hrun Hrun. injection Hrun as <- <-.
  simpl in Hin. eapply elem_of_sublist in Hin; [| apply paginate_sublist].
  assert (Hs : sort_users q (find_docs (db_users db) (user_matches regex_i q)) ≡ₚ
               find_docs (db_users db) (user_matches regex_i q)).
  { unfold sort_users. repeat case_match; first [apply sort_docs_perm | done]. }
  rewrite Hs, elem_of_find_docs in Hin. destruct Hin as [Hk Hm]. split; [done |].
  unfold user_matches in Hm. rewrite Hq in Hm. simpl in Hm.
  apply andb_true_iff in Hm as [Hm _]. apply andb_true_iff in Hm as [_ Hm].
  by destruct (u_isActive u).
Qed.

(** The sum of a quantity over a collection after replacing one document by
    one with the same quantity. *)
Lemma sum_insert_same {A} (f : A -> Q) (m : gmap ObjectId A) k x x' :
  m !! k = Some x -> f x' == f x ->
  Qsum_left (map (fun kv => f kv.2) (map_to_list (<[k := x']> m))) ==
  Qsum_left (map (fun kv => f kv.2) (map_to_list m)).
Proof.
  intros Hk Hf. rewrite <- (insert_delete_id m k x Hk) at 2. rewrite <- insert_delete_eq.
  rewrite !(Qsum_left_perm _ _ (Permutation_map _ (map_to_list_insert _ _ _ (lookup_delete_eq _ _)))).
  cbn [map]. rewrite !Qsum_left_cons, Hf. reflexivity.
Qed.

(** Cancelling an order changes neither the restaurant's [totalOrders] and
    [totalRevenue] nor the revenue of the admin dashboard: the revenue of
    cancelled orders stays counted everywhere. *)
Theorem cancel_keeps_revenue uid u oid reason now db o' db' :
  cancel_order uid u oid reason now db = (Ok o', db') ->
  db_restaurants db' = db_restaurants db /\
  ov_totalRevenue (dashboard_overview db') == ov_totalRevenue (dashboard_overview db).
Proof.
  intros Hrun. unfold cancel_order, put_order in Hrun. hrun Hrun. injection Hrun as <- <-.
  split; [done |]. unfold dashboard_overview. simpl.
  eapply (sum_insert_same (fun o => pr_total (o_pricing o))); [eassumption | reflexivity].
Qed.

Lemma length_filter_mono {A} (P Q : A -> Prop) `{forall x, Decision (P x)} `{forall x, Decision (Q x)}
  (l : list A) :
  (forall x, P x -> Q x) -> (length (filter P l) <= length (filter Q l))%nat.
Proof.
  intros HPQ. induction l as [| x l IH]; [done |]. rewrite !filter_cons.
  destruct (decide (P x)), (decide (Q x)); simpl; try lia. exfalso; eauto.
Qed.

(** A broadcast never writes; when it is accepted its recipients are
    active users, and when it is refused the answer is the validation
    error. *)
Lemma admin_broadcast_spec b db r db' :
  admin_broadcast b db = (r, db') ->
  db' = db /\
  match r with
  | Ok res => validate_broadcast b = true /\ (br_recipientCount res <= count_docs (db_users db) u_isActive)%nat
  | Err e => e = HttpError 400 "Validation failed"
  end.
Proof.
  unfold admin_broadcast, broadcast_recipients. intros Hrun. hrun Hrun; injection Hrun as <- <-;
    (split; [done |]); try done;
    (split; [done |]); unfold count_docs, find_docs; apply length_filter_mono;
    intros [k u] Hu; simpl in *; by apply andb_prop in Hu as [-> _].
Qed.
