(* ===== verification/OrderLists.v ===== *)
(** * OrderLists: the order listings

    [GET /api/orders] (the requester's own orders),
    [GET /api/orders/restaurant/:restaurantId] (a restaurant's orders, for
    its owner or an admin) in [src/backend/routes/orders.js], and
    [GET /api/admin/orders] in [src/backend/routes/admin.js].  Each is a
    [find_docs] with the query's filters, a sort and the pagination of
    [Query].  Dates are milliseconds since the epoch; the [date] filter of
    the restaurant listing is the day [[start, start + 24h)] (the route's
    [setDate(+1)] in local time is a 24-hour day away from daylight-saving
    changes). *)

From S2P Require Import Prelude Model Query Orders.

Open Scope dine_scope.

Definition day_ms : Z := 24 * 60 * 60 * 1000.

(** [if (status) query.status = status]: the raw string; one that names no
    status matches no order. *)
Definition status_matches (s : option string) (o : Order) : bool :=
  match s with
  | Some st => if String.eqb st "" then true else String.eqb (status_string (o_status o)) st
  | None => true
  end.

Definition page_ok (page limit maxlimit : Z) : bool :=
  Z.leb 1 page && Z.leb 1 limit && Z.leb limit maxlimit.

(** [GET /api/orders], behind [auth]: [{customer: req.user.id}], newest
    first, [limit] defaulting to 10 and at most 50. *)
Definition list_my_orders (uid : ObjectId) (page limit : Z) (status : option string)
  : handler DB (list (ObjectId * Order) * Pagination) :=
  guard (page_ok page limit 50) 400 "Validation failed" ;;
  db <- get_state ;;
  ret (list_page page limit
         (newest_first o_createdAt
            (find_docs (db_orders db) (fun o => bool_decide (o_customer o = uid) && status_matches status o)))).

(** [GET /api/orders/restaurant/:restaurantId], behind [restaurantAuth]. *)
Definition list_restaurant_orders (uid : ObjectId) (u : User) (rid : ObjectId) (page limit : Z)
  (status : option string) (date : option Z) : handler DB (list (ObjectId * Order) * Pagination) :=
  guard (page_ok page limit 50) 400 "Validation failed" ;;
  db <- get_state ;;
  r <- found (db_restaurants db !! rid) 404 "Restaurant not found" ;;
  guard (bool_decide (u_role u = role_admin) || bool_decide (r_owner r = uid))
    403 "Not authorized to view these orders" ;;
  let in_day o := match date with
                  | Some d => Z.leb d (o_createdAt o) && Z.ltb (o_createdAt o) (d + day_ms)
                  | None => true
                  end in
  ret (list_page page limit
         (newest_first o_createdAt
            (find_docs (db_orders db) (fun o => bool_decide (o_restaurant o = rid) &&
                                                status_matches status o && in_day o)))).

Record AdminOrderQuery := mkAdminOrderQuery {
  aq_page : Z;
  aq_limit : Z;
  aq_status : option string;
  aq_restaurant : option ObjectId;
  aq_customer : option ObjectId;
  aq_dateFrom : option Z;
  aq_dateTo : option Z;
  aq_sortBy : option string;
  aq_sortOrder : option string
}.

Definition admin_order_matches (q : AdminOrderQuery) (o : Order) : bool :=
  status_matches (aq_status q) o &&
  default true (option_map (fun r => bool_decide (o_restaurant o = r)) (aq_restaurant q)) &&
  default true (option_map (fun c => bool_decide (o_customer o = c)) (aq_customer q)) &&
  default true (option_map (fun d => Z.leb d (o_createdAt o)) (aq_dateFrom q)) &&
  default true (option_map (fun d => Z.leb (o_createdAt o) d) (aq_dateTo q)).

(** [sortOptions[sortBy]]: [createdAt] (the default) and [updatedAt]-free
    paths the model keeps; any other path sorts nothing. *)
Definition sort_admin_orders (q : AdminOrderQuery) (l : list (ObjectId * Order)) :=
  let asc := String.eqb (default "desc" (aq_sortOrder q)) "asc" in
  let sortBy := default "createdAt" (aq_sortBy q) in
  if String.eqb sortBy "createdAt" then
    sort_docs (fun a b => if asc then Z.leb (o_createdAt a) (o_createdAt b)
                          else Z.leb (o_createdAt b) (o_createdAt a)) l
  else l.

(** [GET /api/admin/orders], behind [adminAuth]. *)
Definition admin_list_orders (q : AdminOrderQuery) : handler DB (list (ObjectId * Order) * Pagination) :=
  guard (page_ok (aq_page q) (aq_limit q) 100) 400 "Validation failed" ;;
  db <- get_state ;;
  ret (list_page (aq_page q) (aq_limit q)
         (sort_admin_orders q (find_docs (db_orders db) (admin_order_matches q)))).

(** ** Properties *)

Lemma listed_in_matches {A} (created : A -> Z) (m : gmap ObjectId A) p page limit k x :
  (k, x) ∈ (list_page page limit (newest_first created (find_docs m p))).1 ->
  m !! k = Some x /\ p x = true.
Proof.
  simpl. intros Hin. eapply elem_of_sublist in Hin; [| apply paginate_sublist].
  by rewrite newest_first_perm, elem_of_find_docs in Hin.
Qed.

(** A customer's order listing holds only orders the customer placed. *)
Theorem list_my_orders_own uid page limit status db res db' :
  list_my_orders uid page limit status db = (Ok res, db') ->
  db' = db /\ forall k o, (k, o) ∈ res.1 -> db_orders db !! k = Some o /\ o_customer o = uid.
Proof.
  unfold list_my_orders. intros Hrun. hrun Hrun. injection Hrun as <- <-.
  split; [done |]. intros k o Hin. apply listed_in_matches in Hin as [Hk Hm].
  apply andb_true_iff in Hm as [Hm _]. by apply bool_decide_eq_true in Hm.
Qed.

(** A restaurant's order listing is answered only to its owner or an
    admin, and holds only orders of that restaurant. *)
Theorem list_restaurant_orders_scoped uid u rid page limit status date db res db' :
  list_restaurant_orders uid u rid page limit status date db = (Ok res, db') ->
  db' = db /\ (u_role u = role_admin \/ exists r, db_restaurants db !! rid = Some r /\ r_owner r = uid) /\
  forall k o, (k, o) ∈ res.1 -> db_orders db !! k = Some o /\ o_restaurant o = rid.
Proof.
  unfold list_restaurant_orders. intros Hrun.
  hrun Hrun; injection Hrun as <- <-; split_and!; try done.
  all: first
    [ match goal with Ho : _ || _ = true |- _ =>
        apply orb_true_iff in Ho as [Ho | Ho]; apply bool_decide_eq_true in Ho; solve [eauto] end
    | intros k o Hin; apply listed_in_matches in Hin as [Hk Hm];
      apply andb_true_iff in Hm as [Hm _]; apply andb_true_iff in Hm as [Hm _];
      by apply bool_decide_eq_true in Hm ].
Qed.
