(* ===== verification/Analytics.v ===== *)
(** * Analytics: the aggregations of [routes/admin.js]

    The admin routes [GET /api/admin/analytics/revenue],
    [GET /api/admin/analytics/orders], [GET /api/admin/system/health] and
    the charts of [GET /api/admin/dashboard] are MongoDB aggregation
    pipelines.  A pipeline here is a composition of list functions:
    [$match] is [find_docs] with the stage's test, [$group] is
    [group_by] (the documents of each key, keys in the order they first
    occur) followed by the group's accumulators ([$sum], [$avg],
    [$first]), [$sort] is stdpp's [merge_sort] (stable; MongoDB leaves the
    order of ties unspecified, so the theorems never depend on it),
    [$limit] is [take], [$unwind] is [concat], [$lookup] followed by
    [$unwind] keeps the rows whose foreign document exists.

    [group_by] recurses on the documents not yet grouped, which is not a
    structural recursion: it runs on fuel, and [group_fuel_enough] shows
    that the length of the list is enough fuel (the result no longer
    depends on it).

    The calendar operators ([$dateToString], [$hour], [$dayOfWeek]) are
    the class [DateParts]; no theorem depends on their definition. *)

From stdpp Require Import sorting.
From S2P Require Import Prelude Model Query Menu Admin OrderLists.

Open Scope Q_scope.

(** ** [$group] *)

Section GroupBy.
Context {K V : Type} `{EqDecision K}.
Variable key : V -> K.

Fixpoint group_fuel (fuel : nat) (l : list V) : list (K * list V) :=
  match fuel, l with
  | _, [] => []
  | O, x :: _ => [(key x, l)]
  | S n, x :: xs =>
      (key x, x :: filter (fun y => key y = key x) xs) ::
        group_fuel n (filter (fun y => key y <> key x) xs)
  end.

Definition group_by (l : list V) : list (K * list V) := group_fuel (length l) l.

End GroupBy.

(** [{$sum: f}] and [{$sum: 1}] over a group. *)
Definition sum_of {A} (f : A -> Q) (g : list A) : Q := Qsum_left (map f g).
Definition count_of {A} (g : list A) : Z := Z.of_nat (length g).

(** [{$avg: f}]: a group is never empty. *)
Definition avg_of {A} (f : A -> Q) (g : list A) : Q := sum_of f g / inject_Z (count_of g).

(** ** The calendar *)

Class DateParts := {
  (** [$dateToString: {format, date}] of a date in milliseconds *)
  date_to_string : string -> Z -> string;
  (** [$hour] and [$dayOfWeek] *)
  hour_of : Z -> Z;
  day_of_week : Z -> Z
}.

(** [startDate.setDate(startDate.getDate() - period)] *)
Definition start_date (now period : Z) : Z := (now - period * day_ms)%Z.

(** The [switch (groupBy)] of the revenue analytics. *)
Definition date_format (groupBy : string) : string :=
  if String.eqb groupBy "week" then "%Y-W%U"
  else if String.eqb groupBy "month" then "%Y-%m"
  else "%Y-%m-%d".

(** [{$match: {createdAt: {$gte: startDate}}}] *)
Definition created_since (start : Z) (o : Order) : bool := (start <=? o_createdAt o)%Z.

Definition order_total (o : Order) : Q := pr_total (o_pricing o).

(** ** Ordering of the [$sort] stages *)

Definition key_le {A} (le : A -> A -> bool) (x y : A) : Prop := le x y = true.

#[export] Instance key_le_dec {A} (le : A -> A -> bool) : RelDecision (key_le le).
Proof. intros x y. unfold key_le. apply _. Defined.

Definition Qge_bool (a b : Q) : bool := Qle_bool b a.

(** ** The reports *)

Record PeriodRow := mkPeriodRow {
  pe_id : string;
  pe_revenue : Q;
  pe_orders : Z;
  pe_averageOrder : Q
}.

Record TopRow := mkTopRow {
  tp_id : ObjectId;
  tp_name : string;
  tp_revenue : Q;
  tp_orders : Z
}.

Record RevenueSummary := mkRevenueSummary {
  su_totalRevenue : Q;
  su_totalOrders : Z;
  su_averageOrderValue : Q
}.

Record RevenueReport := mkRevenueReport {
  rr_revenueByPeriod : list PeriodRow;
  rr_topRestaurants : list TopRow;
  rr_summary : RevenueSummary
}.

Record ItemRow := mkItemRow {
  it_id : ObjectId;
  it_name : string;
  it_totalOrdered : Z;
  it_revenue : Q
}.

Record OrderReport := mkOrderReport {
  or_ordersByStatus : list (OrderStatus * Z);
  or_ordersByHour : list (Z * Z);
  or_ordersByDay : list (Z * Z);
  or_popularItems : list ItemRow
}.

Record HealthOrders := mkHealthOrders {
  ho_total : Z;
  ho_completed : Z;
  ho_cancelled : Z
}.

Record DayRow := mkDayRow {
  dr_id : string;
  dr_revenue : Q;
  dr_orders : Z
}.

(** [$match] on the orders, in the collection's order. *)
Definition match_orders (p : Order -> bool) (db : DB) : list Order := map snd (find_docs (db_orders db) p).

(** [{$match: {createdAt: {$gte: startDate}, status: {$ne: "cancelled"}}}] *)
Definition revenue_match (start : Z) (o : Order) : bool :=
  created_since start o && negb (bool_decide (o_status o = os_cancelled)).

(** [{$group: {_id, count: {$sum: 1}}}] *)
Definition count_rows {K} `{EqDecision K} (key : Order -> K) (docs : list Order) : list (K * Z) :=
  map (fun kg => (kg.1, count_of kg.2)) (group_by key docs).

(** [reduce((sum, item) => sum + item.orders, 0)] *)
Definition Zsum_left (l : list Z) : Z := fold_left Z.add l 0%Z.

Section Reports.
Context `{DateParts}.

(** [revenueData]: grouped by the formatted date, sorted by it. *)
Definition period_rows (fmt : string) (docs : list Order) : list PeriodRow :=
  merge_sort (key_le (fun a b => String.leb (pe_id a) (pe_id b)))
    (map (fun kg => mkPeriodRow kg.1 (sum_of order_total kg.2) (count_of kg.2) (avg_of order_total kg.2))
       (group_by (fun o => date_to_string fmt (o_createdAt o)) docs)).

(** [topRestaurants]: grouped by restaurant, by decreasing revenue, the
    first ten, then [$lookup] and [$unwind], which drop a restaurant that
    no longer exists. *)
Definition top_restaurants (docs : list Order) (db : DB) : list TopRow :=
  omap (fun r : ObjectId * Q * Z =>
          match db_restaurants db !! r.1.1 with
          | Some rest => Some (mkTopRow r.1.1 (r_name rest) r.1.2 r.2)
          | None => None
          end)
    (take 10 (merge_sort (key_le (fun a b : ObjectId * Q * Z => Qge_bool a.1.2 b.1.2))
                (map (fun kg => (kg.1, sum_of order_total kg.2, count_of kg.2)) (group_by o_restaurant docs)))).

(** [summary]: the average order value is the mean of the periods'
    averages, and [NaN || 0] when there is no period. *)
Definition revenue_summary (rows : list PeriodRow) : RevenueSummary :=
  mkRevenueSummary (Qsum_left (map pe_revenue rows)) (Zsum_left (map pe_orders rows))
    (match rows with
     | [] => 0
     | _ => Qsum_left (map pe_averageOrder rows) / inject_Z (Z.of_nat (length rows))
     end).

(** [GET /api/admin/analytics/revenue].  The [period] and [groupBy]
    validators are declared but [validationResult] is never read, so no
    query is refused; [period] is the number [Number.parseInt] reads. *)
Definition revenue_analytics (period : option Z) (groupBy : option string) (now : Z)
  : handler DB RevenueReport :=
  db <- get_state ;;
  let docs := match_orders (revenue_match (start_date now (default 30%Z period))) db in
  let rows := period_rows (date_format (default "day" groupBy)) docs in
  ret (mkRevenueReport rows (top_restaurants docs db) (revenue_summary rows)).

(** [ordersByStatus]: by decreasing count. *)
Definition orders_by_status (docs : list Order) : list (OrderStatus * Z) :=
  merge_sort (key_le (fun a b : OrderStatus * Z => (b.2 <=? a.2)%Z)) (count_rows o_status docs).

(** [ordersByHour] and [ordersByDay]: by increasing [_id]. *)
Definition orders_by_part (part : Z -> Z) (docs : list Order) : list (Z * Z) :=
  merge_sort (key_le (fun a b : Z * Z => (a.1 <=? b.1)%Z)) (count_rows (fun o => part (o_createdAt o)) docs).

(** [popularItems]: [$unwind: "$items"], grouped by menu item with the
    first line's name, by decreasing quantity, the first ten. *)
Definition popular_items (docs : list Order) : list ItemRow :=
  take 10 (merge_sort (key_le (fun a b => (it_totalOrdered b <=? it_totalOrdered a)%Z))
    (map (fun kg => mkItemRow kg.1 (match kg.2 with i :: _ => oi_name i | [] => "" end)
                      (Zsum_left (map oi_quantity kg.2)) (sum_of oi_itemTotal kg.2))
       (group_by oi_menuItem (concat (map o_items docs))))).

(** [GET /api/admin/analytics/orders] *)
Definition order_analytics (period : option Z) (now : Z) : handler DB OrderReport :=
  db <- get_state ;;
  let docs := match_orders (created_since (start_date now (default 30%Z period))) db in
  ret (mkOrderReport (orders_by_status docs) (orders_by_part hour_of docs) (orders_by_part day_of_week docs)
         (popular_items docs)).

(** The dashboard's [revenueByPeriod]: the orders of the last [period]
    days by day, whatever their status. *)
Definition dashboard_revenue (period : option Z) (now : Z) (db : DB) : list DayRow :=
  merge_sort (key_le (fun a b => String.leb (dr_id a) (dr_id b)))
    (map (fun kg => mkDayRow kg.1 (sum_of order_total kg.2) (count_of kg.2))
       (group_by (fun o => date_to_string "%Y-%m-%d" (o_createdAt o))
          (match_orders (created_since (start_date now (default 30%Z period))) db))).

End Reports.

(** The dashboard's [recentActivity]: the five newest customers and the
    ten newest orders. *)
Definition recent_users (db : DB) : list (ObjectId * User) :=
  take 5 (newest_first u_createdAt (find_docs (db_users db) (fun u => bool_decide (u_role u = role_customer)))).

Definition recent_orders (db : DB) : list (ObjectId * Order) :=
  take 10 (newest_first o_createdAt (find_docs (db_orders db) (fun _ => true))).

(** The dashboard's [ordersByStatus], over all orders. *)
Definition dashboard_orders_by_status (db : DB) : list (OrderStatus * Z) :=
  orders_by_status (match_orders (fun _ => true) db).

(** [GET /api/admin/system/health]: the orders of the last 24 hours (one
    [$group] row, or [orderStats[0] || {total: 0, ...}] when there is
    none) and the users who logged in in that time. *)
Definition health_orders (now : Z) (db : DB) : HealthOrders :=
  match match_orders (created_since (now - day_ms)) db with
  | [] => mkHealthOrders 0 0 0
  | docs => mkHealthOrders (count_of docs)
              (count_of (filter (fun o => o_status o = os_delivered) docs))
              (count_of (filter (fun o => o_status o = os_cancelled) docs))
  end.

Definition active_users (now : Z) (db : DB) : nat :=
  count_docs (db_users db) (fun u => match u_lastLogin u with
                                     | Some t => (now - day_ms <=? t)%Z
                                     | None => false
                                     end).

(** The [data] of [GET /api/admin/dashboard]: the overview counters,
    the recent activity and the two charts, all read from one store. *)
Record Dashboard := mkDashboard {
  dsh_overview : Overview;
  dsh_recentUsers : list (ObjectId * User);
  dsh_recentOrders : list (ObjectId * Order);
  dsh_ordersByStatus : list (OrderStatus * Z);
  dsh_revenueByPeriod : list DayRow
}.

Definition admin_dashboard_data `{DateParts} (period : option Z) (now : Z) (db : DB) : Dashboard :=
  mkDashboard (dashboard_overview db) (recent_users db) (recent_orders db) (dashboard_orders_by_status db)
    (dashboard_revenue period now db).

(** The [data] of [GET /api/admin/system/health] the store determines;
    the connection state, [process.uptime()], [process.memoryUsage()] and
    the timestamp are not part of the model. *)
Record Health := mkHealth { hl_orders : HealthOrders; hl_activeUsers : nat }.

Definition system_health (now : Z) (db : DB) : Health := mkHealth (health_orders now db) (active_users now db).

(** ** [$group] *)

Section GroupByProps.
Context {K V : Type} `{EqDecision K}.
Variable key : V -> K.
Local Open Scope nat_scope.

Lemma group_fuel_fuel (n m : nat) (l : list V) :
  length l <= n -> length l <= m -> group_fuel key n l = group_fuel key m l.
Proof.
  revert m l. induction n as [| n IH]; intros m [| x xs] Hn Hm; simpl in *; try lia;
    destruct m as [| m]; simpl in *; try lia; try done.
  f_equal. apply IH; pose proof (length_filter (fun y => key y <> key x) xs); lia.
Qed.


Lemma group_fuel_perm (n : nat) (l : list V) :
  length l <= n -> concat (map snd (group_fuel key n l)) ≡ₚ l.
Proof.
  revert l. induction n as [| n IH]; intros [| x xs] Hn; simpl in *; try lia; try done.
  constructor. rewrite IH; [| pose proof (length_filter (fun y => key y <> key x) xs); lia].
  apply filter_app_complement.
Qed.

Lemma group_by_perm (l : list V) : concat (map snd (group_by key l)) ≡ₚ l.
Proof. by apply group_fuel_perm. Qed.

Lemma group_fuel_spec (n : nat) (l : list V) k g :
  length l <= n ->
  (k, g) ∈ group_fuel key n l <-> (exists x, x ∈ l /\ key x = k) /\ g = filter (fun y => key y = k) l.
Proof.
  revert l. induction n as [| n IH]; intros [| x xs] Hn; simpl in *; try lia;
    try (rewrite elem_of_nil; split; [done | intros [(y & Hy%elem_of_nil & _) _]; done]).
  rewrite elem_of_cons, IH by (pose proof (length_filter (fun y => key y <> key x) xs); lia).
  rewrite filter_cons. destruct (decide (key x = k)) as [<- | Hne].
  - split.
    + intros [[= ->] | [(y & Hy & Hky) _]]; [split; [exists x; split; [left |] |]; done |].
      apply list_elem_of_filter in Hy as [Hy _]. done.
    + intros [_ ->]. by left.
  - rewrite list_filter_filter. split.
    + intros [[= Hk _] | [(y & Hy & Hky) ->]]; [congruence |].
      apply list_elem_of_filter in Hy as [_ Hy]. split; [exists y; split; [by right | done] |].
      apply list_filter_iff. intros z. split; [intros [H1 H2] | intros H1; split]; congruence.
    + intros [(y & [-> | Hy]%elem_of_cons & Hky) ->]; [congruence |]. right. split.
      * exists y. split; [apply list_elem_of_filter; split; congruence | done].
      * apply list_filter_iff. intros z. split; [intros H1; split | intros [H1 H2]]; congruence.
Qed.

Lemma group_by_spec (l : list V) k g :
  (k, g) ∈ group_by key l <-> (exists x, x ∈ l /\ key x = k) /\ g = filter (fun y => key y = k) l.
Proof. by apply group_fuel_spec. Qed.

Lemma group_fuel_keys_NoDup (n : nat) (l : list V) :
  length l <= n -> NoDup (map fst (group_fuel key n l)).
Proof.
  revert l. induction n as [| n IH]; intros [| x xs] Hn; simpl in *; try lia; try constructor.
  2: apply IH; pose proof (length_filter (fun y => key y <> key x) xs); lia.
  intros ([k g] & Heq & Hkg)%list_elem_of_fmap. simpl in Heq.
  rewrite group_fuel_spec in Hkg by (pose proof (length_filter (fun y => key y <> key x) xs); lia).
  destruct Hkg as [(y & Hy & Hky) _].
  apply list_elem_of_filter in Hy as [Hy _]. simpl in *. congruence.
Qed.

Lemma group_by_keys_NoDup (l : list V) : NoDup (map fst (group_by key l)).
Proof. by apply group_fuel_keys_NoDup. Qed.

End GroupByProps.

(** ** Sums over groups *)

Lemma Qsum_left_concat {A} (f : A -> Q) (L : list (list A)) :
  Qsum_left (map f (concat L)) == Qsum_left (map (sum_of f) L).
Proof.
  induction L as [| g L IH]; [reflexivity |]. cbn [concat map].
  rewrite map_app, Qsum_left_app, Qsum_left_cons, IH. reflexivity.
Qed.

Lemma Zsum_left_cons (x : Z) (l : list Z) : Zsum_left (x :: l) = (x + Zsum_left l)%Z.
Proof.
  unfold Zsum_left. simpl. generalize 0%Z. revert x.
  induction l as [| y l IH]; intros x z; simpl; [lia |]. rewrite !IH. lia.
Qed.

Lemma Zsum_left_count {A} (L : list (list A)) :
  Zsum_left (map count_of L) = Z.of_nat (length (concat L)).
Proof.
  induction L as [| g L IH]; [reflexivity |]. cbn [concat map].
  rewrite Zsum_left_cons, IH, length_app. unfold count_of. lia.
Qed.

Lemma Qsum_left_groups {K V} `{EqDecision K} (key : V -> K) (f : V -> Q) (l : list V) :
  Qsum_left (map (fun kg => sum_of f kg.2) (group_by key l)) == Qsum_left (map f l).
Proof.
  rewrite <- (Qsum_left_perm _ _ (Permutation_map f (group_by_perm key l))), Qsum_left_concat.
  by rewrite map_map.
Qed.

Lemma count_groups {K V} `{EqDecision K} (key : V -> K) (l : list V) :
  Zsum_left (map (fun kg => count_of kg.2) (group_by key l)) = Z.of_nat (length l).
Proof.
  rewrite <- (Permutation_length (group_by_perm key l)), <- Zsum_left_count.
  by rewrite map_map.
Qed.

Lemma Zsum_left_perm (l1 l2 : list Z) : l1 ≡ₚ l2 -> Zsum_left l1 = Zsum_left l2.
Proof.
  induction 1 as [| x l1 l2 _ IH | x y l | l1 l2 l3 _ IH1 _ IH2];
    rewrite ?Zsum_left_cons; [done | lia | lia | congruence].
Qed.

Lemma count_rows_total {K} `{EqDecision K} (key : Order -> K) (docs : list Order) (l : list (K * Z)) :
  l ≡ₚ count_rows key docs -> Zsum_left (map snd l) = Z.of_nat (length docs).
Proof.
  intros Hl. rewrite (Zsum_left_perm _ _ (Permutation_map snd Hl)). unfold count_rows.
  rewrite map_map. apply count_groups.
Qed.

Lemma count_rows_NoDup {K} `{EqDecision K} (key : Order -> K) (docs : list Order) (l : list (K * Z)) :
  l ≡ₚ count_rows key docs -> NoDup (map fst l).
Proof.
  intros Hl. rewrite (Permutation_map fst Hl). unfold count_rows. rewrite map_map. apply group_by_keys_NoDup.
Qed.

(** [find_docs] split by a second test. *)
Lemma match_orders_split (p q : Order -> bool) (db : DB) :
  match_orders (fun o => p o && q o) db ++ match_orders (fun o => p o && negb (q o)) db ≡ₚ match_orders p db.
Proof.
  unfold match_orders, find_docs. rewrite <- map_app. apply Permutation_map.
  rewrite <- (filter_app_complement (fun kv : ObjectId * Order => q kv.2 = true)
                (filter (fun kv => p kv.2 = true) (map_to_list (db_orders db)))), !list_filter_filter.
  apply Permutation_app; apply reflexive_eq, list_filter_iff; intros [k o]; simpl;
    destruct (p o), (q o); naive_solver.
Qed.

Lemma length_omap_le {A B} (f : A -> option B) (l : list A) : (length (omap f l) <= length l)%nat.
Proof.
  induction l as [| x l IH]; simpl; [lia |].
  destruct (f x); simpl; change (list_omap A B f l) with (omap f l); lia.
Qed.

Lemma StronglySorted_take {A} (R : relation A) (n : nat) (l : list A) :
  StronglySorted R l -> StronglySorted R (take n l).
Proof.
  revert n. induction l as [| x l IH]; intros [| n] Hl; simpl; try apply SSorted_nil.
  inversion Hl as [| ? ? Hl' Hx]; subst. constructor; [by apply IH |].
  rewrite Forall_forall in Hx |- *. intros y Hy. apply Hx.
  apply elem_of_take in Hy as (i & Hi & _). by eapply list_elem_of_lookup_2.
Qed.

Lemma StronglySorted_omap {A B} (R : relation A) (R' : relation B) (f : A -> option B) (l : list A) :
  (forall a b fa fb, f a = Some fa -> f b = Some fb -> R a b -> R' fa fb) ->
  StronglySorted R l -> StronglySorted R' (omap f l).
Proof.
  intros Hf. induction 1 as [| x l _ IH Hx]; simpl; [constructor |].
  destruct (f x) as [fx |] eqn:Ex; [| done]. constructor; [done |].
  apply Forall_forall. intros y (z & Hz & Ez)%list_elem_of_omap.
  rewrite Forall_forall in Hx. eapply Hf; eauto.
Qed.

(** ** Properties of the reports *)

Lemma length_filter_disjoint {A} (P Q : A -> Prop) `{forall x, Decision (P x)} `{forall x, Decision (Q x)}
  (l : list A) :
  (forall x, P x -> Q x -> False) -> (length (filter P l) + length (filter Q l) <= length l)%nat.
Proof.
  intros Hd. induction l as [| x l IH]; [simpl; lia |]. rewrite !filter_cons.
  destruct (decide (P x)), (decide (Q x)); simpl; [exfalso; eauto | lia | lia | lia].
Qed.

(** The system health's order figures of the last 24 hours are
    consistent: the total is the number of orders of that time (also when
    there is none and the default row is sent), and the delivered and
    cancelled orders together never exceed it. *)
Theorem health_orders_bounds now db :
  ho_total (health_orders now db) = Z.of_nat (length (match_orders (created_since (now - day_ms)) db)) /\
  (0 <= ho_completed (health_orders now db))%Z /\ (0 <= ho_cancelled (health_orders now db))%Z /\
  (ho_completed (health_orders now db) + ho_cancelled (health_orders now db) <= ho_total (health_orders now db))%Z.
Proof.
  unfold health_orders. destruct (match_orders _ db) as [| o os]; simpl; [lia |]. unfold count_of.
  pose proof (length_filter_disjoint (fun o => o_status o = os_delivered) (fun o => o_status o = os_cancelled)
                (o :: os) ltac:(congruence)).
  simpl in *. lia.
Qed.

Section ReportProps.
Context `{DateParts}.

Lemma period_rows_totals fmt docs :
  Qsum_left (map pe_revenue (period_rows fmt docs)) == Qsum_left (map order_total docs) /\
  Zsum_left (map pe_orders (period_rows fmt docs)) = Z.of_nat (length docs).
Proof.
  unfold period_rows. split.
  - rewrite (Qsum_left_perm _ _ (Permutation_map _ (merge_sort_Permutation _ _))), map_map.
    apply Qsum_left_groups.
  - rewrite (Zsum_left_perm _ _ (Permutation_map _ (merge_sort_Permutation _ _))), map_map.
    apply count_groups.
Qed.

(** C31: The summary of the revenue analytics is exact in its totals:
    whatever the period and the grouping by day, week or month, the total
    revenue is the sum of [pricing.total] over the orders of the period
    that are not cancelled, and the order count is their number; the
    route never writes. *)
Theorem revenue_summary_totals period groupBy now db :
  let docs := match_orders (revenue_match (start_date now (default 30%Z period))) db in
  exists rep, revenue_analytics period groupBy now db = (Ok rep, db) /\
    su_totalRevenue (rr_summary rep) == Qsum_left (map order_total docs) /\
    su_totalOrders (rr_summary rep) = Z.of_nat (length docs).
Proof. intros docs. eexists. split; [reflexivity |]. apply period_rows_totals. Qed.

Lemma top_row_spec docs db t :
  t ∈ top_restaurants docs db ->
  exists r, db_restaurants db !! tp_id t = Some r /\ tp_name t = r_name r /\
    tp_revenue t = sum_of order_total (filter (fun o => o_restaurant o = tp_id t) docs) /\
    tp_orders t = count_of (filter (fun o => o_restaurant o = tp_id t) docs).
Proof.
  unfold top_restaurants. intros (y & Hy & Ey)%list_elem_of_omap.
  apply elem_of_take in Hy as (i & Hi & _). apply list_elem_of_lookup_2 in Hi.
  rewrite (merge_sort_Permutation _ _) in Hi.
  apply list_elem_of_fmap in Hi as ([k g] & -> & Hkg). apply group_by_spec in Hkg as [_ ->].
  simpl in Ey. destruct (db_restaurants db !! k) as [r |] eqn:Er; [| done].
  injection Ey as <-. by exists r.
Qed.

(** C32: The top restaurants of the revenue analytics are at most ten,
    listed by decreasing revenue; each exists in the store, carries its
    name, and its revenue and order count are those of its orders in the
    period.  (The [$limit] comes before the [$lookup]: a deleted
    restaurant among the ten leaves a gap rather than letting the
    eleventh in.) *)
Theorem top_restaurants_sound docs db :
  (length (top_restaurants docs db) <= 10)%nat /\
  StronglySorted (fun a b => tp_revenue b <= tp_revenue a) (top_restaurants docs db) /\
  forall t, t ∈ top_restaurants docs db ->
    exists r, db_restaurants db !! tp_id t = Some r /\ tp_name t = r_name r /\
      tp_revenue t = sum_of order_total (filter (fun o => o_restaurant o = tp_id t) docs) /\
      tp_orders t = count_of (filter (fun o => o_restaurant o = tp_id t) docs).
Proof.
  split_and!; [| | apply top_row_spec].
  - unfold top_restaurants. etransitivity; [apply length_omap_le |]. rewrite length_take. lia.
  - apply StronglySorted_omap with (R := key_le (fun a b : ObjectId * Q * Z => Qge_bool a.1.2 b.1.2)).
    + intros a b fa fb Ea Eb Hab. unfold key_le, Qge_bool in Hab. apply Qle_bool_iff in Hab.
      destruct (db_restaurants db !! a.1.1); [| done]. destruct (db_restaurants db !! b.1.1); [| done].
      injection Ea as <-. injection Eb as <-. done.
    + apply StronglySorted_take, Sorted_StronglySorted; [| apply Sorted_merge_sort].
      * intros a b c. unfold key_le, Qge_bool. rewrite !Qle_bool_iff. intros; eapply Qle_trans; eauto.
      * intros a b. unfold key_le, Qge_bool. rewrite !Qle_bool_iff.
        destruct (Qlt_le_dec a.1.2 b.1.2); [right; by apply Qlt_le_weak | by left].
Qed.

(** The order analytics partition the orders of the period: in each
    of [ordersByStatus], [ordersByHour] and [ordersByDay] every key occurs
    once and the counts add up to the number of orders; at most ten
    popular items are listed. *)
Theorem order_analytics_partition period now db :
  let docs := match_orders (created_since (start_date now (default 30%Z period))) db in
  exists rep, order_analytics period now db = (Ok rep, db) /\
    Zsum_left (map snd (or_ordersByStatus rep)) = Z.of_nat (length docs) /\
    NoDup (map fst (or_ordersByStatus rep)) /\
    Zsum_left (map snd (or_ordersByHour rep)) = Z.of_nat (length docs) /\
    NoDup (map fst (or_ordersByHour rep)) /\
    Zsum_left (map snd (or_ordersByDay rep)) = Z.of_nat (length docs) /\
    NoDup (map fst (or_ordersByDay rep)) /\
    (length (or_popularItems rep) <= 10)%nat.
Proof.
  intros docs. subst docs. eexists. split; [reflexivity |].
  cbn [or_ordersByStatus or_ordersByHour or_ordersByDay or_popularItems].
  unfold orders_by_status, orders_by_part.
  split_and!; try (unfold popular_items; rewrite length_take; lia);
    first [eapply count_rows_total | eapply count_rows_NoDup]; apply merge_sort_Permutation.
Qed.

Lemma dashboard_revenue_total period now db :
  Qsum_left (map dr_revenue (dashboard_revenue period now db)) ==
  Qsum_left (map order_total (match_orders (created_since (start_date now (default 30%Z period))) db)).
Proof.
  unfold dashboard_revenue.
  rewrite (Qsum_left_perm _ _ (Permutation_map _ (merge_sort_Permutation _ _))), map_map.
  apply Qsum_left_groups.
Qed.

(** The dashboard's revenue chart and the revenue analytics disagree
    over the same days: the dashboard adds the totals of the cancelled
    orders, which the analytics leave out. *)
Theorem dashboard_revenue_includes_cancelled period groupBy now db :
  let start := start_date now (default 30%Z period) in
  exists rep, revenue_analytics period groupBy now db = (Ok rep, db) /\
    Qsum_left (map dr_revenue (dashboard_revenue period now db)) ==
      su_totalRevenue (rr_summary rep) +
      Qsum_left (map order_total
        (match_orders (fun o => created_since start o && bool_decide (o_status o = os_cancelled)) db)).
Proof.
  intros start. eexists. split; [reflexivity |]. cbn [rr_summary su_totalRevenue revenue_summary].
  rewrite dashboard_revenue_total, (proj1 (period_rows_totals _ _)).
  etransitivity; [symmetry; apply Qsum_left_perm, Permutation_map,
    (match_orders_split (created_since start) (fun o => bool_decide (o_status o = os_cancelled)) db) |].
  rewrite map_app, Qsum_left_app. unfold revenue_match. subst start. ring.
Qed.

(** The dashboard agrees with itself: its status chart counts every
    order of the overview's total once, the active orders are among them,
    and the recent activity lists at most five users and ten orders. *)
Lemma admin_dashboard_consistent period now db :
  let d := admin_dashboard_data period now db in
  Zsum_left (map snd (dsh_ordersByStatus d)) = Z.of_nat (ov_totalOrders (dsh_overview d)) /\
  (ov_activeOrders (dsh_overview d) <= ov_totalOrders (dsh_overview d))%nat /\
  (length (dsh_recentUsers d) <= 5)%nat /\ (length (dsh_recentOrders d) <= 10)%nat.
Proof.
  cbv zeta. unfold admin_dashboard_data, dashboard_overview.
  cbn [dsh_ordersByStatus dsh_overview dsh_recentUsers dsh_recentOrders ov_totalOrders ov_activeOrders].
  unfold dashboard_orders_by_status, orders_by_status, count_docs. split_and!.
  - erewrite count_rows_total by apply merge_sort_Permutation. unfold match_orders. by rewrite length_map.
  - unfold find_docs. etransitivity; [apply length_filter |]. apply Nat.eq_le_incl.
    induction (map_to_list (db_orders db)) as [|x l IH]; [done |]. rewrite filter_cons_True by done. cbn. by rewrite IH.
  - unfold recent_users. rewrite length_take. lia.
  - unfold recent_orders. rewrite length_take. lia.
Qed.

End ReportProps.
