(* ===== verification/Contact.v ===== *)
(** * Contact: the contact form route ([routes/contact.js])

    [POST /api/contact] validates the form, then sends two e-mails through
    the [nodemailer] transporter: the submission to the administrator, then
    a confirmation to the sender.  The route writes nothing to the
    database; its effect is the mail it sends.  The handler here runs in
    the handler monad over the outbox (the mails the transporter has
    accepted, in order); whether the transporter accepts a mail is the
    section variable [transport], and a refused mail throws, which the
    [catch] answers with 500.

    The validators' sanitizers rewrite [req.body] before the handler reads
    it: [trim()] on the name, the subject and the message,
    [normalizeEmail()] on the address ([sanitize_contact]).  The two HTML
    bodies are the route's template literals, the message with
    [replace(/\n/g, "<br>")] ([nl_to_br]).

    The file also holds the templates of [utils/emailTemplates.js], which
    no route sends, line by line, and the order number the [pre("save")]
    hook of [models/Order.js] writes. *)

From stdpp Require Import pretty.
From S2P Require Import Prelude Model Auth Users.

(** The sender's address and the administrator's, from the environment. *)
Class MailEnv := { email_user : string; admin_email : string }.

Record ContactReq := mkContactReq {
  ct_name : string;
  ct_email : string;
  ct_subject : string;
  ct_message : string;
  ct_phone : option string
}.

Record Mail := mkMail {
  ml_from : string;
  ml_to : string;
  ml_subject : string;
  ml_html : string;
  ml_replyTo : option string
}.

Definition nl_char : Ascii.ascii := Ascii.ascii_of_nat 10.

(** A line break and the eight spaces the template indents its lines with. *)
Definition nl : string := String nl_char EmptyString.
Definition indent (n : nat) : string := String.concat "" (repeat " " n).

(** [message.replace(/\n/g, "<br>")] *)
Fixpoint nl_to_br (s : string) : string :=
  match s with
  | EmptyString => EmptyString
  | String c s' => if Ascii.eqb c nl_char then String.append "<br>" (nl_to_br s') else String c (nl_to_br s')
  end.

Section Contact.
Context `{FormatValidators} `{MailEnv}.

(** The validators of the route. *)
Definition validate_contact (r : ContactReq) : bool :=
  len_between 2 100 (js_trim (ct_name r)) && isEmail (ct_email r) &&
  len_between 5 200 (js_trim (ct_subject r)) && len_between 10 1000 (js_trim (ct_message r)) &&
  match ct_phone r with Some p => isMobilePhone p | None => true end.

(** [req.body] after the sanitizers. *)
Definition sanitize_contact (r : ContactReq) : ContactReq :=
  mkContactReq (js_trim (ct_name r)) (normalizeEmail (ct_email r)) (js_trim (ct_subject r))
    (js_trim (ct_message r)) (ct_phone r).

(** [${phone ? `<p><strong>Phone:</strong> ${phone}</p>` : ""}] *)
Definition phone_line (p : option string) : string :=
  match p with
  | Some ph => if String.eqb ph "" then "" else String.concat "" ["<p><strong>Phone:</strong> "; ph; "</p>"]
  | None => ""
  end.

Definition line (s : string) : string := String.concat "" [nl; indent 8; s].

(** [emailContent] *)
Definition admin_html (r : ContactReq) : string :=
  String.concat "" [
    line "<h2>New Contact Form Submission</h2>";
    line (String.concat "" ["<p><strong>Name:</strong> "; ct_name r; "</p>"]);
    line (String.concat "" ["<p><strong>Email:</strong> "; ct_email r; "</p>"]);
    line (phone_line (ct_phone r));
    line (String.concat "" ["<p><strong>Subject:</strong> "; ct_subject r; "</p>"]);
    line "<p><strong>Message:</strong></p>";
    line (String.concat "" ["<p>"; nl_to_br (ct_message r); "</p>"]);
    line "<hr>";
    line "<p><small>Sent from Food Delivery Platform Contact Form</small></p>";
    nl; indent 6].

(** [confirmationContent] *)
Definition confirmation_html (r : ContactReq) : string :=
  String.concat "" [
    line "<h2>Thank you for contacting us!</h2>";
    line (String.concat "" ["<p>Dear "; ct_name r; ",</p>"]);
    line "<p>We have received your message and will get back to you as soon as possible.</p>";
    line "<p><strong>Your message:</strong></p>";
    line (String.concat "" ["<p>"; nl_to_br (ct_message r); "</p>"]);
    line "<p>Best regards,<br>Food Delivery Team</p>";
    nl; indent 6].

Definition admin_mail (r : ContactReq) : Mail :=
  mkMail email_user admin_email (String.append "Contact Form: " (ct_subject r)) (admin_html r) (Some (ct_email r)).

Definition confirmation_mail (r : ContactReq) : Mail :=
  mkMail email_user (ct_email r) "Thank you for contacting us" (confirmation_html r) None.

Variable transport : Mail -> bool.

(** [await transporter.sendMail(...)]: a refused mail throws into the
    [catch]. *)
Definition send_mail (m : Mail) : handler (list Mail) unit :=
  fun out => if transport m then (Ok tt, out ++ [m])
             else (Err (HttpError 500 "Failed to send message. Please try again later."), out).

(** [POST /api/contact] *)
Definition contact (r : ContactReq) : handler (list Mail) unit :=
  guard (validate_contact r) 400 "Validation failed" ;;
  let r' := sanitize_contact r in
  send_mail (admin_mail r') ;;
  send_mail (confirmation_mail r').

End Contact.

(** ** The templates of [utils/emailTemplates.js]

    No route sends them.  Each is a template literal that opens and ends
    with a line break; [template] joins its lines.  A double quote of the
    HTML is [dq]. *)

Definition dq : string := String (Ascii.ascii_of_nat 34) EmptyString.

Definition template (ls : list string) : string :=
  String.append (String.concat "" (map (String.append nl) ls)) nl.

(** [${message ? `<p><strong>Message from admin:</strong> ${message}</p>` : ""}]
    with the parameter's default [message = ""]. *)
Definition admin_message (message : option string) : string :=
  match message with
  | Some m => if String.eqb m "" then "" else String.concat "" ["<p><strong>Message from admin:</strong> "; m; "</p>"]
  | None => ""
  end.

(** [approvalEmailTemplate(restaurantName, message = "")] *)
Definition approvalEmailTemplate (restaurantName : string) (message : option string) : string :=
  template [
    String.concat "" ["  <div style="; dq; "font-family: Arial, sans-serif; max-width: 600px; margin: 0 auto;"; dq; ">"];
    String.concat "" ["    <h2 style="; dq; "color: #10b981;"; dq; ">🎉 Restaurant Application Approved!</h2>"];
    String.concat "" ["    <p>Congratulations! Your restaurant <strong>"; restaurantName; "</strong> has been approved and is now live on our platform.</p>"];
    String.concat "" ["    "; admin_message message];
    "    <p>You can now:</p>";
    "    <ul>";
    "      <li>Add and manage your menu items</li>";
    "      <li>Receive and process orders</li>";
    "      <li>Update your restaurant information</li>";
    "      <li>View analytics and reports</li>";
    "    </ul>";
    "    <p>Welcome to our food delivery platform!</p>";
    "    <p>Best regards,<br>Food Delivery Team</p>";
    "  </div>"].

(** [rejectionEmailTemplate(restaurantName, reason)] *)
Definition rejectionEmailTemplate (restaurantName reason : string) : string :=
  template [
    String.concat "" ["  <div style="; dq; "font-family: Arial, sans-serif; max-width: 600px; margin: 0 auto;"; dq; ">"];
    String.concat "" ["    <h2 style="; dq; "color: #ef4444;"; dq; ">Restaurant Application Status</h2>"];
    String.concat "" ["    <p>Thank you for your interest in joining our platform. Unfortunately, we cannot approve your restaurant <strong>"; restaurantName; "</strong> at this time.</p>"];
    String.concat "" ["    <p><strong>Reason:</strong> "; reason; "</p>"];
    "    <p>If you believe this is an error or would like to reapply after addressing the concerns, please contact our support team.</p>";
    "    <p>Best regards,<br>Food Delivery Team</p>";
    "  </div>"].

(** [String(n).padStart(4, "0")] *)
Definition pad_start (width : nat) (s : string) : string :=
  String.append (String.concat "" (repeat "0" (width - String.length s))) s.

(** The order number of the [pre("save")] hook of [models/Order.js],
    [`ORD${Date.now()}${String(count + 1).padStart(4, "0")}`]; an order
    without one renders as [undefined]. *)
Definition order_number_string (n : option OrderNumber) : string :=
  match n with
  | Some n => String.concat "" ["ORD"; pretty (Z.to_N (on_timestamp n)); pad_start 4 (pretty (Z.to_N (on_seq n)))]
  | None => "undefined"
  end.

Section OrderTemplate.
(** [Date]'s and [Number]'s [toString]. *)
Variable date_string : Z -> string.
Variable number_string : Q -> string.

(** [orderConfirmationTemplate(order)] on an order whose [restaurant] is
    populated with [r]. *)
Definition orderConfirmationTemplate (o : Order) (r : Restaurant) : string :=
  template [
    String.concat "" ["  <div style="; dq; "font-family: Arial, sans-serif; max-width: 600px; margin: 0 auto;"; dq; ">"];
    String.concat "" ["    <h2 style="; dq; "color: #10b981;"; dq; ">Order Confirmed!</h2>"];
    String.concat "" ["    <p>Your order <strong>#"; order_number_string (o_orderNumber o); "</strong> has been confirmed.</p>"];
    String.concat "" ["    <p><strong>Restaurant:</strong> "; r_name r; "</p>"];
    String.concat "" ["    <p><strong>Estimated Delivery:</strong> "; date_string (o_estimatedDeliveryTime o); "</p>"];
    String.concat "" ["    <p><strong>Total:</strong> $"; number_string (pr_total (o_pricing o)); "</p>"];
    "    <p>We'll keep you updated on your order status.</p>";
    "    <p>Thank you for choosing our platform!</p>";
    "  </div>"].

End OrderTemplate.

(** ** Properties *)

Lemma concat_empty_cons (x : string) l : String.concat "" (x :: l) = String.append x (String.concat "" l).
Proof. destruct l; [| reflexivity]. symmetry. apply append_empty_r. Qed.

Lemma length_concat_repeat (s : string) n :
  String.length (String.concat "" (repeat s n)) = (n * String.length s)%nat.
Proof. induction n as [|n IH]; [done |]. cbn [repeat]. rewrite concat_empty_cons, length_append, IH. lia. Qed.

(** [padStart(w, "0")] leaves a string of at least [w] characters alone
    and widens a shorter one to exactly [w]. *)
Lemma pad_start_length w s : String.length (pad_start w s) = Nat.max w (String.length s).
Proof. unfold pad_start. rewrite length_append, length_concat_repeat. simpl. lia. Qed.

Section ContactProps.
Context `{FormatValidators} `{MailEnv}.
Variable transport : Mail -> bool.

(** C24: The contact route sends at most the administrator's mail and then
    the confirmation, in that order, and answers success exactly when both
    went out; when the confirmation is refused the administrator has
    already received the message while the sender is told it failed (a
    retry sends it again).  A form the validators refuse sends nothing. *)
Theorem contact_mail_sequence r out res out' :
  contact transport r out = (res, out') ->
  let r' := sanitize_contact r in
  exists sent, out' = out ++ sent /\
    sent `prefix_of` [admin_mail r'; confirmation_mail r'] /\
    (res = Ok tt <-> sent = [admin_mail r'; confirmation_mail r']) /\
    (sent = [admin_mail r'] -> res = Err (HttpError 500 "Failed to send message. Please try again later.")) /\
    (validate_contact r = false -> sent = [] /\ res = Err (HttpError 400 "Validation failed")).
Proof.
  intros Hrun. unfold contact, send_mail in Hrun. intros r'.
  destruct (validate_contact r) eqn:Hv; simpl in Hrun.
  2: { injection Hrun as <- <-. exists []. rewrite app_nil_r. split_and!; try done.
       apply prefix_nil. }
  destruct (transport (admin_mail _)) eqn:Ha; simpl in Hrun.
  2: { injection Hrun as <- <-. exists []. rewrite app_nil_r. split_and!; try done. apply prefix_nil. }
  destruct (transport (confirmation_mail _)) eqn:Hc; simpl in Hrun; injection Hrun as <- <-.
  - exists [admin_mail r'; confirmation_mail r']. rewrite <- app_assoc. split_and!; try done.
  - exists [admin_mail r']. split_and!; try done. by exists [confirmation_mail r'].
Qed.

End ContactProps.
