(* ===== verification/Validation.v ===== *)
(** * Validation: the validator chains of [middleware/validation.js] and
      [utils/validation.js]

    Both files export [express-validator] chains that no route mounts: the
    routes declare their own chains inline (modelled with each route).
    [middleware/validation.js] also requires [./errorHandler], a module the
    repository does not contain.  A chain is modelled as the list of the
    messages of its failing checks, in order ([check]); express-validator
    runs every check of a chain and reports each failure.
    [handleValidationErrors] turns a non-empty list into the 400 error
    whose message is the list joined by [". "].

    The request records are the routes' ([RegisterReq], [CreateOrderReq],
    [ContactReq], [ProfileReq], [RestaurantBody], [MenuItemBody]): the
    theorems compare each chain with the route that validates the same
    body.  [isInt] is the validator library's, written out: an optional
    sign, decimal digits, and the bounds on the number they denote. *)

From S2P Require Import Prelude Model Auth Restaurants Menu Users Orders Contact.
From Stdlib Require Import Ascii.

(** One check and its [withMessage]. *)
Definition check (b : bool) (msg : string) : list string := if b then [] else [msg].

(** [handleValidationErrors] *)
Definition handleValidationErrors (msgs : list string) : result unit :=
  match msgs with
  | [] => Ok tt
  | _ => Err (HttpError 400 (String.concat ". " msgs))
  end.

Fixpoint string_exists (p : Ascii.ascii -> bool) (s : string) : bool :=
  match s with EmptyString => false | String c s' => p c || string_exists p s' end.

Fixpoint string_forall (p : Ascii.ascii -> bool) (s : string) : bool :=
  match s with EmptyString => true | String c s' => p c && string_forall p s' end.

Definition char_between (lo hi : Ascii.ascii) (c : Ascii.ascii) : bool :=
  (Ascii.nat_of_ascii lo <=? Ascii.nat_of_ascii c)%nat && (Ascii.nat_of_ascii c <=? Ascii.nat_of_ascii hi)%nat.

(** [.matches(/^(?=.*[a-z])(?=.*[A-Z])(?=.*\d)/)] *)
Definition password_complex (s : string) : bool :=
  string_exists (char_between "a"%char "z"%char) s && string_exists (char_between "A"%char "Z"%char) s &&
  string_exists (char_between "0"%char "9"%char) s.

(** [isMongoId()]: 24 hexadecimal digits. *)
Definition isMongoId (s : string) : bool :=
  (String.length s =? 24)%nat &&
  string_forall (fun c => char_between "0"%char "9"%char c || char_between "a"%char "f"%char c || char_between "A"%char "F"%char c) s.

(** express-validator reads an absent field as [""] (its [toString]). *)
Definition field (o : option string) : string := default "" o.

(** [optional()]: an absent field passes. *)
Definition optional (f : string -> bool) (o : option string) : bool :=
  match o with Some s => f s | None => true end.

(** The decimal value of a digit. *)
Definition digit_val (c : Ascii.ascii) : option Z :=
  let n := Ascii.nat_of_ascii c in
  if ((48 <=? n) && (n <=? 57))%nat then Some (Z.of_nat (n - 48)) else None.

Fixpoint digits_acc (acc : Z) (s : string) : option Z :=
  match s with
  | EmptyString => Some acc
  | String c s' => match digit_val c with Some d => digits_acc (acc * 10 + d)%Z s' | None => None end
  end.

(** [/^[0-9]+$/] and its value. *)
Definition parse_digits (s : string) : option Z :=
  match s with EmptyString => None | _ => digits_acc 0 s end.

(** [isInt]'s pattern with leading zeroes allowed, [/^[-+]?[0-9]+$/], and
    the number it denotes. *)
Definition int_value (s : string) : option Z :=
  match s with
  | String c s' =>
      if Ascii.eqb c "-"%char then option_map Z.opp (parse_digits s')
      else if Ascii.eqb c "+"%char then parse_digits s' else parse_digits s
  | EmptyString => None
  end.

(** [isInt({min, max})] *)
Definition isInt (lo hi : option Z) (s : string) : bool :=
  match int_value s with
  | Some n => default true (option_map (fun l => l <=? n)%Z lo) && default true (option_map (fun h => n <=? h)%Z hi)
  | None => false
  end.

Section Chains.
Context `{FormatValidators}.
(** [isPostalCode("any")] *)
Variable isPostalCode : string -> bool.

(** [validateUserRegistration]: no role check; a phone, when present, is
    a mobile number (the routes' requests always carry one). *)
Definition validateUserRegistration (r : RegisterReq) : list string :=
  check (len_between 2 50 (js_trim (reg_name r))) "Name must be between 2 and 50 characters" ++
  check (isEmail (reg_email r)) "Please provide a valid email" ++
  check (6 <=? String.length (reg_password r))%nat "Password must be at least 6 characters long" ++
  check (password_complex (reg_password r))
    "Password must contain at least one uppercase letter, one lowercase letter, and one number" ++
  check (isMobilePhone (reg_phone r)) "Please provide a valid phone number".

(** [validateUserLogin] *)
Definition validateUserLogin (email password : string) : list string :=
  check (isEmail email) "Please provide a valid email" ++ check (notEmpty password) "Password is required".

(** [validateOrder]: the ids and the payment method of the model's
    requests are always of the right form; one message per line whose
    quantity is below 1. *)
Definition validateOrder (req : CreateOrderReq) : list string :=
  check (negb (bool_decide (cr_items req = []))) "Order must contain at least one item" ++
  concat (map (fun it => check (1 <=? ri_quantity it)%Z "Quantity must be at least 1") (cr_items req)) ++
  check (notEmpty (js_trim (a_street (cr_deliveryAddress req)))) "Delivery street address is required" ++
  check (notEmpty (js_trim (a_city (cr_deliveryAddress req)))) "Delivery city is required" ++
  check (isPostalCode (a_zipCode (cr_deliveryAddress req))) "Please provide a valid delivery zip code".

(** [validateContactForm] *)
Definition validateContactForm (r : ContactReq) : list string :=
  check (len_between 2 50 (js_trim (ct_name r))) "Name must be between 2 and 50 characters" ++
  check (isEmail (ct_email r)) "Please provide a valid email" ++
  check (len_between 5 100 (js_trim (ct_subject r))) "Subject must be between 5 and 100 characters" ++
  check (len_between 10 1000 (js_trim (ct_message r))) "Message must be between 10 and 1000 characters".

(** [validateObjectId] *)
Definition validateObjectId (id : string) : list string := check (isMongoId id) "Invalid ID format".

(** [userValidation] of [utils/validation.js] *)
Definition userValidation_register (r : RegisterReq) : list string :=
  check (len_between 2 50 (js_trim (reg_name r))) "Name must be between 2 and 50 characters" ++
  check (isEmail (reg_email r)) "Please enter a valid email" ++
  check (6 <=? String.length (reg_password r))%nat "Password must be at least 6 characters" ++
  check (isMobilePhone (reg_phone r)) "Please enter a valid phone number" ++
  check (match reg_role r with Some role_admin => false | _ => true end) "Invalid role".

Definition userValidation_updateProfile (p : ProfileReq) : list string :=
  check (default true (option_map (fun s => len_between 2 50 (js_trim s)) (pf_name p)))
    "Name must be between 2 and 50 characters" ++
  check (default true (option_map isMobilePhone (pf_phone p))) "Please enter a valid phone number".

Definition userValidation_changePassword (current : option string) (new : string) : list string :=
  check (bool_decide (is_Some current)) "Current password is required" ++
  check (6 <=? String.length new)%nat "New password must be at least 6 characters".

(** [validateRestaurantRegistration] *)
Definition validateRestaurantRegistration (b : RestaurantBody) : list string :=
  let addr f := field (option_map f (rb_address b)) in
  check (length_between 2 100 (js_trim (field (rb_name b)))) "Restaurant name must be between 2 and 100 characters" ++
  check (isEmail (field (rb_email b))) "Please provide a valid email" ++
  check (isMobilePhone (field (rb_phone b))) "Please provide a valid phone number" ++
  check (notEmpty (js_trim (addr a_street))) "Street address is required" ++
  check (notEmpty (js_trim (addr a_city))) "City is required" ++
  check (notEmpty (js_trim (addr a_state))) "State is required" ++
  check (isPostalCode (addr a_zipCode)) "Please provide a valid zip code" ++
  check (match rb_cuisine b with Some (_ :: _) => true | _ => false end) "At least one cuisine type is required" ++
  check (length_between 10 500 (js_trim (field (rb_description b))))
    "Description must be between 10 and 500 characters".

(** [validateMenuItem]; [preparationTime] is a path the menu routes do not
    read, given here as the string the validator reads. *)
Definition validateMenuItem (b : MenuItemBody) (preparationTime : option string) : list string :=
  check (between 2 100 (js_trim (field (mb_name b)))) "Item name must be between 2 and 100 characters" ++
  check (between 10 300 (js_trim (field (mb_description b)))) "Description must be between 10 and 300 characters" ++
  check (default false (option_map (fun p => Qle_bool (1 # 100) p) (mb_price b))) "Price must be a positive number" ++
  check (notEmpty (js_trim (field (mb_category b)))) "Category is required" ++
  check (isInt (Some 1%Z) (Some 120%Z) (field preparationTime)) "Preparation time must be between 1 and 120 minutes".

(** [validatePagination] on the query strings. *)
Definition validatePagination (page limit : option string) : list string :=
  check (optional (isInt (Some 1%Z) None) page) "Page must be a positive integer" ++
  check (optional (isInt (Some 1%Z) (Some 100%Z)) limit) "Limit must be between 1 and 100".

End Chains.

(** ** Properties *)

Lemma check_app_nil b msg rest : check b msg ++ rest = [] <-> b = true /\ rest = [].
Proof. destruct b; simpl; naive_solver. Qed.

Lemma check_nil b msg : check b msg = [] <-> b = true.
Proof. destruct b; simpl; naive_solver. Qed.

Section ChainProps.
Context `{FormatValidators}.

(** The registration chain of [utils/validation.js] accepts exactly the
    requests the inline chain of [POST /api/auth/register] accepts. *)
Lemma userValidation_register_route r :
  userValidation_register r = [] <-> validate_register_req r = true.
Proof.
  unfold userValidation_register, validate_register_req.
  rewrite !check_app_nil, check_nil, !andb_true_iff. tauto.
Qed.

(** The profile chain of [utils/validation.js] accepts exactly the
    requests the guard of [PUT /api/auth/profile] accepts. *)
Lemma userValidation_updateProfile_route p :
  userValidation_updateProfile p = [] <->
  (default true (option_map (fun s => len_between 2 50 (js_trim s)) (pf_name p)) &&
   default true (option_map isMobilePhone (pf_phone p))) = true.
Proof. unfold userValidation_updateProfile. rewrite check_app_nil, check_nil, andb_true_iff. tauto. Qed.

(** The middleware's registration chain accepts only what the route
    accepts with a complex password, except that it never looks at the
    role. *)
Lemma validateUserRegistration_spec r :
  validateUserRegistration r = [] <->
  validate_register_req (mkRegisterReq (reg_name r) (reg_email r) (reg_password r) (reg_phone r) None) = true /\
  password_complex (reg_password r) = true.
Proof.
  unfold validateUserRegistration, validate_register_req. simpl.
  rewrite !check_app_nil, check_nil, !andb_true_iff. tauto.
Qed.

(** [handleValidationErrors] lets a request through exactly when its chain
    reports nothing, and answers 400 with the joined messages otherwise. *)
Lemma handleValidationErrors_spec msgs :
  handleValidationErrors msgs = (if bool_decide (msgs = []) then Ok tt
                                 else Err (HttpError 400 (String.concat ". " msgs))).
Proof. destruct msgs; reflexivity. Qed.

Variable isPostalCode : string -> bool.

(** Every order line with a quantity below 1 is reported by [validateOrder],
    which the order route does not run. *)
Lemma validateOrder_quantity req it :
  it ∈ cr_items req -> (ri_quantity it < 1)%Z -> "Quantity must be at least 1" ∈ validateOrder isPostalCode req.
Proof.
  intros Hit Hq. unfold validateOrder. apply elem_of_app. right. apply elem_of_app. left.
  apply list_elem_of_In, in_concat. exists (check (1 <=? ri_quantity it)%Z "Quantity must be at least 1").
  split; [apply (in_map (fun i => check (1 <=? ri_quantity i)%Z "Quantity must be at least 1")), list_elem_of_In, Hit |].
  unfold check. destruct (Z.leb_spec 1 (ri_quantity it)); [lia | left; done].
Qed.

(** [isInt] with a lower and an upper bound reads a number within them. *)
Lemma isInt_bounds lo hi s :
  isInt lo hi s = true ->
  exists n, int_value s = Some n /\ default True (option_map (fun l => l <= n)%Z lo) /\
            default True (option_map (fun h => n <= h)%Z hi).
Proof.
  unfold isInt. destruct (int_value s) as [n |]; [| done]. intros Hb. exists n.
  apply andb_true_iff in Hb as [Hl Hh]. split; [done |].
  destruct lo, hi; simpl in *; rewrite ?Z.leb_le in Hl; rewrite ?Z.leb_le in Hh; tauto.
Qed.

(** The pagination chain lets through only the page numbers from 1 and the
    limits from 1 to 100 (the list routes' own chains cap the limit at 50
    or 100). *)
Lemma validatePagination_spec page limit :
  validatePagination page limit = [] ->
  (forall s, page = Some s -> exists n, int_value s = Some n /\ (1 <= n)%Z) /\
  (forall s, limit = Some s -> exists n, int_value s = Some n /\ (1 <= n <= 100)%Z).
Proof.
  unfold validatePagination. rewrite check_app_nil, check_nil. intros [Hp Hl].
  split; intros s ->; [apply isInt_bounds in Hp | apply isInt_bounds in Hl];
    naive_solver.
Qed.

End ChainProps.
