(* ===== verification/CartSlice.v ===== *)
(** * CartSlice: the client's cart ([src/frontend/src/store/slices/cartSlice.ts])

    The Redux slice that keeps the cart in the browser.  Its state is
    [CartState]; the browser's [localStorage] entry ["cart"] is [Storage]
    ([None] when the key is absent).  Every case reducer, and every
    [extraReducers] case of the async thunks, is one constructor of
    [CartAction]; [cart_reducer] is the slice's reducer, written as a
    function from the state and the storage to the new state and storage
    (Immer's in-place updates become record updates).  The thunks' HTTP
    calls are not modelled: their results enter as the payloads of the
    [fulfilled] and [rejected] actions.

    JavaScript numbers: prices are [Q], quantities [Z]; the totals are the
    [reduce] sums of [calculateTotals]. *)

From S2P Require Import Prelude.

Open Scope Q_scope.

Record FMenuItem := mkFMenuItem {
  fm_id : string;
  fm_restaurant : string;
  fm_price : Q
}.

Record FCartItem := mkFCartItem {
  fc_menuItem : FMenuItem;
  fc_quantity : Z;
  fc_specialInstructions : option string
}.

Record CartState := mkCartState {
  cs_items : list FCartItem;
  cs_totalAmount : Q;
  cs_totalItems : Z;
  cs_restaurantId : option string;
  cs_isLoading : bool;
  cs_error : option string;
  cs_deliveryAddress : string;
  cs_specialInstructions : string
}.

(** [localStorage.getItem("cart")] *)
Definition Storage := option (list FCartItem).

(** [initialState]: the items read back from the storage, the totals and
    the restaurant reset. *)
Definition initial_state (st : Storage) : CartState :=
  mkCartState (default [] st) 0 0 None false None "" "".

(** [calculateTotals] *)
Definition total_items (items : list FCartItem) : Z :=
  fold_left (fun sum it => (sum + fc_quantity it)%Z) items 0%Z.

Definition total_amount (items : list FCartItem) : Q :=
  fold_left (fun sum it => sum + fm_price (fc_menuItem it) * inject_Z (fc_quantity it)) items 0.

Inductive CartAction :=
| AddToCart (m : FMenuItem) (quantity : Z) (specialInstructions : option string)
| RemoveFromCart (menuItemId : string)
| UpdateQuantity (menuItemId : string) (quantity : Z)
| ClearCart
| SetDeliveryAddress (a : string)
| SetSpecialInstructions (s : string)
| ClearError
| SyncPending
| SyncFulfilled (items : list FCartItem)
| SyncRejected (err : string)
| FetchFulfilled (items : list FCartItem)
| ClearServerFulfilled.

(** A string is truthy when it is not empty. *)
Definition truthy (o : option string) : bool :=
  match o with Some s => negb (String.eqb s "") | None => false end.

Definition with_items (s : CartState) (items : list FCartItem) (rid : option string) : CartState :=
  mkCartState items (total_amount items) (total_items items) rid (cs_isLoading s) (cs_error s)
    (cs_deliveryAddress s) (cs_specialInstructions s).

(** [state.items.find(item => item.menuItem._id === id)], updated in place. *)
Fixpoint bump_first (id : string) (q : Z) (si : option string) (items : list FCartItem)
  : option (list FCartItem) :=
  match items with
  | [] => None
  | it :: rest =>
      if String.eqb (fm_id (fc_menuItem it)) id then
        Some (mkFCartItem (fc_menuItem it) (fc_quantity it + q)%Z
                (if truthy si then si else fc_specialInstructions it) :: rest)
      else option_map (cons it) (bump_first id q si rest)
  end.

Fixpoint set_first_quantity (id : string) (q : Z) (items : list FCartItem) : list FCartItem :=
  match items with
  | [] => []
  | it :: rest =>
      if String.eqb (fm_id (fc_menuItem it)) id
      then mkFCartItem (fc_menuItem it) q (fc_specialInstructions it) :: rest
      else it :: set_first_quantity id q rest
  end.

Definition without (id : string) (items : list FCartItem) : list FCartItem :=
  filter (fun it => negb (String.eqb (fm_id (fc_menuItem it)) id)) items.

Definition has_item (id : string) (items : list FCartItem) : bool :=
  existsb (fun it => String.eqb (fm_id (fc_menuItem it)) id) items.

(** [if (state.items.length === 0) state.restaurantId = null] *)
Definition rid_if_nonempty (items : list FCartItem) (rid : option string) : option string :=
  match items with [] => None | _ => rid end.

Definition cart_reducer (s : CartState) (st : Storage) (a : CartAction) : CartState * Storage :=
  match a with
  | AddToCart m q si =>
      let '(items0, rid) :=
        if truthy (cs_restaurantId s) then
          if bool_decide (cs_restaurantId s = Some (fm_restaurant m)) then (cs_items s, cs_restaurantId s)
          else ([], Some (fm_restaurant m))
        else (cs_items s, Some (fm_restaurant m)) in
      let items := match bump_first (fm_id m) q si items0 with
                   | Some items => items
                   | None => items0 ++ [mkFCartItem m q si]
                   end in
      (with_items s items rid, Some items)
  | RemoveFromCart id =>
      let items := without id (cs_items s) in
      (with_items s items (rid_if_nonempty items (cs_restaurantId s)), Some items)
  | UpdateQuantity id q =>
      let items := if has_item id (cs_items s) then
                     if Z.leb q 0 then without id (cs_items s) else set_first_quantity id q (cs_items s)
                   else cs_items s in
      (with_items s items (rid_if_nonempty items (cs_restaurantId s)), Some items)
  | ClearCart | ClearServerFulfilled =>
      (with_items s [] None, None)
  | SetDeliveryAddress addr =>
      (mkCartState (cs_items s) (cs_totalAmount s) (cs_totalItems s) (cs_restaurantId s)
         (cs_isLoading s) (cs_error s) addr (cs_specialInstructions s), st)
  | SetSpecialInstructions si =>
      (mkCartState (cs_items s) (cs_totalAmount s) (cs_totalItems s) (cs_restaurantId s)
         (cs_isLoading s) (cs_error s) (cs_deliveryAddress s) si, st)
  | ClearError =>
      (mkCartState (cs_items s) (cs_totalAmount s) (cs_totalItems s) (cs_restaurantId s)
         (cs_isLoading s) None (cs_deliveryAddress s) (cs_specialInstructions s), st)
  | SyncPending =>
      (mkCartState (cs_items s) (cs_totalAmount s) (cs_totalItems s) (cs_restaurantId s)
         true None (cs_deliveryAddress s) (cs_specialInstructions s), st)
  | SyncFulfilled items =>
      let s' := with_items s items (cs_restaurantId s) in
      (mkCartState (cs_items s') (cs_totalAmount s') (cs_totalItems s') (cs_restaurantId s')
         false (cs_error s') (cs_deliveryAddress s') (cs_specialInstructions s'), Some items)
  | SyncRejected err =>
      (mkCartState (cs_items s) (cs_totalAmount s) (cs_totalItems s) (cs_restaurantId s)
         false (Some err) (cs_deliveryAddress s) (cs_specialInstructions s), st)
  | FetchFulfilled items =>
      let rid := match items with it :: _ => Some (fm_restaurant (fc_menuItem it)) | [] => cs_restaurantId s end in
      (with_items s items rid, Some items)
  end.

(** A sequence of actions from a state and a storage. *)
Definition run_actions (s : CartState) (st : Storage) (acts : list CartAction) : CartState * Storage :=
  fold_left (fun p a => cart_reducer p.1 p.2 a) acts (s, st).

(** ** Properties *)

(** The stored totals are those [calculateTotals] gives for the items. *)
Definition totals_ok (s : CartState) : Prop :=
  cs_totalAmount s = total_amount (cs_items s) /\ cs_totalItems s = total_items (cs_items s).

Lemma with_items_totals s items rid : totals_ok (with_items s items rid).
Proof. split; reflexivity. Qed.

(** Every action of the slice keeps the totals in step with the items. *)
Theorem cart_reducer_totals s st a : totals_ok s -> totals_ok (fst (cart_reducer s st a)).
Proof.
  intros Hs. destruct a; simpl; first [exact Hs | split; reflexivity | repeat case_match; split; reflexivity].
Qed.

(** But the initial state does not satisfy it: after a reload the items
    come back from [localStorage] with the totals reset to 0, until some
    action recomputes them. *)
Theorem initial_state_totals_stale items :
  total_items items <> 0%Z -> ~ totals_ok (initial_state (Some items)).
Proof. intros Hn [_ Ht]. simpl in Ht. by apply Hn. Qed.

(** Every item of the cart belongs to the restaurant the state records,
    and restaurant ids are non-empty strings (MongoDB ObjectIds). *)
Definition single_restaurant (s : CartState) : Prop :=
  cs_restaurantId s <> Some "" /\
  Forall (fun it => cs_restaurantId s = Some (fm_restaurant (fc_menuItem it))) (cs_items s).

(** The actions the client can receive keep to one restaurant: a menu
    item's restaurant id is non-empty, a synchronised cart is of the
    state's restaurant, a fetched cart of one restaurant. *)
Definition action_ok (s : CartState) (a : CartAction) : Prop :=
  match a with
  | AddToCart m _ _ => fm_restaurant m <> ""
  | SyncFulfilled items =>
      Forall (fun it => cs_restaurantId s = Some (fm_restaurant (fc_menuItem it))) items
  | FetchFulfilled items =>
      match items with
      | it :: _ => fm_restaurant (fc_menuItem it) <> "" /\
          Forall (fun it' => fm_restaurant (fc_menuItem it') = fm_restaurant (fc_menuItem it)) items
      | [] => True
      end
  | _ => True
  end.

Lemma bump_first_forall (P : FCartItem -> Prop) id q si items items' :
  (forall it, P it -> P (mkFCartItem (fc_menuItem it) (fc_quantity it + q)%Z
                         (if truthy si then si else fc_specialInstructions it))) ->
  Forall P items -> bump_first id q si items = Some items' -> Forall P items'.
Proof.
  intros HP. revert items'. induction items as [|it rest IH]; intros items' Hall Hb; [done |].
  apply Forall_cons in Hall as [Hit Hrest]. simpl in Hb. case_match.
  - injection Hb as <-. constructor; [by apply HP | done].
  - destruct (bump_first id q si rest) eqn:E; [| done]. injection Hb as <-.
    constructor; [done | by apply IH].
Qed.

Lemma filter_forall (P : FCartItem -> Prop) (f : FCartItem -> bool) items :
  Forall P items -> Forall P (filter f items).
Proof. intros Hall. apply Forall_forall. intros x Hx. apply list_elem_of_filter in Hx as [_ Hx].
  by eapply Forall_forall in Hall. Qed.

Lemma set_first_quantity_forall (P : FCartItem -> Prop) id q items :
  (forall it, P it -> P (mkFCartItem (fc_menuItem it) q (fc_specialInstructions it))) ->
  Forall P items -> Forall P (set_first_quantity id q items).
Proof.
  intros HP. induction 1 as [|it rest Hit Hrest IH]; simpl; [done |].
  case_match; constructor; auto.
Qed.

Lemma single_restaurant_keep s items rid :
  rid <> Some "" -> Forall (fun it => rid = Some (fm_restaurant (fc_menuItem it))) items ->
  single_restaurant (with_items s items rid).
Proof. intros Hr Hall. split; done. Qed.

Lemma single_restaurant_drop s items :
  single_restaurant s -> Forall (fun it => cs_restaurantId s = Some (fm_restaurant (fc_menuItem it))) items ->
  single_restaurant (with_items s items (rid_if_nonempty items (cs_restaurantId s))).
Proof.
  intros [Hr _] Hall. destruct items as [|it items]; split; simpl; try done.
Qed.

Lemma add_items_single s st m q si :
  single_restaurant s -> fm_restaurant m <> "" ->
  single_restaurant (fst (cart_reducer s st (AddToCart m q si))).
Proof.
  intros [Hr Hall] Hm. simpl.
  assert (Hnew : forall rid items0, rid = Some (fm_restaurant m) ->
            Forall (fun it => rid = Some (fm_restaurant (fc_menuItem it))) items0 ->
            single_restaurant (with_items s
              (match bump_first (fm_id m) q si items0 with Some items => items
               | None => items0 ++ [mkFCartItem m q si] end) rid)).
  { intros rid items0 -> H0. apply single_restaurant_keep; [congruence |].
    destruct (bump_first _ _ _ _) eqn:E.
    - eapply bump_first_forall; [| exact H0 | exact E]. done.
    - apply Forall_app. split; [done | by constructor]. }
  destruct (truthy (cs_restaurantId s)) eqn:Ht; [case_bool_decide |].
  - by apply Hnew.
  - by apply Hnew.
  - apply Hnew; [done |]. destruct (cs_restaurantId s) as [r|] eqn:Er.
    + simpl in Ht. destruct (String.eqb r "") eqn:E; [| done]. apply String.eqb_eq in E. congruence.
    + destruct (cs_items s) as [|it items]; [done |]. apply Forall_cons in Hall as [Hit _]. done.
Qed.

(** Every action keeps the cart to the one restaurant its state records. *)
Theorem cart_reducer_single_restaurant s st a :
  single_restaurant s -> action_ok s a -> single_restaurant (fst (cart_reducer s st a)).
Proof.
  intros Hs Ha. pose proof Hs as [Hr Hall].
  destruct a; simpl in Ha |- *;
    first [ by apply (add_items_single s st)
          | by split
          | by apply single_restaurant_keep
          | apply single_restaurant_drop; [done | by apply filter_forall]
          | idtac ].
  - apply single_restaurant_drop; [done |].
    repeat case_match; [by apply filter_forall | | done].
    apply set_first_quantity_forall; [done | exact Hall].
  - destruct items as [|it items]; [by apply single_restaurant_keep |].
    destruct Ha as [Hne Hsame]. apply single_restaurant_keep; [congruence |].
    eapply Forall_impl; [exact Hsame | intros x Hx; simpl; by rewrite Hx].
Qed.

(** C40: After a reload the items come back without their restaurant: adding
    an item of another restaurant then keeps the old items, and the cart
    holds items of two restaurants. *)
Theorem reload_mixes_restaurants :
  exists items m q,
    Forall (fun it => fm_restaurant (fc_menuItem it) <> fm_restaurant m) items /\ items <> [] /\
    let s := fst (cart_reducer (initial_state (Some items)) (Some items) (AddToCart m q None)) in
    (forall it, it ∈ items -> it ∈ cs_items s) /\ In (mkFCartItem m q None) (cs_items s).
Proof.
  set (a := mkFMenuItem "m1" "r1" 5). set (b := mkFMenuItem "m2" "r2" 7).
  exists [mkFCartItem a 1 None], b, 1%Z. split_and!; [repeat constructor; discriminate | done |].
  vm_compute. split; [intros it Hit; set_solver | auto].
Qed.
