(* ===== verification/ClientJson.v ===== *)
(** * ClientJson: JavaScript values as the client sees the server's answers

    The client ([src/frontend/src]) receives every answer of the server as
    parsed JSON ([response.data] of axios) and reads it with property
    accesses, optional chaining and [||] defaults.  JavaScript is not typed
    at run time: a field the answer does not have reads [undefined], and
    reading a property of [undefined] or [null] throws a [TypeError].

    [jsv] is the JSON value type (as qcert's [json], with [JUndef] for
    [undefined]); [js_get] is [v.k], returning [None] for a [TypeError];
    [js_opt_get] is [v?.k]; [js_or] is [a || b].  The server's documents
    are encoded by the class [ServerJson], whose laws say what the client
    relies on: an encoded document is an object whose [_id] is the string
    of its id.  [list_body] and [error_body] are the bodies the list routes
    and the failing routes send with [res.json(...)]. *)

From S2P Require Import Prelude Model Query.

Open Scope Q_scope.

#[local] Set Warnings "-register-all".
Inductive jsv :=
| JUndef
| JNull
| JBool (b : bool)
| JNum (q : Q)
| JStr (s : string)
| JArr (l : list jsv)
| JObj (fields : list (string * jsv)).

(** Truthiness: [undefined], [null], [false], [0] and [""] are falsy. *)
Definition js_truthy (v : jsv) : bool :=
  match v with
  | JUndef | JNull => false
  | JBool b => b
  | JNum q => negb (Qeq_bool q 0)
  | JStr s => negb (String.eqb s "")
  | JArr _ | JObj _ => true
  end.

(** [a || b] *)
Definition js_or (a b : jsv) : jsv := if js_truthy a then a else b.

Fixpoint assoc_get (k : string) (fs : list (string * jsv)) : option jsv :=
  match fs with
  | [] => None
  | (k', v) :: rest => if String.eqb k k' then Some v else assoc_get k rest
  end.

(** [v.k]: [None] is the [TypeError] of a property read on [undefined] or
    [null]; a missing property reads [undefined]. *)
Definition js_get (v : jsv) (k : string) : option jsv :=
  match v with
  | JUndef | JNull => None
  | JObj fs => Some (default JUndef (assoc_get k fs))
  | JArr l => Some (if String.eqb k "length" then JNum (inject_Z (Z.of_nat (length l))) else JUndef)
  | JStr s => Some (if String.eqb k "length" then JNum (inject_Z (Z.of_nat (String.length s))) else JUndef)
  | _ => Some JUndef
  end.

(** [v?.k] *)
Definition js_opt_get (v : jsv) (k : string) : jsv :=
  match v with
  | JUndef | JNull => JUndef
  | _ => default JUndef (js_get v k)
  end.

(** [a === b] on the values the client compares (ids): two parsed objects
    or arrays are never the same reference. *)
Definition js_strict_eq (a b : jsv) : bool :=
  match a, b with
  | JUndef, JUndef | JNull, JNull => true
  | JBool x, JBool y => Bool.eqb x y
  | JNum x, JNum y => Qeq_bool x y
  | JStr x, JStr y => String.eqb x y
  | _, _ => false
  end.

Definition is_array (v : jsv) : bool := match v with JArr _ => true | _ => false end.
Definition is_object (v : jsv) : bool := match v with JObj _ => true | _ => false end.

(** [arr.push(x)]: a [TypeError] unless [arr] is an array. *)
Definition js_push (arr x : jsv) : option jsv :=
  match arr with JArr l => Some (JArr (l ++ [x])) | _ => None end.

(** [[...arr, x]]: spreading a non-iterable throws. *)
Definition js_spread_push (arr x : jsv) : option jsv := js_push arr x.

(** [arr.unshift(x)] *)
Definition js_unshift (arr x : jsv) : option jsv :=
  match arr with JArr l => Some (JArr (x :: l)) | _ => None end.

(** [el._id === id]: reading [_id] of an element that is [undefined] or
    [null] throws. *)
Definition same_id (id el : jsv) : option bool :=
  option_map (fun v => js_strict_eq v id) (js_get el "_id").

Fixpoint filter_opt (p : jsv -> option bool) (l : list jsv) : option (list jsv) :=
  match l with
  | [] => Some []
  | x :: rest =>
      match p x, filter_opt p rest with
      | Some b, Some rest' => Some (if b then x :: rest' else rest')
      | _, _ => None
      end
  end.

(** [arr.filter(el => el._id !== id)] *)
Definition js_remove_id (arr id : jsv) : option jsv :=
  match arr with
  | JArr l => option_map JArr (filter_opt (fun el => option_map negb (same_id id el)) l)
  | _ => None
  end.

(** [const i = arr.findIndex(el => el._id === v._id); if (i !== -1) arr[i] = v] *)
Fixpoint replace_first (id v : jsv) (l : list jsv) : option (list jsv) :=
  match l with
  | [] => Some []
  | x :: rest =>
      match same_id id x with
      | Some true => Some (v :: rest)
      | Some false => option_map (cons x) (replace_first id v rest)
      | None => None
      end
  end.

Definition js_replace_id (arr v : jsv) : option jsv :=
  match js_get v "_id", arr with
  | Some id, JArr l => option_map JArr (replace_first id v l)
  | _, _ => None
  end.

(** [if (cur?._id === v._id) cur = v] *)
Definition js_replace_current (cur v : jsv) : option jsv :=
  option_map (fun id => if js_strict_eq (js_opt_get cur "_id") id then v else cur) (js_get v "_id").

(** ** The server's answers *)

(** The JSON encoding of the documents ([toJSON] of the Mongoose models);
    the client relies on an object with its [_id]. *)
Class ServerJson := {
  oid_string : ObjectId -> string;
  user_json : ObjectId -> User -> jsv;
  restaurant_json : ObjectId -> Restaurant -> jsv;
  menu_item_json : ObjectId -> MenuItem -> jsv;
  order_json : ObjectId -> Order -> jsv;
  oid_string_inj : forall a b, oid_string a = oid_string b -> a = b;
  order_json_id : forall id o, js_get (order_json id o) "_id" = Some (JStr (oid_string id))
}.

Section Bodies.
Context `{ServerJson}.

Definition num (z : Z) : jsv := JNum (inject_Z z).

(** [pagination: {current, pages, total, limit}] *)
Definition pagination_json (p : Pagination) : jsv :=
  JObj [("current", num (pg_current p)); ("pages", num (pg_pages p));
        ("total", num (pg_total p)); ("limit", num (pg_limit p))].

(** [res.json({success: true, data: docs, pagination: {...}})]: the body
    of every paginated list route. *)
Definition list_body {A} (enc : ObjectId -> A -> jsv) (res : list (ObjectId * A) * Pagination) : jsv :=
  JObj [("success", JBool true); ("data", JArr (map (fun kv => enc kv.1 kv.2) res.1));
        ("pagination", pagination_json res.2)].

(** [res.status(code).json({success: false, message})] *)
Definition error_body (e : http_error) : jsv :=
  JObj [("success", JBool false); ("message", JStr (err_message e))].

End Bodies.

Definition js_number_field (v : jsv) (k : string) : bool :=
  match js_get v k with Some (JNum _) => true | _ => false end.

(** The client's declared [pagination: {page, limit, total, totalPages}]. *)
Definition client_pagination_typed (v : jsv) : bool :=
  forallb (js_number_field v) ["page"; "limit"; "total"; "totalPages"].
