(* ===== verification/ClientApi.v ===== *)
(** * ClientApi: the browser's storage and the axios instance

    [src/frontend/src/services/api.ts] creates the axios instance every
    slice uses.  Its request interceptor adds
    [Authorization: Bearer <token>] when [localStorage] holds a truthy
    token; its response interceptor, on a 401 answer, removes the token and
    the user from [localStorage], shows an alert and navigates to ["/"],
    which reloads the application.

    [LocalStorage] holds the three entries the client uses (["token"],
    ["user"], ["cart"]).  [setItem] stores a string: [js_to_string] is
    JavaScript's [String(v)], with the printing of numbers left to the
    class [JsRuntime].  A value stored with [JSON.stringify] and read back
    with [JSON.parse] is [json_norm] of it: object fields that are
    [undefined] are dropped and array elements that are [undefined] become
    [null]; numbers are finite rationals here, so they print and parse back
    to themselves.

    An HTTP answer is a [Response] (status and parsed body); [None] is a
    request that got no answer (network error, timeout).  A thunk created by
    [createAsyncThunk] ends with [fulfilled] on a 2xx answer and [rejected]
    with [error.response?.data?.message || <default>] otherwise
    ([reject_message]). *)

From S2P Require Import Prelude Model Auth CartSlice ClientJson.

Open Scope Q_scope.

Class JsRuntime := { num_string : Q -> string }.

Section Strings.
Context `{JsRuntime}.

(** [String(v)] on the values a slice stores. *)
Fixpoint js_to_string (v : jsv) : string :=
  match v with
  | JUndef => "undefined"
  | JNull => "null"
  | JBool b => if b then "true" else "false"
  | JNum q => num_string q
  | JStr s => s
  | JArr l => String.concat "," (map (fun x => match x with
                                                 | JUndef | JNull => ""
                                                 | _ => js_to_string x
                                                 end) l)
  | JObj _ => "[object Object]"
  end.

End Strings.

(** [JSON.parse(JSON.stringify(v))] for a [v] that is not [undefined]. *)
Fixpoint json_norm (v : jsv) : jsv :=
  match v with
  | JUndef => JNull
  | JArr l => JArr (map json_norm l)
  | JObj fs => JObj (omap (fun kv => match kv.2 with
                                      | JUndef => None
                                      | _ => Some (kv.1, json_norm kv.2)
                                      end) fs)
  | x => x
  end.

(** What [JSON.stringify] stores: the text of a value, or the string
    ["undefined"] when the value itself is [undefined]
    ([JSON.stringify(undefined)] is [undefined]), whose [JSON.parse]
    throws. *)
Inductive Stored :=
| StoredJson (v : jsv)
| StoredUndefined.

Definition json_store (v : jsv) : Stored :=
  match v with JUndef => StoredUndefined | _ => StoredJson (json_norm v) end.

Record LocalStorage := mkLocalStorage {
  ls_token : option string;
  ls_user : option Stored;
  ls_cart : Storage
}.

Definition ls_set_token (ls : LocalStorage) (t : option string) : LocalStorage :=
  mkLocalStorage t (ls_user ls) (ls_cart ls).

Definition ls_set_user (ls : LocalStorage) (u : option Stored) : LocalStorage :=
  mkLocalStorage (ls_token ls) u (ls_cart ls).

(** [localStorage.removeItem("token"); localStorage.removeItem("user")] *)
Definition ls_clear_session (ls : LocalStorage) : LocalStorage :=
  mkLocalStorage None None (ls_cart ls).

(** The request interceptor: [if (token) headers.Authorization = `Bearer ${token}`]. *)
Definition auth_header (ls : LocalStorage) : option string :=
  match ls_token ls with
  | Some t => if String.eqb t "" then None else Some (String.append bearer t)
  | None => None
  end.

Record Response := mkResponse {
  rs_status : N;
  rs_body : jsv
}.

Definition is_2xx (r : Response) : bool := (200 <=? rs_status r)%N && (rs_status r <? 300)%N.

(** The response interceptor on an error: a 401 clears the session and
    reloads the page ([true]); the error is passed on in every case. *)
Definition on_response_error (ls : LocalStorage) (r : option Response) : LocalStorage * bool :=
  match r with
  | Some resp => if (rs_status resp =? 401)%N then (ls_clear_session ls, true) else (ls, false)
  | None => (ls, false)
  end.

(** [error.response?.data?.message || dflt]: [None] is an error that
    carries no response. *)
Definition reject_message (r : option Response) (dflt : string) : jsv :=
  js_or (match r with Some resp => js_opt_get (rs_body resp) "message" | None => JUndef end) (JStr dflt).

(** The payload a thunk fulfils with, [response.data.data], or the
    message it rejects with. *)
Definition thunk_result (r : option Response) (dflt : string) : jsv + jsv :=
  match r with
  | Some resp =>
      if is_2xx resp then
        match js_get (rs_body resp) "data" with
        | Some v => inl v
        | None => inr (JStr dflt)
        end
      else inr (reject_message r dflt)
  | None => inr (reject_message r dflt)
  end.

(** The server's answer to a handler's result: 2xx with the body of the
    success, or the error's status with [{success: false, message}]. *)
Definition respond {A} (ok_status : N) (body : A -> jsv) (r : result A) : Response :=
  match r with
  | Ok a => mkResponse ok_status (body a)
  | Err e => mkResponse (err_status e) (error_body e)
  end.

(** The action a thunk dispatches once its request has settled. *)
Definition settle {A} (ok ko : jsv -> A) (r : option Response) (dflt : string) : A :=
  match thunk_result r dflt with inl p => ok p | inr m => ko m end.
