(* ===== verification/ClientAuth.v ===== *)
(** * ClientAuth: the client's session ([store/slices/authSlice.ts])

    The auth slice keeps the logged-in user and the token; its thunks
    [loginUser] and [registerUser] write both to [localStorage] before the
    [fulfilled] action, [logout] removes them.  On a reload the slice's
    [initialState] reads them back ([initial_auth]).

    [auth_reducer] is the slice's reducer over the state and the storage;
    [None] is a reducer that throws.  [auth_thunk_flow] is one run of a
    thunk: [pending], the HTTP answer through the response interceptor of
    [services/api.ts] (a 401 reloads the page), then [fulfilled] or
    [rejected].  [login_response] is the answer of [POST /api/auth/login]
    ([Users.login_user]) as the server sends it. *)

From S2P Require Import Prelude Model Auth Users CartSlice ClientJson ClientApi.

Open Scope Q_scope.

Record AuthState := mkAuthState {
  au_user : jsv;
  au_token : jsv;
  au_isLoading : bool;
  au_error : jsv;
  au_isAuthenticated : bool
}.

(** [initialState]: [JSON.parse(localStorage.getItem("user") || "null")],
    the token, and [!!localStorage.getItem("token")].  A stored
    ["undefined"] makes [JSON.parse] throw. *)
Definition initial_auth (ls : LocalStorage) : option AuthState :=
  let tok := match ls_token ls with Some t => JStr t | None => JNull end in
  let authd := match ls_token ls with Some t => negb (String.eqb t "") | None => false end in
  match ls_user ls with
  | Some StoredUndefined => None
  | Some (StoredJson u) => Some (mkAuthState u tok false JNull authd)
  | None => Some (mkAuthState JNull tok false JNull authd)
  end.

Inductive AuthAction :=
| Logout
| ClearAuthError
| SetUser (u : jsv)
| LoginPending | LoginFulfilled (p : jsv) | LoginRejected (m : jsv)
| RegisterPending | RegisterFulfilled (p : jsv) | RegisterRejected (m : jsv)
| ProfilePending | ProfileFulfilled (u : jsv) | ProfileRejected (m : jsv)
| PasswordPending | PasswordFulfilled | PasswordRejected (m : jsv).

Definition set_loading (s : AuthState) (l : bool) (err : jsv) : AuthState :=
  mkAuthState (au_user s) (au_token s) l err (au_isAuthenticated s).

(** [state.user = action.payload.user; state.token = action.payload.token;
    state.isAuthenticated = true] *)
Definition session_of (s : AuthState) (p : jsv) : option AuthState :=
  match js_get p "user", js_get p "token" with
  | Some u, Some t => Some (mkAuthState u t false JNull true)
  | _, _ => None
  end.

Definition auth_reducer (s : AuthState) (ls : LocalStorage) (a : AuthAction)
  : option (AuthState * LocalStorage) :=
  match a with
  | Logout => Some (mkAuthState JNull JNull (au_isLoading s) JNull false, ls_clear_session ls)
  | ClearAuthError => Some (set_loading s (au_isLoading s) JNull, ls)
  | SetUser u =>
      Some (mkAuthState u (au_token s) (au_isLoading s) (au_error s) (au_isAuthenticated s),
            ls_set_user ls (Some (json_store u)))
  | LoginPending | RegisterPending | ProfilePending | PasswordPending =>
      Some (set_loading s true JNull, ls)
  | LoginFulfilled p | RegisterFulfilled p => option_map (fun s' => (s', ls)) (session_of s p)
  | LoginRejected m | RegisterRejected m =>
      Some (mkAuthState (au_user s) (au_token s) false m false, ls)
  | ProfileFulfilled u => Some (mkAuthState u (au_token s) false JNull (au_isAuthenticated s), ls)
  | ProfileRejected m | PasswordRejected m => Some (set_loading s false m, ls)
  | PasswordFulfilled => Some (set_loading s false JNull, ls)
  end.

Section Thunks.
Context `{JsRuntime}.

(** The body of [loginUser] and [registerUser] after the answer:
    [const {user, token} = response.data.data], the two [setItem]s, and
    the payload [{user, token}]; destructuring [undefined] throws, and the
    [catch] rejects with the default message. *)
Definition session_payload (r : jsv + jsv) (dflt : string) (ls : LocalStorage)
  : LocalStorage * (jsv + jsv) :=
  match r with
  | inl data =>
      match js_get data "user", js_get data "token" with
      | Some u, Some t =>
          (ls_set_user (ls_set_token ls (Some (js_to_string t))) (Some (json_store u)),
           inl (JObj [("user", u); ("token", t)]))
      | _, _ => (ls, inr (JStr dflt))
      end
  | inr m => (ls, inr m)
  end.

(** The answer through the response interceptor: the storage it leaves
    and whether it reloads the page (a 401, or no answer at all). *)
Definition answer_storage (r : option Response) (ls : LocalStorage) : LocalStorage * bool :=
  match r with
  | Some resp => if is_2xx resp then (ls, false) else on_response_error ls r
  | None => on_response_error ls None
  end.

(** The thunk after its [pending] action, when the answer [r] arrives in
    the state [s] and the storage [ls]: the interceptor, then the
    [setItem]s and the fulfilled or rejected action, or the reload. *)
Definition auth_thunk_settle (ok ko : jsv -> AuthAction) (dflt : string)
  (r : option Response) (s : AuthState) (ls : LocalStorage) : option (AuthState * LocalStorage) :=
  let '(ls2, reload) := answer_storage r ls in
  if reload then option_map (fun s' => (s', ls2)) (initial_auth ls2)
  else
    let '(ls3, res) := session_payload (thunk_result r dflt) dflt ls2 in
    match res with
    | inl p => auth_reducer s ls3 (ok p)
    | inr m => auth_reducer s ls3 (ko m)
    end.

(** One run of a session thunk from the state [s] and the storage [ls],
    with the answer [r] arriving before anything else happens. *)
Definition auth_thunk_flow (pending : AuthAction) (ok ko : jsv -> AuthAction) (dflt : string)
  (r : option Response) (s : AuthState) (ls : LocalStorage) : option (AuthState * LocalStorage) :=
  match auth_reducer s ls pending with
  | None => None
  | Some (s1, ls1) => auth_thunk_settle ok ko dflt r s1 ls1
  end.

Definition login_flow := auth_thunk_flow LoginPending LoginFulfilled LoginRejected "Login failed".

Definition register_flow :=
  auth_thunk_flow RegisterPending RegisterFulfilled RegisterRejected "Registration failed".

End Thunks.

(** ** The server's answer to [POST /api/auth/login] *)

Definition role_string (r : Role) : string :=
  match r with role_customer => "customer" | role_restaurant => "restaurant" | role_admin => "admin" end.

Section Server.
Context `{ServerJson} `{FormatValidators} `{PasswordHasher} `{JwtVerifier} `{!JwtIssuer}.

(** [data.user] of the login answer (the fields the model keeps). *)
Definition login_user_json (id : ObjectId) (u : User) : jsv :=
  JObj [("id", JStr (oid_string id)); ("name", JStr (u_name u)); ("email", JStr (u_email u));
        ("phone", JStr (u_phone u)); ("role", JStr (role_string (u_role u)));
        ("avatar", JStr (u_avatar u))].

(** [data.user] of the registration answer: the login's fields but the
    avatar. *)
Definition register_user_json (id : ObjectId) (u : User) : jsv :=
  JObj [("id", JStr (oid_string id)); ("name", JStr (u_name u)); ("email", JStr (u_email u));
        ("phone", JStr (u_phone u)); ("role", JStr (role_string (u_role u)))].

(** [res.json({success: true, message, data: {user: {...}, token}})], the
    user read back from the store the handler leaves. *)
Definition session_body (msg : string) (enc : ObjectId -> User -> jsv) (db : DB)
  (res : ObjectId * string) : jsv :=
  JObj [("success", JBool true); ("message", JStr msg);
        ("data", JObj [("user", match db_users db !! res.1 with
                                | Some u => enc res.1 u
                                | None => JNull
                                end);
                       ("token", JStr res.2)])].

Definition login_body := session_body "Login successful" login_user_json.

Definition login_response (e pw : string) (now : Z) (db : DB) : Response * DB :=
  let '(r, db') := login_user e pw now db in (respond 200 (login_body db') r, db').

(** [POST /api/auth/register]: 201 with the new user and its token. *)
Definition register_response (email_pattern : string -> bool) (r : RegisterReq) (now : Z) (db : DB)
  : Response * DB :=
  let '(res, db') := register_user email_pattern r now db in
  (respond 201 (session_body "User registered successfully" register_user_json db') res, db').

End Server.

(** ** Properties *)

Section Props.
Context `{ServerJson} `{FormatValidators} `{PasswordHasher} `{JwtVerifier} `{!JwtIssuer} `{JsRuntime}.

(** The slice after a reload with no session stored. *)
Definition logged_out : AuthState := mkAuthState JNull JNull false JNull false.

Lemma login_user_err e pw now db er db' :
  login_user e pw now db = (Err er, db') ->
  db' = db /\ (er = HttpError 400 "Validation failed" \/ err_status er = 401%N).
Proof.
  unfold login_user. intros Hrun. hrun Hrun;
    injection Hrun as <- <-; (split; [done | by (left + right)]).
Qed.

Lemma auth_header_token ls tok :
  ls_token ls = Some tok -> tok <> "" -> auth_header ls = Some (String.append bearer tok).
Proof.
  intros Ht Hne. unfold auth_header. rewrite Ht.
  destruct (String.eqb_spec tok ""); done.
Qed.

(** C14: Logging in through the client stores the token the server issued,
    marks the session authenticated, and every later request, which the
    axios interceptor sends with [Authorization: Bearer <token>], is
    authenticated by the server's [auth] as the user who logged in. *)
Theorem login_roundtrip e pw now db id tok db' s ls :
  login_user e pw now db = (Ok (id, tok), db') ->
  exists s' ls' u,
    login_flow (Some (fst (login_response e pw now db))) s ls = Some (s', ls') /\
    au_isAuthenticated s' = true /\ au_token s' = JStr tok /\ au_user s' = login_user_json id u /\
    db_users db' !! id = Some u /\ fst (auth (auth_header ls') db') = Ok (id, u).
Proof.
  intros Hrun. destruct (login_user_ok _ _ _ _ _ _ _ Hrun) as (-> & u & Hu & _).
  unfold login_response. rewrite Hrun.
  eexists _, _, u. split; [reflexivity |]. cbn -[auth_header auth login_user_json]. rewrite Hu.
  split_and!; try done.
  rewrite (auth_header_token _ (jwt_sign id now)); [| done | apply jwt_sign_nonempty].
  by apply issued_token_auth.
Qed.

(** C15: A login the server refuses either shows the validation message and
    keeps the stored token (400), or, for a wrong password, an unknown
    e-mail or a deactivated account (401), goes through the interceptor's
    session-expired path: the storage is cleared and the page reloads
    logged out, so the server's message never reaches the state. *)
Theorem login_refused e pw now db er db' s ls :
  login_user e pw now db = (Err er, db') ->
  db' = db /\
  ((er = HttpError 400 "Validation failed" /\
    login_flow (Some (fst (login_response e pw now db))) s ls =
      Some (mkAuthState (au_user s) (au_token s) false (JStr "Validation failed") false, ls)) \/
   (err_status er = 401%N /\
    login_flow (Some (fst (login_response e pw now db))) s ls = Some (logged_out, ls_clear_session ls))).
Proof.
  intros Hrun. destruct (login_user_err _ _ _ _ _ _ Hrun) as [-> [-> | H401]].
  - split; [done |]. left. split; [done |]. unfold login_response. rewrite Hrun. reflexivity.
  - split; [done |]. right. split; [done |]. unfold login_response. rewrite Hrun.
    unfold login_flow, auth_thunk_flow. simpl. unfold is_2xx. simpl. rewrite H401. reflexivity.
Qed.

End Props.
