(* ===== verification/ClientSlices.v ===== *)
(** * ClientSlices: the order, restaurant and menu slices of the client

    [store/slices/orderSlice.ts], [restaurantSlice.ts] and [menuSlice.ts].
    Each slice's state is a record whose fields hold what the server sent
    ([jsv]); each case reducer and each [extraReducers] case is one
    constructor of the slice's action type, its payload the value the thunk
    fulfils or rejects with.  A reducer returns [None] when it throws (a
    property read on [undefined], [push] on a non-array): Redux then
    propagates the error and the state is not updated.

    The TypeScript interfaces of the states are [*_typed]: the lists are
    arrays and the pagination blocks have numeric [page], [limit], [total]
    and [totalPages]. *)

From S2P Require Import Prelude ClientJson.

Open Scope Q_scope.

Definition pagination_block (page limit total pages : Z) : jsv :=
  JObj [("page", num page); ("limit", num limit); ("total", num total); ("totalPages", num pages)].

(** [{...a, ...b}] on two plain objects ([undefined] and [null] spread
    nothing): the keys of [a] in order, the values of [b] winning, then
    the keys only [b] has. *)
Definition js_spread_merge (a b : jsv) : jsv :=
  let fa := match a with JObj fs => fs | _ => [] end in
  let fb := match b with JObj fs => fs | _ => [] end in
  JObj (map (fun kv => (kv.1, default kv.2 (assoc_get kv.1 fb))) fa ++
        filter (fun kv => negb (bool_decide (is_Some (assoc_get kv.1 fa)))) fb).

(** ** orderSlice *)

Record OrderState := mkOrderState {
  os_orders : jsv;
  os_currentOrder : jsv;
  os_isLoading : bool;
  os_error : jsv;
  os_pagination : jsv
}.

Definition order_initial : OrderState :=
  mkOrderState (JArr []) JNull false JNull (pagination_block 1 10 0 0).

Inductive OrderAction :=
| SetCurrentOrder (o : jsv)
| ClearOrderError
| ClearOrders
| CreateOrderPending | CreateOrderFulfilled (o : jsv) | CreateOrderRejected (m : jsv)
| FetchOrdersPending | FetchOrdersFulfilled (p : jsv) | FetchOrdersRejected (m : jsv)
| FetchOrderPending | FetchOrderFulfilled (o : jsv) | FetchOrderRejected (m : jsv)
| UpdateStatusFulfilled (o : jsv) | UpdateStatusRejected (m : jsv)
| CancelOrderFulfilled (o : jsv) | CancelOrderRejected (m : jsv).

Definition order_loading (s : OrderState) (l : bool) (err : jsv) : OrderState :=
  mkOrderState (os_orders s) (os_currentOrder s) l err (os_pagination s).

Definition order_reducer (s : OrderState) (a : OrderAction) : option OrderState :=
  match a with
  | SetCurrentOrder o =>
      Some (mkOrderState (os_orders s) o (os_isLoading s) (os_error s) (os_pagination s))
  | ClearOrderError => Some (order_loading s (os_isLoading s) JNull)
  | ClearOrders => Some (mkOrderState (JArr []) JNull (os_isLoading s) (os_error s) (os_pagination s))
  | CreateOrderPending | FetchOrdersPending | FetchOrderPending => Some (order_loading s true JNull)
  | CreateOrderFulfilled o =>
      (* state.orders.unshift(action.payload); state.currentOrder = action.payload *)
      option_map (fun orders => mkOrderState orders o false JNull (os_pagination s))
        (js_unshift (os_orders s) o)
  | FetchOrdersFulfilled p =>
      match js_get p "orders", js_get p "pagination" with
      | Some orders, Some pg => Some (mkOrderState orders (os_currentOrder s) false JNull pg)
      | _, _ => None
      end
  | FetchOrderFulfilled o => Some (mkOrderState (os_orders s) o false JNull (os_pagination s))
  | CreateOrderRejected m | FetchOrdersRejected m | FetchOrderRejected m =>
      Some (order_loading s false m)
  | UpdateStatusFulfilled o | CancelOrderFulfilled o =>
      match js_replace_id (os_orders s) o, js_replace_current (os_currentOrder s) o with
      | Some orders, Some cur =>
          Some (mkOrderState orders cur (os_isLoading s) (os_error s) (os_pagination s))
      | _, _ => None
      end
  (* the slice has no case for these two rejections *)
  | UpdateStatusRejected _ | CancelOrderRejected _ => Some s
  end.

(** [Order[]]: an array of objects; [Order | null]. *)
Definition doc_list_typed (v : jsv) : bool :=
  match v with JArr l => forallb is_object l | _ => false end.

Definition doc_or_null (v : jsv) : bool := match v with JObj _ | JNull => true | _ => false end.

Definition order_state_typed (s : OrderState) : bool :=
  doc_list_typed (os_orders s) && doc_or_null (os_currentOrder s) &&
  client_pagination_typed (os_pagination s).

(** The payloads the thunks declare: an order object, or
    [{orders: Order[], pagination}]. *)
Definition order_action_typed (a : OrderAction) : bool :=
  match a with
  | SetCurrentOrder o => doc_or_null o
  | CreateOrderFulfilled o | FetchOrderFulfilled o | UpdateStatusFulfilled o
  | CancelOrderFulfilled o => is_object o
  | FetchOrdersFulfilled p =>
      match js_get p "orders", js_get p "pagination" with
      | Some os, Some pg => doc_list_typed os && client_pagination_typed pg
      | _, _ => false
      end
  | _ => true
  end.

(** ** restaurantSlice *)

Record RestaurantState := mkRestaurantState {
  rs_restaurants : jsv;
  rs_currentRestaurant : jsv;
  rs_isLoading : bool;
  rs_error : jsv;
  rs_filters : jsv;
  rs_pagination : jsv
}.

Definition empty_filters : jsv :=
  JObj [("cuisine", JStr ""); ("rating", num 0); ("priceRange", JStr ""); ("search", JStr "")].

Definition default_restaurant_pagination : jsv := pagination_block 1 12 0 1.

Definition restaurant_initial : RestaurantState :=
  mkRestaurantState (JArr []) JNull false JNull empty_filters default_restaurant_pagination.

Inductive RestaurantAction :=
| SetFilters (f : jsv)
| ClearFilters
| SetCurrentRestaurant (r : jsv)
| ClearRestaurantError
| FetchRestaurantsPending | FetchRestaurantsFulfilled (p : jsv) | FetchRestaurantsRejected (m : jsv)
| FetchRestaurantPending | FetchRestaurantFulfilled (r : jsv) | FetchRestaurantRejected (m : jsv)
| RegisterRestaurantPending | RegisterRestaurantFulfilled (r : jsv)
| RegisterRestaurantRejected (m : jsv)
| UpdateRestaurantFulfilled (r : jsv).

Definition restaurant_reducer (s : RestaurantState) (a : RestaurantAction) : option RestaurantState :=
  let '(mkRestaurantState rs cur l err fl pg) := s in
  match a with
  | SetFilters f => Some (mkRestaurantState rs cur l err (js_spread_merge fl f) pg)
  | ClearFilters => Some (mkRestaurantState rs cur l err empty_filters pg)
  | SetCurrentRestaurant r => Some (mkRestaurantState rs r l err fl pg)
  | ClearRestaurantError => Some (mkRestaurantState rs cur l JNull fl pg)
  | FetchRestaurantsPending | FetchRestaurantPending | RegisterRestaurantPending =>
      Some (mkRestaurantState rs cur true JNull fl pg)
  | FetchRestaurantsFulfilled p =>
      (* state.restaurants = action.payload?.restaurants || [] *)
      Some (mkRestaurantState (js_or (js_opt_get p "restaurants") (JArr [])) cur false JNull fl
              (js_or (js_opt_get p "pagination") default_restaurant_pagination))
  | FetchRestaurantsRejected m =>
      Some (mkRestaurantState (JArr []) cur false m fl default_restaurant_pagination)
  | FetchRestaurantFulfilled r => Some (mkRestaurantState rs r false JNull fl pg)
  | FetchRestaurantRejected m | RegisterRestaurantRejected m =>
      Some (mkRestaurantState rs cur false m fl pg)
  | RegisterRestaurantFulfilled r =>
      option_map (fun rs' => mkRestaurantState rs' cur false JNull fl pg) (js_spread_push rs r)
  | UpdateRestaurantFulfilled r =>
      match js_replace_id rs r, js_replace_current cur r with
      | Some rs', Some cur' => Some (mkRestaurantState rs' cur' l err fl pg)
      | _, _ => None
      end
  end.

(** ** menuSlice *)

Record MenuState := mkMenuState {
  ms_items : jsv;
  ms_categories : jsv;
  ms_isLoading : bool;
  ms_error : jsv;
  ms_currentRestaurantId : jsv
}.

Definition menu_initial : MenuState := mkMenuState (JArr []) (JArr []) false JNull JNull.

Inductive MenuAction :=
| ClearMenu
| ClearMenuError
| FetchMenuPending | FetchMenuFulfilled (items : jsv) (restaurantId : string) | FetchMenuRejected (m : jsv)
| FetchCategoriesFulfilled (c : jsv)
| CreateItemPending | CreateItemFulfilled (i : jsv) | CreateItemRejected (m : jsv)
| UpdateItemFulfilled (i : jsv)
| DeleteItemFulfilled (id : string).

Definition menu_reducer (s : MenuState) (a : MenuAction) : option MenuState :=
  let '(mkMenuState items cats l err rid) := s in
  match a with
  | ClearMenu => Some (mkMenuState (JArr []) (JArr []) l err JNull)
  | ClearMenuError => Some (mkMenuState items cats l JNull rid)
  | FetchMenuPending | CreateItemPending => Some (mkMenuState items cats true JNull rid)
  | FetchMenuFulfilled its r => Some (mkMenuState its cats false JNull (JStr r))
  | FetchMenuRejected m | CreateItemRejected m => Some (mkMenuState items cats false m rid)
  | FetchCategoriesFulfilled c => Some (mkMenuState items c l err rid)
  | CreateItemFulfilled i => option_map (fun its => mkMenuState its cats false JNull rid) (js_push items i)
  | UpdateItemFulfilled i =>
      option_map (fun its => mkMenuState its cats l err rid) (js_replace_id items i)
  | DeleteItemFulfilled id =>
      option_map (fun its => mkMenuState its cats l err rid) (js_remove_id items (JStr id))
  end.

Definition menu_state_typed (s : MenuState) : bool :=
  doc_list_typed (ms_items s) && is_array (ms_categories s).

(** A sequence of actions, stopping at the first reducer that throws. *)
Fixpoint run_reducer {S A} (red : S -> A -> option S) (s : S) (acts : list A) : option S :=
  match acts with
  | [] => Some s
  | a :: rest => match red s a with Some s' => run_reducer red s' rest | None => None end
  end.

(** ** Properties *)

Lemma same_id_object id fs : exists b, same_id id (JObj fs) = Some b.
Proof. unfold same_id. simpl. by eexists. Qed.

Lemma replace_first_objects id v l :
  is_object v = true -> forallb is_object l = true ->
  exists l', replace_first id v l = Some l' /\ forallb is_object l' = true.
Proof.
  intros Hv. induction l as [|x l IH]; simpl; intros Hl; [by exists [] |].
  apply andb_true_iff in Hl as [Hx Hl]. destruct x as [| | | | | | fs]; try done.
  destruct (same_id_object id fs) as [[] ->].
  - eexists. split; [reflexivity |]. simpl. by rewrite Hv, Hl.
  - destruct (IH Hl) as (l' & -> & Hl'). eexists. split; [reflexivity |]. simpl. by rewrite Hl'.
Qed.

Lemma js_replace_id_typed arr v :
  doc_list_typed arr = true -> is_object v = true ->
  exists arr', js_replace_id arr v = Some arr' /\ doc_list_typed arr' = true.
Proof.
  intros Ha Hv. destruct v as [| | | | | | fs]; try done. destruct arr as [| | | | | l |]; try done.
  destruct (replace_first_objects (default JUndef (assoc_get "_id" fs)) (JObj fs) l Hv Ha)
    as (l' & Hr & Hl').
  exists (JArr l'). unfold js_replace_id. simpl. by rewrite Hr.
Qed.

Lemma js_replace_current_typed cur v :
  doc_or_null cur = true -> is_object v = true ->
  exists cur', js_replace_current cur v = Some cur' /\ doc_or_null cur' = true.
Proof.
  intros Hc Hv. destruct v as [| | | | | | fs]; try done.
  eexists. split; [reflexivity |]. by case_match.
Qed.

