(* ===== verification/ClientServer.v ===== *)
(** * ClientServer: the slices fed with the server's real answers

    The client's thunks declare the shape of the answers they expect
    ([ApiResponse<{orders: Order[]; pagination: {...}}>] and the like), but
    the server's list routes answer [{success, data: docs, pagination}]
    with the documents directly under [data] and a pagination block named
    [{current, pages, total, limit}]; the menu route answers the items
    grouped in an object keyed by category.  This file composes the
    server's handlers ([OrderLists.list_my_orders],
    [Restaurants.list_restaurants], [Menu.list_menu]) with [respond], the
    thunks' [settle] and the slices' reducers, and the restaurant grid of
    [components/restaurant-grid.tsx] that renders the restaurant slice. *)

From S2P Require Import Prelude Model Query Restaurants Menu OrderLists.
From S2P Require Import ClientJson ClientApi ClientSlices.

Open Scope Q_scope.

Section Answers.
Context `{ServerJson}.

(** [GET /api/orders] as the client receives it. *)
Definition orders_response (uid : ObjectId) (page limit : Z) (status : option string) (db : DB)
  : Response * DB :=
  let '(r, db') := list_my_orders uid page limit status db in
  (respond 200 (list_body order_json) r, db').

(** [GET /api/restaurants] *)
Definition restaurants_response (text_match : string -> Restaurant -> bool) (q : RestaurantQuery)
  (db : DB) : Response * DB :=
  let '(r, db') := list_restaurants text_match q db in
  (respond 200 (list_body restaurant_json) r, db').

(** [res.json({success: true, data: groupedMenu, total})] *)
Definition menu_body (res : list (string * list (ObjectId * MenuItem)) * nat) : jsv :=
  JObj [("success", JBool true);
        ("data", JObj (map (fun g => (g.1, JArr (map (fun kv => menu_item_json kv.1 kv.2) g.2))) res.1));
        ("total", num (Z.of_nat res.2))].

(** [GET /api/menu/restaurant/:restaurantId] *)
Definition menu_response (text_match : string -> MenuItem -> bool) (rid : ObjectId) (q : MenuQuery)
  (db : DB) : Response * DB :=
  let '(r, db') := list_menu text_match rid q db in (respond 200 menu_body r, db').

End Answers.

(** The actions the three thunks dispatch once settled. *)
Definition fetch_orders_settled (r : option Response) : OrderAction :=
  settle FetchOrdersFulfilled FetchOrdersRejected r "Failed to fetch orders".

Definition fetch_restaurants_settled (r : option Response) : RestaurantAction :=
  settle FetchRestaurantsFulfilled FetchRestaurantsRejected r "Failed to fetch restaurants".

(** [fetchMenuItems] fulfils with [{items: response.data.data, restaurantId}]. *)
Definition fetch_menu_settled (rid : string) (r : option Response) : MenuAction :=
  settle (fun items => FetchMenuFulfilled items rid) FetchMenuRejected r "Failed to fetch menu items".

(** ** The restaurant grid *)

Inductive GridView :=
| GridLoading
| GridError (m : jsv)
| GridCards (cards : list jsv) (loadMore : bool).

(** [a < b] on the operands the grid compares: numbers, or [undefined]
    (whose comparison is [false]). *)
Definition js_num_lt (a b : jsv) : bool :=
  match a, b with JNum x, JNum y => Qltb x y | _, _ => false end.

(** [RestaurantGrid]: the spinner when [isLoading && restaurants.length === 0],
    the error, or one card per restaurant ([restaurants.map]) and the "Load
    More" button when [pagination?.page < pagination?.totalPages].  Reading
    [length] of [undefined] and calling [map] on a non-array throw. *)
Definition grid_view (s : RestaurantState) : option GridView :=
  let rs := rs_restaurants s in
  let load_more := js_num_lt (js_opt_get (rs_pagination s) "page") (js_opt_get (rs_pagination s) "totalPages") in
  let spinner := if rs_isLoading s then option_map (fun l => js_strict_eq l (num 0)) (js_get rs "length")
                 else Some false in
  match spinner with
  | None => None
  | Some true => Some GridLoading
  | Some false =>
      if js_truthy (rs_error s) then Some (GridError (rs_error s))
      else match rs with JArr cards => Some (GridCards cards load_more) | _ => None end
  end.

(** The parameters of the grid's fetches: the mount effect and "Try
    Again" ask for [{page: 1, limit: 12}]. *)
Definition first_page_params : jsv := JObj [("page", num 1); ("limit", num 12)].

(** [handleSortChange]: [rating: 4.0] is added for the "rating" order;
    [sortBy] itself is only stored.  The grid renders no control that
    calls it (its "Sort Options" are an empty comment). *)
Definition sort_params (newSortBy : string) : jsv :=
  JObj ([("page", num 1); ("limit", num 12)] ++
        if String.eqb newSortBy "rating" then [("rating", JNum 4)] else []).

(** [handleLoadMore]: the next page with the slice's filters spread over
    it, when [pagination?.page < pagination?.totalPages]. *)
Definition load_more_params (s : RestaurantState) : option jsv :=
  let pg := js_opt_get (rs_pagination s) "page" in
  if js_num_lt pg (js_opt_get (rs_pagination s) "totalPages") then
    match pg with
    | JNum p => Some (js_spread_merge (JObj [("page", JNum (p + 1)); ("limit", num 12)]) (rs_filters s))
    | _ => None
    end
  else None.

(** What one card of the grid shows. *)
Record CardView := mkCardView {
  cv_image : jsv;
  cv_verified : bool;
  cv_rating : string;
  cv_name : jsv;
  cv_cuisine : jsv;
  cv_description : jsv;
  cv_deliveryTime : jsv;
  cv_fee : string;
  cv_minimumOrder : string;
  cv_open : bool;
  cv_link : string;
  cv_button : string
}.

Section Cards.
Context `{JsRuntime}.
(** [Number.prototype.toFixed]. *)
Variable to_fixed : Q -> nat -> string.

(** [x.toFixed(d)]: a TypeError on [undefined] or a value that is not a
    number. *)
Definition js_to_fixed (v : option jsv) (d : nat) : option string :=
  match v with Some (JNum q) => Some (to_fixed q d) | _ => None end.

(** One card of [restaurants.map]; [None] where the render throws. *)
Definition grid_card (r : jsv) : option CardView :=
  let get k := js_opt_get r k in
  match js_to_fixed (js_get r "rating") 1, js_get r "deliveryFee", js_to_fixed (js_get r "minimumOrder") 2 with
  | Some rating, Some fee, Some mo =>
      let free := js_strict_eq fee (num 0) in
      match (if free then Some "Free" else option_map (String.append "$") (js_to_fixed (Some fee) 2)) with
      | None => None
      | Some feeText =>
          let open_ := js_truthy (get "isOpen") in
          Some (mkCardView (js_or (get "image") (JStr "/placeholder.svg"))
                  (js_strict_eq (get "status") (JStr "approved")) rating (get "name") (get "cuisine")
                  (get "description") (get "deliveryTime") (String.append feeText " delivery")
                  (String.append "Min. order: $" mo) open_
                  (String.append "/restaurant/" (js_to_string (get "_id")))
                  (if open_ then "View Menu" else "Currently Closed"))
      end
  | _, _, _ => None
  end.

(** The cards of the grid, [None] when one of them throws. *)
Definition grid_cards (cards : list jsv) : option (list CardView) := mapM grid_card cards.

End Cards.

(** ** Properties *)

Section Props.
Context `{ServerJson}.

(** C35: The order list the client receives is not of the type its thunk
    declares: after [fetchOrders] the slice's [orders] and [pagination] are
    [undefined], and placing an order afterwards makes the reducer throw
    ([unshift] of [undefined]). *)
Theorem fetch_orders_loses_list uid page limit status db res db' s o :
  list_my_orders uid page limit status db = (Ok res, db') ->
  exists s', order_reducer s (fetch_orders_settled (Some (fst (orders_response uid page limit status db))))
               = Some s' /\
    os_orders s' = JUndef /\ os_pagination s' = JUndef /\ order_state_typed s' = false /\
    order_reducer s' (CreateOrderFulfilled o) = None.
Proof.
  intros Hrun. unfold orders_response. rewrite Hrun.
  eexists. split; [reflexivity |]. split_and!; reflexivity.
Qed.

(** Whatever restaurants the server lists, the restaurant grid shows no
    card and no "Load More" button: [action.payload?.restaurants] of the
    array the server sends is [undefined], which [|| []] turns into the
    empty list. *)
Theorem restaurant_grid_always_empty text_match q db res db' s :
  list_restaurants text_match q db = (Ok res, db') ->
  exists s', restaurant_reducer s (fetch_restaurants_settled
                                     (Some (fst (restaurants_response text_match q db)))) = Some s' /\
    rs_restaurants s' = JArr [] /\ rs_pagination s' = default_restaurant_pagination /\
    grid_view s' = Some (GridCards [] false).
Proof.
  intros Hrun. unfold restaurants_response. rewrite Hrun. destruct s.
  eexists. split; [reflexivity |]. split_and!; reflexivity.
Qed.

(** The menu the client receives is an object of category groups, not the
    array [MenuItem[]] the slice declares; adding an item afterwards makes
    the reducer throw ([push] is not a function of an object). *)
Theorem fetch_menu_not_array text_match rid q db res db' s r i :
  list_menu text_match rid q db = (Ok res, db') ->
  exists s', menu_reducer s (fetch_menu_settled r (Some (fst (menu_response text_match rid q db)))) = Some s' /\
    is_object (ms_items s') = true /\ menu_state_typed s' = false /\
    menu_reducer s' (CreateItemFulfilled i) = None.
Proof.
  intros Hrun. unfold menu_response. rewrite Hrun. destruct s.
  eexists. split; [reflexivity |]. split_and!; reflexivity.
Qed.

End Props.
