(* ===== verification/ClientAdmin.v ===== *)
(** * ClientAdmin: the administrator's slice ([store/slices/adminSlice.ts])

    The admin slice keeps the dashboard statistics, the pending
    restaurants, the recent orders and the users of the admin pages.  As in
    [ClientSlices], each case of the slice is a constructor of
    [AdminAction] and [admin_reducer] returns [None] when it throws.

    The thunk [updateUserStatus] sends [{status: "active" | "suspended" |
    "banned"}] to [PUT /api/admin/users/:id/status], whose validator reads
    [isActive]: [user_status_answer] is the server's route on a JSON body,
    the field seen by [express-validator] as the string [validator_view]
    gives. *)

From S2P Require Import Prelude Model Query Admin ClientJson ClientApi ClientSlices.

Open Scope Q_scope.

Record AdminState := mkAdminState {
  ad_stats : jsv;
  ad_pendingRestaurants : jsv;
  ad_recentOrders : jsv;
  ad_users : jsv;
  ad_isLoading : bool;
  ad_error : jsv;
  ad_pagination : jsv
}.

Definition admin_initial : AdminState :=
  mkAdminState JNull (JArr []) (JArr []) (JArr []) false JNull (pagination_block 1 10 0 0).

Inductive AdminAction :=
| ClearAdminError
| ClearAdminData
| StatsPending | StatsFulfilled (p : jsv) | StatsRejected (m : jsv)
| PendingPending | PendingFulfilled (p : jsv) | PendingRejected (m : jsv)
| ApproveFulfilled (r : jsv)
| RejectFulfilled (r : jsv)
| SuspendFulfilled (r : jsv)
| RecentOrdersFulfilled (p : jsv)
| AllOrdersPending | AllOrdersFulfilled (p : jsv) | AllOrdersRejected (m : jsv)
| UsersPending | UsersFulfilled (p : jsv) | UsersRejected (m : jsv)
| UserStatusFulfilled (u : jsv)
| UserStatusRejected (m : jsv)
| DeleteUserFulfilled (id : string).

Definition admin_reducer (s : AdminState) (a : AdminAction) : option AdminState :=
  let '(mkAdminState st pend recent users l err pg) := s in
  let removed r := match js_get r "_id" with
                   | Some id => option_map (fun p => mkAdminState st p recent users l err pg)
                                  (js_remove_id pend id)
                   | None => None
                   end in
  match a with
  | ClearAdminError => Some (mkAdminState st pend recent users l JNull pg)
  | ClearAdminData => Some (mkAdminState JNull (JArr []) (JArr []) (JArr []) l err pg)
  | StatsPending | PendingPending | AllOrdersPending | UsersPending =>
      Some (mkAdminState st pend recent users true JNull pg)
  | StatsFulfilled p => Some (mkAdminState p pend recent users false JNull pg)
  | PendingFulfilled p => Some (mkAdminState st p recent users false JNull pg)
  | StatsRejected m | PendingRejected m | AllOrdersRejected m | UsersRejected m =>
      Some (mkAdminState st pend recent users false m pg)
  | ApproveFulfilled r | RejectFulfilled r => removed r
  | SuspendFulfilled r =>
      option_map (fun p => mkAdminState st p recent users l err pg) (js_replace_id pend r)
  | RecentOrdersFulfilled p => Some (mkAdminState st pend p users l err pg)
  | AllOrdersFulfilled p =>
      match js_get p "orders", js_get p "pagination" with
      | Some os, Some pg' => Some (mkAdminState st pend os users false JNull pg')
      | _, _ => None
      end
  | UsersFulfilled p =>
      match js_get p "users", js_get p "pagination" with
      | Some us, Some pg' => Some (mkAdminState st pend recent us false JNull pg')
      | _, _ => None
      end
  | UserStatusFulfilled u =>
      option_map (fun us => mkAdminState st pend recent us l err pg) (js_replace_id users u)
  (* the slice has no case for [updateUserStatus.rejected] *)
  | UserStatusRejected _ => Some s
  | DeleteUserFulfilled id =>
      option_map (fun us => mkAdminState st pend recent us l err pg) (js_remove_id users (JStr id))
  end.

(** ** The server's answers to the admin pages *)

Section Server.
Context `{ServerJson} `{JsRuntime}.

(** [GET /api/admin/users] as the client receives it. *)
Definition users_response (regex_i : string -> string -> bool) (q : UserQuery) (db : DB)
  : Response * DB :=
  let '(r, db') := admin_list_users regex_i q db in (respond 200 (list_body user_json) r, db').

(** A body field as [express-validator] reads it: absent or [undefined]
    is missing, [null] is the empty string, anything else its [String]. *)
Definition validator_view (v : jsv) : option string :=
  match v with JUndef => None | JNull => Some "" | _ => Some (js_to_string v) end.

(** [PUT /api/admin/users/:id/status] on a JSON body. *)
Definition user_status_answer (id : ObjectId) (body : jsv) (db : DB) : Response * DB :=
  let '(r, db') := admin_set_user_status id (validator_view (js_opt_get body "isActive")) db in
  (respond 200 (fun u => JObj [("success", JBool true); ("data", user_json id u)]) r, db').

(** The body [updateUserStatus] sends. *)
Definition user_status_body (status : string) : jsv := JObj [("status", JStr status)].

Definition fetch_users_settled (r : option Response) : AdminAction :=
  settle UsersFulfilled UsersRejected r "Failed to fetch users".

Definition user_status_settled (r : option Response) : AdminAction :=
  settle UserStatusFulfilled UserStatusRejected r "Failed to update user status".

End Server.

(** ** Properties *)

Section Props.
Context `{ServerJson} `{JsRuntime}.

(** The admin's user list is [undefined] once fetched ([action.payload.users]
    of the array the server sends), and a later status update then makes
    the reducer throw. *)
Theorem fetch_users_loses_list regex_i q db res db' s u :
  admin_list_users regex_i q db = (Ok res, db') ->
  exists s', admin_reducer s (fetch_users_settled (Some (fst (users_response regex_i q db)))) = Some s' /\
    ad_users s' = JUndef /\ ad_pagination s' = JUndef /\
    admin_reducer s' (UserStatusFulfilled u) = None.
Proof.
  intros Hrun. unfold users_response. rewrite Hrun. destruct s.
  eexists. split; [reflexivity |]. split_and!; try reflexivity.
  destruct u; reflexivity.
Qed.

(** The admin's activate/suspend/ban control never changes a user: the
    body it sends has no [isActive], so the server answers 400 "Validation
    failed" without writing, and the slice has no case for the rejection,
    so nothing is shown either. *)
Theorem user_status_control_inert id status db s :
  user_status_answer id (user_status_body status) db =
    (mkResponse 400 (error_body (HttpError 400 "Validation failed")), db) /\
  admin_reducer s (user_status_settled (Some (fst (user_status_answer id (user_status_body status) db))))
    = Some s.
Proof.
  assert (Hr : user_status_answer id (user_status_body status) db =
               (mkResponse 400 (error_body (HttpError 400 "Validation failed")), db)) by reflexivity.
  split; [exact Hr |]. rewrite Hr. by destruct s.
Qed.

End Props.
