(* ===== verification/Store.v ===== *)
(** * Store: the Redux store of [store/store.ts]

    [configureStore] combines the six slices under one state, and the
    browser keeps one [localStorage] with the auth slice's [token] and
    [user] and the cart slice's [cart] ([ClientApi.LocalStorage]).
    Redux passes every action to every slice reducer; the slices' action
    types are distinct ([auth/...], [cart/...], ...) and no slice has a
    case for another's, so an action changes the slice that declares it
    and leaves the five others as they are.  [RootAction] is the sum of
    the slices' actions, [root_reducer] the combined reducer ([None] when
    the slice's reducer throws), [store_init] the state a page load builds
    from [localStorage] (each slice's [initialState]).  The middleware's
    [serializableCheck] is a development warning and changes no state.

    The property: the cart is kept in the browser, not per user.  No
    action of the auth slice (signing in or out, registering, updating
    the profile) touches the cart slice or the stored [cart], so after
    one visitor signs out, the next who signs in on the same browser, or
    reloads the page, has the previous visitor's cart. *)

From S2P Require Import Prelude Model ClientJson ClientApi ClientAuth CartSlice ClientSlices ClientAdmin.

Record RootState := mkRootState {
  root_auth : AuthState;
  root_restaurants : RestaurantState;
  root_menu : MenuState;
  root_cart : CartState;
  root_orders : OrderState;
  root_admin : AdminState
}.

Inductive RootAction :=
| RAuth (a : AuthAction)
| RRestaurants (a : RestaurantAction)
| RMenu (a : MenuAction)
| RCart (a : CartAction)
| ROrders (a : OrderAction)
| RAdmin (a : AdminAction).

(** [configureStore({reducer: {auth, restaurants, menu, cart, orders,
    admin}})]: each slice's [initialState], the auth and cart slices
    reading [localStorage]. *)
Definition store_init (ls : LocalStorage) : option RootState :=
  option_map (fun a => mkRootState a restaurant_initial menu_initial (initial_state (ls_cart ls))
                                   order_initial admin_initial)
             (initial_auth ls).

(** The combined reducer. *)
Definition root_reducer (s : RootState) (ls : LocalStorage) (a : RootAction) : option (RootState * LocalStorage) :=
  let '(mkRootState au re me ca od ad) := s in
  match a with
  | RAuth x => option_map (fun '(au', ls') => (mkRootState au' re me ca od ad, ls')) (auth_reducer au ls x)
  | RRestaurants x => option_map (fun re' => (mkRootState au re' me ca od ad, ls)) (restaurant_reducer re x)
  | RMenu x => option_map (fun me' => (mkRootState au re me' ca od ad, ls)) (menu_reducer me x)
  | RCart x =>
      let '(ca', st) := cart_reducer ca (ls_cart ls) x in
      Some (mkRootState au re me ca' od ad, mkLocalStorage (ls_token ls) (ls_user ls) st)
  | ROrders x => option_map (fun od' => (mkRootState au re me ca od' ad, ls)) (order_reducer od x)
  | RAdmin x => option_map (fun ad' => (mkRootState au re me ca od ad', ls)) (admin_reducer ad x)
  end.

(** A sequence of dispatches, stopping at the first that throws. *)
Fixpoint root_run (s : RootState) (ls : LocalStorage) (acts : list RootAction) : option (RootState * LocalStorage) :=
  match acts with
  | [] => Some (s, ls)
  | a :: acts' => match root_reducer s ls a with
                  | Some (s', ls') => root_run s' ls' acts'
                  | None => None
                  end
  end.

Definition is_auth_action (a : RootAction) : Prop := match a with RAuth _ => True | _ => False end.

(** ** Properties *)

(** The auth slice writes [token] and [user], never [cart]. *)
Lemma auth_reducer_keeps_cart au ls x au' ls' :
  auth_reducer au ls x = Some (au', ls') -> ls_cart ls' = ls_cart ls.
Proof.
  destruct x; cbn; try (intros [= _ <-]; reflexivity).
  all: unfold option_map; case_match; intros [=]; subst; reflexivity.
Qed.

(** An auth action changes the auth slice and the session keys only. *)
Lemma root_auth_frame s ls x s' ls' :
  root_reducer s ls (RAuth x) = Some (s', ls') ->
  root_cart s' = root_cart s /\ root_orders s' = root_orders s /\ ls_cart ls' = ls_cart ls.
Proof.
  destruct s as [au re me ca od ad]. cbn.
  destruct (auth_reducer au ls x) as [[au' ls1]|] eqn:E; [| discriminate].
  intros [= <- <-]. split_and!; try reflexivity. by apply (auth_reducer_keeps_cart au ls x au').
Qed.

(** C13: Any sequence of auth actions (signing out, signing in as somebody
    else, registering) leaves the cart slice and the stored cart as they
    were. *)
Theorem cart_outlives_sessions s ls acts s' ls' :
  Forall is_auth_action acts -> root_run s ls acts = Some (s', ls') ->
  root_cart s' = root_cart s /\ ls_cart ls' = ls_cart ls.
Proof.
  revert s ls. induction acts as [|a acts IH]; intros s ls Hall Hrun.
  - injection Hrun as <- <-. done.
  - inversion Hall as [|? ? Ha Hall']; subst. destruct a as [x| | | | |]; try contradiction.
    destruct s as [au re me ca od ad]. cbn in Hrun.
    destruct (auth_reducer au ls x) as [[au1 ls1]|] eqn:E; [| discriminate]. cbn in Hrun.
    destruct (IH _ ls1 Hall' Hrun) as [Hc' Hl']. cbn in Hc'.
    split; [done | rewrite Hl'; exact (auth_reducer_keeps_cart _ _ _ _ _ E)].
Qed.

(** Signing out clears the session but not the cart; a reload then
    reads back the items the signed-out visitor had stored. *)
Theorem sign_out_keeps_cart s ls s' ls' :
  root_reducer s ls (RAuth Logout) = Some (s', ls') ->
  au_isAuthenticated (root_auth s') = false /\ ls_token ls' = None /\
  root_cart s' = root_cart s /\ ls_cart ls' = ls_cart ls /\
  (forall s0, store_init ls' = Some s0 -> cs_items (root_cart s0) = default [] (ls_cart ls)).
Proof.
  intros E. destruct (root_auth_frame _ _ _ _ _ E) as (Hc & _ & Hl).
  destruct s as [au re me ca od ad]. cbn in E. injection E as <- <-.
  split_and!; try done.
  intros s0. unfold store_init, initial_auth. cbn. by intros [= <-].
Qed.
