(* ===== verification/ClientUi.v ===== *)
(** * ClientUi: the components that hold state of their own

    [components/header.tsx] opens the sign-in/sign-up dialog and logs out;
    [components/auth-modal.tsx] keeps the dialog's form and dispatches
    [loginUser] or [registerUser]; [components/filter-sidebar.tsx] keeps
    the selected filters; [pages/RegisterRestaurantPage.tsx] is a
    three-step form.  Each component's [useState] hooks are a record, each
    handler a function on it; a dispatch is the thunk run of [ClientAuth].
    [modal_submit] composes the dialog, the thunk and the server's route:
    the request the form builds, the server's answer to it, the slice
    after the answer. *)

From S2P Require Import Prelude Model Auth Users CartSlice ClientJson ClientApi ClientAuth ClientSlices.

Open Scope Q_scope.

(** ** Header *)

Inductive AuthMode := SignIn | SignUp.

Record HeaderState := mkHeaderState {
  hd_authModalOpen : bool;
  hd_authMode : AuthMode
}.

Definition header_initial : HeaderState := mkHeaderState false SignIn.

Definition openSignIn (h : HeaderState) : HeaderState := mkHeaderState true SignIn.
Definition openSignUp (h : HeaderState) : HeaderState := mkHeaderState true SignUp.

(** [onClose={() => setAuthModalOpen(false)}] *)
Definition closeAuthModal (h : HeaderState) : HeaderState := mkHeaderState false (hd_authMode h).

(** [handleLogout]: [dispatch(logout())], then [navigate("/")]. *)
Definition handleLogout (s : AuthState) (ls : LocalStorage) : option (AuthState * LocalStorage) :=
  auth_reducer s ls Logout.

(** The account area: [{user?.name || "User"}] and the logout button when
    [isAuthenticated], the sign-in and sign-up buttons otherwise. *)
Definition header_greeting (s : AuthState) : option jsv :=
  if au_isAuthenticated s then Some (js_or (js_opt_get (au_user s) "name") (JStr "User")) else None.

(** ** The authentication dialog *)

Record FormData := mkFormData {
  fd_email : string;
  fd_password : string;
  fd_name : string;
  fd_phone : string;
  fd_address : string
}.

Definition empty_form : FormData := mkFormData "" "" "" "" "".

Inductive FormField := FEmail | FPassword | FName | FPhone | FAddress.

(** [setFormData((prev) => ({...prev, [field]: value}))] *)
Definition handleInputChange (f : FormData) (fld : FormField) (v : string) : FormData :=
  let '(mkFormData e p n ph a) := f in
  match fld with
  | FEmail => mkFormData v p n ph a
  | FPassword => mkFormData e v n ph a
  | FName => mkFormData e p v ph a
  | FPhone => mkFormData e p n v a
  | FAddress => mkFormData e p n ph v
  end.

(** The body [registerUser] is called with: the address the form asks
    for is not part of it. *)
Definition signup_request (f : FormData) : RegisterReq :=
  mkRegisterReq (fd_name f) (fd_email f) (fd_password f) (fd_phone f) (Some role_customer).

Inductive Submission :=
| SubmitLogin (email password : string)
| SubmitRegister (r : RegisterReq).

(** [handleSubmit] *)
Definition handleSubmit (mode : AuthMode) (f : FormData) : Submission :=
  match mode with
  | SignIn => SubmitLogin (fd_email f) (fd_password f)
  | SignUp => SubmitRegister (signup_request f)
  end.

(** The first [useEffect]: once [isAuthenticated], [onClose()] and the
    form reset; the dialog's openness is the header's. *)
Definition modal_effect (s : AuthState) (h : HeaderState) (f : FormData) : HeaderState * FormData :=
  if au_isAuthenticated s then (closeAuthModal h, empty_form) else (h, f).

Section Modal.
Context `{ServerJson} `{FormatValidators} `{PasswordHasher} `{JwtVerifier} `{!JwtIssuer} `{JsRuntime}.
Variable email_pattern : string -> bool.

(** A submission of the dialog from the client's state [s, ls] against
    the store [db]: the thunk's run on the server's answer, and the store
    the route leaves. *)
Definition modal_submit (mode : AuthMode) (f : FormData) (now : Z) (db : DB)
  (s : AuthState) (ls : LocalStorage) : option (AuthState * LocalStorage) * DB :=
  match handleSubmit mode f with
  | SubmitLogin e pw =>
      let '(r, db') := login_response e pw now db in (login_flow (Some r) s ls, db')
  | SubmitRegister rq =>
      let '(r, db') := register_response email_pattern rq now db in (register_flow (Some r) s ls, db')
  end.

End Modal.

(** ** The filter sidebar *)

Record Filters := mkFilters {
  fs_cuisines : list string;
  fs_rating : string;
  fs_price : string
}.

Definition filters_initial : Filters := mkFilters [] "" "".

(** [prev.includes(c) ? prev.filter((x) => x !== c) : [...prev, c]] *)
Definition toggle (c : string) (l : list string) : list string :=
  if bool_decide (c ∈ l) then filter (fun x => negb (String.eqb x c)) l else l ++ [c].

Inductive FilterEvent :=
| ToggleCuisine (c : string)
| SelectRating (r : string)
| SelectPrice (p : string)
| ClearAll.

(** The sidebar's handlers; the badges' [×] buttons are [toggleCuisine]
    and the two setters with [""].  None of them dispatches. *)
Definition filter_step (f : Filters) (e : FilterEvent) : Filters :=
  match e with
  | ToggleCuisine c => mkFilters (toggle c (fs_cuisines f)) (fs_rating f) (fs_price f)
  | SelectRating r => mkFilters (fs_cuisines f) r (fs_price f)
  | SelectPrice p => mkFilters (fs_cuisines f) (fs_rating f) p
  | ClearAll => filters_initial
  end.

(** [selectedCuisines.length > 0 || selectedRating || selectedPrice] *)
Definition active_filters_shown (f : Filters) : bool :=
  negb (bool_decide (fs_cuisines f = [])) || negb (String.eqb (fs_rating f) "") ||
  negb (String.eqb (fs_price f) "").

(** The options the sidebar lists: the ten cuisines, the four ratings
    and the four price ranges, each a [checked] input bound to the state. *)
Definition cuisine_options : list string :=
  ["Italian"; "Chinese"; "Indian"; "Mexican"; "Japanese"; "Thai"; "American"; "Mediterranean";
   "French"; "Korean"].
Definition rating_options : list string := ["4.5+"; "4.0+"; "3.5+"; "3.0+"].
Definition price_options : list string := ["$"; "$$"; "$$$"; "$$$$"].

(** [FilterSection]: each section's [isOpen], the cuisine section open
    from the start ([defaultOpen={true}]), each header button a toggle. *)
Inductive SectionId := SecCuisine | SecRating | SecPrice.

Record Sections := mkSections { sec_cuisine : bool; sec_rating : bool; sec_price : bool }.

Definition sections_initial : Sections := mkSections true false false.

(** [onClick={() => setIsOpen(!isOpen)}] *)
Definition toggle_section (s : Sections) (i : SectionId) : Sections :=
  match i with
  | SecCuisine => mkSections (negb (sec_cuisine s)) (sec_rating s) (sec_price s)
  | SecRating => mkSections (sec_cuisine s) (negb (sec_rating s)) (sec_price s)
  | SecPrice => mkSections (sec_cuisine s) (sec_rating s) (negb (sec_price s))
  end.

(** The badges of "Active Filters", in the order rendered: the selected
    cuisines, then [{selectedRating} stars], then the price. *)
Inductive Badge := CuisineBadge (c : string) | RatingBadge (r : string) | PriceBadge (p : string).

#[export] Instance Badge_eq_dec : EqDecision Badge.
Proof. solve_decision. Defined.

Definition active_badges (f : Filters) : list Badge :=
  map CuisineBadge (fs_cuisines f) ++
  (if String.eqb (fs_rating f) "" then [] else [RatingBadge (fs_rating f)]) ++
  (if String.eqb (fs_price f) "" then [] else [PriceBadge (fs_price f)]).

(** A badge's [×] button. *)
Definition badge_remove (b : Badge) : FilterEvent :=
  match b with
  | CuisineBadge c => ToggleCuisine c
  | RatingBadge _ => SelectRating ""
  | PriceBadge _ => SelectPrice ""
  end.

(** ** The restaurant registration page *)

Record Wizard := mkWizard {
  wz_currentStep : Z;
  wz_formData : jsv
}.

Definition wizard_initial : Wizard :=
  mkWizard 1 (JObj (map (fun k => (k, JStr "")) ["restaurantName"; "ownerName"; "email"; "phone";
    "address"; "cuisine"; "description"; "businessLicense"; "taxId"; "bankAccount"; "routingNumber"])).

Inductive WizardEvent :=
| WizardInput (field value : string)
| NextStep
| PrevStep
| WizardSubmit.

(** [nextStep], [prevStep], [handleInputChange] and [handleSubmit], which
    only logs the form. *)
Definition wizard_step (w : Wizard) (e : WizardEvent) : Wizard :=
  let '(mkWizard st fd) := w in
  match e with
  | WizardInput k v => mkWizard st (js_spread_merge fd (JObj [(k, JStr v)]))
  | NextStep => if (st <? 3)%Z then mkWizard (st + 1) fd else w
  | PrevStep => if (1 <? st)%Z then mkWizard (st - 1) fd else w
  | WizardSubmit => w
  end.

Definition wizard_run (w : Wizard) (es : list WizardEvent) : Wizard := foldl wizard_step w es.

(** The progress bar's badges: a check for the steps before the current
    one, highlighted up to it. *)
Inductive StepBadge := BadgeDone | BadgeCurrent | BadgeTodo.

Definition step_badge (w : Wizard) (step : Z) : StepBadge :=
  if (step <? wz_currentStep w)%Z then BadgeDone
  else if (step =? wz_currentStep w)%Z then BadgeCurrent else BadgeTodo.

(** [{currentStep === 3 && ...}]: the step with the submit button. *)
Definition submit_visible (w : Wizard) : bool := (wz_currentStep w =? 3)%Z.

(** The inputs each step renders with [required]: only the step on
    screen is in the DOM, and the "Continue" buttons are [type="button"],
    so nothing checks a step when it is left. *)
Definition step_required (st : Z) : list string :=
  if (st =? 1)%Z then ["restaurantName"; "ownerName"; "email"; "phone"; "address"; "cuisine"]
  else if (st =? 2)%Z then ["businessLicense"; "taxId"]
  else if (st =? 3)%Z then ["bankAccount"; "routingNumber"]
  else [].

(** A [required] input with a non-empty value. *)
Definition field_filled (fd : jsv) (k : string) : bool :=
  match js_get fd k with Some (JStr v) => notEmpty v | _ => false end.

(** [<form onSubmit={handleSubmit}>] submitted from the last step (the
    only one with a submit button): the browser checks the required
    inputs on screen, then [handleSubmit] logs the form. *)
Definition wizard_submission (w : Wizard) : option jsv :=
  if submit_visible w && forallb (field_filled (wz_formData w)) (step_required (wz_currentStep w))
  then Some (wz_formData w) else None.

(** The abstract behaviour of the cuisine checkboxes: whether [x] is
    selected after the events [es], starting from [b]. *)
Definition selected_step (x : string) (b : bool) (e : FilterEvent) : bool :=
  match e with
  | ToggleCuisine c => if String.eqb c x then negb b else b
  | ClearAll => false
  | _ => b
  end.

Definition selected_after (x : string) (b : bool) (es : list FilterEvent) : bool :=
  foldl (selected_step x) b es.

(** ** Properties *)

Lemma toggle_spec c l x : x ∈ toggle c l <-> (x ∈ l /\ x <> c) \/ (x = c /\ c ∉ l).
Proof.
  unfold toggle. case_bool_decide as Hc.
  - rewrite list_elem_of_filter. destruct (String.eqb_spec x c); naive_solver.
  - rewrite elem_of_app, list_elem_of_singleton. naive_solver.
Qed.

Lemma toggle_NoDup c l : NoDup l -> NoDup (toggle c l).
Proof.
  intros Hl. unfold toggle. case_bool_decide as Hc.
  - by apply NoDup_filter.
  - apply NoDup_app. split_and!; [done | | by apply NoDup_singleton].
    intros x Hx ->%list_elem_of_singleton. done.
Qed.

Lemma filter_step_NoDup f e : NoDup (fs_cuisines f) -> NoDup (fs_cuisines (filter_step f e)).
Proof. intros Hf. destruct e; simpl; try done; [by apply toggle_NoDup | constructor]. Qed.

Lemma filter_step_selected f e x :
  bool_decide (x ∈ fs_cuisines (filter_step f e)) = selected_step x (bool_decide (x ∈ fs_cuisines f)) e.
Proof.
  destruct e as [c | r | p |]; simpl; try done.
  - destruct (String.eqb_spec c x) as [-> | Hne];
      repeat case_bool_decide; rewrite ?toggle_spec in *; naive_solver.
Qed.

Lemma filter_run_selection f es x :
  NoDup (fs_cuisines f) ->
  NoDup (fs_cuisines (foldl filter_step f es)) /\
  (x ∈ fs_cuisines (foldl filter_step f es) <-> selected_after x (bool_decide (x ∈ fs_cuisines f)) es = true).
Proof.
  revert f. induction es as [| e es IH]; intros f Hf; simpl.
  - split; [done |]. by rewrite bool_decide_eq_true.
  - destruct (IH (filter_step f e)) as [H1 H2]; [by apply filter_step_NoDup |].
    split; [done |]. rewrite H2, filter_step_selected. done.
Qed.

(** The filter sidebar's cuisine selection, from the first render and
    after any sequence of clicks, holds no cuisine twice, and a cuisine is
    selected exactly when it was clicked an odd number of times since the
    last "Clear". *)
Theorem filter_sidebar_selection es x :
  NoDup (fs_cuisines (foldl filter_step filters_initial es)) /\
  (x ∈ fs_cuisines (foldl filter_step filters_initial es) <-> selected_after x false es = true).
Proof. apply (filter_run_selection filters_initial es x). constructor. Qed.

(** The "Active Filters" panel is shown exactly when it has a badge. *)
Lemma active_filters_shown_badges f :
  active_filters_shown f = negb (bool_decide (active_badges f = [])).
Proof.
  unfold active_filters_shown, active_badges.
  destruct (fs_cuisines f); simpl;
    destruct (String.eqb (fs_rating f) ""), (String.eqb (fs_price f) ""); done.
Qed.

Lemma map_cuisine_filter c l :
  map CuisineBadge (filter (fun x => negb (String.eqb x c)) l) = filter (fun b => b <> CuisineBadge c) (map CuisineBadge l).
Proof.
  induction l as [| x l IH]; [done |]. rewrite filter_cons. simpl. rewrite filter_cons.
  destruct (String.eqb_spec x c) as [-> | Hne]; simpl.
  - rewrite decide_False by congruence. exact IH.
  - rewrite decide_True by congruence. simpl. by f_equal.
Qed.

Lemma filter_map_cuisine_keep b l :
  (forall c, b <> CuisineBadge c) -> filter (fun x => x <> b) (map CuisineBadge l) = map CuisineBadge l.
Proof.
  intros Hb. apply filter_all, Forall_forall. intros x Hx.
  apply list_elem_of_In, in_map_iff in Hx as (y & <- & _). done.
Qed.

(** A badge's [×] removes that badge and keeps the others, in order. *)
Lemma badge_remove_spec f b :
  b ∈ active_badges f ->
  active_badges (filter_step f (badge_remove b)) = filter (fun x => x <> b) (active_badges f).
Proof.
  unfold active_badges. rewrite !filter_app. intros Hb.
  destruct b as [c | r | p]; simpl in *; rewrite !elem_of_app in Hb.
  - assert (Hc : c ∈ fs_cuisines f).
    { destruct Hb as [Hb | [Hb | Hb]].
      - apply list_elem_of_In, in_map_iff in Hb as (x & [= ->] & Hx). by apply list_elem_of_In.
      - destruct (String.eqb _ ""); set_solver.
      - destruct (String.eqb _ ""); set_solver. }
    unfold toggle. rewrite bool_decide_eq_true_2 by done. rewrite map_cuisine_filter. f_equal. f_equal;
      [destruct (String.eqb (fs_rating f) "") | destruct (String.eqb (fs_price f) "")]; simpl;
      rewrite ?filter_cons, ?filter_nil, ?decide_True by congruence; done.
  - assert (Hr : r = fs_rating f /\ (fs_rating f =? "")%string = false).
    { destruct Hb as [Hb | [Hb | Hb]].
      - apply list_elem_of_In, in_map_iff in Hb as (x & ? & _). discriminate.
      - destruct (fs_rating f =? "")%string; [set_solver |]. by apply list_elem_of_singleton in Hb as [= ->].
      - destruct (fs_price f =? "")%string; [set_solver |]. by apply list_elem_of_singleton in Hb. }
    destruct Hr as [-> Hne]. rewrite Hne, filter_map_cuisine_keep by congruence. simpl.
    rewrite filter_cons_False, filter_nil by tauto. simpl. f_equal.
    destruct (fs_price f =? "")%string; simpl; rewrite ?filter_cons, ?filter_nil, ?decide_True by congruence; done.
  - assert (Hp : p = fs_price f /\ (fs_price f =? "")%string = false).
    { destruct Hb as [Hb | [Hb | Hb]].
      - apply list_elem_of_In, in_map_iff in Hb as (x & ? & _). discriminate.
      - destruct (fs_rating f =? "")%string; [set_solver |]. by apply list_elem_of_singleton in Hb.
      - destruct (fs_price f =? "")%string; [set_solver |]. by apply list_elem_of_singleton in Hb as [= ->]. }
    destruct Hp as [-> Hne]. rewrite Hne, filter_map_cuisine_keep by congruence. simpl.
    rewrite filter_cons_False, filter_nil by tauto. rewrite app_nil_r. f_equal.
    destruct (fs_rating f =? "")%string; simpl; rewrite ?filter_cons, ?filter_nil, ?decide_True by congruence; done.
Qed.


Definition wizard_ok (w : Wizard) : Prop := (1 <= wz_currentStep w <= 3)%Z.

Lemma wizard_step_ok w e : wizard_ok w -> wizard_ok (wizard_step w e).
Proof.
  destruct w as [st fd]. unfold wizard_ok. simpl. intros H.
  destruct e; simpl; try lia;
    repeat match goal with |- context [(?a <? ?b)%Z] => destruct (Z.ltb_spec a b) end; simpl; lia.
Qed.

Lemma wizard_run_ok w es : wizard_ok w -> wizard_ok (wizard_run w es).
Proof.
  unfold wizard_run. revert w. induction es; intros w Hw; simpl; [done |].
  apply IHes, wizard_step_ok, Hw.
Qed.

(** C37: The registration page always shows one of its three steps, and
    from whatever step the owner has reached, at most two "Continue"
    clicks bring the step with the submit button, keeping everything
    entered. *)
Theorem wizard_reaches_submit es :
  let w := wizard_run wizard_initial es in
  (1 <= wz_currentStep w <= 3)%Z /\
  submit_visible (wizard_run w (repeat NextStep (Z.to_nat (3 - wz_currentStep w)))) = true /\
  wz_formData (wizard_run w (repeat NextStep (Z.to_nat (3 - wz_currentStep w)))) = wz_formData w.
Proof.
  intros w. assert (Hw : wizard_ok w) by (apply wizard_run_ok; unfold wizard_ok; simpl; lia).
  assert (Hnext : forall w n, wizard_ok w ->
    wz_currentStep (wizard_run w (repeat NextStep n)) = Z.min 3 (wz_currentStep w + Z.of_nat n) /\
    wz_formData (wizard_run w (repeat NextStep n)) = wz_formData w).
  { unfold wizard_run. clear. intros w n. revert w.
    induction n as [| n IH]; intros [st fd] Hw; unfold wizard_ok in Hw; simpl in *; [split; [lia | done] |].
    destruct (Z.ltb_spec st 3) as [Hlt | Hge].
    - destruct (IH (mkWizard (st + 1) fd)) as [-> ->]; [unfold wizard_ok; simpl; lia |].
      simpl. split; [lia | done].
    - destruct (IH (mkWizard st fd)) as [-> ->]; [unfold wizard_ok; simpl; lia |].
      simpl. split; [lia | done]. }
  destruct (Hnext w (Z.to_nat (3 - wz_currentStep w)) Hw) as [Hs Hf].
  unfold wizard_ok in Hw. split; [done |]. split; [| done].
  unfold submit_visible. rewrite Hs. apply Z.eqb_eq. lia.
Qed.

(** The form is submitted with every required field of the first two
    steps empty: "Continue" twice, then the two bank fields, and the
    browser lets the submission through. *)
Lemma wizard_submits_unfilled b r :
  notEmpty b = true -> notEmpty r = true ->
  exists fd, wizard_submission (wizard_run wizard_initial
               [NextStep; NextStep; WizardInput "bankAccount" b; WizardInput "routingNumber" r]) = Some fd /\
             Forall (fun k => js_get fd k = Some (JStr "")) (step_required 1 ++ step_required 2).
Proof.
  intros Hb Hr. unfold wizard_submission, field_filled. simpl. rewrite Hb, Hr. simpl.
  eexists. split; [reflexivity |]. repeat constructor.
Qed.

Section ModalProps.
Context `{ServerJson} `{FormatValidators} `{PasswordHasher} `{JwtVerifier} `{!JwtIssuer} `{JsRuntime}.
Variable email_pattern : string -> bool.

(** C16: Signing up through the dialog, when the server accepts the form,
    creates a customer under the normalized e-mail, stores the issued
    token so that every later request authenticates as the new user,
    marks the session authenticated, and closes the dialog with its form
    cleared. *)
Theorem modal_signup_roundtrip f now db id tok db' s ls h :
  register_user email_pattern (signup_request f) now db = (Ok (id, tok), db') ->
  exists s' ls' u,
    modal_submit email_pattern SignUp f now db s ls = (Some (s', ls'), db') /\
    au_isAuthenticated s' = true /\ au_token s' = JStr tok /\ au_user s' = register_user_json id u /\
    db_users db' !! id = Some u /\ u_role u = role_customer /\ u_email u = normalizeEmail (fd_email f) /\
    fst (auth (auth_header ls') db') = Ok (id, u) /\
    modal_effect s' h f = (closeAuthModal h, empty_form).
Proof.
  intros Hrun. destruct (register_user_ok _ _ _ _ _ _ _ Hrun) as (_ & _ & Hid & -> & Hdb).
  set (u := user_pre_save _) in Hdb.
  assert (Hu : db_users db' !! id = Some u) by (rewrite Hdb, Hid; apply lookup_insert_eq).
  unfold modal_submit, handleSubmit, register_response. rewrite Hrun.
  eexists _, _, u. split; [reflexivity |].
  cbn -[auth_header auth register_user_json user_pre_save]. rewrite Hu.
  split_and!; try done.
  rewrite (auth_header_token _ (jwt_sign id now)); [| done | apply jwt_sign_nonempty].
  by apply issued_token_auth.
Qed.

End ModalProps.
