(* ===== verification/AuthDialog.v ===== *)
(** * AuthDialog: the header, its dialog, the auth slice and the server as one system

    [components/header.tsx] renders the sign-in and sign-up buttons (or
    the user's name and "Sign Out") and mounts [components/auth-modal.tsx]
    with its own [authModalOpen] and [authMode].  The dialog keeps the form
    and the password's visibility; submitting it dispatches [loginUser] or
    [registerUser] of [store/slices/authSlice.ts], whose request reaches
    the server's route; the answer settles the thunk later, while the user
    goes on clicking.  This file puts the four together:

    - [Shell] is the state: the header's two hooks, the dialog's two
      hooks, the auth slice, [localStorage], the requests sent and not yet
      answered ([sh_inflight], each with the answer the server gave when it
      handled it) and the server's store.
    - [ShellEvent] are the user's clicks and keystrokes and the arrival of
      an answer; [shell_step] is [None] when the control of the event is
      not rendered or is disabled.
    - After each event React runs the dialog's two effects ([effects]):
      closing the dialog and emptying the form while the session is
      authenticated, and [clearError] when the dialog opens or changes
      mode.
    - Submitting runs the browser's constraint validation first: every
      rendered [required] input must be non-empty and the [type="email"]
      input a valid address ([browser_email], a parameter).  The submit
      button is [disabled] while [isLoading], which also disables the
      implicit submission by Enter; "Forgot your password?" is a button
      without [type] inside the form, so it submits the form too, loading or
      not (the [components/ui] buttons are not in the repository; shadcn/ui's
      [Button] renders a plain [<button>]).
    - An answer is delivered with [auth_thunk_settle]; a 401 reloads the
      page, which resets every component and drops the answers still
      awaited (the server has already handled those requests).

    [reachable] is the closure of the initial states under [shell_step];
    the invariant [shell_inv] holds in every reachable state. *)

From S2P Require Import Prelude Model Auth Users CartSlice ClientJson ClientApi ClientAuth ClientUi.

Open Scope Q_scope.

(** A request sent by the dialog and the answer the server gave to it. *)
Record InFlight := mkInFlight {
  if_sub : Submission;
  if_resp : Response
}.

Record Shell := mkShell {
  sh_header : HeaderState;
  sh_form : FormData;
  sh_showPassword : bool;
  sh_auth : AuthState;
  sh_ls : LocalStorage;
  sh_inflight : list InFlight;
  sh_db : DB
}.

Inductive ShellEvent :=
| ClickSignIn
| ClickSignUp
| ClickSignOut
| CloseDialog
| TypeField (fld : FormField) (v : string)
| ToggleShowPassword
| SwitchMode
| PressSubmit (now : Z)
| PressForgotPassword (now : Z)
| Answer (i : nat).

(** The page as it loads: the slice's [initialState] from [localStorage],
    the components' initial hooks, nothing in flight. *)
Definition shell_load (ls : LocalStorage) (db : DB) : option Shell :=
  option_map (fun a => mkShell header_initial empty_form false a ls [] db) (initial_auth ls).

#[export] Instance AuthMode_eq_dec : EqDecision AuthMode.
Proof. solve_decision. Defined.

(** [onModeChange(mode === "signin" ? "signup" : "signin")] *)
Definition other_mode (m : AuthMode) : AuthMode :=
  match m with SignIn => SignUp | SignUp => SignIn end.

(** The inputs the dialog renders in a mode: name, phone and address only
    when signing up. *)
Definition field_rendered (m : AuthMode) (fld : FormField) : bool :=
  match m, fld with
  | SignIn, (FName | FPhone | FAddress) => false
  | _, _ => true
  end.

Section Shell.
Context `{ServerJson} `{FormatValidators} `{PasswordHasher} `{JwtVerifier} `{!JwtIssuer} `{JsRuntime}.
(** The schema's e-mail pattern, and the browser's check of an
    [<input type="email">]. *)
Variable email_pattern : string -> bool.
Variable browser_email : string -> bool.

(** The browser's constraint validation of the dialog's form: every
    rendered [required] input is non-empty, the e-mail a valid address. *)
Definition form_valid (m : AuthMode) (f : FormData) : bool :=
  notEmpty (fd_email f) && browser_email (fd_email f) && notEmpty (fd_password f) &&
  match m with
  | SignIn => true
  | SignUp => notEmpty (fd_name f) && notEmpty (fd_phone f) && notEmpty (fd_address f)
  end.

(** The request a submission sends, handled by the server at once. *)
Definition server_answer (sub : Submission) (now : Z) (db : DB) : Response * DB :=
  match sub with
  | SubmitLogin e pw => login_response e pw now db
  | SubmitRegister rq => register_response email_pattern rq now db
  end.

Definition pending_of (sub : Submission) : AuthAction :=
  match sub with SubmitLogin _ _ => LoginPending | SubmitRegister _ => RegisterPending end.

(** The thunk's remainder once its answer arrives. *)
Definition settle_of (sub : Submission) : option Response -> AuthState -> LocalStorage ->
                                          option (AuthState * LocalStorage) :=
  match sub with
  | SubmitLogin _ _ => auth_thunk_settle LoginFulfilled LoginRejected "Login failed"
  | SubmitRegister _ => auth_thunk_settle RegisterFulfilled RegisterRejected "Registration failed"
  end.

(** [<form onSubmit={handleSubmit}>]: the browser validates the form;
    [handleSubmit] dispatches the thunk, whose [pending] action runs at
    once and whose request the server handles. *)
Definition submit (now : Z) (s : Shell) : option Shell :=
  let m := hd_authMode (sh_header s) in
  if form_valid m (sh_form s) then
    let sub := handleSubmit m (sh_form s) in
    match auth_reducer (sh_auth s) (sh_ls s) (pending_of sub) with
    | None => None
    | Some (a, ls) =>
        let '(r, db) := server_answer sub now (sh_db s) in
        Some (mkShell (sh_header s) (sh_form s) (sh_showPassword s) a ls
                (sh_inflight s ++ [mkInFlight sub r]) db)
    end
  else Some s.

(** The [i]-th awaited answer arrives. *)
Definition deliver (i : nat) (s : Shell) : option Shell :=
  match sh_inflight s !! i with
  | None => None
  | Some x =>
      let reload := snd (answer_storage (Some (if_resp x)) (sh_ls s)) in
      match settle_of (if_sub x) (Some (if_resp x)) (sh_auth s) (sh_ls s) with
      | None => None
      | Some (a, ls) =>
          if reload then Some (mkShell header_initial empty_form false a ls [] (sh_db s))
          else Some (mkShell (sh_header s) (sh_form s) (sh_showPassword s) a ls
                       (delete i (sh_inflight s)) (sh_db s))
      end
  end.

Definition set_header (s : Shell) (h : HeaderState) : Shell :=
  mkShell h (sh_form s) (sh_showPassword s) (sh_auth s) (sh_ls s) (sh_inflight s) (sh_db s).

(** The handler of an event, before the effects. *)
Definition handle (s : Shell) (e : ShellEvent) : option Shell :=
  let h := sh_header s in
  let authd := au_isAuthenticated (sh_auth s) in
  let open_ := hd_authModalOpen h in
  match e with
  | ClickSignIn => if authd then None else Some (set_header s (openSignIn h))
  | ClickSignUp => if authd then None else Some (set_header s (openSignUp h))
  | ClickSignOut =>
      if authd then
        option_map (fun '(a, ls) => mkShell h (sh_form s) (sh_showPassword s) a ls (sh_inflight s) (sh_db s))
          (handleLogout (sh_auth s) (sh_ls s))
      else None
  | CloseDialog => if open_ then Some (set_header s (closeAuthModal h)) else None
  | TypeField fld v =>
      if open_ && field_rendered (hd_authMode h) fld then
        Some (mkShell h (handleInputChange (sh_form s) fld v) (sh_showPassword s) (sh_auth s) (sh_ls s)
                (sh_inflight s) (sh_db s))
      else None
  | ToggleShowPassword =>
      if open_ then
        Some (mkShell h (sh_form s) (negb (sh_showPassword s)) (sh_auth s) (sh_ls s) (sh_inflight s) (sh_db s))
      else None
  | SwitchMode =>
      if open_ then Some (set_header s (mkHeaderState true (other_mode (hd_authMode h)))) else None
  | PressSubmit now => if open_ && negb (au_isLoading (sh_auth s)) then submit now s else None
  | PressForgotPassword now =>
      if open_ && bool_decide (hd_authMode h = SignIn) then submit now s else None
  | Answer i => deliver i s
  end.

(** The dialog's effects after the render that follows [before]: the
    first closes the dialog and empties the form while authenticated (its
    dependency [onClose] is a new function at every render of the header);
    the second dispatches [clearError] when the dialog is open and its
    openness or mode changed. *)
Definition effects (before after : Shell) : Shell :=
  let '(h1, f1) := modal_effect (sh_auth after) (sh_header after) (sh_form after) in
  let h0 := sh_header before in
  let changed := negb (Bool.eqb (hd_authModalOpen h0) (hd_authModalOpen h1)) ||
                 negb (bool_decide (hd_authMode h0 = hd_authMode h1)) in
  let '(a, ls) := if hd_authModalOpen h1 && changed
                  then default (sh_auth after, sh_ls after) (auth_reducer (sh_auth after) (sh_ls after) ClearAuthError)
                  else (sh_auth after, sh_ls after) in
  mkShell h1 f1 (sh_showPassword after) a ls (sh_inflight after) (sh_db after).

Definition shell_step (s : Shell) (e : ShellEvent) : option Shell :=
  option_map (effects s) (handle s e).

(** A sequence of events, stopping at the first that cannot happen. *)
Fixpoint shell_run (s : Shell) (es : list ShellEvent) : option Shell :=
  match es with
  | [] => Some s
  | e :: es => match shell_step s e with Some s' => shell_run s' es | None => None end
  end.

(** The states the page can reach from a load. *)
Inductive reachable : Shell -> Prop :=
| reach_load ls db s : shell_load ls db = Some s -> reachable s
| reach_step s e s' : reachable s -> shell_step s e = Some s' -> reachable s'.

(** What a request the dialog sent always carries: the rendered required
    fields were filled in. *)
Definition submission_filled (sub : Submission) : Prop :=
  match sub with
  | SubmitLogin e pw => e <> "" /\ pw <> ""
  | SubmitRegister rq => reg_email rq <> "" /\ reg_password rq <> "" /\ reg_name rq <> "" /\ reg_phone rq <> ""
  end.

(** The invariant of the page. *)
Definition shell_inv (s : Shell) : Prop :=
  (au_isAuthenticated (sh_auth s) = true -> hd_authModalOpen (sh_header s) = false /\ sh_form s = empty_form) /\
  (au_isLoading (sh_auth s) = true -> sh_inflight s <> []) /\
  Forall (fun x => submission_filled (if_sub x)) (sh_inflight s).

End Shell.

(** ** Properties *)

Section ShellProps.
Context `{ServerJson} `{FormatValidators} `{PasswordHasher} `{JwtVerifier} `{!JwtIssuer} `{JsRuntime}.
Variable email_pattern : string -> bool.
Variable browser_email : string -> bool.

Lemma notEmpty_true s : notEmpty s = true -> s <> "".
Proof. unfold notEmpty. by destruct (String.eqb_spec s ""). Qed.

Lemma initial_auth_not_loading ls a : initial_auth ls = Some a -> au_isLoading a = false.
Proof. unfold initial_auth. destruct (ls_user ls) as [[] |]; intros Ha; inversion Ha; done. Qed.

(** An answer always ends the loading state, whatever thunk it settles. *)
Lemma settle_not_loading sub r a ls a' ls' :
  settle_of sub r a ls = Some (a', ls') -> au_isLoading a' = false.
Proof.
  unfold settle_of, auth_thunk_settle. intros Hs.
  destruct sub; destruct (answer_storage _ _) as [ls2 []];
    [destruct (initial_auth ls2) eqn:Hi; simpl in Hs; [| discriminate];
       injection Hs as <- <-; by eapply initial_auth_not_loading
    | destruct (session_payload _ _ _) as [ls3 [p | m]]; simpl in Hs;
       [unfold session_of in Hs; destruct (js_get p "user"), (js_get p "token"); simpl in Hs;
          try discriminate; by injection Hs as <- <-
       | by injection Hs as <- <-]
    | destruct (initial_auth ls2) eqn:Hi; simpl in Hs; [| discriminate];
       injection Hs as <- <-; by eapply initial_auth_not_loading
    | destruct (session_payload _ _ _) as [ls3 [p | m]]; simpl in Hs;
       [unfold session_of in Hs; destruct (js_get p "user"), (js_get p "token"); simpl in Hs;
          try discriminate; by injection Hs as <- <-
       | by injection Hs as <- <-]].
Qed.

(** The effects change neither the session flags nor the requests. *)
Lemma effects_keep before after :
  au_isAuthenticated (sh_auth (effects before after)) = au_isAuthenticated (sh_auth after) /\
  au_isLoading (sh_auth (effects before after)) = au_isLoading (sh_auth after) /\
  sh_inflight (effects before after) = sh_inflight after /\
  sh_ls (effects before after) = sh_ls after /\ sh_db (effects before after) = sh_db after.
Proof.
  unfold effects. destruct (modal_effect _ _ _) as [h1 f1].
  by destruct (hd_authModalOpen h1 && _).
Qed.

(** After the effects, an authenticated page has its dialog closed and
    its form empty. *)
Lemma effects_closed before after :
  au_isAuthenticated (sh_auth after) = true ->
  hd_authModalOpen (sh_header (effects before after)) = false /\ sh_form (effects before after) = empty_form.
Proof. intros Ha. unfold effects, modal_effect. by rewrite Ha. Qed.

(** Without a session and without a change of the header, the effects do
    nothing. *)
Lemma effects_quiet before after :
  au_isAuthenticated (sh_auth after) = false -> sh_header before = sh_header after ->
  effects before after = after.
Proof.
  intros Ha Hh. unfold effects, modal_effect. rewrite Ha, Hh.
  destruct after as [[op md] f sp a ls inf db]; simpl.
  rewrite eqb_reflx, bool_decide_eq_true_2 by done. by destruct op.
Qed.

Lemma reachable_run s es s' :
  reachable email_pattern browser_email s -> shell_run email_pattern browser_email s es = Some s' ->
  reachable email_pattern browser_email s'.
Proof.
  revert s. induction es as [| e es IH]; intros s Hs Hrun; simpl in Hrun; [by injection Hrun as <- |].
  destruct (shell_step _ _ s e) as [s1 |] eqn:Hstep; [| discriminate].
  apply (IH s1); [by eapply reach_step | done].
Qed.

(** The part of the invariant the handlers keep. *)
Definition inflight_inv (s : Shell) : Prop :=
  (au_isLoading (sh_auth s) = true -> sh_inflight s <> []) /\
  Forall (fun x => submission_filled (if_sub x)) (sh_inflight s).

Lemma submit_inv now s s' :
  inflight_inv s -> submit email_pattern browser_email now s = Some s' -> inflight_inv s'.
Proof.
  unfold submit, form_valid. intros [Hl Hf] Hs.
  destruct (notEmpty (fd_email _) && _ && _ && _) eqn:Hv; [| by injection Hs as <-].
  destruct (auth_reducer _ _ _) as [[a ls] |]; [| discriminate].
  destruct (server_answer _ _ _ _) as [r db]. injection Hs as <-. split; simpl.
  - intros _ Hnil. apply app_eq_nil in Hnil as [_ ?]. discriminate.
  - apply Forall_app. split; [done |]. apply Forall_singleton.
    destruct (hd_authMode _); simpl in *; rewrite ?andb_true_r, !andb_true_iff in Hv;
      split_and!; apply notEmpty_true; tauto.
Qed.

Lemma deliver_inv i s s' : inflight_inv s -> deliver i s = Some s' -> inflight_inv s'.
Proof.
  unfold deliver. intros [_ Hf] Hd.
  destruct (sh_inflight s !! i) as [x |]; [| discriminate].
  destruct (settle_of _ _ _ _) as [[a ls] |] eqn:Hs; [| discriminate].
  apply settle_not_loading in Hs.
  destruct (snd _); injection Hd as <-; (split; simpl; [by rewrite Hs |]);
    first [done | by apply Forall_delete].
Qed.

Lemma handle_inv s e s' : inflight_inv s -> handle email_pattern browser_email s e = Some s' -> inflight_inv s'.
Proof.
  intros Hi Hh. destruct e; cbv beta iota zeta delta [handle] in Hh;
    repeat match type of Hh with
           | context [if ?b then _ else _] => destruct b
           end; try discriminate;
    try (injection Hh as <-; exact Hi); try by eapply submit_inv.
  eapply deliver_inv; [exact Hi | exact Hh].
Qed.

(** C17: In every state the page can reach, by any interleaving of clicks,
    keystrokes and answers: an authenticated session never shows the
    dialog and keeps its form empty; the slice is loading only while a
    request is awaited; and every request in flight carries the fields
    the dialog rendered as required. *)
Theorem shell_invariant s : reachable email_pattern browser_email s -> shell_inv s.
Proof.
  induction 1 as [ls db s Hload | s e s' _ [_ IH] Hstep].
  - unfold shell_load in Hload. destruct (initial_auth ls) as [a |] eqn:Ha; [| discriminate].
    injection Hload as <-. split_and!; simpl; [done | | constructor].
    by rewrite (initial_auth_not_loading _ _ Ha).
  - unfold shell_step in Hstep. destruct (handle _ _ s e) as [s1 |] eqn:Hh; [| discriminate].
    injection Hstep as <-. destruct (handle_inv _ _ _ IH Hh) as [Hl Hf].
    destruct (effects_keep s s1) as (Ha & Hload & Hin & _). split_and!.
    + rewrite Ha. apply effects_closed.
    + rewrite Hload, Hin. exact Hl.
    + by rewrite Hin.
Qed.

(** C19: "Forgot your password?" submits the sign-in form: once a login is
    awaited the submit button is disabled, yet a click on that link sends
    the same login again, and the server handles both requests. *)
Theorem forgot_password_resubmits s now now' :
  hd_authModalOpen (sh_header s) = true -> hd_authMode (sh_header s) = SignIn ->
  au_isAuthenticated (sh_auth s) = false -> au_isLoading (sh_auth s) = false ->
  form_valid browser_email SignIn (sh_form s) = true ->
  let e := fd_email (sh_form s) in
  let pw := fd_password (sh_form s) in
  exists s1 s2,
    shell_step email_pattern browser_email s (PressSubmit now) = Some s1 /\ au_isLoading (sh_auth s1) = true /\
    shell_step email_pattern browser_email s1 (PressSubmit now') = None /\
    shell_step email_pattern browser_email s1 (PressForgotPassword now') = Some s2 /\
    map if_sub (sh_inflight s2) = map if_sub (sh_inflight s) ++ [SubmitLogin e pw; SubmitLogin e pw] /\
    sh_db s2 = snd (login_response e pw now' (snd (login_response e pw now (sh_db s)))).
Proof.
  destruct s as [[op md] f sp a ls inf db]; simpl. intros -> -> Ha Hl Hv.
  destruct (login_response (fd_email f) (fd_password f) now db) as [r1 db1] eqn:E1.
  destruct (login_response (fd_email f) (fd_password f) now' db1) as [r2 db2] eqn:E2.
  unfold shell_step, handle, submit. cbn -[login_response form_valid effects].
  rewrite Hl, Hv. cbn -[login_response form_valid effects]. rewrite E1.
  cbn -[login_response form_valid effects]. rewrite effects_quiet by done.
  do 2 eexists. split; [reflexivity |]. cbn -[login_response form_valid effects]. rewrite Hv, E2.
  cbn -[login_response form_valid effects]. rewrite bool_decide_eq_true_2 by done. simpl option_map. rewrite effects_quiet by done.
  split_and!; try reflexivity. simpl. rewrite !map_app. by rewrite <- app_assoc.
Qed.

(** The answer to an accepted login, whenever it arrives, opens the
    session of the user who logged in. *)
Lemma login_settle e pw now db id tok db' a ls :
  login_user e pw now db = (Ok (id, tok), db') ->
  snd (answer_storage (Some (fst (login_response e pw now db))) ls) = false /\
  exists a' ls' u,
    auth_thunk_settle LoginFulfilled LoginRejected "Login failed" (Some (fst (login_response e pw now db))) a ls =
      Some (a', ls') /\
    au_isAuthenticated a' = true /\ db_users db' !! id = Some u /\ fst (auth (auth_header ls') db') = Ok (id, u).
Proof.
  intros Hrun. destruct (login_user_ok _ _ _ _ _ _ _ Hrun) as (-> & u & Hu & _).
  unfold login_response. rewrite Hrun. split; [reflexivity |].
  eexists _, _, u. split; [reflexivity |]. cbn -[auth_header auth login_user_json]. rewrite Hu.
  split_and!; try done.
  rewrite (auth_header_token _ (jwt_sign id now)); [| done | apply jwt_sign_nonempty].
  by apply issued_token_auth.
Qed.

(** The steps of a sign-in, one event at a time. *)
Lemma step_open_signin s :
  au_isAuthenticated (sh_auth s) = false ->
  exists a', shell_step email_pattern browser_email s ClickSignIn =
               Some (mkShell (mkHeaderState true SignIn) (sh_form s) (sh_showPassword s) a' (sh_ls s)
                       (sh_inflight s) (sh_db s)) /\
             au_isAuthenticated a' = false /\ au_isLoading a' = au_isLoading (sh_auth s).
Proof.
  intros Ha. unfold shell_step, handle. rewrite Ha. simpl.
  unfold effects, modal_effect. simpl. rewrite Ha. simpl.
  destruct (negb _ || negb _); simpl; eexists; (split; [reflexivity | done]).
Qed.

Lemma step_type s fld v :
  hd_authModalOpen (sh_header s) = true -> field_rendered (hd_authMode (sh_header s)) fld = true ->
  au_isAuthenticated (sh_auth s) = false ->
  shell_step email_pattern browser_email s (TypeField fld v) =
    Some (mkShell (sh_header s) (handleInputChange (sh_form s) fld v) (sh_showPassword s) (sh_auth s)
            (sh_ls s) (sh_inflight s) (sh_db s)).
Proof.
  intros Ho Hr Ha. unfold shell_step, handle. rewrite Ho, Hr. simpl.
  f_equal. by apply effects_quiet.
Qed.

Lemma step_submit s now :
  hd_authModalOpen (sh_header s) = true -> au_isLoading (sh_auth s) = false ->
  au_isAuthenticated (sh_auth s) = false ->
  form_valid browser_email (hd_authMode (sh_header s)) (sh_form s) = true ->
  let sub := handleSubmit (hd_authMode (sh_header s)) (sh_form s) in
  let '(r, db) := server_answer email_pattern sub now (sh_db s) in
  shell_step email_pattern browser_email s (PressSubmit now) =
    Some (mkShell (sh_header s) (sh_form s) (sh_showPassword s) (set_loading (sh_auth s) true JNull)
            (sh_ls s) (sh_inflight s ++ [mkInFlight sub r]) db).
Proof.
  intros Ho Hl Ha Hv. unfold shell_step, handle, submit. rewrite Ho, Hl, Hv. simpl.
  destruct (hd_authMode (sh_header s)); simpl;
    match goal with |- context [let '(_, _) := ?p in _] => destruct p as [r db] end;
    simpl; f_equal; by apply effects_quiet.
Qed.

Lemma step_answer s i x a' ls' :
  sh_inflight s !! i = Some x -> settle_of (if_sub x) (Some (if_resp x)) (sh_auth s) (sh_ls s) = Some (a', ls') ->
  snd (answer_storage (Some (if_resp x)) (sh_ls s)) = false ->
  shell_step email_pattern browser_email s (Answer i) =
    Some (effects s (mkShell (sh_header s) (sh_form s) (sh_showPassword s) a' ls' (delete i (sh_inflight s)) (sh_db s))).
Proof. intros Hx Hs Hr. unfold shell_step, handle, deliver. by rewrite Hx, Hs, Hr. Qed.

(** C18: From any page without a session and without a request in flight,
    signing in through the header succeeds when the server accepts the
    credentials: the five events (open the dialog, type the e-mail and the
    password, submit, the answer) all happen, and leave the session
    authenticated, the dialog closed with its form emptied, nothing in
    flight, the server's store as the login left it, and a stored token
    that authenticates the user on every later request. *)
Theorem dialog_login s e pw now id tok db' :
  au_isAuthenticated (sh_auth s) = false -> au_isLoading (sh_auth s) = false -> sh_inflight s = [] ->
  notEmpty e = true -> browser_email e = true -> notEmpty pw = true ->
  login_user e pw now (sh_db s) = (Ok (id, tok), db') ->
  exists s',
    shell_run email_pattern browser_email s
      [ClickSignIn; TypeField FEmail e; TypeField FPassword pw; PressSubmit now; Answer 0] = Some s' /\
    au_isAuthenticated (sh_auth s') = true /\ hd_authModalOpen (sh_header s') = false /\
    sh_form s' = empty_form /\ sh_inflight s' = [] /\ sh_db s' = db' /\
    exists u, db_users db' !! id = Some u /\ fst (auth (auth_header (sh_ls s')) db') = Ok (id, u).
Proof.
  intros Ha Hl Hin He Hb Hp Hrun.
  destruct (step_open_signin s Ha) as (a1 & Hopen & Ha1 & Hl1).
  destruct (login_response e pw now (sh_db s)) as [r db1] eqn:E.
  destruct (login_settle e pw now (sh_db s) id tok db' (set_loading a1 true JNull) (sh_ls s) Hrun)
    as (Hreload & a' & ls' & u & Hsettle & Ha' & Hu & Hauth).
  rewrite E in Hreload, Hsettle. simpl in Hreload, Hsettle.
  assert (Hdb1 : db1 = db') by (unfold login_response in E; rewrite Hrun in E; by injection E).
  simpl shell_run. rewrite Hopen.
  rewrite step_type by done. simpl shell_run. rewrite step_type by done. simpl shell_run.
  pose proof (step_submit (mkShell (mkHeaderState true SignIn)
    (handleInputChange (handleInputChange (sh_form s) FEmail e) FPassword pw) (sh_showPassword s) a1
    (sh_ls s) (sh_inflight s) (sh_db s)) now) as Hs.
  destruct (sh_form s) as [fe fp fn fph fa]. simpl in Hs. rewrite E in Hs.
  cbn [sh_header sh_form sh_showPassword sh_auth sh_ls sh_inflight sh_db handleInputChange].   rewrite Hs by (first [congruence | unfold form_valid; simpl; by rewrite He, Hb, Hp]). simpl shell_run. rewrite Hin. simpl.
  rewrite (step_answer _ 0 (mkInFlight (SubmitLogin e pw) r) a' ls') by done. simpl.
  eexists. split; [reflexivity |].
  destruct (effects_keep (mkShell (mkHeaderState true SignIn) (mkFormData e pw fn fph fa) (sh_showPassword s)
    (set_loading a1 true JNull) (sh_ls s) [mkInFlight (SubmitLogin e pw) r] db1)
    (mkShell (mkHeaderState true SignIn) (mkFormData e pw fn fph fa) (sh_showPassword s) a' ls' [] db1))
    as (Hka & _ & Hki & Hkl & Hkd).
  destruct (effects_closed (mkShell (mkHeaderState true SignIn) (mkFormData e pw fn fph fa) (sh_showPassword s)
    (set_loading a1 true JNull) (sh_ls s) [mkInFlight (SubmitLogin e pw) r] db1)
    (mkShell (mkHeaderState true SignIn) (mkFormData e pw fn fph fa) (sh_showPassword s) a' ls' [] db1) Ha')
    as [Hko Hkf].
  rewrite Hka, Hki, Hkl, Hkd, Hko, Hkf. simpl. subst db1. split_and!; eauto.
Qed.

End ShellProps.
