(* ===== verification/ClientPages.v ===== *)
(** * ClientPages: the client's routes, pages and the links between them

    [App.tsx] mounts one page per path in its [<Routes>]; each page
    renders the header and the footer around its own components, and the
    only navigation a visitor has is the [<Link>]s those render.

    - [app_route] is react-router's matching of a path against the seven
      routes: segments split at ["/"], empty segments dropped, literal
      segments compared without regard to case (react-router's default),
      [:id] taking one segment as it is; [pathname] cuts a location at its
      query or fragment.
    - [page_links] are the [<Link to>] targets each page renders: the
      header's logo and three links, the footer's three quick links, the
      hero's "View Menu" (its "Order Now" is a button with no link).  No
      page renders [components/restaurant-grid.tsx] (the only component
      linking to [/restaurant/:id]); the footer's other entries are
      [<a href="#">].  [navigable] is the closure of the home page under
      the links.
    - [restaurant_info] is the lookup of [components/restaurant-info.tsx]:
      [restaurants.find((r) => r.id === Number(restaurantId))] in the
      component's own table of six sample restaurants
      ([sample_restaurants]).  [js_number] is ECMAScript's
      [StringToNumber] on the literal's syntax: NaN, an infinity, or the
      literal's exact value, which [ToDouble] rounds to the nearest double
      (a class; its laws: integers up to 2^53 are exact, and the rounding
      depends on the value only).
    - [admin_dashboard] is [components/admin-dashboard.tsx]: three
      constant tables rendered as cards, rows and badges; it reads no store
      and its buttons have no handler.
    - [contact_run] is the form of [pages/ContactPage.tsx]: uncontrolled
      fields without names, and a submit button whose only effect is the
      browser's own submission of a form with no [action]. *)

From S2P Require Import Prelude Model Orders Auth Seed.
From S2P Require Import ClientJson ClientApi ClientSlices ClientServer.
From Stdlib Require Import Ascii.

Open Scope Q_scope.

(** ** Routes and links *)

Inductive Page :=
| HomePage | MenuPage | AboutPage | ContactPage
| RestaurantPage (id : string) | RegisterRestaurantPage | AdminPage
| NoPage.

#[export] Instance Page_eq_dec : EqDecision Page.
Proof. solve_decision. Defined.

(** The segments of a path between its ["/"]s, the empty ones dropped. *)
Fixpoint split_slash (s : string) (cur : string) : list string :=
  match s with
  | EmptyString => [cur]
  | String c s' => if Ascii.eqb c "/"%char then cur :: split_slash s' "" else split_slash s' (String.append cur (String c EmptyString))
  end.

Definition path_segments (path : string) : list string :=
  filter (fun seg => seg <> "") (split_slash path "").

(** A literal segment of a route, matched without regard to case. *)
Definition seg_is (seg lit : string) : bool := String.eqb (to_lower seg) lit.

(** [<Routes>] of [App.tsx]; a path no route matches renders nothing. *)
Definition app_route (path : string) : Page :=
  match path_segments path with
  | [] => HomePage
  | [s] =>
      if seg_is s "menu" then MenuPage
      else if seg_is s "about" then AboutPage
      else if seg_is s "contact" then ContactPage
      else if seg_is s "register-restaurant" then RegisterRestaurantPage
      else if seg_is s "admin" then AdminPage
      else NoPage
  | [s; id] => if seg_is s "restaurant" then RestaurantPage id else NoPage
  | _ => NoPage
  end.

(** The header's [<Link>]s: the logo, then Menu, About and Contact (the
    mobile sheet repeats the last three). *)
Definition header_links : list string := ["/"; "/menu"; "/about"; "/contact"].

(** The footer's quick links; its other entries are [href="#"]. *)
Definition footer_links : list string := ["/menu"; "/about"; "/contact"].

(** The hero section's "View Menu"; its "Order Now" button links nowhere. *)
Definition hero_links : list string := ["/menu"].

(** The links each page renders: the home page adds the hero; the other
    pages' own components link nowhere. *)
Definition page_links (p : Page) : list string :=
  match p with
  | HomePage => header_links ++ hero_links ++ footer_links
  | NoPage => []
  | _ => header_links ++ footer_links
  end.

(** The pages a visitor reaches from the home page by following links. *)
Inductive navigable : Page -> Prop :=
| nav_home : navigable HomePage
| nav_link p l : navigable p -> l ∈ page_links p -> navigable (app_route l).

(** ** The restaurant page's lookup *)

(** A JavaScript number: NaN, an infinity (negative when [true]), or a
    finite value. *)
Inductive JsNumber := NNaN | NInf (neg : bool) | NNum (q : Q).

(** The rounding of a literal's exact value to a double. *)
Class ToDouble := {
  to_double : Q -> JsNumber;
  to_double_int : forall n : Z, (Z.abs n <= 2 ^ 53)%Z -> to_double (inject_Z n) = NNum (inject_Z n);
  to_double_proper :: Proper (Qeq ==> eq) to_double
}.

Definition digit_in (base : Z) (c : ascii) : option Z :=
  let n := Z.of_nat (nat_of_ascii c) in
  let d := if ((48 <=? n) && (n <=? 57))%Z then Some (n - 48)%Z
           else if ((97 <=? n) && (n <=? 122))%Z then Some (n - 87)%Z
           else if ((65 <=? n) && (n <=? 90))%Z then Some (n - 55)%Z
           else None in
  match d with Some v => if (v <? base)%Z then Some v else None | None => None end.

(** One or more digits of [base] and their value. *)
Fixpoint digits_value (base acc : Z) (s : string) : option Z :=
  match s with
  | EmptyString => Some acc
  | String c s' => match digit_in base c with Some d => digits_value base (acc * base + d)%Z s' | None => None end
  end.

Definition int_digits (base : Z) (s : string) : option Z :=
  match s with EmptyString => None | _ => digits_value base 0 s end.

(** [s] split at the first character satisfying [p]. *)
Fixpoint break_at (p : ascii -> bool) (s : string) : string * string :=
  match s with
  | EmptyString => (EmptyString, EmptyString)
  | String c s' => if p c then (EmptyString, s) else let '(a, b) := break_at p s' in (String c a, b)
  end.

Definition is_char (x : ascii) (c : ascii) : bool := Ascii.eqb c x.

(** Every character of [s] satisfies [p]; some character does. *)
Fixpoint str_all (p : ascii -> bool) (s : string) : bool :=
  match s with EmptyString => true | String c s' => p c && str_all p s' end.

Fixpoint str_any (p : ascii -> bool) (s : string) : bool :=
  match s with EmptyString => false | String c s' => p c || str_any p s' end.

Definition is_digit (c : ascii) : bool :=
  let n := nat_of_ascii c in ((48 <=? n) && (n <=? 57))%nat.

(** The characters of an ObjectId's [toString()]: lower-case hexadecimal. *)
Definition is_hex (c : ascii) : bool :=
  let n := nat_of_ascii c in is_digit c || ((97 <=? n) && (n <=? 102))%nat.

(** The hexadecimal letters that no decimal, binary or octal literal holds. *)
Definition hex_letter (c : ascii) : bool :=
  is_char "a"%char c || is_char "c"%char c || is_char "d"%char c || is_char "f"%char c.

(** The digits on one side of the point: none is 0. *)
Definition decimal_part (x : string) : option Z :=
  match x with EmptyString => Some 0%Z | _ => int_digits 10 x end.

(** The exponent after [e] or [E], with an optional sign. *)
Definition exponent_part (ex : string) : option Z :=
  match ex with
  | EmptyString => Some 0%Z
  | String _ e =>
      match e with
      | String c e' => if is_char "+"%char c then int_digits 10 e'
                       else if is_char "-"%char c then option_map Z.opp (int_digits 10 e')
                       else int_digits 10 e
      | EmptyString => None
      end
  end.

Definition is_exp_char (c : ascii) : bool := is_char "e"%char c || is_char "E"%char c.

(** [StrUnsignedDecimalLiteral]: digits, an optional fraction, an optional
    exponent, with a digit before or after the point. *)
Definition unsigned_decimal (s : string) : option Q :=
  let '(mant, ex) := break_at is_exp_char s in
  let '(ip, fp) := break_at (is_char "."%char) mant in
  let f := match fp with String _ f => f | EmptyString => EmptyString end in
  if String.eqb ip "" && String.eqb f "" then None else
  match decimal_part ip, decimal_part f, exponent_part ex with
  | Some i, Some fv, Some e =>
      let m := inject_Z i + inject_Z fv / inject_Z (10 ^ Z.of_nat (String.length f)) in
      Some (if (0 <=? e)%Z then m * inject_Z (10 ^ e) else m / inject_Z (10 ^ (- e)))
  | _, _, _ => None
  end.

(** ** The sample table of [components/restaurant-info.tsx] *)

Record SampleRestaurant := mkSampleRestaurant {
  sr_id : Z;
  sr_name : string;
  sr_cuisine : string;
  sr_rating : Q;
  sr_deliveryTime : string;
  sr_deliveryFee : string;
  sr_image : string;
  sr_featured : bool;
  sr_tags : list string;
  sr_description : string;
  sr_address : string;
  sr_phone : string;
  sr_hours : string;
  sr_minimumOrder : string;
  sr_reviews : Z
}.

Definition sample_restaurants : list SampleRestaurant := [
  mkSampleRestaurant 1 "Bella Italia" "Italian" (48 # 10) "25-35 min" "$2.99"
    "/italian-restaurant-pasta-pizza.png" true ["Popular"; "Fast Delivery"]
    "Authentic Italian cuisine with fresh pasta, wood-fired pizzas, and traditional recipes passed down through generations."
    "123 Main Street, Downtown" "(555) 123-4567" "11:00 AM - 10:00 PM" "$15.00" 1247;
  mkSampleRestaurant 2 "Spice Garden" "Indian" (46 # 10) "30-40 min" "Free"
    "/indian-restaurant-curry-spices.png" false ["Vegetarian Options"; "Spicy"]
    "Traditional Indian flavors with aromatic spices, fresh ingredients, and authentic recipes from various regions of India."
    "456 Oak Avenue, Midtown" "(555) 234-5678" "12:00 PM - 11:00 PM" "$20.00" 892;
  mkSampleRestaurant 3 "Tokyo Sushi" "Japanese" (49 # 10) "20-30 min" "$3.99"
    "/japanese-sushi-restaurant.png" true ["Fresh"; "Premium"]
    "Premium sushi and Japanese cuisine made with the freshest fish and traditional techniques by experienced sushi chefs."
    "789 Pine Street, Uptown" "(555) 345-6789" "5:00 PM - 12:00 AM" "$25.00" 2156;
  mkSampleRestaurant 4 "Burger Palace" "American" (44 # 10) "15-25 min" "$1.99"
    "/american-burger-restaurant.png" false ["Fast Food"; "Comfort Food"]
    "Juicy burgers, crispy fries, and classic American comfort food made with quality ingredients and served fast."
    "321 Elm Street, Westside" "(555) 456-7890" "10:00 AM - 11:00 PM" "$12.00" 743;
  mkSampleRestaurant 5 "Green Bowl" "Healthy" (47 # 10) "20-30 min" "Free"
    "/healthy-salad-bowl-restaurant.png" false ["Healthy"; "Vegan Options"]
    "Fresh, healthy meals with organic ingredients, superfoods, and nutritious options for every dietary preference."
    "654 Maple Drive, Eastside" "(555) 567-8901" "8:00 AM - 9:00 PM" "$18.00" 1089;
  mkSampleRestaurant 6 "Dragon Palace" "Chinese" (45 # 10) "25-35 min" "$2.49"
    "/chinese-dim-sum.png" false ["Family Style"; "Authentic"]
    "Authentic Chinese cuisine with traditional dim sum, stir-fries, and family-style dishes perfect for sharing."
    "987 Cedar Lane, Southside" "(555) 678-9012" "11:30 AM - 10:30 PM" "$22.00" 567].

(** [StrDecimalLiteral]: an optional sign before an unsigned literal. *)
Definition signed_decimal (t : string) : option Q :=
  match t with
  | String c0 u0 =>
      if is_char "-"%char c0 then option_map Qopp (unsigned_decimal u0)
      else if is_char "+"%char c0 then unsigned_decimal u0 else unsigned_decimal t
  | EmptyString => unsigned_decimal t
  end.

(** The prefix of a [0x], [0o] or [0b] literal. *)
Definition radix (c : ascii) : option Z :=
  if is_char "x"%char c || is_char "X"%char c then Some 16%Z
  else if is_char "o"%char c || is_char "O"%char c then Some 8%Z
  else if is_char "b"%char c || is_char "B"%char c then Some 2%Z else None.

(** What the restaurant page shows of a sample restaurant. *)
Record InfoView := mkInfoView {
  iv_image : string;
  iv_featured : bool;
  iv_name : string;
  iv_rating : Q;
  iv_reviews : Z;
  iv_cuisine : string;
  iv_description : string;
  iv_tags : list string;
  iv_deliveryTime : string;
  iv_deliveryFee : string;
  iv_freeDelivery : bool;
  iv_minimumOrder : string;
  iv_address : string;
  iv_phone : string;
  iv_hours : string
}.

(** [restaurant.image || "/placeholder.svg"] on a string. *)
Definition str_or (s d : string) : string := if String.eqb s "" then d else s.

Definition info_view (r : SampleRestaurant) : InfoView :=
  mkInfoView (str_or (sr_image r) "/placeholder.svg") (sr_featured r) (sr_name r) (sr_rating r) (sr_reviews r)
    (String.append (sr_cuisine r) " Cuisine") (sr_description r) (sr_tags r) (sr_deliveryTime r)
    (sr_deliveryFee r) (String.eqb (sr_deliveryFee r) "Free") (sr_minimumOrder r) (sr_address r) (sr_phone r)
    (sr_hours r).

Inductive InfoPage := InfoNotFound | InfoDetails (v : InfoView).

Section Number.
Context `{ToDouble}.

(** [StringToNumber]: the white space trimmed, [""] is 0, then
    [Infinity] with an optional sign, the [0x], [0o], [0b] integers, or a
    signed decimal literal; anything else is NaN. *)
Definition js_number (s : string) : JsNumber :=
  let t := js_trim s in
  if String.eqb t "" then NNum 0 else
  if String.eqb t "Infinity" || String.eqb t "+Infinity" then NInf false else
  if String.eqb t "-Infinity" then NInf true else
  let prefixed := match t with
                  | String z (String c rest) => if is_char "0"%char z then option_map (fun b => (b, rest)) (radix c) else None
                  | _ => None
                  end in
  match prefixed with
  | Some (b, rest) => match int_digits b rest with Some v => to_double (inject_Z v) | None => NNaN end
  | None => match signed_decimal t with Some q => to_double q | None => NNaN end
  end.

(** [Number(restaurantId)]: [Number(undefined)] is NaN. *)
Definition param_number (restaurantId : option string) : JsNumber :=
  match restaurantId with Some s => js_number s | None => NNaN end.

(** [r.id === n] on numbers: NaN equals nothing. *)
Definition id_matches (id : Z) (n : JsNumber) : bool :=
  match n with NNum q => Qeq_bool (inject_Z id) q | _ => false end.

(** [restaurants.find((r) => r.id === Number(restaurantId))]; [None] is the
    "Restaurant Not Found" card. *)
Definition restaurant_info (restaurantId : option string) : option SampleRestaurant :=
  let n := param_number restaurantId in
  List.find (fun r => id_matches (sr_id r) n) sample_restaurants.

(** [RestaurantInfo]: the Not Found card, or the details; its two buttons
    have no handler. *)
Definition restaurant_info_page (restaurantId : option string) : InfoPage :=
  match restaurant_info restaurantId with
  | None => InfoNotFound
  | Some r => InfoDetails (info_view r)
  end.

End Number.

(** ** The admin dashboard ([components/admin-dashboard.tsx]) *)

(** A card of [stats]: its icon and colour are presentation. *)
Record StatCard := mkStatCard { st_title : string; st_value : string; st_change : string }.

Record RecentOrder := mkRecentOrder {
  ro_id : string; ro_restaurant : string; ro_customer : string; ro_amount : string; ro_status : string; ro_time : string }.

Record PendingApplication := mkPendingApplication {
  pa_name : string; pa_owner : string; pa_cuisine : string; pa_submitted : string; pa_status : string }.

Definition stats : list StatCard := [
  mkStatCard "Total Restaurants" "1,234" "+12%";
  mkStatCard "Active Orders" "856" "+8%";
  mkStatCard "Total Revenue" "$45,678" "+15%";
  mkStatCard "New Users" "2,345" "+23%"].

Definition recentOrders : list RecentOrder := [
  mkRecentOrder "#12345" "Mario's Pizza" "John Doe" "$24.99" "delivered" "2 mins ago";
  mkRecentOrder "#12346" "Spice Garden" "Jane Smith" "$18.50" "preparing" "5 mins ago";
  mkRecentOrder "#12347" "Burger Palace" "Mike Johnson" "$32.75" "cancelled" "8 mins ago"].

Definition pendingRestaurants : list PendingApplication := [
  mkPendingApplication "Golden Dragon" "Chen Wei" "Chinese" "2 days ago" "pending";
  mkPendingApplication "Taco Fiesta" "Maria Garcia" "Mexican" "1 day ago" "pending"].

(** The [Badge]'s variant of an order's status. *)
Inductive BadgeVariant := VDefault | VSecondary | VDestructive | VOutline.

#[export] Instance BadgeVariant_eq_dec : EqDecision BadgeVariant.
Proof. solve_decision. Defined.

Definition status_variant (status : string) : BadgeVariant :=
  if String.eqb status "delivered" then VDefault
  else if String.eqb status "preparing" then VSecondary else VDestructive.

Inductive StatusIcon := ICheckCircle | IClock | IXCircle.

(** The three [&&] icons before the status text. *)
Definition status_icons (status : string) : list StatusIcon :=
  (if String.eqb status "delivered" then [ICheckCircle] else []) ++
  (if String.eqb status "preparing" then [IClock] else []) ++
  (if String.eqb status "cancelled" then [IXCircle] else []).

(** One row of "Recent Orders": the id, the badge, and the text lines. *)
Record OrderRow := mkOrderRow {
  row_id : string; row_badge : BadgeVariant; row_icons : list StatusIcon; row_status : string; row_lines : list string }.

Definition order_row (o : RecentOrder) : OrderRow :=
  mkOrderRow (ro_id o) (status_variant (ro_status o)) (status_icons (ro_status o)) (ro_status o)
    [ro_restaurant o; ro_customer o; ro_amount o; ro_time o].

Definition stat_lines (s : StatCard) : list string :=
  [st_title s; st_value s; String.append (st_change s) " from last month"].

(** An application's card: its "Review", "Approve" and "Reject" buttons
    have no [onClick], so clicking them does nothing. *)
Definition application_lines (a : PendingApplication) : list string :=
  [pa_name a; "Pending Review"; String.append "Owner: " (pa_owner a);
   String.append "Cuisine: " (pa_cuisine a); String.append "Submitted: " (pa_submitted a)].

Record DashboardView := mkDashboardView {
  dv_stats : list (list string); dv_orders : list OrderRow; dv_applications : list (list string) }.

(** [AdminDashboard()]: it reads no store and calls no API. *)
Definition admin_dashboard : DashboardView :=
  mkDashboardView (map stat_lines stats) (map order_row recentOrders) (map application_lines pendingRestaurants).

(** ** The contact page's form ([pages/ContactPage.tsx]) *)

(** Its five uncontrolled fields: no [name], no [value], no handler. *)
Record ContactForm := mkContactForm {
  cf_firstName : string; cf_lastName : string; cf_email : string; cf_subject : string; cf_message : string }.

Definition subject_options : list string :=
  ["General Inquiry"; "Restaurant Partnership"; "Technical Support"; "Delivery Issue"; "Feedback"].

(** The form as the page renders it: the [<select>] shows its first option. *)
Definition contact_form_initial : ContactForm := mkContactForm "" "" "" "General Inquiry" "".

Inductive ContactField := CFirstName | CLastName | CEmail | CSubject | CMessage.

Inductive ContactEvent := ContactType (fld : ContactField) (v : string) | ContactSend.

(** Typing in a field; the [<select>] takes one of its options only. *)
Definition contact_type (f : ContactForm) (fld : ContactField) (v : string) : ContactForm :=
  match fld with
  | CFirstName => mkContactForm v (cf_lastName f) (cf_email f) (cf_subject f) (cf_message f)
  | CLastName => mkContactForm (cf_firstName f) v (cf_email f) (cf_subject f) (cf_message f)
  | CEmail => mkContactForm (cf_firstName f) (cf_lastName f) v (cf_subject f) (cf_message f)
  | CSubject => if bool_decide (v ∈ subject_options)
                then mkContactForm (cf_firstName f) (cf_lastName f) (cf_email f) v (cf_message f) else f
  | CMessage => mkContactForm (cf_firstName f) (cf_lastName f) (cf_email f) (cf_subject f) v
  end.

(** The part of a location react-router matches: up to a [?] or [#]. *)
Definition pathname (loc : string) : string :=
  fst (break_at (fun c => is_char "?"%char c || is_char "#"%char c) loc).

Section Contact.
(** The browser's check of a non-empty [type="email"] input. *)
Variable browser_email : string -> bool.

(** "Send Message" is a submit button of a [<form>] with no [action],
    [method] or [onSubmit]: the browser checks the e-mail field, then
    loads the page's own URL with the named fields as its query, and no
    field has a name.  The load starts the application afresh. *)
Definition contact_submit (path : string) (f : ContactForm) : option string :=
  if String.eqb (cf_email f) "" || browser_email (cf_email f) then Some (String.append path "?") else None.

(** The events on the page at [path]: the form after them and the
    locations the browser loaded, in order. *)
Fixpoint contact_run (path : string) (evs : list ContactEvent) (f : ContactForm) : ContactForm * list string :=
  match evs with
  | [] => (f, [])
  | ContactType fld v :: evs' => contact_run path evs' (contact_type f fld v)
  | ContactSend :: evs' =>
      match contact_submit path f with
      | Some loc => let '(f', locs) := contact_run path evs' contact_form_initial in (f', loc :: locs)
      | None => contact_run path evs' f
      end
  end.

End Contact.

(** ** Properties *)

Ltac ascii_cases c := destruct c as [[] [] [] [] [] [] [] []]; vm_compute; try done.

Lemma append_cons c a b : String.append (String c a) b = String c (String.append a b).
Proof. reflexivity. Qed.

Lemma str_all_app p a b : str_all p (String.append a b) = str_all p a && str_all p b.
Proof. induction a as [|c a IH]; [done |]. rewrite append_cons. cbn. by rewrite IH, andb_assoc. Qed.

Lemma str_any_app p a b : str_any p (String.append a b) = str_any p a || str_any p b.
Proof. induction a as [|c a IH]; [done |]. rewrite append_cons. cbn. by rewrite IH, orb_assoc. Qed.

Lemma str_all_impl (p q : ascii -> bool) s : (forall c, p c = true -> q c = true) -> str_all p s = true -> str_all q s = true.
Proof. intros Hpq. induction s as [|c s IH]; [done |]. cbn. rewrite !andb_true_iff. naive_solver. Qed.

Lemma str_all_any p q s : str_all p s = true -> str_any q s = true -> exists c, p c = true /\ q c = true.
Proof. induction s as [|c s IH]; [done |]. cbn. rewrite andb_true_iff, orb_true_iff. naive_solver. Qed.

Lemma break_at_app p s : String.append (fst (break_at p s)) (snd (break_at p s)) = s.
Proof.
  induction s as [|c s IH]; [done |]. cbn. destruct (p c); [done |].
  destruct (break_at p s) as [a b]. cbn in *. by rewrite append_cons, IH.
Qed.

Lemma break_at_stop p s c b : snd (break_at p s) = String c b -> p c = true.
Proof.
  induction s as [|c' s IH]; [done |]. cbn. destruct (p c') eqn:E; [by intros [= -> _] |].
  destruct (break_at p s). exact IH.
Qed.

Lemma break_at_none p s : str_all (fun c => negb (p c)) s = true -> break_at p s = (s, EmptyString).
Proof.
  induction s as [|c s IH]; [done |]. cbn. rewrite andb_true_iff, negb_true_iff.
  intros [-> Hs]. by rewrite IH.
Qed.

Lemma digits_value_nonneg b acc s v : (0 <= b)%Z -> (0 <= acc)%Z -> digits_value b acc s = Some v -> (0 <= v)%Z.
Proof.
  revert acc. induction s as [|c s IH]; intros acc Hb Ha; cbn; [by intros [= <-] |].
  destruct (digit_in b c) as [d|] eqn:E; [| done]. apply IH; [done |].
  unfold digit_in in E. repeat case_match; simplify_eq; nia.
Qed.

(** Digits of the wrong base make the literal invalid. *)
Lemma digits_value_bad b acc s :
  str_any (fun c => bool_decide (digit_in b c = None)) s = true -> digits_value b acc s = None.
Proof.
  revert acc. induction s as [|c s IH]; intros acc; [done |]. cbn.
  destruct (digit_in b c); cbn; [apply IH | done].
Qed.

Lemma append_assoc a b c : String.append (String.append a b) c = String.append a (String.append b c).
Proof. induction a as [|x a IH]; [done |]. rewrite !append_cons. by rewrite IH. Qed.

Lemma string_reverse_app a b : string_reverse (String.append a b) = String.append (string_reverse b) (string_reverse a).
Proof.
  induction a as [|c a IH]; [by rewrite append_empty_r |]. rewrite append_cons. cbn.
  by rewrite IH, append_assoc.
Qed.

Lemma str_all_reverse p s : str_all p (string_reverse s) = str_all p s.
Proof. induction s as [|c s IH]; [done |]. cbn. rewrite str_all_app, IH. cbn. by rewrite andb_true_r, andb_comm. Qed.

Lemma string_reverse_involutive s : string_reverse (string_reverse s) = s.
Proof. induction s as [|c s IH]; [done |]. cbn. by rewrite string_reverse_app, IH. Qed.

Lemma drop_spaces_id s : str_all (fun c => negb (is_js_space c)) s = true -> drop_spaces s = s.
Proof. destruct s as [|c s]; [done |]. cbn. rewrite andb_true_iff, negb_true_iff. by intros [-> _]. Qed.

(** [trim()] leaves a string without white space as it is. *)
Lemma js_trim_id s : str_all (fun c => negb (is_js_space c)) s = true -> js_trim s = s.
Proof.
  intros Hs. unfold js_trim. rewrite (drop_spaces_id s Hs), drop_spaces_id.
  - apply string_reverse_involutive.
  - by rewrite str_all_reverse.
Qed.

Lemma str_any_impl (p q : ascii -> bool) s : (forall c, p c = true -> q c = true) -> str_any p s = true -> str_any q s = true.
Proof. intros Hpq. induction s as [|c s IH]; [done |]. cbn. rewrite !orb_true_iff. naive_solver. Qed.

Lemma hex_no_space c : is_hex c = true -> negb (is_js_space c) = true.
Proof. ascii_cases c. Qed.

Lemma hex_no_point c : is_hex c = true -> negb (is_char "."%char c) = true.
Proof. ascii_cases c. Qed.

Lemma hex_not_sign c : is_hex c = true -> is_char "-"%char c = false /\ is_char "+"%char c = false.
Proof. ascii_cases c. Qed.

Lemma hex_letter_bad c : hex_letter c = true -> bool_decide (digit_in 10 c = None) = true /\ bool_decide (digit_in 2 c = None) = true.
Proof. ascii_cases c. Qed.

Lemma hex_letter_not_exp c : hex_letter c = true -> is_exp_char c = false.
Proof. ascii_cases c. Qed.

Lemma hex_radix c b : is_hex c = true -> radix c = Some b -> b = 2%Z /\ hex_letter c = false.
Proof. ascii_cases c; by intros _ [= <-]. Qed.

Lemma int_digits_letter b s : (b = 10 \/ b = 2)%Z -> str_any hex_letter s = true -> int_digits b s = None.
Proof.
  intros Hb Hs. destruct s as [|c s]; [done |]. apply digits_value_bad.
  revert Hs. apply str_any_impl. intros x Hx. destruct (hex_letter_bad x Hx). by destruct Hb as [-> | ->].
Qed.

Lemma exponent_part_letter e rest :
  str_all is_hex rest = true -> str_any hex_letter rest = true -> exponent_part (String e rest) = None.
Proof.
  intros Hh Hl. destruct rest as [|c r]; [done |]. cbn in Hh. apply andb_true_iff in Hh as [Hc _].
  destruct (hex_not_sign c Hc) as [Hm Hp]. unfold exponent_part. rewrite Hp, Hm. by apply int_digits_letter; [left |].
Qed.

(** An unsigned literal of hexadecimal characters holding [a], [c], [d] or
    [f] is not a decimal literal. *)
Lemma unsigned_decimal_letter t : str_all is_hex t = true -> str_any hex_letter t = true -> unsigned_decimal t = None.
Proof.
  intros Hh Hl. unfold unsigned_decimal. pose proof (break_at_app is_exp_char t) as Happ.
  pose proof (break_at_stop is_exp_char t) as Hstop.
  destruct (break_at is_exp_char t) as [mant ex]. cbn in Happ, Hstop. subst t.
  rewrite str_all_app, andb_true_iff in Hh. destruct Hh as [Hm Hx]. rewrite str_any_app, orb_true_iff in Hl.
  rewrite (break_at_none _ mant) by (revert Hm; apply str_all_impl, hex_no_point). cbv beta iota zeta.
  destruct Hl as [Hl | Hl].
  - destruct mant as [|c m]; [done |].
    assert (decimal_part (String c m) = None) as -> by (by apply int_digits_letter; [left |]).
    by destruct (_ && _).
  - destruct ex as [|e rest]; [done |]. cbn in Hx, Hl. apply andb_true_iff in Hx as [He Hx].
    assert (hex_letter e = false) as He'.
    { destruct (hex_letter e) eqn:E; [| done]. pose proof (Hstop e rest eq_refl). pose proof (hex_letter_not_exp e E). congruence. }
    rewrite He' in Hl. rewrite exponent_part_letter by done.
    match goal with |- context [if ?b then _ else _] => destruct b end; [done |].
    by destruct (decimal_part mant).
Qed.

Lemma signed_decimal_hex c t : is_hex c = true -> signed_decimal (String c t) = unsigned_decimal (String c t).
Proof. intros Hc. destruct (hex_not_sign c Hc) as [Hm Hp]. unfold signed_decimal. by rewrite Hm, Hp. Qed.

Lemma split_slash_plain s cur :
  str_all (fun c => negb (Ascii.eqb c "/"%char)) s = true -> split_slash s cur = [String.append cur s].
Proof.
  revert cur. induction s as [|c s IH]; intros cur Hs; [by rewrite append_empty_r |].
  cbn in Hs. apply andb_true_iff in Hs as [Hc Hs]. apply negb_true_iff in Hc. cbn. rewrite Hc, IH by done.
  by rewrite append_assoc.
Qed.

(** [`/restaurant/${id}`] routes to the restaurant page of [id] when [id]
    is a non-empty segment. *)
Lemma route_restaurant id :
  id <> EmptyString -> str_all (fun c => negb (Ascii.eqb c "/"%char)) id = true ->
  app_route (String.append "/restaurant/" id) = RestaurantPage id.
Proof.
  intros Hne Hs. unfold app_route, path_segments. rewrite !append_cons. cbn -[String.append].
  rewrite split_slash_plain by done. cbv [String.append].
  repeat case_decide; try (exfalso; by apply H).
  all: cbn; repeat case_decide; try done; by exfalso; apply H.
Qed.

(** The links of every page lead to the header's four pages. *)
Lemma page_links_targets p l :
  l ∈ page_links p -> app_route l ∈ [HomePage; MenuPage; AboutPage; ContactPage].
Proof.
  intros Hl. assert (Hall : Forall (fun l => app_route l ∈ [HomePage; MenuPage; AboutPage; ContactPage]) (page_links p)).
  { apply Forall_forall. destruct p; cbn; intros x Hx; repeat (apply elem_of_cons in Hx as [-> | Hx]; [vm_compute; set_solver |]); by apply elem_of_nil in Hx. }
  by eapply Forall_forall in Hall.
Qed.

(** [find] returns the one element that satisfies its predicate. *)
Lemma find_unique {A} (f : A -> bool) l x :
  In x l -> f x = true -> (forall y, In y l -> f y = true -> y = x) -> List.find f l = Some x.
Proof.
  intros Hx Hf Hu. destruct (List.find f l) as [y|] eqn:E.
  - apply find_some in E as [Hy Hfy]. f_equal. by apply Hu.
  - by rewrite (find_none f l E x Hx) in Hf.
Qed.

(** The sample table's ids name its restaurants. *)
Lemma sample_ids_unique r r' :
  In r sample_restaurants -> In r' sample_restaurants -> sr_id r = sr_id r' -> r = r'.
Proof. cbn. intros Hr Hr'. decompose [or False] Hr; decompose [or False] Hr'; subst; cbn; congruence. Qed.

Lemma id_matches_unique a b n : id_matches a n = true -> id_matches b n = true -> a = b.
Proof.
  destruct n as [| |q]; try done. cbn. intros Ha Hb. apply Qeq_bool_iff in Ha, Hb.
  apply inject_Z_injective. by rewrite Ha, Hb.
Qed.

Lemma id_matches_int a v : id_matches a (NNum (inject_Z v)) = true <-> a = v.
Proof. cbn. rewrite Qeq_bool_iff. split; [apply inject_Z_injective | by intros ->]. Qed.

(** Every status of the order model but [delivered] and [preparing] gets
    the destructive badge of a cancelled order, and all but those and
    [cancelled] get no icon. *)
Lemma dashboard_status_badge st :
  st <> os_delivered -> st <> os_preparing ->
  status_variant (status_string st) = VDestructive /\
  (status_icons (status_string st) = [] <-> st <> os_cancelled).
Proof. destruct st; try done; intros _ _; split; try done; split; done. Qed.


Section PagesProps.
Context `{ToDouble}.

(** The lookup finds a sample restaurant exactly when [Number()] of the
    parameter equals its id; the ids being distinct, it is that one. *)
Lemma restaurant_info_spec p r :
  restaurant_info p = Some r <-> In r sample_restaurants /\ id_matches (sr_id r) (param_number p) = true.
Proof.
  unfold restaurant_info. split.
  - intros E. by apply find_some in E.
  - intros [Hr Hm]. apply find_unique; [done | done |]. intros y Hy Hmy.
    apply sample_ids_unique; [done | done |]. exact (id_matches_unique _ _ _ Hmy Hm).
Qed.

(** [Number()] of a string of hexadecimal characters: no white space to
    trim, neither empty nor an infinity, so a prefixed integer or a decimal
    literal. *)
Lemma js_number_hex c s' :
  str_all is_hex (String c s') = true ->
  js_number (String c s') =
    match (match s' with
           | String c2 rest => if is_char "0"%char c then option_map (fun b => (b, rest)) (radix c2) else None
           | EmptyString => None end) with
    | Some (b, rest) => match int_digits b rest with Some v => to_double (inject_Z v) | None => NNaN end
    | None => match unsigned_decimal (String c s') with Some q => to_double q | None => NNaN end
    end.
Proof.
  intros Hh. unfold js_number. rewrite js_trim_id by (revert Hh; apply str_all_impl, hex_no_space).
  cbn in Hh. apply andb_true_iff in Hh as [Hc _].
  assert (String.eqb (String c s') "" = false) as -> by done.
  assert (Hi : forall t, String.eqb (String c s') (String "I" t) = false) by (intros t; ascii_cases c).
  destruct (hex_not_sign c Hc) as [Hm Hp].
  assert (Hsg : forall d t, is_char d c = false -> String.eqb (String c s') (String d t) = false).
  { intros d t Hd. apply String.eqb_neq. intros [= Hcd _]. subst. unfold is_char in Hd. by rewrite Ascii.eqb_refl in Hd. }
  rewrite Hi, (Hsg "+"%char), (Hsg "-"%char) by done. cbn [orb]. by rewrite signed_decimal_hex.
Qed.

(** [Number()] of hexadecimal characters holding [a], [c], [d] or [f]. *)
Lemma js_number_hex_letter s : str_all is_hex s = true -> str_any hex_letter s = true -> js_number s = NNaN.
Proof.
  intros Hh Hl. destruct s as [|c s']; [done |]. rewrite js_number_hex by done.
  rewrite unsigned_decimal_letter by done. cbn in Hh. apply andb_true_iff in Hh as [Hc Hs'].
  destruct s' as [|c2 rest]; [done |]. destruct (is_char "0"%char c) eqn:Hz; [| done].
  destruct (radix c2) as [b|] eqn:Hr; [| done]. cbn in Hs'. apply andb_true_iff in Hs' as [Hc2 Hrest].
  destruct (hex_radix c2 b Hc2 Hr) as [-> Hl2]. cbn.
  assert (hex_letter c = false) as Hl1 by ascii_cases c.
  cbn in Hl. rewrite Hl1, Hl2 in Hl. by rewrite (int_digits_letter 2 rest (or_intror eq_refl) Hl).
Qed.

(** [Number()] of decimal digits is their value, up to 2^53. *)
Lemma js_number_digits s v :
  s <> EmptyString -> str_all is_digit s = true -> digits_value 10 0 s = Some v -> (v <= 2 ^ 53)%Z ->
  js_number s = NNum (inject_Z v).
Proof.
  intros Hne Hd Hv Hb. destruct s as [|c s']; [done |].
  assert (Hh : str_all is_hex (String c s') = true) by (revert Hd; apply str_all_impl; intros x; ascii_cases x).
  rewrite js_number_hex by done.
  assert (Hu : unsigned_decimal (String c s') = Some ((inject_Z v + inject_Z 0 / inject_Z (10 ^ 0)) * inject_Z (10 ^ 0))).
  { unfold unsigned_decimal.
    rewrite (break_at_none _ (String c s')) by (revert Hd; apply str_all_impl; intros x; ascii_cases x).
    rewrite (break_at_none _ (String c s')) by (revert Hd; apply str_all_impl; intros x; ascii_cases x).
    cbv beta iota zeta. unfold decimal_part, int_digits. by rewrite Hv. }
  assert (Hq : to_double ((inject_Z v + inject_Z 0 / inject_Z (10 ^ 0)) * inject_Z (10 ^ 0)) = NNum (inject_Z v)).
  { pose proof (digits_value_nonneg 10 0 _ _ ltac:(lia) ltac:(lia) Hv).
    rewrite <- to_double_int by (rewrite Z.abs_eq by lia; exact Hb).
    apply to_double_proper. change (10 ^ 0)%Z with 1%Z. change (inject_Z 1) with 1. change (inject_Z 0) with 0. field. }
  rewrite Hu, Hq. destruct s' as [|c2 rest]; [done |]. cbn in Hd. apply andb_true_iff in Hd as [_ Hd].
  cbn in Hd. apply andb_true_iff in Hd as [Hc2 _].
  assert (radix c2 = None) as -> by ascii_cases c2. by destruct (is_char _ _).
Qed.

(** C21: Reachability of the pages.  From the home page, a visitor who
    follows the [<Link>]s the header, the hero section and the footer
    render reaches exactly the home, menu, about and contact pages: the
    restaurant page, the restaurant registration wizard and the admin
    dashboard are mounted by [App.tsx] but linked from no rendered page. *)
Theorem navigable_pages p : navigable p <-> p ∈ [HomePage; MenuPage; AboutPage; ContactPage].
Proof.
  split.
  - induction 1 as [| p l _ _ Hl]; [set_solver |]. by apply (page_links_targets p).
  - intros Hp. assert (Hlink : forall l, l ∈ page_links HomePage -> navigable (app_route l)) by (intros; by eapply nav_link; [constructor |]).
    repeat (apply elem_of_cons in Hp as [-> | Hp]; [first [constructor | exact (Hlink "/menu" ltac:(set_solver))
      | exact (Hlink "/about" ltac:(set_solver)) | exact (Hlink "/contact" ltac:(set_solver))] |]).
    by apply elem_of_nil in Hp.
Qed.

(** C20: The restaurant page's lookup of a MongoDB id.  The id of a
    document rendered as text ([restaurant._id], lower-case hexadecimal)
    that holds one of the letters [a], [c], [d] or [f] makes [Number()]
    NaN, so [restaurant-info.tsx] finds none of its sample restaurants and
    shows "Restaurant Not Found". *)
Theorem objectid_not_found s :
  str_all is_hex s = true -> str_any hex_letter s = true -> restaurant_info (Some s) = None.
Proof. intros Hh Hl. unfold restaurant_info, param_number. by rewrite js_number_hex_letter. Qed.

(** A parameter of decimal digits round-trips to the restaurant with
    that id.  When the [:id] of [/restaurant/:id] is a string of decimal
    digits (leading zeros allowed, as in an ObjectId such as
    [000000000000000000000003]) whose value [v] is at most 2^53, the page
    shows the sample restaurant whose id is [v], and none when no sample
    restaurant has that id. *)
Theorem decimal_id_lookup s v r :
  s <> EmptyString -> str_all is_digit s = true -> digits_value 10 0 s = Some v -> (v <= 2 ^ 53)%Z ->
  restaurant_info (Some s) = Some r <-> In r sample_restaurants /\ sr_id r = v.
Proof.
  intros Hne Hd Hv Hb. rewrite restaurant_info_spec. cbn [param_number].
  by rewrite (js_number_digits s v), id_matches_int.
Qed.

(** The restaurant grid and the restaurant page together: were the grid
    rendered, the card of a restaurant of the server, whose [_id] is
    lower-case hexadecimal with a letter [a], [c], [d] or [f], would link
    to the restaurant page of that id, and that page shows "Restaurant Not
    Found". *)
Lemma grid_link_not_found `{JsRuntime} to_fixed r cv id :
  grid_card to_fixed r = Some cv -> js_opt_get r "_id" = JStr id ->
  str_all is_hex id = true -> str_any hex_letter id = true ->
  app_route (cv_link cv) = RestaurantPage id /\ restaurant_info (Some id) = None.
Proof.
  intros Hc Hid Hh Hl. split.
  - unfold grid_card in Hc. rewrite Hid in Hc.
    repeat (case_match; simplify_eq/=); apply route_restaurant;
      solve [by destruct id | revert Hh; apply str_all_impl; intros c; ascii_cases c].
  - unfold restaurant_info, param_number. by rewrite js_number_hex_letter.
Qed.

End PagesProps.
