(* ===== verification/ClientContent.v ===== *)
(** * ClientContent: the constant content of the home and menu pages

    Four components render tables written in their own source, not data
    of the server: the menu page's dishes ([components/restaurant-menu.tsx]),
    the home page's featured dishes ([components/featured-dishes.tsx]), its
    testimonials ([components/testimonials-section.tsx]) and its features
    ([components/features-section.tsx]).  Each table is a list of records
    with the source's fields (icons and class names left out), and each
    component a function from the table to what its cards show.  Their
    buttons ("Add to Cart", "Order Now") have no handler ([App]'s
    [InertControl]). *)

From S2P Require Import Prelude.
From Stdlib Require Import Ascii.

Open Scope Q_scope.

(** ** [components/restaurant-menu.tsx] *)

Record MenuDish := mkMenuDish { md_id : Z; md_name : string; md_description : string; md_price : string; md_image : string }.

Definition menuItems : list MenuDish := [
  mkMenuDish 1 "Margherita Pizza"
    "Classic delight with mozzarella cheese & tomato sauce." "$12.99" "/margherita-pizza.png";
  mkMenuDish 2 "Chicken Tikka Masala"
    "Spicy and creamy chicken curry served with basmati rice." "$13.99" "/chicken-tikka-masala.png";
  mkMenuDish 3 "Beef Burger with Fries"
    "Juicy grilled beef patty with crispy golden fries." "$11.50" "/beef-burger-with-fries.png";
  mkMenuDish 4 "Caesar Salad"
    "Crisp lettuce, parmesan, and Caesar dressing." "$9.50" "/caesar-salad.png";
  mkMenuDish 5 "Chocolate Lava Cake"
    "Warm molten chocolate cake served with ice cream." "$8.99" "/chocolate-lava-cake.png";
  mkMenuDish 6 "Chinese Dim Sum"
    "Steamed dumplings filled with flavorful goodness." "$10.99" "/chinese-dim-sum.png"].

(** ** [components/featured-dishes.tsx] *)

Record FeaturedDish := mkFeaturedDish {
  fd_id : Z; fd_name : string; fd_description : string; fd_price : string; fd_rating : Q; fd_time : string;
  fd_image : string; fd_badge : string }.

Definition featuredDishes : list FeaturedDish := [
  mkFeaturedDish 1 "Margherita Pizza"
    "Fresh tomatoes, mozzarella, and basil on crispy crust"
    "$18.99" (48 # 10) "25-30 min" "/margherita-pizza-with-fresh-basil.png" "Popular";
  mkFeaturedDish 2 "Chicken Burger"
    "Grilled chicken breast with lettuce, tomato, and special sauce"
    "$14.99" (46 # 10) "20-25 min" "/gourmet-chicken-burger-with-fresh-ingredients.png" "New";
  mkFeaturedDish 3 "Caesar Salad"
    "Crisp romaine lettuce with parmesan, croutons, and caesar dressing"
    "$12.99" (47 # 10) "15-20 min" "/fresh-caesar-salad-with-parmesan-and-croutons.png" "Healthy";
  mkFeaturedDish 4 "Beef Tacos"
    "Seasoned ground beef with fresh salsa and cheese"
    "$16.99" (49 # 10) "20-25 min" "/delicious-beef-tacos-with-fresh-toppings.png" "Spicy"].

(** ** [components/testimonials-section.tsx] *)

Record Testimonial := mkTestimonial {
  tm_id : Z; tm_name : string; tm_role : string; tm_content : string; tm_rating : nat; tm_avatar : string }.

Definition testimonials : list Testimonial := [
  mkTestimonial 1 "Sarah Johnson" "Food Enthusiast"
    "Amazing variety of restaurants! I've discovered so many new cuisines through this platform. The delivery is always fast and the food arrives hot."
    5 "/diverse-woman-smiling.png";
  mkTestimonial 2 "Mike Chen" "Busy Professional"
    "Perfect for my hectic schedule. I can order from my favorite restaurants with just a few clicks. The app is intuitive and the customer service is excellent."
    5 "/professional-man.png";
  mkTestimonial 3 "Emily Rodriguez" "Family Mom"
    "Great for family dinners! The kids love the variety and I appreciate the healthy options. The group ordering feature makes it easy to satisfy everyone."
    5 "/woman-mother.png"].

(** ** [components/features-section.tsx] *)

Record Feature := mkFeature { ft_title : string; ft_description : string }.

Definition features : list Feature := [
  mkFeature "Fast Delivery"
    "Get your food delivered in 30 minutes or less, guaranteed fresh and hot.";
  mkFeature "Safe & Secure"
    "Your payments are protected with bank-level security and encryption.";
  mkFeature "Free Delivery"
    "Enjoy free delivery on orders over $25. No hidden fees or charges.";
  mkFeature "Quality Food"
    "Partner restaurants are carefully selected for quality and taste."].

(** ** What the components render *)

(** A card of the menu page: image, name, description, price, and a
    [<button>] "Add to Cart" without [onClick]. *)
Record DishCard := mkDishCard { dc_image : string; dc_name : string; dc_description : string; dc_price : string }.

Definition menu_card (d : MenuDish) : DishCard :=
  mkDishCard (md_image d) (md_name d) (md_description d) (md_price d).

(** [RestaurantMenu()] *)
Definition restaurant_menu : list DishCard := map menu_card menuItems.

(** [dish.image || "/placeholder.svg"] on a string. *)
Definition image_or_placeholder (s : string) : string := if String.eqb s "" then "/placeholder.svg" else s.

Record FeaturedCard := mkFeaturedCard {
  fc_image : string; fc_badge : string; fc_name : string; fc_price : string; fc_description : string;
  fc_rating : Q; fc_time : string }.

Definition featured_card (d : FeaturedDish) : FeaturedCard :=
  mkFeaturedCard (image_or_placeholder (fd_image d)) (fd_badge d) (fd_name d) (fd_price d) (fd_description d)
    (fd_rating d) (fd_time d).

(** [FeaturedDishes()]: each card ends with an "Order Now" button without
    [onClick]. *)
Definition featured_section : list FeaturedCard := map featured_card featuredDishes.

Definition quote_mark : string := String "034"%char EmptyString.

Record TestimonialCard := mkTestimonialCard {
  tc_stars : nat; tc_quote : string; tc_avatar : string; tc_name : string; tc_role : string }.

(** [[...Array(testimonial.rating)].map(...)]: one star per unit. *)
Definition stars (n : nat) : list unit := repeat tt n.

Definition testimonial_card (t : Testimonial) : TestimonialCard :=
  mkTestimonialCard (length (stars (tm_rating t))) (String.append quote_mark (String.append (tm_content t) quote_mark))
    (image_or_placeholder (tm_avatar t)) (tm_name t) (tm_role t).

(** [TestimonialsSection()] *)
Definition testimonials_section : list TestimonialCard := map testimonial_card testimonials.

(** [FeaturesSection()]: the title and description of each card. *)
Definition features_section : list (string * string) := map (fun f => (ft_title f, ft_description f)) features.

(** ** Properties *)

(** The home page and the menu page show different prices for the same
    dish: every dish of the featured section that the menu page also
    lists has another price there. *)
Lemma featured_prices_differ f m :
  In f featuredDishes -> In m menuItems -> md_name m = fd_name f -> md_price m <> fd_price f.
Proof.
  cbn. intros Hf Hm. decompose [or False] Hf; decompose [or False] Hm; subst; cbn; done.
Qed.
