(* ===== verification/ClientTypes.v ===== *)
(** * ClientTypes: the client's declared types ([types/index.ts]) against the server's JSON

    [types/index.ts] declares the shapes the client expects of the
    server's documents and answers.  TypeScript checks them only at
    compile time; at run time the client holds whatever JSON the server
    sent.  [TsType] is the fragment of TypeScript's structural types the
    file uses (strings, numbers, booleans, unions of string literals,
    arrays, object types with optional fields), and [ts_check] is the
    membership of a JSON value in a type: an object type accepts an object
    with at least its fields (an optional field may be missing), as
    structural typing does.  Each interface of the file is a [TsType]. *)

From S2P Require Import Prelude Model Query Restaurants Menu OrderLists Orders.
From S2P Require Import ClientJson ClientApi ClientSlices ClientServer.

Local Set Warnings "-register-all".

Inductive TsType :=
| TString
| TNumber
| TBool
| TLit (options : list string)
| TArray (t : TsType)
| TObject (fields : list (string * bool * TsType))
| TAny.

(** Whether [v] is of type [t]; a field of an object type is its name,
    whether it is optional ([k?: T]), and its type. *)
Fixpoint ts_check (t : TsType) (v : jsv) : bool :=
  match t, v with
  | TString, JStr _ => true
  | TNumber, JNum _ => true
  | TBool, JBool _ => true
  | TLit os, JStr s => bool_decide (s ∈ os)
  | TArray t', JArr l => forallb (ts_check t') l
  | TObject fs, JObj _ =>
      forallb (fun f => match js_get v f.1.1 with
                        | Some JUndef => f.1.2
                        | Some x => ts_check f.2 x
                        | None => false
                        end) fs
  | TAny, _ => true
  | _, _ => false
  end.

(** [interface User] *)
Definition user_t : TsType :=
  TObject [("_id", false, TString); ("name", false, TString); ("email", false, TString);
           ("role", false, TLit ["customer"; "restaurant"; "admin"]); ("phone", true, TString);
           ("address", true, TString); ("createdAt", false, TString)].

(** [interface Restaurant] *)
Definition restaurant_t : TsType :=
  TObject [("_id", false, TString); ("name", false, TString); ("description", false, TString);
           ("cuisine", false, TString); ("address", false, TString); ("phone", false, TString);
           ("email", false, TString); ("image", false, TString); ("rating", false, TNumber);
           ("deliveryTime", false, TString); ("deliveryFee", false, TNumber); ("minimumOrder", false, TNumber);
           ("isOpen", false, TBool); ("status", false, TLit ["pending"; "approved"; "rejected"; "suspended"]);
           ("owner", false, TString); ("createdAt", false, TString)].

(** [interface MenuItem] *)
Definition menu_item_t : TsType :=
  TObject [("_id", false, TString); ("restaurant", false, TString); ("name", false, TString);
           ("description", false, TString); ("price", false, TNumber); ("category", false, TString);
           ("image", false, TString); ("isAvailable", false, TBool); ("ingredients", true, TArray TString);
           ("allergens", true, TArray TString);
           ("nutritionalInfo", true, TObject [("calories", false, TNumber); ("protein", false, TNumber);
                                              ("carbs", false, TNumber); ("fat", false, TNumber)])].

(** [interface CartItem] *)
Definition cart_item_t : TsType :=
  TObject [("menuItem", false, menu_item_t); ("quantity", false, TNumber); ("specialInstructions", true, TString)].

(** [Order["status"]] *)
Definition order_status_t : TsType :=
  TLit ["pending"; "confirmed"; "preparing"; "out_for_delivery"; "delivered"; "cancelled"].

(** [interface Order] *)
Definition order_t : TsType :=
  TObject [("_id", false, TString); ("user", false, TString); ("restaurant", false, restaurant_t);
           ("items", false, TArray cart_item_t); ("totalAmount", false, TNumber);
           ("deliveryAddress", false, TString); ("status", false, order_status_t);
           ("paymentStatus", false, TLit ["pending"; "paid"; "failed"]); ("createdAt", false, TString);
           ("estimatedDeliveryTime", true, TString)].

(** [interface ApiResponse<T>] *)
Definition api_response_t (t : TsType) : TsType :=
  TObject [("success", false, TBool); ("data", false, t); ("message", true, TString)].

(** [interface ApiError] *)
Definition api_error_t : TsType := TObject [("message", false, TString); ("status", false, TNumber)].

(** The type [fetchOrders] declares for the answer of [GET /orders]. *)
Definition fetch_orders_response_t : TsType :=
  api_response_t (TObject [("orders", false, TArray order_t);
                           ("pagination", false, TObject [("page", false, TNumber); ("limit", false, TNumber);
                                                          ("total", false, TNumber); ("totalPages", false, TNumber)])]).

(** ** Properties *)

Lemma forallb_map_comp {A B} (f : B -> bool) (g : A -> B) l : forallb f (map g l) = forallb (fun x => f (g x)) l.
Proof. induction l as [|x l IH]; [done |]. cbn. by rewrite IH. Qed.

Section TypesProps.
Context `{ServerJson}.

(** The body of every paginated list route is an [ApiResponse<T[]>]
    exactly when each document of the page is a [T]. *)
Lemma list_body_typed {A} (enc : ObjectId -> A -> jsv) res t :
  ts_check (api_response_t (TArray t)) (list_body enc res) = forallb (fun kv => ts_check t (enc kv.1 kv.2)) res.1.
Proof. cbn. rewrite forallb_map_comp. by rewrite andb_true_r. Qed.

(** Three statuses the server's orders take are outside the client's
    [Order["status"]]: [ready] and [picked_up], which the status route
    sets, and [refunded]. *)
Lemma order_status_outside_union st :
  ts_check order_status_t (JStr (status_string st)) = false <-> st = os_ready \/ st = os_picked_up \/ st = os_refunded.
Proof. destruct st; vm_compute; intuition congruence. Qed.

(** No answer of [GET /api/orders] is of the type [fetchOrders] declares:
    a page carries the orders directly under [data], an error no [data]. *)
Lemma fetch_orders_body_mistyped uid page limit status db :
  ts_check fetch_orders_response_t (rs_body (fst (orders_response uid page limit status db))) = false.
Proof. unfold orders_response. by destruct (list_my_orders uid page limit status db) as [[res|e] db']. Qed.

End TypesProps.
