(* ===== verification/ClientView.v ===== *)
(** * ClientView: the element trees the components render, and what the browser does with them

    The pages and components of [src/frontend/src] return JSX.  [Node E]
    is the tree one of them renders: its text, the values it interpolates
    ([{expr}]), its elements, its [<Link to>]s and [<a href>]s, its
    buttons with their [type] and [onClick], its images and icons, and its
    form controls with their [value], [required] and [onChange], its
    checkboxes and radios.  [E] is
    the type of the events the handlers dispatch ([Empty_set] for a
    component that has none).  Class names, styles and the [<div>]s that
    carry only layout are left out: their children are listed in the
    nearest element kept.  JSX text is as React renders it (the lines of
    one text run joined by one space).

    The queries below read what the tests of a page would read of the
    DOM: its texts, the targets of its links, the events its buttons
    dispatch, its form controls, its checkboxes and radios; [form_submits] is the browser's
    constraint validation of a form when its submit button is pressed. *)

From S2P Require Import Prelude Model ClientJson.

Local Set Warnings "-register-all".

Inductive Node (E : Type) : Type :=
| Txt (s : string)
| Expr (v : jsv)
| El (tag : string) (children : list (Node E))
| Link (to : string) (children : list (Node E))
| Anchor (href : string) (children : list (Node E))
| Button (type_ : string) (onClick : option E) (children : list (Node E))
(** A [<button disabled>]: it cannot be pressed, and a form whose submit
    button is disabled is not submitted by it. *)
| DisabledButton (children : list (Node E))
(** [<form onSubmit>]; [None] when the page lets the browser submit it. *)
| Form (onSubmit : option E) (children : list (Node E))
| Img (src alt : string)
| Icon (name : string)
| Br
(** [<input>] or [<textarea>] ([type_ = "textarea"]); [value] is [None]
    when the source passes none (an uncontrolled input, empty on the
    first render). *)
| Input (type_ placeholder : string) (value : option string) (required : bool) (onChange : option (string -> E))
| Select (value : string) (options : list (string * string)) (required : bool) (onChange : option (string -> E))
(** A checkbox or radio [<input>] with its [value], [checked] and the
    event of its [onChange]. *)
| Choice (type_ name value : string) (checked : bool) (onChange : option E).

Arguments Txt {E} s.
Arguments Expr {E} v.
Arguments El {E} tag children.
Arguments Link {E} to children.
Arguments Anchor {E} href children.
Arguments Button {E} type_ onClick children.
Arguments DisabledButton {E} children.
Arguments Form {E} onSubmit children.
Arguments Img {E} src alt.
Arguments Icon {E} name.
Arguments Br {E}.
Arguments Input {E} type_ placeholder value required onChange.
Arguments Select {E} value options required onChange.
Arguments Choice {E} type_ name value checked onChange.

(** A form control as constraint validation sees it. *)
Record Control (E : Type) := mkControl {
  c_type : string;
  c_value : option string;
  c_required : bool;
  c_onChange : option (string -> E)
}.
Arguments mkControl {E}.
Arguments c_type {E}.
Arguments c_value {E}.
Arguments c_required {E}.
Arguments c_onChange {E}.

Section Queries.
Context {E : Type}.

(** The text a node shows, run by run; an interpolated string shows as
    itself, another value as nothing the properties read. *)
Fixpoint node_texts (n : Node E) : list string :=
  match n with
  | Txt s => [s]
  | Expr (JStr s) => [s]
  | El _ cs | Link _ cs | Anchor _ cs | Button _ _ cs | DisabledButton cs | Form _ cs => flat_map node_texts cs
  | _ => []
  end.

(** The targets of the [<Link to>]s, in document order. *)
Fixpoint node_links (n : Node E) : list string :=
  match n with
  | Link to cs => to :: flat_map node_links cs
  | El _ cs | Anchor _ cs | Button _ _ cs | DisabledButton cs | Form _ cs => flat_map node_links cs
  | _ => []
  end.

(** The [href]s of the plain anchors. *)
Fixpoint node_hrefs (n : Node E) : list string :=
  match n with
  | Anchor h cs => h :: flat_map node_hrefs cs
  | El _ cs | Link _ cs | Button _ _ cs | DisabledButton cs | Form _ cs => flat_map node_hrefs cs
  | _ => []
  end.

(** The buttons: their [type], their label and their [onClick]. *)
Fixpoint node_buttons (n : Node E) : list (string * string * option E) :=
  match n with
  | Button t h cs => (t, String.concat "" (flat_map node_texts cs), h) :: flat_map node_buttons cs
  | El _ cs | Link _ cs | Anchor _ cs | DisabledButton cs | Form _ cs => flat_map node_buttons cs
  | _ => []
  end.

(** The events a click on a rendered button dispatches. *)
Definition node_clicks (n : Node E) : list E := omap (fun b => b.2) (node_buttons n).

(** The form controls. *)
Fixpoint node_controls (n : Node E) : list (Control E) :=
  match n with
  | Input t _ v r h => [mkControl t v r h]
  | Select v _ r h => [mkControl "select" (Some v) r h]
  | El _ cs | Link _ cs | Anchor _ cs | Button _ _ cs | DisabledButton cs | Form _ cs => flat_map node_controls cs
  | _ => []
  end.

(** The checkboxes and radios: their [value], whether [checked], and
    the event a change dispatches. *)
Fixpoint node_choices (n : Node E) : list (string * bool * option E) :=
  match n with
  | Choice _ _ v c h => [(v, c, h)]
  | El _ cs | Link _ cs | Anchor _ cs | Button _ _ cs | DisabledButton cs | Form _ cs => flat_map node_choices cs
  | _ => []
  end.

(** The controls that do nothing when used: the enabled buttons without
    [onClick] that are neither inside a [<Link>] or a [SheetTrigger]
    (whose element handles the click) nor a submit button of a
    [<form>], by their label, and the inputs without [onChange], by
    their placeholder.  [handled] and [in_form] say where the node is. *)
Fixpoint dead_controls (handled in_form : bool) (n : Node E) : list string :=
  match n with
  | Button t h cs =>
      (match h with
       | None => if handled || (in_form && (String.eqb t "submit" || String.eqb t "")) then []
                 else [String.concat "" (flat_map node_texts cs)]
       | Some _ => []
       end) ++ flat_map (dead_controls handled in_form) cs
  | Link _ cs => flat_map (dead_controls true in_form) cs
  | El t cs => flat_map (dead_controls (handled || String.eqb t "SheetTrigger") in_form) cs
  | Form _ cs => flat_map (dead_controls handled true) cs
  | Anchor _ cs | DisabledButton cs => flat_map (dead_controls handled in_form) cs
  | Input _ ph _ _ None => [ph]
  | _ => []
  end.

(** A [<button>] without a [type] inside a form is a submit button. *)
Definition is_submit (b : string * string * option E) : bool :=
  String.eqb b.1.1 "submit" || String.eqb b.1.1 "".

(** Every event a visitor can make the node dispatch, typing [v] into
    the inputs: the [onClick]s, the [onChange]s of the checkboxes, radios,
    inputs and selects, and the [onSubmit] of a form that has an enabled
    submit button (a form whose submit buttons are all disabled is not
    submitted, by a click or by Enter). *)
Fixpoint node_events (v : string) (n : Node E) : list E :=
  match n with
  | Button _ h cs => from_option (fun e => [e]) [] h ++ flat_map (node_events v) cs
  | Form h cs =>
      (if existsb is_submit (flat_map node_buttons cs) then from_option (fun e => [e]) [] h else []) ++
      flat_map (node_events v) cs
  | Choice _ _ _ _ h => from_option (fun e => [e]) [] h
  | Input _ _ _ _ h | Select _ _ _ h => from_option (fun g => [g v]) [] h
  | El _ cs | Link _ cs | Anchor _ cs | DisabledButton cs => flat_map (node_events v) cs
  | _ => []
  end.

(** Constraint validation of one control: a [required] control is not
    empty, an [email] input is empty or matches the browser's e-mail
    grammar [browser_email]. *)
Definition control_valid (browser_email : string -> bool) (c : Control E) : bool :=
  let v := default "" (c_value c) in
  (negb (c_required c) || notEmpty v) &&
  (negb (String.eqb (c_type c) "email") || String.eqb v "" || browser_email v).

(** Pressing a submit button of the form [n] submits it: the form has
    one and every control on screen is valid. *)
Definition form_submits (browser_email : string -> bool) (n : Node E) : bool :=
  existsb is_submit (node_buttons n) && forallb (control_valid browser_email) (node_controls n).

End Queries.

(** ** Lemmas on the queries *)

Section QueryLemmas.
Context {E : Type}.

Lemma node_links_El (t : string) (cs : list (Node E)) : node_links (El t cs) = flat_map node_links cs.
Proof. done. Qed.

Lemma node_clicks_El (t : string) (cs : list (Node E)) : node_clicks (El t cs) = flat_map node_clicks cs.
Proof.
  unfold node_clicks. cbn. induction cs as [|c cs IH]; [done |].
  cbn. by rewrite omap_app, IH.
Qed.

Lemma node_controls_El (t : string) (cs : list (Node E)) : node_controls (El t cs) = flat_map node_controls cs.
Proof. done. Qed.

Lemma node_buttons_El (t : string) (cs : list (Node E)) : node_buttons (El t cs) = flat_map node_buttons cs.
Proof. done. Qed.

(** A [flat_map] of queries each empty on its element is empty. *)
Lemma flat_map_nil {A B} (g : A -> list B) (l : list A) :
  (forall x, x ∈ l -> g x = []) -> flat_map g l = [].
Proof.
  induction l as [|x l IH]; intros Hg; [done |]. cbn.
  rewrite Hg by apply list_elem_of_here. apply IH. intros y Hy. apply Hg. by apply list_elem_of_further.
Qed.

Lemma flat_map_map_nil {A B C} (g : B -> list C) (h : A -> B) (l : list A) :
  (forall x, g (h x) = []) -> flat_map g (map h l) = [].
Proof. intros Hg. induction l as [|x l IH]; [done |]. cbn. by rewrite Hg, IH. Qed.

Lemma Forall_flat_map {A B} (P : B -> Prop) (g : A -> list B) (l : list A) :
  Forall P (flat_map g l) <-> Forall (fun x => Forall P (g x)) l.
Proof.
  induction l as [|x l IH]; cbn; [split; constructor |].
  rewrite Forall_app, IH, Forall_cons. tauto.
Qed.

(** A form whose buttons are all [type="button"] is never submitted by
    them. *)
Lemma form_submits_no_submit (browser_email : string -> bool) (n : Node E) :
  Forall (fun b => b.1.1 = "button") (node_buttons n) -> form_submits browser_email n = false.
Proof.
  intros Hb. unfold form_submits. apply andb_false_intro1.
  apply not_true_iff_false. rewrite existsb_exists. intros [b [Hin Hs]].
  rewrite List.Forall_forall in Hb. specialize (Hb b Hin).
  unfold is_submit in Hs. rewrite Hb in Hs. discriminate.
Qed.

End QueryLemmas.

#[export] Hint Rewrite @node_links_El @node_clicks_El @node_controls_El @node_buttons_El : dine_rw.
