(* ===== verification/ClientStatic.v ===== *)
(** * ClientStatic: the components and pages that render constant content

    [components/footer.tsx], [components/hero-section.tsx],
    [components/cta-section.tsx], [pages/AboutPage.tsx] and the contact
    page ([pages/ContactPage.tsx]) render text, links and buttons written
    in their own source; none reads a store or a hook, and their buttons
    have no [onClick].  Each is a [Node] of [ClientView], polymorphic in
    the event type so that a page embeds it as it is.  The contact page's
    form is the one part with state: its controls are uncontrolled, and
    [contact_form_view] renders the values typed so far ([ClientPages]'s
    [ContactForm]).

    The properties: the link tables [ClientPages] navigates by are the
    links these trees render; the contact form's constraint validation is
    [ClientPages]'s [contact_submit]; and the content disagrees with
    itself and with the server (the brand, the support channels, the
    delivery time). *)

From S2P Require Import Prelude Model ClientJson ClientPages ClientView.
From Stdlib Require Import Ascii.

Section Static.
Context {E : Type}.

(** ** [components/footer.tsx] *)

Definition footer_view : Node E :=
  El "footer" [
    El "div" [El "span" [Txt "F"]; El "span" [Txt "DineFlow"]];
    El "p" [Txt "Delivering delicious food from your favorite restaurants to your doorstep, fast and fresh."];
    Icon "Facebook"; Icon "Twitter"; Icon "Instagram";
    El "h3" [Txt "Quick Links"];
    El "ul" [El "li" [Link "/menu" [Txt "Menu"]]; El "li" [];
             El "li" [Link "/about" [Txt "About Us"]];
             El "li" [Link "/contact" [Txt "Contact"]]; El "li" [];
             El "li" [Anchor "#" [Txt "Help Center"]]];
    El "h3" [Txt "Legal"];
    El "ul" [El "li" [Anchor "#" [Txt "Privacy Policy"]]; El "li" [Anchor "#" [Txt "Terms of Service"]];
             El "li" [Anchor "#" [Txt "Cookie Policy"]]; El "li" [Anchor "#" [Txt "Refund Policy"]]];
    El "h3" [Txt "Contact Us"];
    Icon "Phone"; El "span" [Txt "+92-3110797273"];
    Icon "Mail"; El "span" [Txt "support@DineFlow.com"];
    Icon "MapPin"; El "span" [Txt "123 Food Street, City, State 12345"];
    El "p" [Txt "© 2024 DineFlow. All rights reserved."]].

(** ** [components/hero-section.tsx] *)

Definition hero_section : Node E :=
  El "section" [
    El "h1" [Txt "Delicious Food"; El "span" [Txt " Delivered Fast"]];
    El "p" [Txt "Order from your favorite restaurants and get fresh, hot meals delivered to your doorstep in 30 minutes or less."];
    Icon "Clock"; El "span" [Txt "30 min delivery"];
    Icon "Star"; El "span" [Txt "4.8 rating"];
    Icon "Truck"; El "span" [Txt "Free delivery"];
    Button "" None [Txt "Order Now"];
    Link "/menu" [Button "" None [Txt "View Menu"]];
    Img "/delicious-food-delivery-hero-image-with-various-di.png" "Delicious food delivery";
    Icon "Truck"; El "p" [Txt "Fast Delivery"]; El "p" [Txt "In 30 minutes"]].

(** ** [components/cta-section.tsx] (its three icons are inline [<svg>]s) *)

Definition cta_section : Node E :=
  El "section" [
    El "h2" [Txt "Ready to Start Ordering?"];
    El "p" [Txt "Join thousands of food lovers and discover amazing restaurants in your area. Get your favorite meals delivered fresh and fast!"];
    Button "" None [Txt "Order Now"];
    Icon "svg"; El "span" [Txt "Fast Delivery"];
    Icon "svg"; El "span" [Txt "Quality Guaranteed"];
    Icon "svg"; El "span" [Txt "Customer Favorite"]].

(** ** [pages/AboutPage.tsx], between its [<Header />] and [<Footer />] *)

Definition value_card (icon title text : string) : Node E :=
  El "Card" [Icon icon; El "h3" [Txt title]; El "p" [Txt text]].

Definition stat (figure label : string) : Node E :=
  El "div" [El "div" [Txt figure]; El "div" [Txt label]].

Definition about_main : Node E :=
  El "main" [
    El "section" [
      El "h1" [Txt "About "; El "span" [Txt "DineFlow"]];
      El "p" [Txt "We're on a mission to connect food lovers with amazing restaurants, making delicious meals accessible to everyone, everywhere."]];
    El "section" [
      El "h2" [Txt "Our Mission"];
      El "p" [Txt "FoodHub was founded with a simple belief: great food should be accessible to everyone. We partner with restaurants of all sizes, from local favorites to popular chains, to bring you the widest variety of cuisines at your fingertips."];
      El "p" [Txt "Our platform empowers restaurants to reach more customers while giving food lovers the convenience of ordering from multiple restaurants in one place."];
      Button "" None [Txt "Join Our Community"];
      Img "/team-of-diverse-people-working-together-in-modern-.png" "Our team"];
    El "section" [
      El "h2" [Txt "Our Values"];
      El "p" [Txt "These core values guide everything we do and shape our commitment to customers and restaurant partners."];
      value_card "Users" "Community First"
        "We believe in supporting local restaurants and building stronger communities through food.";
      value_card "Clock" "Speed & Reliability"
        "Fast delivery times and reliable service you can count on, every single time.";
      value_card "Shield" "Trust & Safety"
        "Your safety and satisfaction are our top priorities in every interaction.";
      value_card "Heart" "Passion for Food"
        "We're food lovers ourselves and understand the joy that great meals bring."];
    El "section" [
      El "h2" [Txt "DineFlow by the Numbers"];
      stat "10,000+" "Partner Restaurants"; stat "1M+" "Happy Customers";
      stat "50+" "Cities Served"; stat "25 min" "Average Delivery"]].

End Static.

(** ** [pages/ContactPage.tsx] *)

(** The form with the values typed so far.  Its controls are
    uncontrolled (the source gives them no [name], [value] or
    [onChange]): their values are what the visitor typed, which
    [ContactForm] tracks, and a keystroke is a [ContactType] event.  The
    [<select>] shows the option chosen; "Send Message" is a [<button>]
    without [type], so a submit button. *)
Definition contact_form_view {E} (emb : ContactEvent -> E) (f : ContactForm) : Node E :=
  Form None [
    El "label" [Txt "First Name"]; Input "" "John" (Some (cf_firstName f)) false (Some (fun v => emb (ContactType CFirstName v)));
    El "label" [Txt "Last Name"]; Input "" "Doe" (Some (cf_lastName f)) false (Some (fun v => emb (ContactType CLastName v)));
    El "label" [Txt "Email"]; Input "email" "john@example.com" (Some (cf_email f)) false (Some (fun v => emb (ContactType CEmail v)));
    El "label" [Txt "Subject"];
    Select (cf_subject f) (map (fun o => (o, o)) subject_options) false (Some (fun v => emb (ContactType CSubject v)));
    El "label" [Txt "Message"];
    Input "textarea" "Tell us how we can help..." (Some (cf_message f)) false (Some (fun v => emb (ContactType CMessage v)));
    Button "" None [Txt "Send Message"]].

Definition info_card {E} (icon title : string) (body : list (Node E)) : Node E :=
  El "Card" [Icon icon; El "h3" [Txt title]; El "p" body].

Definition contact_main {E} (emb : ContactEvent -> E) (f : ContactForm) : Node E :=
  El "main" [
    El "section" [
      El "h1" [Txt "Get in "; El "span" [Txt "Touch"]];
      El "p" [Txt "Have questions, feedback, or need support? We're here to help and would love to hear from you."]];
    El "section" [
      El "h2" [Txt "Send us a Message"];
      contact_form_view emb f;
      El "h2" [Txt "Contact Information"];
      El "p" [Txt "Reach out to us through any of these channels. We're available 24/7 to assist you."];
      info_card "MapPin" "Address" [Txt "123 Food Street"; Br; Txt "Culinary District"; Br; Txt "New York, NY 10001"];
      info_card "Phone" "Phone" [Txt "Customer Support: (555) 123-4567"; Br; Txt "Restaurant Partners: (555) 123-4568"];
      info_card "Mail" "Email" [Txt "General: hello@foodhub.com"; Br; Txt "Support: support@foodhub.com"; Br;
                                Txt "Partners: partners@foodhub.com"];
      info_card "Clock" "Support Hours" [Txt "24/7 Customer Support"; Br; Txt "Live Chat Available"; Br;
                                         Txt "Average Response: 2 minutes"]]].

(** ** Properties *)

(** [needle] occurs in [hay]. *)
Fixpoint contains (needle hay : string) : bool :=
  String.prefix needle hay || match hay with "" => false | String _ hay' => contains needle hay' end.

(** Some text run of [n] mentions [w]. *)
Definition mentions {E} (w : string) (n : Node E) : bool := existsb (contains w) (node_texts n).

(** The words of a text run, split at each space. *)
Fixpoint words (s : string) : list string :=
  match s with
  | "" => [""]
  | String c s' =>
      let ws := words s' in
      if Ascii.eqb c " "%char then "" :: ws
      else match ws with w :: r => String c w :: r | [] => [String c ""] end
  end.

(** The e-mail addresses a node shows: the words with an [@]. *)
Definition emails {E} (n : Node E) : list string :=
  filter (fun w => contains "@" w = true) (flat_map words (node_texts n)).

Section StaticProps.
Context {E : Type}.

(** The links [ClientPages] gives the footer and the hero section are the
    [<Link to>]s they render, in order. *)
Lemma footer_links_rendered : node_links (footer_view (E:=E)) = footer_links.
Proof. reflexivity. Qed.

Lemma hero_links_rendered : node_links (hero_section (E:=E)) = hero_links.
Proof. reflexivity. Qed.

(** The about page's own content links nowhere. *)
Lemma about_main_no_links : node_links (about_main (E:=E)) = [].
Proof. reflexivity. Qed.

End StaticProps.

Lemma contact_main_no_links {E} (emb : ContactEvent -> E) f : node_links (contact_main emb f) = [].
Proof. reflexivity. Qed.

Section ContactProps.
Variable browser_email : string -> bool.

(** The browser's constraint validation of the rendered contact form
    accepts it exactly when [contact_submit] loads the page again: the
    e-mail input is its only control with a constraint. *)
Lemma contact_form_submits_iff path f :
  form_submits browser_email (contact_form_view id f) = match contact_submit browser_email path f with Some _ => true | None => false end.
Proof.
  unfold form_submits, contact_submit. cbn.
  by destruct (String.eqb (cf_email f) ""), (browser_email (cf_email f)).
Qed.

End ContactProps.

(** The site names itself two ways: the about page's title and figures
    say DineFlow, its mission FoodHub. *)
Lemma about_two_brands : mentions "DineFlow" (about_main (E:=Empty_set)) = true /\
                         mentions "FoodHub" (about_main (E:=Empty_set)) = true.
Proof. split; vm_compute; reflexivity. Qed.

(** The footer and the contact page give different support addresses,
    and no address in common. *)
Lemma support_addresses_disagree :
  emails (footer_view (E:=Empty_set)) = ["support@DineFlow.com"] /\
  emails (contact_main id contact_form_initial) = ["hello@foodhub.com"; "support@foodhub.com"; "partners@foodhub.com"].
Proof. split; vm_compute; reflexivity. Qed.
