(* ===== verification/App.v ===== *)
(** * App: the whole client in one state, page by page

    [App.tsx] renders one page at a time; every page but a path no route
    matches renders the header (with its dialog) and the footer around
    its own components.  This file puts the pieces of [AuthDialog],
    [ClientUi] and [ClientPages] together:

    - [App] is the state: the page shown, the [Shell] of [AuthDialog] (the
      header, the dialog, the auth slice, [localStorage], the requests in
      flight and the server's store), and the local state of the pages'
      own components: the filter sidebar of the menu page, the wizard of
      the registration page, the contact page's form.
    - [AppEvent] are what a visitor can do on the page shown: use the
      header and dialog, follow a rendered link, use the page's own
      controls, or press one of the controls that have no handler ("Add to
      Cart", "Order Now", "Approve", ...).
    - Following a link to another page mounts that page afresh: its
      components, the header's and dialog's hooks among them, start from
      their initial state, while the Redux store, [localStorage] and the
      requests in flight remain.  "Sign Out" also navigates to [/].
    - A full load of the document (the contact form's submission, or the
      interceptor's [window.location.href = "/"] on a 401) starts the
      whole client again from [localStorage]: [app_load].

    [app_reachable] is the closure of the loads under [app_step];
    [menu_page_view] is what the menu page shows of a state: the filter
    sidebar's inputs and badges beside the six dishes of
    [restaurant-menu.tsx], which do not depend on the sidebar. *)

From S2P Require Import Prelude Model Auth Users CartSlice ClientJson ClientApi ClientAuth ClientUi AuthDialog ClientPages ClientContent.

Record App := mkApp {
  ap_page : Page;
  ap_shell : Shell;
  ap_filters : Filters;
  ap_sections : Sections;
  ap_wizard : Wizard;
  ap_contact : ContactForm
}.

(** The controls rendered without an [onClick] or [onChange]. *)
Inductive InertControl :=
| SearchInput | AddToCartButton | FeaturedOrderButton | HeroOrderNow | CtaButton
| JoinCommunity | ReviewButton | ApproveButton | RejectButton | ViewMenuOrder | AddToFavorites.

Inductive AppEvent :=
| OnHeader (e : ShellEvent)
| FollowLink (l : string)
| OnFilter (e : FilterEvent)
| OnSection (i : SectionId)
| OnWizard (e : WizardEvent)
| OnContact (e : ContactEvent)
| PressInert (c : InertControl).

(** Where each control without a handler is rendered. *)
Definition inert_on (p : Page) (c : InertControl) : bool :=
  match c, p with
  | SearchInput, NoPage => false
  | SearchInput, _ => true
  | AddToCartButton, MenuPage => true
  | (FeaturedOrderButton | HeroOrderNow | CtaButton), HomePage => true
  | JoinCommunity, AboutPage => true
  | (ReviewButton | ApproveButton | RejectButton), AdminPage => true
  | (ViewMenuOrder | AddToFavorites), RestaurantPage _ => true
  | _, _ => false
  end.

(** Two pages rendered by the same [<Route>] element: react-router keeps
    the mounted component when only the [:id] changes. *)
Definition same_element (p q : Page) : bool :=
  match p, q with
  | RestaurantPage _, RestaurantPage _ => true
  | _, _ => bool_decide (p = q)
  end.

(** The header and dialog hooks of a freshly mounted page. *)
Definition remount (s : Shell) : Shell :=
  mkShell header_initial empty_form false (sh_auth s) (sh_ls s) (sh_inflight s) (sh_db s).

(** [navigate] or a [<Link>] to page [p]. *)
Definition navigate_to (p : Page) (a : App) : App :=
  if same_element (ap_page a) p then mkApp p (ap_shell a) (ap_filters a) (ap_sections a) (ap_wizard a) (ap_contact a)
  else mkApp p (remount (ap_shell a)) filters_initial sections_initial wizard_initial contact_form_initial.

(** A full load of the document at page [p]. *)
Definition app_load (p : Page) (ls : LocalStorage) (db : DB) : option App :=
  option_map (fun s => mkApp p s filters_initial sections_initial wizard_initial contact_form_initial) (shell_load ls db).

(** Whether the [i]-th answer makes the interceptor reload the page. *)
Definition answer_reloads (s : Shell) (i : nat) : bool :=
  match sh_inflight s !! i with
  | Some x => snd (answer_storage (Some (if_resp x)) (sh_ls s))
  | None => false
  end.

Definition set_shell (a : App) (s : Shell) : App :=
  mkApp (ap_page a) s (ap_filters a) (ap_sections a) (ap_wizard a) (ap_contact a).

(** What the filter sidebar renders: each open section's inputs with
    their [checked] state (a collapsed [FilterSection] renders no
    children), and the "Active Filters" badges. *)
Record SidebarView := mkSidebarView {
  sv_cuisines : list (string * bool);
  sv_ratings : list (string * bool);
  sv_prices : list (string * bool);
  sv_badges : list Badge
}.

Definition options_view (open_ : bool) (opts : list string) (checked : string -> bool) : list (string * bool) :=
  if open_ then map (fun o => (o, checked o)) opts else [].

Definition sidebar_view (f : Filters) (s : Sections) : SidebarView :=
  mkSidebarView (options_view (sec_cuisine s) cuisine_options (fun c => bool_decide (c ∈ fs_cuisines f)))
    (options_view (sec_rating s) rating_options (fun r => String.eqb (fs_rating f) r))
    (options_view (sec_price s) price_options (fun p => String.eqb (fs_price f) p))
    (if active_filters_shown f then active_badges f else []).

(** [MenuPage]: the sidebar beside the dishes of [RestaurantMenu], which
    reads nothing of the sidebar. *)
Record MenuPageView := mkMenuPageView { mp_sidebar : SidebarView; mp_dishes : list DishCard }.

Definition menu_page_view (a : App) : MenuPageView :=
  mkMenuPageView (sidebar_view (ap_filters a) (ap_sections a)) restaurant_menu.

Section App.
Context `{ServerJson} `{FormatValidators} `{PasswordHasher} `{JwtVerifier} `{!JwtIssuer} `{JsRuntime} `{ToDouble}.
Variable email_pattern : string -> bool.
Variable browser_email : string -> bool.

(** The restaurant page renders its two buttons only with the details;
    the header's search input is on every page. *)
Definition inert_rendered (p : Page) (c : InertControl) : bool :=
  inert_on p c &&
  match p, c with
  | RestaurantPage id, (ViewMenuOrder | AddToFavorites) =>
      match restaurant_info (Some id) with Some _ => true | None => false end
  | _, _ => true
  end.

(** One event on the page shown; [None] when its control is not rendered
    there (or is disabled, or the page crashes). *)
Definition app_step (a : App) (e : AppEvent) : option App :=
  let p := ap_page a in
  let s := ap_shell a in
  match e with
  | OnHeader he =>
      if bool_decide (p = NoPage) then None else
      match shell_step email_pattern browser_email s he with
      | None => None
      | Some s' =>
          match he with
          | Answer i => if answer_reloads s i
                        then Some (mkApp HomePage s' filters_initial sections_initial wizard_initial contact_form_initial)
                        else Some (set_shell a s')
          | ClickSignOut => Some (navigate_to HomePage (set_shell a s'))
          | _ => Some (set_shell a s')
          end
      end
  | FollowLink l => if bool_decide (l ∈ page_links p) then Some (navigate_to (app_route l) a) else None
  | OnFilter fe =>
      if bool_decide (p = MenuPage)
      then Some (mkApp p s (filter_step (ap_filters a) fe) (ap_sections a) (ap_wizard a) (ap_contact a)) else None
  | OnSection i =>
      if bool_decide (p = MenuPage)
      then Some (mkApp p s (ap_filters a) (toggle_section (ap_sections a) i) (ap_wizard a) (ap_contact a)) else None
  | OnWizard we =>
      if bool_decide (p = RegisterRestaurantPage)
      then Some (mkApp p s (ap_filters a) (ap_sections a) (wizard_step (ap_wizard a) we) (ap_contact a)) else None
  | OnContact (ContactType fld v) =>
      if bool_decide (p = ContactPage)
      then Some (mkApp p s (ap_filters a) (ap_sections a) (ap_wizard a) (contact_type (ap_contact a) fld v)) else None
  | OnContact ContactSend =>
      if bool_decide (p = ContactPage) then
        match contact_submit browser_email "/contact" (ap_contact a) with
        | Some loc => app_load (app_route (pathname loc)) (sh_ls s) (sh_db s)
        | None => Some a
        end
      else None
  | PressInert c => if inert_rendered p c then Some a else None
  end.

Fixpoint app_run (a : App) (es : list AppEvent) : option App :=
  match es with
  | [] => Some a
  | e :: es => match app_step a e with Some a' => app_run a' es | None => None end
  end.

(** The states the client reaches from a load of any page over the
    store [db0]. *)
Inductive app_reachable (db0 : DB) : App -> Prop :=
| app_reach_load p ls a : app_load p ls db0 = Some a -> app_reachable db0 a
| app_reach_step a e a' : app_reachable db0 a -> app_step a e = Some a' -> app_reachable db0 a'.

End App.

(** The collections no route of [routes/auth.js] writes. *)
Definition business_data (db : DB) :=
  (db_restaurants db, db_menu db, db_carts db, db_orders db).

(** ** Properties *)

Section AppProps.
Context `{ServerJson} `{FormatValidators} `{PasswordHasher} `{JwtVerifier} `{!JwtIssuer} `{JsRuntime} `{ToDouble}.
Variable email_pattern : string -> bool.
Variable browser_email : string -> bool.

Lemma app_reachable_run db0 a es a' :
  app_reachable email_pattern browser_email db0 a -> app_run email_pattern browser_email a es = Some a' ->
  app_reachable email_pattern browser_email db0 a'.
Proof.
  revert a. induction es as [|e es IH]; intros a Ha; cbn; [by intros [= <-] |].
  destruct (app_step _ _ a e) eqn:E; [| done]. apply IH. by eapply app_reach_step.
Qed.

(** Following a link changes the page and keeps the session, the stored
    entries, the requests in flight and the server's store. *)
Lemma follow_link_keeps_session a l a' :
  app_step email_pattern browser_email a (FollowLink l) = Some a' ->
  ap_page a' = app_route l /\ sh_auth (ap_shell a') = sh_auth (ap_shell a) /\
  sh_ls (ap_shell a') = sh_ls (ap_shell a) /\ sh_inflight (ap_shell a') = sh_inflight (ap_shell a) /\
  sh_db (ap_shell a') = sh_db (ap_shell a).
Proof.
  cbn. case_bool_decide; [| done]. intros [= <-]. unfold navigate_to. by destruct (same_element _ _).
Qed.

Lemma login_user_business e pw now db : business_data (snd (login_user e pw now db)) = business_data db.
Proof. destruct (login_user e pw now db) as [r db'] eqn:E. unfold login_user in E. hrun E; by injection E as _ <-. Qed.

Lemma register_user_business r now db :
  business_data (snd (register_user email_pattern r now db)) = business_data db.
Proof.
  destruct (register_user email_pattern r now db) as [x db'] eqn:E. unfold register_user, fresh_id in E.
  hrun E; by injection E as _ <-.
Qed.

Lemma server_answer_business sub now db :
  business_data (snd (server_answer email_pattern sub now db)) = business_data db.
Proof.
  destruct sub as [e pw | rq]; cbn [server_answer].
  - rewrite <- (login_user_business e pw now db). unfold login_response. by destruct (login_user e pw now db).
  - rewrite <- (register_user_business rq now db). unfold register_response. by destruct (register_user _ rq now db).
Qed.

Lemma submit_business now s s' :
  submit email_pattern browser_email now s = Some s' -> business_data (sh_db s') = business_data (sh_db s).
Proof.
  unfold submit. destruct (form_valid _ _ _); [| by intros [= <-]].
  destruct (auth_reducer _ _ _) as [[a ls]|]; [| done].
  pose proof (server_answer_business (handleSubmit (hd_authMode (sh_header s)) (sh_form s)) now (sh_db s)) as Hb.
  destruct (server_answer _ _ _ _) as [r db]. intros [= <-]. exact Hb.
Qed.

Lemma deliver_db i s s' : deliver i s = Some s' -> sh_db s' = sh_db s.
Proof.
  unfold deliver. destruct (sh_inflight s !! i); [| done].
  destruct (settle_of _ _ _ _) as [[a ls]|]; [| done]. by destruct (snd _); intros [= <-].
Qed.

(** The header and the dialog write to the server only through the
    login and registration routes. *)
Lemma shell_step_business s e s' :
  shell_step email_pattern browser_email s e = Some s' -> business_data (sh_db s') = business_data (sh_db s).
Proof.
  unfold shell_step. destruct (handle _ _ s e) as [s0|] eqn:Hh; [| done]. intros [= <-].
  destruct (effects_keep s s0) as (_ & _ & _ & _ & ->).
  destruct e; cbv beta iota zeta delta [handle] in Hh;
    repeat match type of Hh with
           | context [if ?b then _ else _] => destruct b
           end; try discriminate; try (by injection Hh as <-);
    try (by eapply submit_business); try (by rewrite (deliver_db _ _ _ Hh)).
Qed.

(** C22: The client changes no order, cart, restaurant or menu item.  In
    every state the client reaches from a load over the store [db0], by
    any sequence of clicks, keystrokes, links, page loads and answers on
    any page, the server's restaurants, menu items, carts and orders are
    those of [db0]: the only requests the pages send are the dialog's
    login and registration, and the "Add to Cart", "Order Now" and
    "Approve" controls have no handler.  (The header's [<CartSidebar />]
    comes from a module the repository does not contain; what it would
    do is not part of this state.) *)
Theorem app_keeps_business_data db0 a :
  app_reachable email_pattern browser_email db0 a -> business_data (sh_db (ap_shell a)) = business_data db0.
Proof.
  induction 1 as [p ls a Hl | a e a' _ IH Hs].
  - unfold app_load, shell_load in Hl. destruct (initial_auth ls); [by injection Hl as <- | done].
  - rewrite <- IH. destruct e as [he | l | fe | i | we | [fld v|] | c]; cbn [app_step] in Hs;
      repeat match type of Hs with
             | context [if ?b then _ else _] => destruct b
             end; try discriminate; try (by injection Hs as <-).
    + destruct (shell_step _ _ _ he) as [s'|] eqn:E; [| done]. apply shell_step_business in E.
      destruct he; try (destruct (answer_reloads _ _)); injection Hs as <-; try exact E.
      unfold navigate_to. by destruct (same_element _ _).
    + injection Hs as <-. unfold navigate_to. by destruct (same_element _ _).
    + destruct (contact_submit _ _ _) as [loc|]; [| by injection Hs as <-].
      unfold app_load, shell_load in Hs. destruct (initial_auth _); [by injection Hs as <- | done].
Qed.

End AppProps.
