(* ===== verification/PageViews.v ===== *)
(** * PageViews: the header, the registration wizard and the pages they make up

    This file renders as [Node]s ([ClientView]) the components with
    state that the other files model as state machines, and composes the
    pages of [App.tsx] from them:

    - [header_view] is [components/header.tsx]: the logo, the search
      input, the navigation links (desktop, and the mobile [Sheet], whose
      content is listed as if opened), and the account area, which
      depends on the auth slice: "Sign Out" when [isAuthenticated], "Sign
      In" and "Sign Up" otherwise.  Its buttons dispatch the [ShellEvent]s
      of [AuthDialog].  [CartSidebar] is imported from a module missing
      from the repository, so it is a node without content.
    - [auth_modal_view] is [components/auth-modal.tsx]: the dialog's
      fields by mode, the password's type, the submit button disabled
      while a login is awaited, and its form, whose submission at time
      [now] is [AuthDialog]'s [PressSubmit now].  [page_view] leaves it
      out: it is open over whichever page the header is on, and renders
      no link.
    - [featured_view], [features_view] and [testimonials_view] render the
      cards of [ClientContent] under their sections' headings.
    - [register_main] is [pages/RegisterRestaurantPage.tsx]: the progress
      bar ([step_badge]) and the card of the current step, its inputs fed
      from [formData] and dispatching [WizardInput], its buttons
      [NextStep] and [PrevStep]; the last step's button submits the form.
    - [sidebar_node] is [components/filter-sidebar.tsx]: the "Clear"
      button, the three [FilterSection]s (their header buttons toggling
      [isOpen], their checkboxes and radios rendered while open) and the
      "Active Filters" badges; [restaurant_menu_node], [info_node] and
      [dashboard_node] render the records of [ClientContent] and
      [ClientPages] for the menu, restaurant and admin pages.
    - [page_view] is the whole page an [App] state shows: the route's
      element between the header and the footer; every event of its
      buttons and inputs is an [AppEvent].

    The properties: the header's buttons are those [AuthDialog.handle]
    accepts; the dialog's constraint validation is [AuthDialog.form_valid]
    behind the buttons [handle] guards, and its required inputs are
    [field_rendered]'s; the registration form's constraint validation is
    [ClientUi.wizard_submission], and its required inputs are
    [step_required]; the sidebar's inputs and buttons are
    [App.sidebar_view]'s and [filter_step]'s; the link table
    [page_links] is the links every page renders; the controls every
    page renders without a handler are [App]'s inert controls
    ([inert_rendered]); the delivery time the home page promises is not the one the
    server estimates. *)

From S2P Require Import Prelude Model Orders Auth Users CartSlice ClientJson ClientApi ClientAuth ClientUi AuthDialog ClientPages ClientContent ClientView ClientStatic App.

Local Set Warnings "-register-all".

(** ** [components/header.tsx] *)

Section Header.
Context {E : Type} (emb : ShellEvent -> E).

(** The account area of the desktop navigation. *)
Definition account_area (a : AuthState) : list (Node E) :=
  match header_greeting a with
  | Some name => [El "div" [Icon "User"; El "span" [Expr name];
                            Button "" (Some (emb ClickSignOut)) [Icon "LogOut"; Txt "Sign Out"]]]
  | None => [Button "" (Some (emb ClickSignIn)) [Icon "LogIn"; Txt "Sign In"];
             Button "" (Some (emb ClickSignUp)) [Icon "UserPlus"; Txt "Sign Up"]]
  end.

(** The account buttons of the mobile [Sheet]. *)
Definition mobile_account (a : AuthState) : list (Node E) :=
  if au_isAuthenticated a then [Button "" (Some (emb ClickSignOut)) [Icon "LogOut"; Txt "Logout"]]
  else [Button "" (Some (emb ClickSignIn)) [Icon "LogIn"; Txt "Sign In"];
        Button "" (Some (emb ClickSignUp)) [Icon "UserPlus"; Txt "Sign Up"]].

Definition header_view (a : AuthState) : Node E :=
  El "header" [
    Link "/" [El "span" [Txt "D"]; El "span" [Txt "DineFlow"]];
    Icon "Search"; Input "" "Search for restaurants, cuisines, or dishes..." None false None;
    El "nav" ([Link "/menu" [Icon "UtensilsCrossed"; El "span" [Txt "Menu"]];
               Link "/about" [Txt "About"]; Link "/contact" [Txt "Contact"];
               El "CartSidebar" []] ++ account_area a);
    El "div" [El "CartSidebar" [];
              El "Sheet" [El "SheetTrigger" [Button "" None [Icon "MenuIcon"]];
                          El "SheetContent" ([El "nav" [Link "/menu" [Icon "UtensilsCrossed"; Txt "Menu"];
                                                        Link "/about" [Txt "About"];
                                                        Link "/contact" [Txt "Contact"]]] ++
                                             mobile_account a)]]].

End Header.

(** ** [components/auth-modal.tsx] *)

Section Dialog.
Context {E : Type} (emb : ShellEvent -> E) (now : Z).

(** A labelled [required] input of the dialog, [onChange] calling
    [handleInputChange(field, e.target.value)]. *)
Definition modal_input (label type_ placeholder : string) (fld : FormField) (v : string) : list (Node E) :=
  [El "Label" [Txt label]; Input type_ placeholder (Some v) true (Some (fun x => emb (TypeField fld x)))].

(** [<form onSubmit={handleSubmit}>], the submission at time [now]: the
    name, phone and address only when signing up, the password's type
    following [showPassword], the submit button disabled while
    [isLoading], and "Forgot your password?", a [<Button>] without
    [type] (a submit button), when signing in. *)
Definition dialog_form (s : Shell) : Node E :=
  let signin := bool_decide (hd_authMode (sh_header s) = SignIn) in
  let f := sh_form s in
  let a := sh_auth s in
  Form (Some (emb (PressSubmit now)))
    ((if js_truthy (au_error a) then [El "div" [Expr (au_error a)]] else []) ++
     (if signin then [] else modal_input "Full Name" "text" "Enter your full name" FName (ClientUi.fd_name f)) ++
     modal_input "Email Address" "email" "Enter your email" FEmail (fd_email f) ++
     modal_input "Password" (if sh_showPassword s then "text" else "password") "Enter your password"
       FPassword (fd_password f) ++
     [Button "button" (Some (emb ToggleShowPassword)) [Icon (if sh_showPassword s then "EyeOff" else "Eye")]] ++
     (if signin then [] else
        modal_input "Phone Number" "tel" "Enter your phone number" FPhone (fd_phone f) ++
        modal_input "Delivery Address" "text" "Enter your delivery address" FAddress (fd_address f)) ++
     [if au_isLoading a then DisabledButton [Txt "Please wait..."]
      else Button "submit" None [Txt (if signin then "Sign In" else "Create Account")]] ++
     (if signin then [Button "" None [Txt "Forgot your password?"]] else []) ++
     [El "Separator" [];
      Txt (if signin then "Don't have an account?" else "Already have an account?");
      Button "button" (Some (emb SwitchMode)) [Txt (if signin then "Sign up" else "Sign in")]]).

(** [<Dialog open={isOpen} onOpenChange={onClose}>]: its content only
    while open, closing on the overlay or the close button. *)
Definition auth_modal_view (s : Shell) : Node E :=
  if hd_authModalOpen (sh_header s) then
    El "Dialog" [Button "button" (Some (emb CloseDialog)) [Icon "X"];
                 El "DialogTitle" [Txt (if bool_decide (hd_authMode (sh_header s) = SignIn)
                                        then "Welcome Back!" else "Join FoodHub")];
                 dialog_form s]
  else El "Dialog" [].

End Dialog.

(** ** The home page's sections of [ClientContent] *)

Section Home.
Context {E : Type}.

(** [components/featured-dishes.tsx] *)
Definition featured_node (c : FeaturedCard) : Node E :=
  El "Card" [Img (fc_image c) (fc_name c); El "Badge" [Txt (fc_badge c)];
             El "h3" [Txt (fc_name c)]; El "span" [Txt (fc_price c)]; El "p" [Txt (fc_description c)];
             Icon "Star"; El "span" [Expr (JNum (fc_rating c))];
             Icon "Clock"; El "span" [Txt (fc_time c)];
             Button "" None [Txt "Order Now"]].

Definition featured_view : Node E :=
  El "section" ([El "h2" [Txt "Featured Dishes"];
                 El "p" [Txt "Discover our most popular dishes, carefully crafted by top chefs and loved by thousands of customers."]] ++
                map featured_node featured_section).

(** [components/features-section.tsx] *)
Definition features_view : Node E :=
  El "section" ([El "h2" [Txt "Why Choose FoodHub?"];
                 El "p" [Txt "We're committed to providing the best food delivery experience with unmatched speed, quality, and convenience."]] ++
                map (fun f => El "Card" [Icon "feature.icon"; El "h3" [Txt f.1]; El "p" [Txt f.2]]) features_section).

(** [components/testimonials-section.tsx]: one star [<svg>] per unit of
    the rating. *)
Definition testimonial_node (t : TestimonialCard) : Node E :=
  El "div" (repeat (Icon "svg") (tc_stars t) ++
            [El "p" [Txt (tc_quote t)]; Img (tc_avatar t) (tc_name t);
             El "h4" [Txt (tc_name t)]; El "p" [Txt (tc_role t)]]).

Definition testimonials_view : Node E :=
  El "section" ([El "h2" [Txt "What Our Customers Say"];
                 El "p" [Txt "Join thousands of satisfied customers who trust us for their food delivery needs"]] ++
                map testimonial_node testimonials_section).

(** [pages/HomePage.tsx], between its [<Header />] and [<Footer />] *)
Definition home_main : Node E :=
  El "main" [hero_section; featured_view; features_view; testimonials_view; cta_section].

End Home.

(** ** [pages/RegisterRestaurantPage.tsx] *)

Section Register.
Context {E : Type} (emb : WizardEvent -> E).

(** [value={formData.k}]: [formData] holds strings only (its initial
    value and [handleInputChange] write strings). *)
Definition form_value (fd : jsv) (k : string) : string :=
  match js_get fd k with Some (JStr v) => v | _ => "" end.

(** A labelled input of the form, [onChange] calling
    [handleInputChange(k, e.target.value)]. *)
Definition wizard_input (fd : jsv) (label type_ placeholder k : string) (req : bool) : list (Node E) :=
  [El "label" [Txt label]; Input type_ placeholder (Some (form_value fd k)) req (Some (fun v => emb (WizardInput k v)))].

Definition cuisine_choices : list (string * string) :=
  [("", "Select Cuisine"); ("italian", "Italian"); ("chinese", "Chinese"); ("indian", "Indian");
   ("mexican", "Mexican"); ("american", "American"); ("japanese", "Japanese"); ("thai", "Thai");
   ("other", "Other")].

(** Step 1, "Restaurant Information". *)
Definition step1_card (fd : jsv) : Node E :=
  El "Card" ([El "CardTitle" [Icon "Store"; Txt "Restaurant Information"]] ++
    wizard_input fd "Restaurant Name" "" "Your Restaurant Name" "restaurantName" true ++
    wizard_input fd "Owner Name" "" "Your Full Name" "ownerName" true ++
    wizard_input fd "Email" "email" "restaurant@example.com" "email" true ++
    wizard_input fd "Phone" "tel" "(555) 123-4567" "phone" true ++
    wizard_input fd "Restaurant Address" "" "123 Main St, City, State 12345" "address" true ++
    [El "label" [Txt "Cuisine Type"];
     Select (form_value fd "cuisine") cuisine_choices true (Some (fun v => emb (WizardInput "cuisine" v)))] ++
    wizard_input fd "Description" "textarea" "Tell us about your restaurant..." "description" false ++
    [Button "button" (Some (emb NextStep)) [Txt "Continue to Business Information"]]).

(** Step 2, "Business Information". *)
Definition step2_card (fd : jsv) : Node E :=
  El "Card" ([El "CardTitle" [Icon "FileText"; Txt "Business Information"]] ++
    wizard_input fd "Business License Number" "" "Enter your business license number" "businessLicense" true ++
    wizard_input fd "Tax ID (EIN)" "" "XX-XXXXXXX" "taxId" true ++
    [El "h4" [Txt "Required Documents"];
     El "ul" [El "li" [Txt "• Business License"]; El "li" [Txt "• Food Service License"];
              El "li" [Txt "• Certificate of Insurance"]; El "li" [Txt "• Menu with Prices"]];
     Button "button" (Some (emb PrevStep)) [Txt "Back"];
     Button "button" (Some (emb NextStep)) [Txt "Continue to Payment Setup"]]).

(** Step 3, "Payment Setup", whose last button submits the form. *)
Definition step3_card (fd : jsv) : Node E :=
  El "Card" ([El "CardTitle" [Icon "CreditCard"; Txt "Payment Setup"]] ++
    wizard_input fd "Bank Account Number" "" "Enter your bank account number" "bankAccount" true ++
    wizard_input fd "Routing Number" "" "Enter your routing number" "routingNumber" true ++
    [El "h4" [Txt "Commission Structure"];
     El "span" [Txt "Commission Rate:"]; El "Badge" [Txt "15%"];
     El "span" [Txt "Payment Schedule:"]; El "span" [Txt "Weekly"];
     El "span" [Txt "Setup Fee:"]; El "span" [Txt "FREE"];
     Button "button" (Some (emb PrevStep)) [Txt "Back"];
     Button "submit" None [Txt "Complete Registration"]]).

(** The progress bar: [{step < currentStep ? <CheckCircle /> : step}]. *)
Definition progress_view (w : Wizard) : Node E :=
  El "div" (map (fun step => El "div" [match step_badge w step with
                                       | BadgeDone => Icon "CheckCircle"
                                       | _ => Expr (num step)
                                       end]) [1; 2; 3]%Z).

(** [<form onSubmit={handleSubmit}>] with the card of [currentStep]. *)
Definition register_form (w : Wizard) : Node E :=
  let st := wz_currentStep w in
  Form (Some (emb WizardSubmit)) ((if (st =? 1)%Z then [step1_card (wz_formData w)] else []) ++
             (if (st =? 2)%Z then [step2_card (wz_formData w)] else []) ++
             (if (st =? 3)%Z then [step3_card (wz_formData w)] else [])).

Definition register_main (w : Wizard) : Node E :=
  El "main" [
    El "section" [El "h1" [Txt "Partner with "; El "span" [Txt "DineFlow"]];
                  El "p" [Txt "Join thousands of restaurants already growing their business with our platform. Reach more customers and increase your revenue."]];
    El "section" [progress_view w; register_form w]].

End Register.

(** ** [components/filter-sidebar.tsx] *)

Section Sidebar.
Context {E : Type} (ef : FilterEvent -> E) (es : SectionId -> E).

(** [FilterSection]: the header button toggles [isOpen]; the children
    are rendered only while it is open. *)
Definition filter_section (title : string) (open_ : bool) (i : SectionId) (children : list (Node E)) : Node E :=
  El "div" ([Button "" (Some (es i)) [El "h4" [Expr (JStr title)]; Icon "ChevronDown"]] ++
            (if open_ then children else [])).

Definition price_labels : list (string * string) :=
  [("$", "$ - Under $15"); ("$$", "$$ - $15-30"); ("$$$", "$$$ - $30-50"); ("$$$$", "$$$$ - Over $50")].

(** A badge of "Active Filters" with its [×] button. *)
Definition badge_node (b : Badge) : Node E :=
  El "Badge" ((match b with
               | CuisineBadge c => [Expr (JStr c)]
               | RatingBadge r => [Expr (JStr r); Txt " stars"]
               | PriceBadge p => [Expr (JStr p)]
               end) ++ [Button "" (Some (ef (badge_remove b))) [Txt "×"]]).

Definition sidebar_node (f : Filters) (s : Sections) : Node E :=
  El "div" ([El "h3" [Txt "Filter Menu"]; Button "" (Some (ef ClearAll)) [Txt "Clear"];
    filter_section "Cuisine Type" (sec_cuisine s) SecCuisine
      (map (fun c => El "label" [Choice "checkbox" "" c (bool_decide (c ∈ fs_cuisines f)) (Some (ef (ToggleCuisine c)));
                                 El "span" [Expr (JStr c)]]) cuisine_options);
    filter_section "Rating" (sec_rating s) SecRating
      (map (fun r => El "label" [Choice "radio" "rating" r (String.eqb (fs_rating f) r) (Some (ef (SelectRating r)));
                                 El "span" [Expr (JStr r); Txt " stars"]]) rating_options);
    filter_section "Price Range" (sec_price s) SecPrice
      (map (fun p => El "label" [Choice "radio" "price" p.1 (String.eqb (fs_price f) p.1) (Some (ef (SelectPrice p.1)));
                                 El "span" [Expr (JStr p.2)]]) price_labels)] ++
    (if active_filters_shown f
     then [El "div" ([El "h4" [Txt "Active Filters"]] ++ map badge_node (active_badges f))] else [])).

End Sidebar.

(** ** The menu, restaurant and admin pages *)

Section Pages.
Context {E : Type}.

(** A card of [components/restaurant-menu.tsx]: its [<button>] has no
    [onClick]. *)
Definition dish_node (d : DishCard) : Node E :=
  El "div" [Img (dc_image d) (dc_name d); El "h3" [Txt (dc_name d)]; El "p" [Txt (dc_description d)];
            El "span" [Txt (dc_price d)]; Button "" None [Txt "Add to Cart"]].

(** [RestaurantMenu()] *)
Definition restaurant_menu_node : Node E :=
  El "div" ([El "h2" [Txt "Explore Our "; El "span" [Txt "Menu"]];
             El "p" [Txt "Taste the freshness and flavors that define our kitchen."]] ++
            map dish_node restaurant_menu).

(** [RestaurantInfo]: "Restaurant Not Found", or the details of the
    sample restaurant with its two buttons without [onClick]. *)
Definition info_node (p : InfoPage) : Node E :=
  match p with
  | InfoNotFound =>
      El "Card" [El "h2" [Txt "Restaurant Not Found"];
                 El "p" [Txt "The restaurant you're looking for doesn't exist."]]
  | InfoDetails v =>
      El "div" ([Img (iv_image v) (iv_name v)] ++
        (if iv_featured v then [El "Badge" [Txt "Featured"]] else []) ++
        [El "h1" [Txt (iv_name v)]; Icon "svg"; El "span" [Expr (JNum (iv_rating v))];
         El "span" [Txt "("; Expr (num (iv_reviews v)); Txt ")"];
         El "p" [Txt (iv_cuisine v)]; El "p" [Txt (iv_description v)]] ++
        map (fun t => El "Badge" [Txt t]) (iv_tags v) ++
        [El "Card" [El "h3" [Txt "Delivery Information"];
                    El "span" [Txt "Delivery Time:"]; El "span" [Txt (iv_deliveryTime v)];
                    El "span" [Txt "Delivery Fee:"]; El "span" [Txt (iv_deliveryFee v)];
                    El "span" [Txt "Minimum Order:"]; El "span" [Txt (iv_minimumOrder v)]];
         El "Card" [El "h3" [Txt "Contact & Hours"];
                    El "span" [Txt "Address:"]; El "p" [Txt (iv_address v)];
                    El "span" [Txt "Phone:"]; El "span" [Txt (iv_phone v)];
                    El "span" [Txt "Hours:"]; El "span" [Txt (iv_hours v)]];
         Button "" None [Txt "View Menu & Order"]; Button "" None [Txt "Add to Favorites"]])
  end.

(** The dashboard's badge variants, as the tag of the badge. *)
Definition badge_tag (b : BadgeVariant) : string :=
  match b with
  | VDefault => "Badge default" | VSecondary => "Badge secondary"
  | VDestructive => "Badge destructive" | VOutline => "Badge outline"
  end.

Definition status_icon_node (i : StatusIcon) : Node E :=
  Icon (match i with ICheckCircle => "CheckCircle" | IClock => "Clock" | IXCircle => "XCircle" end).

(** A row of "Recent Orders". *)
Definition order_row_node (r : OrderRow) : Node E :=
  El "div" ([El "span" [Txt (row_id r)];
             El (badge_tag (row_badge r)) (map status_icon_node (row_icons r) ++ [Txt (row_status r)])] ++
            map (fun l => El "p" [Txt l]) (row_lines r)).

(** An application's card; its "Review", "Approve" and "Reject" buttons
    have no [onClick]. *)
Definition application_node (lines : list string) : Node E :=
  El "div" (map (fun l => El "p" [Txt l]) lines ++
            [Button "" None [Icon "Eye"; Txt "Review"]; Button "" None [Icon "CheckCircle"; Txt "Approve"];
             Button "" None [Icon "XCircle"; Txt "Reject"]]).

(** [AdminDashboard()] *)
Definition dashboard_node (d : DashboardView) : Node E :=
  El "div" (map (fun ls => El "Card" (map (fun l => El "p" [Txt l]) ls ++ [Icon "stat.icon"])) (dv_stats d) ++
            [El "Card" ([El "CardTitle" [Txt "Recent Orders"]] ++ map order_row_node (dv_orders d));
             El "Card" ([El "CardTitle" [Txt "Pending Restaurant Applications"]] ++
                        map application_node (dv_applications d))]).

(** [pages/AdminPage.tsx], between its [<Header />] and [<Footer />] *)
Definition admin_main : Node E :=
  El "main" [El "h1" [Txt "Admin Dashboard"];
             El "p" [Txt "Manage restaurants, orders, and platform operations"];
             dashboard_node admin_dashboard].

End Pages.

(** [pages/MenuPage.tsx], between its [<Header />] and [<Footer />] *)
Definition menu_main {E} (ef : FilterEvent -> E) (es : SectionId -> E) (f : Filters) (s : Sections) : Node E :=
  El "main" [El "section" [El "h1" [Txt "Our Delicious "; El "span" [Txt "Menu"]];
                           El "p" [Txt "Explore our mouth-watering dishes and find your next favorite meal."]];
             sidebar_node ef es f s; restaurant_menu_node].

(** ** The pages of [App.tsx] *)

Section PageView.
Context `{ToDouble}.

(** [pages/RestaurantPage.tsx], between its [<Header />] and
    [<Footer />]: [useParams()]'s [id] passed to [RestaurantInfo]. *)
Definition restaurant_main {E} (id : string) : Node E :=
  El "main" [info_node (restaurant_info_page (Some id))].

(** The page an [App] state shows: the route's element between the
    header and the footer; a path no route matches renders nothing. *)
Definition page_view (a : App) : option (Node AppEvent) :=
  let hd := header_view OnHeader (sh_auth (ap_shell a)) in
  let page main := Some (El "div" [hd; main; footer_view]) in
  match ap_page a with
  | HomePage => page home_main
  | MenuPage => page (menu_main OnFilter OnSection (ap_filters a) (ap_sections a))
  | AboutPage => page about_main
  | ContactPage => page (contact_main OnContact (ap_contact a))
  | RestaurantPage id => page (restaurant_main id)
  | RegisterRestaurantPage => page (register_main OnWizard (ap_wizard a))
  | AdminPage => page admin_main
  | NoPage => None
  end.

End PageView.

(** ** The controls without a handler *)

(** The label (or placeholder) each control of [App.InertControl] is
    rendered with. *)
Definition inert_label (c : InertControl) : string :=
  match c with
  | SearchInput => "Search for restaurants, cuisines, or dishes..."
  | AddToCartButton => "Add to Cart"
  | FeaturedOrderButton | HeroOrderNow | CtaButton => "Order Now"
  | JoinCommunity => "Join Our Community"
  | ReviewButton => "Review"
  | ApproveButton => "Approve"
  | RejectButton => "Reject"
  | ViewMenuOrder => "View Menu & Order"
  | AddToFavorites => "Add to Favorites"
  end.

Definition all_inert_controls : list InertControl :=
  [SearchInput; AddToCartButton; FeaturedOrderButton; HeroOrderNow; CtaButton; JoinCommunity;
   ReviewButton; ApproveButton; RejectButton; ViewMenuOrder; AddToFavorites].

(** ** Properties *)

Lemma header_links_rendered {E} (emb : ShellEvent -> E) a :
  node_links (header_view emb a) = ["/"; "/menu"; "/about"; "/contact"; "/menu"; "/about"; "/contact"].
Proof. unfold header_view, account_area, mobile_account. by destruct (header_greeting a), (au_isAuthenticated a). Qed.

Lemma step_cases (st : Z) :
  st = 1%Z \/ st = 2%Z \/ st = 3%Z \/ ((st =? 1)%Z = false /\ (st =? 2)%Z = false /\ (st =? 3)%Z = false).
Proof.
  destruct (Z.eqb_spec st 1); [by left |]. destruct (Z.eqb_spec st 2); [by right; left |].
  destruct (Z.eqb_spec st 3); [by right; right; left |]. by right; right; right.
Qed.

Lemma field_filled_form_value fd k : field_filled fd k = notEmpty (form_value fd k).
Proof. unfold field_filled, form_value. by destruct (js_get fd k) as [[]|]. Qed.


Lemma register_main_no_links {E} (emb : WizardEvent -> E) w : node_links (register_main emb w) = [].
Proof.
  unfold register_main, register_form, progress_view. cbn. by repeat case_match.
Qed.

(** The inputs a step renders with [required], as the events they
    dispatch on a keystroke [v]. *)
Definition required_fields {E} (n : Node E) (v : string) : list (option E) :=
  map (fun c => option_map (fun g => g v) (c_onChange c)) (List.filter c_required (node_controls n)).

(** C29: The registration form on screen refines [ClientUi]'s abstraction
    of it: the browser's constraint validation lets the form submit
    exactly when [wizard_submission] does, and the inputs it requires are
    those of [step_required] for the current step, each feeding its own
    field of [formData]. *)
Theorem register_form_refines browser_email w :
  (if form_submits browser_email (register_form id w) then Some (wz_formData w) else None) =
  wizard_submission w /\
  (forall v, required_fields (register_form id w) v =
             map (fun k => Some (WizardInput k v)) (step_required (wz_currentStep w))).
Proof.
  destruct w as [st fd]. unfold wizard_submission, submit_visible, register_form, step_required. cbn.
  destruct (step_cases st) as [-> | [-> | [-> | (-> & -> & ->)]]]; cbn; split; try done.
  unfold control_valid. cbn. rewrite !field_filled_form_value.
  by destruct (notEmpty (form_value fd "bankAccount")), (notEmpty (form_value fd "routingNumber")).
Qed.

(** The dialog's form refines [AuthDialog]'s abstraction of it: the
    browser submits it (by the enabled submit button, or by "Forgot your
    password?", which stays enabled while a login is awaited) exactly
    when [AuthDialog.form_valid] holds and the button [handle] guards is
    there; the inputs it requires are the fields [field_rendered] lets
    the visitor type, in order. *)
Theorem dialog_form_refines browser_email now s v :
  form_submits browser_email (dialog_form id now s) =
    (negb (au_isLoading (sh_auth s)) || bool_decide (hd_authMode (sh_header s) = SignIn)) &&
    form_valid browser_email (hd_authMode (sh_header s)) (sh_form s) /\
  required_fields (dialog_form id now s) v =
    map (fun fld => Some (TypeField fld v))
        (List.filter (field_rendered (hd_authMode (sh_header s))) [FName; FEmail; FPassword; FPhone; FAddress]).
Proof.
  destruct s as [[op m] [e pw n ph ad] sp a ls inf db].
  unfold dialog_form, form_submits, form_valid, control_valid, required_fields, modal_input. cbn.
  destruct m; [rewrite (bool_decide_true (SignIn = SignIn)) by done
              | rewrite (bool_decide_false (SignUp = SignIn)) by done];
  destruct (js_truthy (au_error a)), (au_isLoading a), sp; cbn; split; try reflexivity;
    destruct (notEmpty e) eqn:He, (browser_email e), (notEmpty pw), (notEmpty n), (notEmpty ph), (notEmpty ad);
    cbn; try reflexivity;
    (destruct (String.eqb_spec e ""); [subst; discriminate | reflexivity]).
Qed.

Lemma home_main_links {E} : node_links (home_main (E:=E)) = hero_links.
Proof. reflexivity. Qed.




Lemma badge_node_no_links {E} (ef : FilterEvent -> E) b : node_links (badge_node ef b) = [].
Proof. by destruct b. Qed.

Lemma menu_main_no_links {E} (ef : FilterEvent -> E) (es : SectionId -> E) f s :
  node_links (menu_main ef es f s) = [].
Proof.
  unfold menu_main, sidebar_node, filter_section. cbn.
  destruct (sec_cuisine s), (sec_rating s), (sec_price s), (active_filters_shown f); cbn; try reflexivity;
    rewrite ?app_nil_r; apply flat_map_map_nil; intros b; apply badge_node_no_links.
Qed.

(** The sidebar's checkboxes and radios are the inputs [App.sidebar_view]
    lists, with the same [checked] state: the record view of the menu
    page is what the tree renders. *)
Lemma sidebar_node_choices {E} (ef : FilterEvent -> E) (es : SectionId -> E) f s :
  map fst (node_choices (sidebar_node ef es f s)) =
  sv_cuisines (sidebar_view f s) ++ sv_ratings (sidebar_view f s) ++ sv_prices (sidebar_view f s).
Proof.
  unfold sidebar_node, filter_section, sidebar_view, options_view. cbn.
  destruct (sec_cuisine s), (sec_rating s), (sec_price s), (active_filters_shown f); cbn;
    rewrite ?app_nil_r, ?flat_map_map_nil by (intros []; reflexivity); reflexivity.
Qed.

(** The sidebar's buttons: "Clear", the three section headers, and the
    [×] of each active badge. *)
Lemma sidebar_node_clicks {E} (ef : FilterEvent -> E) (es : SectionId -> E) f s :
  node_clicks (sidebar_node ef es f s) =
  [ef ClearAll; es SecCuisine; es SecRating; es SecPrice] ++
  map (fun b => ef (badge_remove b)) (if active_filters_shown f then active_badges f else []).
Proof.
  unfold node_clicks, sidebar_node, filter_section. cbn.
  destruct (sec_cuisine s), (sec_rating s), (sec_price s), (active_filters_shown f); cbn;
    rewrite ?app_nil_r; try reflexivity;
    (f_equal; do 3 f_equal; induction (active_badges f) as [|b bs IH]; [done |]; cbn;
     rewrite omap_app, IH; by destruct b).
Qed.

Lemma admin_main_no_links {E} : node_links (admin_main (E:=E)) = [].
Proof. reflexivity. Qed.

(** A query that is empty on the restaurant details' constant parts
    and on each of their list items is empty on [info_node]. *)
Ltac info_node_nil :=
  cbn; rewrite !flat_map_app; cbn; rewrite !flat_map_app, flat_map_map_nil by reflexivity; by case_match.

Section LinksProps.
Context `{ToDouble}.

Lemma restaurant_main_no_links {E} id : node_links (restaurant_main (E:=E) id) = [].
Proof.
  unfold restaurant_main. cbn. destruct (restaurant_info_page (Some id)) as [|v]; [done |].
  info_node_nil.
Qed.

(** C36: The link table [page_links] by which [ClientPages.navigable] and
    [App.app_step] follow links is, as a set, the targets of the
    [<Link to>]s each page renders: the header's, the home page's hero,
    the footer's, and none in the other pages' own content (the menu's
    sidebar and dishes, the restaurant details, the admin dashboard,
    the about, contact and registration pages). *)
Theorem page_links_rendered a n :
  page_view a = Some n -> forall l, l ∈ node_links n <-> l ∈ page_links (ap_page a).
Proof.
  destruct a as [p s f sec w c]. unfold page_view. cbn [ap_page ap_shell ap_contact ap_wizard].
  intros Hv l. destruct p; try discriminate; injection Hv as <-; cbn [node_links flat_map];
    rewrite header_links_rendered; unfold footer_view; cbn [node_links flat_map app];
    rewrite ?(home_main_links (E:=AppEvent)), ?(about_main_no_links (E:=AppEvent)), ?contact_main_no_links,
      ?register_main_no_links, ?menu_main_no_links, ?restaurant_main_no_links, ?(admin_main_no_links (E:=AppEvent));
    unfold page_links, header_links, hero_links, footer_links; set_solver.
Qed.

End LinksProps.

Lemma all_inert_controls_complete c : c ∈ all_inert_controls.
Proof. destruct c; cbn; set_solver. Qed.

Definition search_placeholder : string := "Search for restaurants, cuisines, or dishes...".

Lemma header_dead {E} (emb : ShellEvent -> E) a : dead_controls false false (header_view emb a) = [search_placeholder].
Proof. unfold header_view, account_area, mobile_account. by destruct (header_greeting a), (au_isAuthenticated a). Qed.

Lemma page_dead {E} (hd main ft : Node E) :
  dead_controls false false (El "div" [hd; main; ft]) =
  dead_controls false false hd ++ dead_controls false false main ++ dead_controls false false ft ++ [].
Proof. reflexivity. Qed.

Lemma footer_dead {E} : dead_controls false false (footer_view (E:=E)) = [].
Proof. reflexivity. Qed.

Lemma badge_node_dead {E} (ef : FilterEvent -> E) b : dead_controls false false (badge_node ef b) = [].
Proof. by destruct b. Qed.

Lemma menu_main_dead {E} (ef : FilterEvent -> E) (es : SectionId -> E) f s :
  dead_controls false false (menu_main ef es f s) = repeat "Add to Cart" 6.
Proof.
  unfold menu_main, sidebar_node, filter_section. cbn.
  destruct (sec_cuisine s), (sec_rating s), (sec_price s), (active_filters_shown f); cbn;
    rewrite ?app_nil_r, ?flat_map_map_nil by (intros; apply badge_node_dead); reflexivity.
Qed.

Lemma contact_main_dead {E} (emb : ContactEvent -> E) f : dead_controls false false (contact_main emb f) = [].
Proof. reflexivity. Qed.

Lemma register_main_dead {E} (emb : WizardEvent -> E) w : dead_controls false false (register_main emb w) = [].
Proof. unfold register_main, register_form, progress_view. cbn. by repeat case_match. Qed.

Section DeadProps.
Context `{ToDouble}.

Lemma restaurant_main_dead {E} id :
  dead_controls false false (restaurant_main (E:=E) id) =
  match restaurant_info (Some id) with Some _ => ["View Menu & Order"; "Add to Favorites"] | None => [] end.
Proof.
  unfold restaurant_main, restaurant_info_page. destruct (restaurant_info (Some id)) as [r|]; [| done].
  info_node_nil.
Qed.


End DeadProps.

Section PageProps.
Context `{ServerJson} `{FormatValidators} `{PasswordHasher} `{JwtVerifier} `{!JwtIssuer} `{JsRuntime}.
Variable email_pattern : string -> bool.
Variable browser_email : string -> bool.

(** C9: The header renders a button for "Sign In", "Sign Up" or "Sign
    Out" exactly when the page's [handle] accepts that click in the
    current state: the guards of the shell's model are what the header
    shows. *)
Theorem header_clicks_enabled s e :
  e ∈ [ClickSignIn; ClickSignUp; ClickSignOut] ->
  (e ∈ node_clicks (header_view id (sh_auth s)) <-> is_Some (handle email_pattern browser_email s e)).
Proof.
  intros He. unfold node_clicks, header_view, account_area, mobile_account, header_greeting.
  unfold handle, handleLogout. cbn zeta.
  destruct (au_isAuthenticated (sh_auth s));
    repeat (rewrite elem_of_cons in He); rewrite elem_of_nil in He;
    destruct He as [-> | [-> | [-> | []]]]; cbn; split; intros Hx;
    first [ eexists; reflexivity | destruct Hx as [? Hx]; discriminate | set_solver ].
Qed.

(** The estimated delivery time a created order carries. *)
Lemma create_order_eta uid req now db oid o db' :
  create_order uid req now db = (Ok (oid, o), db') ->
  o_estimatedDeliveryTime o = estimated_delivery_time (o_orderType o) now.
Proof.
  unfold create_order, save_new_order, fresh_id. intros Hrun. hrun Hrun.
  injection Hrun as <- <- <-. reflexivity.
Qed.

(** The home page promises delivery "in 30 minutes or less" (the hero
    and the "Fast Delivery" feature), while every delivery order the
    server creates is estimated 45 minutes after its creation. *)
Theorem delivery_promise_exceeded uid req now db oid o db' :
  create_order uid req now db = (Ok (oid, o), db') -> o_orderType o = ot_delivery ->
  mentions "in 30 minutes or less" (home_main (E:=Empty_set)) = true /\
  (o_estimatedDeliveryTime o - now = 45 * 60000)%Z.
Proof.
  intros Hc Hd. split; [vm_compute; reflexivity |].
  rewrite (create_order_eta _ _ _ _ _ _ _ Hc), Hd. unfold estimated_delivery_time. lia.
Qed.
End PageProps.
