(* ===== verification/Endpoints.v ===== *)
(** * Endpoints: the server's routing table and the client's requests

    Each router of [src/backend/routes] declares its routes with
    [router.get(path, ...)], [router.post], [router.put] and
    [router.delete]; the routers are mounted under [/auth], [/restaurants],
    [/menu], [/cart], [/orders], [/admin] and [/contact] of the API base
    (the mount points are those the spec lists: the server's entry file is
    not in the repository).  [server_routes] is that table, in the order of
    the source.

    The client calls the API through [services/api.ts] from the thunks of
    its slices and from the service modules of [services/]; each call is a
    method and a path template whose [${id}] parts are MongoDB ids
    ([CVar]).  An id is 24 hexadecimal digits, so it never equals a literal
    segment of a route (all of which contain a letter beyond [f] or are
    shorter); Express matches paths without regard to case, and with the
    client's lower-case paths this is plain equality.

    [routed] says whether some route answers a request; a request no route
    answers gets Express's default 404 page (HTML, no JSON [message]). *)

From S2P Require Import Prelude ClientJson ClientApi ClientSlices ClientAdmin.

Inductive Method := GET | POST | PUT | DELETE.

#[export] Instance Method_eq_dec : EqDecision Method.
Proof. solve_decision. Defined.

(** A segment of a route pattern: a literal, or a [:param]. *)
Inductive PSeg := PLit (s : string) | PParam.

(** A segment of a client path: a literal, or an interpolated id (the
    export's [${type}] is one of three words, written out as literals). *)
Inductive CSeg := CLit (s : string) | CVar.

Definition seg_matches (p : PSeg) (c : CSeg) : bool :=
  match p, c with
  | PLit a, CLit b => String.eqb a b
  | PParam, _ => true
  | PLit _, CVar => false
  end.

Fixpoint path_matches (ps : list PSeg) (cs : list CSeg) : bool :=
  match ps, cs with
  | [], [] => true
  | p :: ps', c :: cs' => seg_matches p c && path_matches ps' cs'
  | _, _ => false
  end.

Definition route := (Method * list PSeg)%type.

(** [routes/auth.js] *)
Definition auth_routes : list route :=
  [(POST, [PLit "register"]); (POST, [PLit "login"]); (GET, [PLit "me"]);
   (PUT, [PLit "profile"]); (PUT, [PLit "change-password"]); (POST, [PLit "logout"])].

(** [routes/restaurants.js] *)
Definition restaurant_routes : list route :=
  [(GET, []); (GET, [PParam]); (POST, []); (PUT, [PParam]); (DELETE, [PParam]);
   (PUT, [PParam; PLit "status"])].

(** [routes/menu.js] *)
Definition menu_routes : list route :=
  [(GET, [PLit "restaurant"; PParam]); (GET, [PParam]); (POST, []); (PUT, [PParam]);
   (DELETE, [PParam]); (GET, [PLit "categories"; PLit "list"])].

(** [routes/cart.js] *)
Definition cart_routes : list route :=
  [(GET, []); (POST, [PLit "add"]); (PUT, [PLit "update"; PParam]);
   (DELETE, [PLit "remove"; PParam]); (DELETE, [PLit "clear"])].

(** [routes/orders.js] *)
Definition order_routes : list route :=
  [(POST, []); (GET, []); (GET, [PParam]); (PUT, [PParam; PLit "status"]);
   (POST, [PParam; PLit "cancel"]); (POST, [PParam; PLit "rate"]);
   (GET, [PLit "restaurant"; PParam])].

(** [routes/admin.js] *)
Definition admin_routes : list route :=
  [(GET, [PLit "dashboard"]); (GET, [PLit "users"]); (PUT, [PLit "users"; PParam; PLit "status"]);
   (GET, [PLit "restaurants"; PLit "pending"]);
   (PUT, [PLit "restaurants"; PParam; PLit "approve"]);
   (PUT, [PLit "restaurants"; PParam; PLit "reject"]); (GET, [PLit "orders"]);
   (GET, [PLit "analytics"; PLit "revenue"]); (GET, [PLit "analytics"; PLit "orders"]);
   (POST, [PLit "broadcast"]); (GET, [PLit "system"; PLit "health"])].

(** [routes/contact.js] *)
Definition contact_routes : list route := [(POST, [])].

(** The routers and their mount points. *)
Definition server_routes : list (string * list route) :=
  [("auth", auth_routes); ("restaurants", restaurant_routes); ("menu", menu_routes);
   ("cart", cart_routes); ("orders", order_routes); ("admin", admin_routes);
   ("contact", contact_routes)].

Definition routed (m : Method) (path : list CSeg) : bool :=
  existsb (fun mr =>
    existsb (fun r => bool_decide (r.1 = m) && path_matches (PLit mr.1 :: r.2) path) mr.2)
    server_routes.

(** Express's answer to a request no route takes: status 404 and an HTML
    page ([Cannot GET /api/...]), which axios hands over as a string. *)
Definition not_found_page (html : string) : Response := mkResponse 404 (JStr html).

(** ** The client's requests *)

Definition call := (Method * list CSeg)%type.

(** The requests of the slices' thunks ([store/slices/*.ts]). *)
Definition auth_slice_calls : list call :=
  [(POST, [CLit "auth"; CLit "login"]); (POST, [CLit "auth"; CLit "register"]);
   (PUT, [CLit "auth"; CLit "profile"]); (PUT, [CLit "auth"; CLit "change-password"])].

Definition order_slice_calls : list call :=
  [(POST, [CLit "orders"]); (GET, [CLit "orders"]); (GET, [CLit "orders"; CVar]);
   (PUT, [CLit "orders"; CVar; CLit "status"]); (PUT, [CLit "orders"; CVar; CLit "cancel"])].

Definition restaurant_slice_calls : list call :=
  [(GET, [CLit "restaurants"]); (GET, [CLit "restaurants"; CVar]);
   (POST, [CLit "restaurants"; CLit "register"]); (PUT, [CLit "restaurants"; CVar])].

Definition menu_slice_calls : list call :=
  [(GET, [CLit "menu"; CLit "restaurant"; CVar]);
   (GET, [CLit "menu"; CLit "restaurant"; CVar; CLit "categories"]);
   (POST, [CLit "menu"]); (PUT, [CLit "menu"; CVar]); (DELETE, [CLit "menu"; CVar])].

Definition cart_slice_calls : list call :=
  [(POST, [CLit "cart"; CLit "sync"]); (GET, [CLit "cart"]); (POST, [CLit "cart"; CLit "add"]);
   (DELETE, [CLit "cart"; CLit "remove"; CVar]); (DELETE, [CLit "cart"; CLit "clear"])].

Definition admin_slice_calls : list call :=
  [(GET, [CLit "admin"; CLit "stats"]); (GET, [CLit "admin"; CLit "restaurants"; CLit "pending"]);
   (PUT, [CLit "admin"; CLit "restaurants"; CVar; CLit "approve"]);
   (PUT, [CLit "admin"; CLit "restaurants"; CVar; CLit "reject"]);
   (PUT, [CLit "admin"; CLit "restaurants"; CVar; CLit "suspend"]);
   (GET, [CLit "admin"; CLit "orders"; CLit "recent"]); (GET, [CLit "admin"; CLit "orders"]);
   (GET, [CLit "admin"; CLit "users"]); (PUT, [CLit "admin"; CLit "users"; CVar; CLit "status"]);
   (DELETE, [CLit "admin"; CLit "users"; CVar])].

Definition slice_calls : list call :=
  auth_slice_calls ++ order_slice_calls ++ restaurant_slice_calls ++ menu_slice_calls ++
  cart_slice_calls ++ admin_slice_calls.

(** The requests of the service modules ([services/*.ts]), which the
    pages do not use: the slices' requests again, plus order tracking, the
    profile read, the admin's notifications and exports and the contact
    messages.  [exportData]'s [${type}] is one of three words. *)
Definition auth_service_calls : list call :=
  [(POST, [CLit "auth"; CLit "login"]); (POST, [CLit "auth"; CLit "register"]);
   (GET, [CLit "auth"; CLit "profile"]); (PUT, [CLit "auth"; CLit "profile"]);
   (PUT, [CLit "auth"; CLit "change-password"])].

Definition order_service_calls : list call :=
  [(POST, [CLit "orders"]); (GET, [CLit "orders"]); (GET, [CLit "orders"; CVar]);
   (PUT, [CLit "orders"; CVar; CLit "status"]); (PUT, [CLit "orders"; CVar; CLit "cancel"]);
   (GET, [CLit "orders"; CVar; CLit "track"])].

Definition restaurant_service_calls : list call :=
  [(GET, [CLit "restaurants"]); (GET, [CLit "restaurants"; CVar]);
   (POST, [CLit "restaurants"; CLit "register"]); (PUT, [CLit "restaurants"; CVar]);
   (GET, [CLit "menu"; CLit "restaurant"; CVar]);
   (GET, [CLit "menu"; CLit "restaurant"; CVar; CLit "categories"]);
   (POST, [CLit "menu"]); (PUT, [CLit "menu"; CVar]); (DELETE, [CLit "menu"; CVar])].

Definition cart_service_calls : list call :=
  [(GET, [CLit "cart"]); (POST, [CLit "cart"; CLit "add"]); (PUT, [CLit "cart"; CLit "update"; CVar]);
   (DELETE, [CLit "cart"; CLit "remove"; CVar]); (DELETE, [CLit "cart"; CLit "clear"]);
   (POST, [CLit "cart"; CLit "sync"])].

Definition admin_service_calls : list call :=
  [(GET, [CLit "admin"; CLit "stats"]); (GET, [CLit "admin"; CLit "restaurants"; CLit "pending"]);
   (PUT, [CLit "admin"; CLit "restaurants"; CVar; CLit "approve"]);
   (PUT, [CLit "admin"; CLit "restaurants"; CVar; CLit "reject"]);
   (PUT, [CLit "admin"; CLit "restaurants"; CVar; CLit "suspend"]);
   (GET, [CLit "admin"; CLit "orders"; CLit "recent"]); (GET, [CLit "admin"; CLit "orders"]);
   (GET, [CLit "admin"; CLit "users"]); (PUT, [CLit "admin"; CLit "users"; CVar; CLit "status"]);
   (DELETE, [CLit "admin"; CLit "users"; CVar]); (POST, [CLit "admin"; CLit "notifications"]);
   (GET, [CLit "admin"; CLit "export"; CLit "orders"]); (GET, [CLit "admin"; CLit "export"; CLit "users"]);
   (GET, [CLit "admin"; CLit "export"; CLit "restaurants"])].

Definition contact_service_calls : list call :=
  [(POST, [CLit "contact"]); (GET, [CLit "admin"; CLit "contact"]);
   (PUT, [CLit "admin"; CLit "contact"; CVar; CLit "read"]);
   (POST, [CLit "admin"; CLit "contact"; CVar; CLit "reply"])].

Definition service_calls : list call :=
  auth_service_calls ++ order_service_calls ++ restaurant_service_calls ++ cart_service_calls ++
  admin_service_calls ++ contact_service_calls.

Definition unrouted (cs : list call) : list call := filter (fun c => negb (routed c.1 c.2)) cs.

(** ** Properties *)

(** Of the requests the slices make, eight reach no route of the server:
    the admin statistics, recent orders, suspension and user deletion, the
    restaurant registration (the server's route is [POST /restaurants]),
    the menu categories of a restaurant, the order cancellation (the server
    cancels with [POST]) and the cart synchronisation. *)
Theorem slice_calls_unrouted :
  unrouted slice_calls =
    [(PUT, [CLit "orders"; CVar; CLit "cancel"]); (POST, [CLit "restaurants"; CLit "register"]);
     (GET, [CLit "menu"; CLit "restaurant"; CVar; CLit "categories"]);
     (POST, [CLit "cart"; CLit "sync"]); (GET, [CLit "admin"; CLit "stats"]);
     (PUT, [CLit "admin"; CLit "restaurants"; CVar; CLit "suspend"]);
     (GET, [CLit "admin"; CLit "orders"; CLit "recent"]); (DELETE, [CLit "admin"; CLit "users"; CVar])].
Proof. vm_compute. reflexivity. Qed.

(** The admin dashboard's statistics never load: [GET /admin/stats] has
    no route, and the thunk rejects with its default message. *)
Theorem admin_stats_never_load s html :
  routed GET [CLit "admin"; CLit "stats"] = false /\
  admin_reducer s (settle StatsFulfilled StatsRejected (Some (not_found_page html))
                     "Failed to fetch admin stats") =
    Some (mkAdminState (ad_stats s) (ad_pendingRestaurants s) (ad_recentOrders s) (ad_users s) false
            (JStr "Failed to fetch admin stats") (ad_pagination s)).
Proof. split; [reflexivity |]. by destruct s. Qed.

(** Of the service modules' 44 requests, 17 reach no route: besides the
    slices' eight, the profile read ([GET /auth/profile]; the server's is
    [/auth/me]), order tracking, the admin's notifications and three
    exports, and three of the four contact-message requests.  (The cart
    update by menu item is routed: the server's [PUT /cart/update/:itemId]
    takes a line id in the same place.) *)
Lemma service_calls_unrouted :
  length service_calls = 44%nat /\
  unrouted service_calls =
    [(GET, [CLit "auth"; CLit "profile"]); (PUT, [CLit "orders"; CVar; CLit "cancel"]);
     (GET, [CLit "orders"; CVar; CLit "track"]); (POST, [CLit "restaurants"; CLit "register"]);
     (GET, [CLit "menu"; CLit "restaurant"; CVar; CLit "categories"]); (POST, [CLit "cart"; CLit "sync"]);
     (GET, [CLit "admin"; CLit "stats"]); (PUT, [CLit "admin"; CLit "restaurants"; CVar; CLit "suspend"]);
     (GET, [CLit "admin"; CLit "orders"; CLit "recent"]); (DELETE, [CLit "admin"; CLit "users"; CVar]);
     (POST, [CLit "admin"; CLit "notifications"]); (GET, [CLit "admin"; CLit "export"; CLit "orders"]);
     (GET, [CLit "admin"; CLit "export"; CLit "users"]); (GET, [CLit "admin"; CLit "export"; CLit "restaurants"]);
     (GET, [CLit "admin"; CLit "contact"]); (PUT, [CLit "admin"; CLit "contact"; CVar; CLit "read"]);
     (POST, [CLit "admin"; CLit "contact"; CVar; CLit "reply"])].
Proof. split; vm_compute; reflexivity. Qed.

(** The customer's "cancel order" does nothing and shows nothing: the
    request [PUT /orders/:id/cancel] has no route (the server cancels with
    [POST]), and the order slice has no case for the rejection. *)
Theorem order_cancel_inert s html :
  routed PUT [CLit "orders"; CVar; CLit "cancel"] = false /\
  order_reducer s (settle CancelOrderFulfilled CancelOrderRejected (Some (not_found_page html))
                     "Failed to cancel order") = Some s.
Proof. split; reflexivity. Qed.
