(* ===== verification/Scenarios.v ===== *)
(** * Scenarios: the theorems applied to concrete stores

    A small store with one customer (id 1), one restaurant owner (id 2),
    one approved restaurant (id 10, delivery fee 2, minimum order 10) and
    one dish (id 20, price 9), and the runs of the handlers on it that the
    specification walks through: placing an order of two dishes (subtotal
    18, total 22), moving it to delivered, rating it, cancelling, and the
    cart scenario of adding the same dish twice.  Each lemma below applies
    one theorem of the development at such a concrete run, its hypotheses
    discharged by evaluation. *)

From Stdlib Require Qcanon.
From S2P Require Import Prelude Model Query Pricing Orders Cart Auth.
From S2P Require Import Restaurants Menu Users Admin OrderLists Analytics Contact Validation CartSlice.
From S2P Require Import ClientJson ClientApi ClientAuth ClientSlices ClientServer ClientAdmin Store ClientUi AuthDialog ClientPages App ClientView ClientStatic PageViews AppViews Endpoints Seed.

Open Scope Q_scope.
Open Scope dine_scope.

(** ** Fixtures *)

(** Phone and e-mail checks that accept any non-empty string. *)
#[local] Instance sample_validators : FormatValidators :=
  {| isMobilePhone := notEmpty; isEmail := notEmpty; normalizeEmail := fun s => s; isURL := notEmpty |}.

(** Tokens in unary: the token of user [n] is [n+1] letters "a". *)
Definition letter_a : Ascii.ascii := Ascii.ascii_of_nat 97.

Fixpoint unary (n : nat) : string :=
  match n with O => EmptyString | S n => String letter_a (unary n) end.

Fixpoint all_a (s : string) : bool :=
  match s with
  | EmptyString => true
  | String c rest => Ascii.eqb c letter_a && all_a rest
  end.

#[local] Instance sample_jwt : JwtVerifier :=
  {| jwt_verify s := if all_a s && negb (String.eqb s "") then jwt_ok (N.of_nat (String.length s - 1))
                     else jwt_invalid |}.

Lemma all_a_unary n : all_a (unary n) = true.
Proof. induction n; simpl; [done | by rewrite IHn]. Qed.

Lemma length_unary n : String.length (unary n) = n.
Proof. induction n; simpl; [done | by rewrite IHn]. Qed.

Lemma reverse_unary n : string_reverse (unary n) = unary n.
Proof.
  induction n as [|n IH]; simpl; [done |]. rewrite IH. clear IH.
  induction n as [|n IH]; [done |].
  transitivity (String letter_a (String.append (unary n) (String letter_a EmptyString)));
    [reflexivity | f_equal; exact IH].
Qed.

Lemma drop_spaces_unary n : drop_spaces (unary n) = unary n.
Proof. by destruct n. Qed.

Lemma trim_unary n : js_trim (unary n) = unary n.
Proof. unfold js_trim. by rewrite drop_spaces_unary, reverse_unary, drop_spaces_unary, reverse_unary. Qed.

#[local] Instance sample_issuer : JwtIssuer.
Proof.
  refine {| jwt_sign id _ := unary (S (N.to_nat id)) |}.
  - intros id _. simpl. rewrite all_a_unary. simpl. rewrite length_unary, Nat.sub_0_r. by rewrite N2Nat.id.
  - intros id _. apply trim_unary.
  - intros id _. discriminate.
Defined.

(** A hash that prefixes the password. *)
#[local] Instance sample_hasher : PasswordHasher.
Proof.
  refine {| hash_password p := ("h:" ++ p)%string;
            compare_password c h := String.eqb ("h:" ++ c) h |}.
  intros p. apply String.eqb_refl.
Defined.

Definition customer : User := mkUser "Ann" "ann@x.io" "h" "555" role_customer true None "" 0.
Definition owner : User := mkUser "Bob" "bob@x.io" "h" "556" role_restaurant true None "" 0.
Definition other : User := mkUser "Eve" "eve@x.io" "h" "557" role_customer true None "" 0.
Definition rest0 : Restaurant := mkRestaurant "R" 2%N 2 10 0 0 rs_approved true 0 0 ["Italian"] 0 "30-45 mins".
Definition dish : MenuItem := mkMenuItem 10%N "Dish" 9 true "Mains".
Definition addr : Address := mkAddress "1 Main St" "Town" "ST" "00001".

Definition db0 : DB :=
  mkDB {[1%N := customer; 2%N := owner; 3%N := other]} {[10%N := rest0]} {[20%N := dish]} ∅ ∅ 100%N.

Definition order_req (q : Z) : CreateOrderReq :=
  mkCreateOrderReq 10%N [mkReqOrderItem 20%N q None None] addr "555" "ann@x.io" pm_cash
    (Some ot_delivery) None.

Definition blank_order : Order :=
  mkOrder None 0 0 [] (mkPricing 0 0 0 0 0 0) addr "" "" pm_cash pay_pending os_pending
    ot_delivery 0 None None None None [] 0.

(** The value of a successful run, [d] otherwise. *)
Definition ok_or {A} (d : A) (r : result A) : A := match r with Ok a => a | Err _ => d end.

(** Placing the order of two dishes at time 1000. *)
Definition place_run := create_order 1%N (order_req 2) 1000 db0.
Definition placed : ObjectId * Order := ok_or (0%N, blank_order) (fst place_run).
Definition db1 : DB := snd place_run.
(** The restaurant after the order: one order, revenue 22. *)
Definition rest1 : Restaurant := default rest0 (db_restaurants db1 !! 10%N).

(** The owner marks it delivered at time 2000. *)
Definition deliver_run := update_order_status 2%N owner placed.1 os_delivered None 2000 db1.
Definition delivered : Order := ok_or blank_order (fst deliver_run).
Definition db2 : DB := snd deliver_run.

(** The customer rates it at time 3000. *)
Definition rate_run := rate_order 1%N placed.1 5 None 4 (Some "good") 3000 db2.
Definition rated : Order := ok_or blank_order (fst rate_run).
Definition db3 : DB := snd rate_run.

(** ** Order creation *)

(** An order of one dish (subtotal 9) is under the minimum of 10. *)
Lemma create_order_error_no_effect_witness :
  create_order 1%N (order_req 1) 1000 db0 =
    (Err (HttpError 400 "Minimum order amount is $"), db0) /\ db0 = db0.
Proof.
  assert (H : create_order 1%N (order_req 1) 1000 db0 =
                (Err (HttpError 400 "Minimum order amount is $"), db0))
    by (vm_compute; reflexivity).
  split; [exact H | exact (create_order_error_no_effect _ _ _ _ _ _ H)].
Defined.


(** ** Cancellation, rating, status updates *)

Lemma cancel_order_success_witness :
  cancel_order 1%N customer placed.1 None 1500 db1 =
    (Ok (ok_or blank_order (fst (cancel_order 1%N customer placed.1 None 1500 db1))),
     snd (cancel_order 1%N customer placed.1 None 1500 db1)) /\
  o_status (ok_or blank_order (fst (cancel_order 1%N customer placed.1 None 1500 db1))) = os_cancelled.
Proof.
  assert (H : cancel_order 1%N customer placed.1 None 1500 db1 =
    (Ok (ok_or blank_order (fst (cancel_order 1%N customer placed.1 None 1500 db1))),
     snd (cancel_order 1%N customer placed.1 None 1500 db1))) by (vm_compute; reflexivity).
  destruct (cancel_order_success _ _ _ _ _ _ _ _ H) as (o & r & _ & _ & _ & _ & Hs & _).
  split; [exact H | exact Hs].
Defined.

(** The delivered order can no longer be cancelled, even by its customer. *)
Lemma cancel_order_terminal_witness :
  cancel_order 1%N customer placed.1 None 2500 db2 =
    (Err (HttpError 400 "Order cannot be cancelled"), db2).
Proof.
  apply (cancel_order_terminal 1%N customer placed.1 None 2500 db2 delivered rest1);
    [vm_compute; reflexivity | vm_compute; reflexivity | left; vm_compute; reflexivity
    | vm_compute; reflexivity].
Defined.

Lemma rate_order_success_witness :
  rate_run = (Ok rated, db3) /\
  o_rating rated = Some (mkRating 5 5 4 "good" 3000) /\
  db_restaurants db3 !! 10%N =
    Some (set_rating rest1 (restaurant_rating (db_orders db3) 10%N).1
                           (restaurant_rating (db_orders db3) 10%N).2).
Proof.
  assert (H : rate_run = (Ok rated, db3)) by (vm_compute; reflexivity).
  destruct (rate_order_success _ _ _ _ _ _ _ _ _ _ H)
    as (o & r & Ho & _ & _ & _ & Hrt & _ & _ & _ & _ & Hr & Hr').
  assert (o_restaurant o = 10%N /\ r = rest1) as [Hro ->].
  { vm_compute in Ho. injection Ho as <-. split; [reflexivity |].
    vm_compute in Hr. by injection Hr. }
  rewrite Hro in Hr'. split; [exact H | split; assumption].
Defined.

(** Rating the same order a second time, with other scores. *)
Lemma rate_order_twice_witness :
  rate_run = (Ok rated, db3) /\
  exists msg, rate_order 1%N placed.1 1%Z (Some 2%Z) 3%Z None 4000%Z db3 = (Err (HttpError 400 msg), db3).
Proof.
  assert (H : rate_run = (Ok rated, db3)) by (vm_compute; reflexivity).
  split; [exact H | exact (rate_order_twice _ _ _ _ _ _ _ _ _ _ 1 (Some 2%Z) 3 None 4000 H)].
Defined.

(** The pending order cannot be rated yet. *)
Lemma rate_order_not_delivered_witness :
  rate_order 1%N placed.1 5 None 4 None 1500 db1 =
    (Err (HttpError 400 "Can only rate delivered orders"), db1).
Proof.
  apply (rate_order_not_delivered _ _ _ _ _ _ _ _ placed.2);
    [reflexivity | vm_compute; reflexivity | vm_compute; reflexivity | vm_compute; discriminate].
Defined.

Lemma restaurant_rating_bounds_witness :
  1 <= (restaurant_rating {[placed.1 := rated]} 10%N).1 <= 5.
Proof.
  apply restaurant_rating_bounds.
  - intros oid o rt Hl _ Hrt. apply lookup_singleton_Some in Hl as [_ <-].
    vm_compute in Hrt. injection Hrt as <-. simpl. lia.
  - vm_compute. discriminate.
Defined.

Lemma update_order_status_success_witness :
  deliver_run = (Ok delivered, db2) /\ o_actualDeliveryTime delivered = Some 2000%Z.
Proof.
  assert (H : update_order_status 2%N owner placed.1 os_delivered None 2000 db1 =
                (Ok delivered, db2)) by (vm_compute; reflexivity).
  destruct (update_order_status_success _ _ _ _ _ _ _ _ _ H) as (o & _ & _ & _ & _ & _ & Hd & _).
  split; [exact H | rewrite Hd; reflexivity].
Defined.

(** The owner moves the delivered order back to preparing. *)
Lemma update_order_status_any_source_witness :
  exists o', fst (update_order_status 2%N owner placed.1 os_preparing None 2500 db2) = Ok o' /\
             o_status o' = os_preparing /\ o_timeline o' <> [].
Proof.
  apply (update_order_status_any_source _ _ _ _ _ _ _ delivered rest1);
    vm_compute; reflexivity.
Defined.

(** ** The cart *)

Definition add_req (cs : option (list ReqCustomization)) : AddReq := mkAddReq 20%N 1 cs None.
Definition large : list ReqCustomization :=
  [mkReqCustomization (Some "Size") [mkReqOption (Some "Large") (Some 2)]].

(** One plain dish in the cart, then one with the large option. *)
Definition cart_run1 := add_to_cart 1%N (add_req None) 5 db0.
Definition cdb1 : DB := snd cart_run1.
Definition cart1 : Cart := default (mkCart 0 0 None [] 0 0 0) (db_carts cdb1 !! 1%N).
Definition cart_run2 := add_to_cart 1%N (add_req (Some large)) 6 cdb1.
Definition cdb2 : DB := snd cart_run2.

Lemma empty_carts_wf : carts_wf db0.
Proof. intros uid c Hc. simpl in Hc. rewrite lookup_empty in Hc. discriminate. Qed.

Lemma add_to_cart_preserves_wf_witness : carts_wf db0 /\ carts_wf cdb1.
Proof. split; [exact empty_carts_wf | exact (add_to_cart_preserves_wf 1%N (add_req None) 5 db0 empty_carts_wf)]. Defined.

(** Adding the plain dish again merges it: quantity 2. *)
Lemma add_to_cart_plain_qty_witness :
  exists c' db' mi, add_to_cart 1%N (add_req None) 7 cdb1 = (Ok c', db') /\
    db_menu cdb1 !! 20%N = Some mi /\
    plain_qty 20%N (cart_items c') = (plain_qty 20%N (lines_before cdb1 1%N (mi_restaurant mi)) + 1)%Z.
Proof.
  destruct (add_to_cart 1%N (add_req None) 7 cdb1) as [[c'|e] db'] eqn:H;
    [| vm_compute in H; discriminate].
  destruct (add_to_cart_plain_qty _ _ _ _ _ _ H eq_refl) as (mi & Hmi & Hq).
  exists c', db', mi. split_and!; [reflexivity | exact Hmi | rewrite Hq; reflexivity].
Defined.

(** Adding the dish with the same large option twice gives two lines. *)
Lemma add_to_cart_customized_appends_witness :
  exists c' db' mi e, add_to_cart 1%N (add_req (Some large)) 7 cdb2 = (Ok c', db') /\
    db_menu cdb2 !! 20%N = Some mi /\
    cart_items c' = lines_before cdb2 1%N (mi_restaurant mi) ++ [e].
Proof.
  destruct (add_to_cart 1%N (add_req (Some large)) 7 cdb2) as [[c'|e] db'] eqn:H;
    [| vm_compute in H; discriminate].
  destruct (add_to_cart_customized_appends _ _ _ _ _ _ large H eq_refl ltac:(discriminate))
    as (mi & e & Hmi & Hl & _).
  exists c', db', mi, e. split_and!; [reflexivity | exact Hmi | exact Hl].
Defined.

Lemma add_to_cart_keeps_stored_totals_witness :
  db_carts cdb1 !! 1%N = Some cart1 /\
  exists c' db', cart_run2 = (Ok c', db') /\ cart_subtotal c' = cart_subtotal cart1.
Proof.
  assert (Hc : db_carts cdb1 !! 1%N = Some cart1) by (vm_compute; reflexivity).
  split; [exact Hc |].
  destruct (add_to_cart 1%N (add_req (Some large)) 6 cdb1) as [[c'|e] db'] eqn:H;
    [| vm_compute in H; discriminate].
  exists c', db'. split; [exact H |].
  exact (proj1 (add_to_cart_keeps_stored_totals _ _ _ _ _ _ _ Hc H)).
Defined.

(** Reading the cart after the two additions: both lines, subtotal 9 + 11. *)
Lemma get_cart_view_witness :
  exists c v db', db_carts cdb2 !! 1%N = Some c /\ get_cart 1%N 8 cdb2 = (Ok v, db') /\
    cv_subtotal v == 20 /\ db' = cdb2.
Proof.
  destruct (db_carts cdb2 !! 1%N) as [c|] eqn:Hc; [| vm_compute in Hc; discriminate].
  destruct (get_cart 1%N 8 cdb2) as [[v|e] db'] eqn:H; [| vm_compute in H; discriminate].
  destruct (get_cart_view _ _ _ _ _ _ Hc H) as (_ & Hs & _ & Hsame & _).
  assert (Hlen : length (cv_items v) = length (cart_items c)).
  { vm_compute in Hc. injection Hc as <-. vm_compute in H. injection H as <- _. reflexivity. }
  exists c, v, db'. split_and!; [reflexivity | reflexivity | | exact (Hsame Hlen)].
  rewrite Hs. vm_compute in H. injection H as <- _. vm_compute. reflexivity.
Defined.

Lemma checkout_subtotal_matches_cart_witness :
  exists c v db' ois sub, db_carts cdb2 !! 1%N = Some c /\ get_cart 1%N 8 cdb2 = (Ok v, db') /\
    price_items (db_menu cdb2) (map cart_line_request (cart_items c)) 0 = Ok (ois, sub) /\
    sub == cv_subtotal v.
Proof.
  destruct (db_carts cdb2 !! 1%N) as [c|] eqn:Hc; [| vm_compute in Hc; discriminate].
  destruct (get_cart 1%N 8 cdb2) as [[v|e] db'] eqn:H; [| vm_compute in H; discriminate].
  assert (Hlen : length (cv_items v) = length (cart_items c)).
  { vm_compute in Hc. injection Hc as <-. vm_compute in H. injection H as <- _. reflexivity. }
  destruct (checkout_subtotal_matches_cart _ _ _ _ _ _ Hc H Hlen) as (ois & sub & Hp & Hs).
  exists c, v, db', ois, sub. split_and!; first [reflexivity | assumption].
Defined.

(** ** Fees *)

Lemma fees_rounding_bounds_witness : 0 <= 18 /\ 0 <= service_fee 18 /\ 0 <= tax 18.
Proof. split; [lra |]. apply (proj2 (proj2 (fees_rounding_bounds 18))). lra. Defined.

(** ** Middleware *)

Lemma restaurantAuth_spec_witness :
  fst (auth (Some "Bearer aaa") db0) = Ok (2%N, owner) /\
  restaurantAuth (Some "Bearer aaa") db0 = mkMwOutcome [] (Some (2%N, owner)).
Proof.
  assert (H : fst (auth (Some "Bearer aaa") db0) = Ok (2%N, owner)) by (vm_compute; reflexivity).
  split; [exact H | apply (proj1 (restaurantAuth_spec _ _ _ _ H)); left; reflexivity].
Defined.

(** A request without a token to an admin route. *)
Lemma role_auth_double_response_witness :
  fst (auth None db0) = Err (HttpError 401 "Authorization header missing or invalid") /\
  adminAuth None db0 = mkMwOutcome [401%N; 401%N] None.
Proof.
  assert (H : fst (auth None db0) = Err (HttpError 401 "Authorization header missing or invalid"))
    by reflexivity.
  split; [exact H | apply (proj1 (role_auth_double_response admin_roles _ _ _ H))].
Defined.

(** Another customer asks for the placed order. *)
Lemma route_get_order_denied_witness :
  route_get_order (Some "Bearer aaaa") placed.1 db1 =
    ([], Some (Err (HttpError 403 "Not authorized to view this order")), db1).
Proof.
  apply (proj2 (route_get_order_denied (Some "Bearer aaaa") db1 placed.1 placed.2 rest1 3%N other));
    try (vm_compute; reflexivity); try (vm_compute; discriminate).
  vm_compute. eauto.
Defined.

(** ** Client-side prices *)

(** A pickup order of the dish (price 9) with an option priced -14: the
    subtotal is -5. *)
Definition cheap_req : CreateOrderReq :=
  mkCreateOrderReq 10%N [priced_line 20%N 9 (-5)] addr "555" "ann@x.io" pm_cash (Some ot_pickup) None.


(** ** Users *)

Lemma db0_emails_unique : emails_unique db0.
Proof.
  intros i j ui uj Hi Hj He. simpl in Hi, Hj.
  rewrite !lookup_insert_Some, lookup_singleton_Some in Hi, Hj.
  destruct Hi as [[<- <-] | [_ [[<- <-] | [_ [<- <-]]]]];
  destruct Hj as [[<- <-] | [_ [[<- <-] | [_ [<- <-]]]]]; simpl in He; try done; discriminate He.
Qed.

(** The administrator deactivates the customer, who still holds the token
    "aa" of user 1. *)
Lemma deactivated_user_keeps_access_witness :
  login_user "ann@x.io" "pw" 5000 (snd (admin_set_user_status 1%N (Some "false") db0)) =
    (Err (HttpError 401 "Account has been deactivated"), snd (admin_set_user_status 1%N (Some "false") db0)) /\
  fst (auth (Some (String.append bearer "aa")) (snd (admin_set_user_status 1%N (Some "false") db0))) =
    Ok (1%N, set_user_active customer false).
Proof.
  apply (deactivated_user_keeps_access 1%N db0 (set_user_active customer false)
           (snd (admin_set_user_status 1%N (Some "false") db0)) "ann@x.io" "pw" 5000 "aa");
    [exact db0_emails_unique | vm_compute; reflexivity | reflexivity | reflexivity | reflexivity].
Defined.

Definition reg_req : RegisterReq := mkRegisterReq "Zoe" "zoe@x.io" "secret1" "555 1234" None.

Lemma register_then_login_witness :
  exists id tok db', register_user notEmpty reg_req 100 db0 = (Ok (id, tok), db') /\
    (exists tok', fst (login_user "zoe@x.io" "secret1" 200 db') = Ok (id, tok')).
Proof.
  destruct (register_user notEmpty reg_req 100 db0) as [[[id tok] | e] db'] eqn:E;
    [| vm_compute in E; discriminate].
  exists id, tok, db'. split; [reflexivity |].
  exact (proj1 (register_then_login notEmpty reg_req 100 db0 id tok db' 200 E)).
Defined.

Lemma register_user_spec_witness :
  emails_unique db0 /\ exists id tok db', register_user notEmpty reg_req 100 db0 = (Ok (id, tok), db') /\
    emails_unique db'.
Proof.
  split; [exact db0_emails_unique |].
  destruct (register_user notEmpty reg_req 100 db0) as [[[id tok] | e] db'] eqn:E;
    [| vm_compute in E; discriminate].
  exists id, tok, db'. split; [reflexivity |].
  exact (proj1 (register_user_spec notEmpty reg_req 100 db0 id tok db' db0_emails_unique E)).
Defined.

(** ** Restaurants and menus *)

(** User 3 registers a restaurant whose body asks for [status: "approved"]. *)
Definition self_approved_body : RestaurantBody :=
  mkRestaurantBody (Some "Eve Diner") None None None (Some rs_approved) None None None
    (Some ["Italian"]) (Some "eve@x.io") (Some "557") (Some "Home cooking daily") (Some addr)
    (Some 0) (Some 0) (Some "http://eve.io/logo.png") (Some "L-1") (Some "T-1").

Lemma register_restaurant_status_witness :
  exists rid r db', register_restaurant 3%N self_approved_body 100 db0 = (Ok (rid, r), db') /\
    r_owner r = 3%N /\ r_status r = rs_approved.
Proof.
  destruct (register_restaurant 3%N self_approved_body 100 db0) as [[[rid r] | e] db'] eqn:E;
    [| vm_compute in E; discriminate].
  exists rid, r, db'. split; [reflexivity |].
  destruct (register_restaurant_status _ _ _ _ _ _ _ E) as (Ho & Hs & _). by split.
Defined.

(** The owner renames the restaurant and, through the same body, rewrites
    its revenue. *)
Definition rename_body : RestaurantBody :=
  mkRestaurantBody (Some "R2") None None None None None None (Some 1000) None None None None
    None None None None None None.

Lemma update_restaurant_applies_body_witness :
  update_restaurant 2%N owner 10%N rename_body db0 =
    (Ok (apply_body rename_body rest0),
     set_restaurants db0 (<[10%N := apply_body rename_body rest0]> (db_restaurants db0))).
Proof.
  apply (update_restaurant_applies_body 2%N owner 10%N rename_body db0 rest0); reflexivity.
Defined.

Lemma delete_restaurant_cascade_witness :
  exists db', delete_restaurant 10%N db0 = (Ok tt, db') /\
    db_restaurants db' !! 10%N = None /\ db_menu db' !! 20%N = None.
Proof.
  destruct (delete_restaurant 10%N db0) as [[[] | e] db'] eqn:E; [| vm_compute in E; discriminate].
  exists db'. split; [reflexivity |].
  destruct (delete_restaurant_cascade _ _ _ E) as [Hr Hm]. split; [exact Hr |].
  destruct (db_menu db' !! 20%N) as [mi |] eqn:Hk; [| reflexivity].
  apply Hm in Hk as [Hk Hne]. simpl in Hk. injection Hk as <-. by destruct Hne.
Defined.

Definition any_text {A} (_ : string) (_ : A) : bool := true.

Definition rq1 : RestaurantQuery := mkRestaurantQuery 1 10 (Some "Italian") None None None None.

Lemma list_restaurants_sound_witness :
  exists res, list_restaurants any_text rq1 db0 = (Ok res, db0) /\
    (10%N, rest0) ∈ res.1 /\ forall k r, (k, r) ∈ res.1 -> r_status r = rs_approved.
Proof.
  destruct (list_restaurants any_text rq1 db0) as [[res | e] db'] eqn:E; [| vm_compute in E; discriminate].
  destruct (list_restaurants_sound _ _ _ _ _ E) as [-> Hs].
  exists res. split; [reflexivity |]. split.
  - vm_compute in E. injection E as <-. simpl. by left.
  - intros k r Hin. apply (Hs k r Hin).
Defined.

Lemma list_restaurants_complete_witness :
  exists all, list_restaurants any_text (with_page rq1 1) db0 =
    (Ok (paginate 1 10 all, pagination 1 10 (Z.of_nat (length all))), db0).
Proof.
  destruct (list_restaurants_complete any_text rq1 db0 eq_refl) as (all & _ & Hp & _).
  exists all. apply Hp. lia.
Defined.

(** The owner moves the dish to restaurant 11 through [PUT /api/menu/20]. *)
Definition move_body : MenuItemBody := mkMenuItemBody (Some 11%N) None None None None None None.

Lemma update_menu_item_moves_witness :
  update_menu_item 2%N owner 20%N move_body db0 =
    (Ok (apply_item_body move_body dish),
     set_menu db0 (<[20%N := apply_item_body move_body dish]> (db_menu db0))) /\
  mi_restaurant (apply_item_body move_body dish) = 11%N.
Proof.
  apply (update_menu_item_moves 2%N owner 20%N move_body db0 dish rest0 11%N); reflexivity.
Defined.

Definition gone : MenuItem := mkMenuItem 10%N "Gone" 5 false "Mains".
Definition db_gone : DB := set_menu db0 (<[21%N := gone]> (db_menu db0)).

Lemma list_menu_default_lists_unavailable_witness :
  exists groups n, list_menu any_text 10%N (mkMenuQuery None None None) db_gone = (Ok (groups, n), db_gone) /\
    (21%N, gone) ∈ concat (map snd groups).
Proof.
  destruct (list_menu any_text 10%N (mkMenuQuery None None None) db_gone) as [[[groups n] | e] db'] eqn:E;
    [| vm_compute in E; discriminate].
  destruct (list_menu_default_lists_unavailable _ _ _ _ _ _ E) as [-> Hl].
  exists groups, n. split; [reflexivity |]. apply Hl. split; reflexivity.
Defined.

(** ** Listings and the dashboard *)

Lemma list_my_orders_own_witness :
  exists res, list_my_orders 1%N 1 10 None db1 = (Ok res, db1) /\ res.1 <> [] /\
    forall k o, (k, o) ∈ res.1 -> o_customer o = 1%N.
Proof.
  destruct (list_my_orders 1%N 1 10 None db1) as [[res | e] db'] eqn:E; [| vm_compute in E; discriminate].
  destruct (list_my_orders_own _ _ _ _ _ _ _ E) as [-> Hs].
  exists res. split; [reflexivity |]. split.
  - vm_compute in E. injection E as <-. discriminate.
  - intros k o Hin. apply (Hs k o Hin).
Defined.

Lemma list_restaurant_orders_scoped_witness :
  exists res, list_restaurant_orders 2%N owner 10%N 1 10 None None db1 = (Ok res, db1) /\
    forall k o, (k, o) ∈ res.1 -> o_restaurant o = 10%N.
Proof.
  destruct (list_restaurant_orders 2%N owner 10%N 1 10 None None db1) as [[res | e] db'] eqn:E;
    [| vm_compute in E; discriminate].
  destruct (list_restaurant_orders_scoped _ _ _ _ _ _ _ _ _ _ E) as (-> & _ & Hs).
  exists res. split; [reflexivity |]. intros k o Hin. apply (Hs k o Hin).
Defined.

(** With the customer deactivated, [?isActive=1] lists exactly the
    customer: the inactive user. *)
Definition db_off : DB := snd (admin_set_user_status 1%N (Some "false") db0).
Definition uq_one : UserQuery := mkUserQuery 1 20 None None (Some "1") None None.

Lemma admin_list_users_isActive_one_witness :
  exists res, admin_list_users any_text uq_one db_off = (Ok res, db_off) /\
    res.1 = [(1%N, set_user_active customer false)] /\
    forall k u, (k, u) ∈ res.1 -> u_isActive u = false.
Proof.
  destruct (admin_list_users any_text uq_one db_off) as [[res | e] db'] eqn:E;
    [| vm_compute in E; discriminate].
  pose proof (admin_list_users_isActive_one any_text uq_one db_off res db' eq_refl E) as Hs.
  vm_compute in E. injection E as <- <-.
  eexists. split; [reflexivity |]. split; [reflexivity |].
  intros k u Hin. apply (Hs k u Hin).
Defined.

Lemma cancel_keeps_revenue_witness :
  exists o' db', cancel_order 1%N customer placed.1 None 1500 db1 = (Ok o', db') /\
    ov_totalRevenue (dashboard_overview db') == ov_totalRevenue (dashboard_overview db1) /\
    ov_totalRevenue (dashboard_overview db1) == pr_total (o_pricing placed.2).
Proof.
  destruct (cancel_order 1%N customer placed.1 None 1500 db1) as [[o' | e] db'] eqn:E;
    [| vm_compute in E; discriminate].
  exists o', db'. split; [reflexivity |]. split.
  - exact (proj2 (cancel_keeps_revenue _ _ _ _ _ _ _ _ E)).
  - vm_compute. reflexivity.
Defined.

(** ** The client's cart slice *)

Definition fm_dish : FMenuItem := mkFMenuItem "20" "10" 9.

Lemma cart_reducer_totals_witness :
  totals_ok (initial_state None) /\
  totals_ok (fst (cart_reducer (initial_state None) None (AddToCart fm_dish 2 None))).
Proof.
  assert (H0 : totals_ok (initial_state None)) by (split; reflexivity).
  split; [exact H0 | exact (cart_reducer_totals _ None (AddToCart fm_dish 2 None) H0)].
Defined.

Lemma cart_reducer_single_restaurant_witness :
  single_restaurant (initial_state None) /\ action_ok (initial_state None) (AddToCart fm_dish 2 None) /\
  single_restaurant (fst (cart_reducer (initial_state None) None (AddToCart fm_dish 2 None))).
Proof.
  assert (H0 : single_restaurant (initial_state None)) by (split; [discriminate | constructor]).
  assert (Ha : action_ok (initial_state None) (AddToCart fm_dish 2 None)) by discriminate.
  split_and!; [exact H0 | exact Ha | exact (cart_reducer_single_restaurant _ None _ H0 Ha)].
Defined.

(** ** The client against the server *)

(** Documents encoded with their id in unary and their name. *)
#[local] Instance sample_json : ServerJson.
Proof.
  refine {| oid_string id := unary (N.to_nat id);
            user_json id u := JObj [("_id", JStr (unary (N.to_nat id))); ("name", JStr (u_name u))];
            restaurant_json id r := JObj [("_id", JStr (unary (N.to_nat id))); ("name", JStr (r_name r))];
            menu_item_json id m := JObj [("_id", JStr (unary (N.to_nat id))); ("name", JStr (mi_name m))];
            order_json id o := JObj [("_id", JStr (unary (N.to_nat id)))] |}.
  - intros a b Hab. apply (f_equal String.length) in Hab. rewrite !length_unary in Hab.
    by apply N2Nat.inj.
  - reflexivity.
Defined.

#[local] Instance sample_runtime : JsRuntime := {| num_string _ := "0" |}.

Definition ls0 : LocalStorage := mkLocalStorage None None None.

(** The store after Zoe registered, with her hashed password. *)
Definition db_reg : DB := snd (register_user notEmpty reg_req 100 db0).

Lemma login_roundtrip_witness :
  exists id tok db', login_user "zoe@x.io" "secret1" 200 db_reg = (Ok (id, tok), db') /\
    exists s' ls' u,
      login_flow (Some (fst (login_response "zoe@x.io" "secret1" 200 db_reg))) logged_out ls0 = Some (s', ls') /\
      au_isAuthenticated s' = true /\ fst (auth (auth_header ls') db') = Ok (id, u).
Proof.
  destruct (login_user "zoe@x.io" "secret1" 200 db_reg) as [[[id tok] | e] db'] eqn:E;
    [| vm_compute in E; discriminate].
  exists id, tok, db'. split; [reflexivity |].
  destruct (login_roundtrip _ _ _ _ _ _ _ logged_out ls0 E) as (s' & ls' & u & H1 & H2 & _ & _ & _ & H3).
  exists s', ls', u. by split_and!.
Defined.

(** Ann, logged in with her token, mistypes her password. *)
Definition ls_ann : LocalStorage := mkLocalStorage (Some "aa") None None.
Definition s_ann : AuthState := mkAuthState JNull (JStr "aa") false JNull true.

Lemma login_refused_witness :
  login_flow (Some (fst (login_response "ann@x.io" "bad" 10 db0))) s_ann ls_ann =
    Some (logged_out, ls_clear_session ls_ann).
Proof.
  destruct (login_user "ann@x.io" "bad" 10 db0) as [[r | er] db'] eqn:E; [vm_compute in E; discriminate |].
  destruct (login_refused _ _ _ _ _ _ s_ann ls_ann E) as [_ [[Hbad _] | [_ H]]].
  - vm_compute in E. injection E as <- _. discriminate Hbad.
  - exact H.
Defined.


Lemma fetch_orders_loses_list_witness :
  exists res, list_my_orders 1%N 1 10 None db1 = (Ok res, db1) /\ res.1 <> [] /\
    exists s', order_reducer order_initial (fetch_orders_settled (Some (fst (orders_response 1%N 1 10 None db1))))
                 = Some s' /\ os_orders s' = JUndef.
Proof.
  destruct (list_my_orders 1%N 1 10 None db1) as [[res | e] db'] eqn:E; [| vm_compute in E; discriminate].
  destruct (fetch_orders_loses_list _ _ _ _ _ _ _ order_initial (JObj []) E) as (s' & H1 & H2 & _).
  assert (Hd : db' = db1) by (revert E; vm_compute; congruence). subst db'.
  exists res. split; [reflexivity |]. split; [vm_compute in E; injection E as <-; discriminate |].
  eauto.
Defined.

Lemma restaurant_grid_always_empty_witness :
  exists res, list_restaurants any_text rq1 db0 = (Ok res, db0) /\ res.1 <> [] /\
    exists s', restaurant_reducer restaurant_initial
                 (fetch_restaurants_settled (Some (fst (restaurants_response any_text rq1 db0)))) = Some s' /\
               grid_view s' = Some (GridCards [] false).
Proof.
  destruct (list_restaurants any_text rq1 db0) as [[res | e] db'] eqn:E; [| vm_compute in E; discriminate].
  destruct (restaurant_grid_always_empty _ _ _ _ _ restaurant_initial E) as (s' & H1 & _ & _ & H2).
  assert (Hd : db' = db0) by (revert E; vm_compute; congruence). subst db'.
  exists res. split; [reflexivity |]. split; [vm_compute in E; injection E as <-; discriminate |].
  eauto.
Defined.

Lemma fetch_menu_not_array_witness :
  exists res, list_menu any_text 10%N (mkMenuQuery None None None) db0 = (Ok res, db0) /\
    exists s', menu_reducer menu_initial
                 (fetch_menu_settled "a" (Some (fst (menu_response any_text 10%N (mkMenuQuery None None None) db0))))
                 = Some s' /\ menu_state_typed s' = false.
Proof.
  destruct (list_menu any_text 10%N (mkMenuQuery None None None) db0) as [[res | e] db'] eqn:E;
    [| vm_compute in E; discriminate].
  destruct (fetch_menu_not_array _ _ _ _ _ _ menu_initial "a" (JObj []) E) as (s' & H1 & _ & H2 & _).
  assert (Hd : db' = db0) by (revert E; vm_compute; congruence). subst db'.
  exists res. split; [reflexivity |]. eauto.
Defined.

(** Zoe signs up through the dialog. *)
Definition zoe_form : FormData := mkFormData "zoe@x.io" "secret1" "Zoe" "555 1234" "1 Main St".

Lemma modal_signup_roundtrip_witness :
  exists id tok db', register_user notEmpty (signup_request zoe_form) 100 db0 = (Ok (id, tok), db') /\
    exists s' ls' u,
      modal_submit notEmpty SignUp zoe_form 100 db0 logged_out ls0 = (Some (s', ls'), db') /\
      u_role u = role_customer /\ fst (auth (auth_header ls') db') = Ok (id, u).
Proof.
  destruct (register_user notEmpty (signup_request zoe_form) 100 db0) as [[[id tok] | e] db'] eqn:E;
    [| vm_compute in E; discriminate].
  exists id, tok, db'. split; [reflexivity |].
  destruct (modal_signup_roundtrip notEmpty zoe_form 100 db0 id tok db' logged_out ls0 header_initial E)
    as (s' & ls' & u & H1 & _ & _ & _ & _ & H2 & _ & H3 & _).
  exists s', ls', u. by split_and!.
Defined.

(** A calendar with two days: before and after the instant 1000. *)
#[local] Instance sample_dates : DateParts :=
  {| date_to_string _ t := if (t <? 1000)%Z then "day1" else "day2"; hour_of _ := 12%Z; day_of_week _ := 2%Z |}.

(** An order of restaurant 10 placed at [t] with the total [q]. *)
Definition order_at (t : Z) (q : Q) : Order :=
  mkOrder None 1 10 [] (mkPricing q 0 0 0 0 q) addr "" "" pm_cash pay_pending os_delivered
    ot_delivery 0 None None None None [] t.

(** One order of 10 on the first day, three of 30 on the second. *)
Definition db_sales : DB :=
  mkDB ∅ {[10%N := rest0]} ∅ ∅
    {[40%N := order_at 10 10; 41%N := order_at 2000 30; 42%N := order_at 2000 30; 43%N := order_at 2000 30]}
    100%N.

(** The revenue analytics misreport the average order value: it is
    the mean of the periods' averages, not the total revenue over the
    number of orders.  With one order of 10 on one day and three of 30 on
    the next, the route reports 20 where the average order is 25. *)
Theorem revenue_average_misreports :
  exists rep, revenue_analytics None None 5000 db_sales = (Ok rep, db_sales) /\
    su_totalRevenue (rr_summary rep) == 100 /\ su_totalOrders (rr_summary rep) = 4%Z /\
    su_averageOrderValue (rr_summary rep) == 20 /\
    ~ (su_averageOrderValue (rr_summary rep) == su_totalRevenue (rr_summary rep) / inject_Z (su_totalOrders (rr_summary rep))).
Proof. eexists. split; [reflexivity |]. vm_compute. split_and!; try reflexivity. discriminate. Qed.


#[local] Instance sample_mail_env : MailEnv := {| email_user := "noreply@x.io"; admin_email := "admin@x.io" |}.

(** The mail server takes the administrator's copy and refuses the
    confirmation. *)
Definition admin_only (m : Mail) : bool := String.eqb (ml_to m) "admin@x.io".

Definition contact_req : ContactReq :=
  mkContactReq "Zoe" "zoe@x.io" "Late order" "Where is my dinner?" None.

Lemma contact_mail_sequence_witness :
  exists res out', contact admin_only contact_req [] = (res, out') /\
    res = Err (HttpError 500 "Failed to send message. Please try again later.") /\
    out' = [admin_mail (sanitize_contact contact_req)].
Proof.
  destruct (contact admin_only contact_req []) as [res out'] eqn:E.
  destruct (contact_mail_sequence admin_only contact_req [] res out' E) as (sent & -> & _ & _ & H500 & _).
  assert (Hs : sent = [admin_mail (sanitize_contact contact_req)]) by (revert E; vm_compute; congruence).
  exists res, ([] ++ sent). split_and!; [reflexivity | by apply H500 | by rewrite Hs].
Defined.

(** The contact form's fields reach the administrator's HTML unescaped:
    a name holding markup passes the validators and is copied verbatim. *)
Example contact_html_injection :
  let r := mkContactReq "<img src=x onerror=alert(1)>" "eve@x.io" "Hello there" "Just saying hi" None in
  validate_contact r = true /\
  exists a b, admin_html (sanitize_contact r) = String.append a (String.append "<img src=x onerror=alert(1)>" b).
Proof.
  split; [reflexivity |].
  exists (String.concat "" [line "<h2>New Contact Form Submission</h2>"; nl; indent 8; "<p><strong>Name:</strong> "]).
  eexists. vm_compute. reflexivity.
Qed.

(** The unused registration chain of [middleware/validation.js] and the
    route's disagree both ways: the route takes Zoe's lower-case password,
    the middleware would take a request for an administrator account. *)
Example registration_chains_disagree :
  validate_register_req reg_req = true /\ validateUserRegistration reg_req <> [] /\
  validateUserRegistration (mkRegisterReq "Mal" "mal@x.io" "Secret1" "555 1234" (Some role_admin)) = [] /\
  validate_register_req (mkRegisterReq "Mal" "mal@x.io" "Secret1" "555 1234" (Some role_admin)) = false.
Proof. split_and!; try reflexivity. vm_compute. discriminate. Qed.

(** The unused contact chain caps the name at 50 characters and the
    subject at 100, the route at 100 and 200. *)
Example contact_chains_disagree :
  let r := mkContactReq (String.concat "" (repeat "n" 60)) "zoe@x.io" "Late order" "Where is my dinner?" None in
  validate_contact r = true /\ validateContactForm r = ["Name must be between 2 and 50 characters"].
Proof. split; reflexivity. Qed.

(** ** The seeding script *)

#[local] Instance sample_admin_env : AdminEnv :=
  {| ADMIN_EMAIL := "root@dine.io"; ADMIN_PASSWORD := "Sup3rSecret" |}.


Lemma seeded_admin_login_witness :
  exists id tok db'' u,
    login_user ADMIN_EMAIL ADMIN_PASSWORD 9 (snd (create_admin notEmpty true 5 db0)) = (Ok (id, tok), db'') /\
    db_users db'' !! id = Some u /\ u_role u = role_admin /\
    adminAuth (Some (String.append bearer tok)) db'' = mkMwOutcome [] (Some (id, u)).
Proof.
  apply (seeded_admin_login notEmpty true 5 9 db0 (fst (create_admin notEmpty true 5 db0))).
  - reflexivity.
  - vm_compute. reflexivity.
  - reflexivity.
  - reflexivity.
  - reflexivity.
Defined.

(** [normalizeEmail]'s default for Gmail addresses: lower-case, and no dots
    before the [@]. *)
Fixpoint drop_local_dots (s : string) : string :=
  match s with
  | EmptyString => EmptyString
  | String c s' =>
      if Ascii.eqb c (Ascii.ascii_of_nat 64) then s
      else if Ascii.eqb c (Ascii.ascii_of_nat 46) then drop_local_dots s' else String c (drop_local_dots s')
  end.

Definition gmail_validators : FormatValidators :=
  {| isMobilePhone := notEmpty; isEmail := notEmpty; normalizeEmail s := drop_local_dots (to_lower s);
     isURL := notEmpty |}.

Definition gmail_admin : AdminEnv := {| ADMIN_EMAIL := "site.admin@gmail.com"; ADMIN_PASSWORD := "Sup3rSecret" |}.

(** The script stores [ADMIN_EMAIL] lower-cased but not normalized, while
    the login route looks up the normalized address: an administrator
    seeded with a dotted Gmail address is created and can never log in. *)
Example seeded_gmail_admin_locked_out :
  let run := @create_admin _ gmail_admin notEmpty true 5 db0 in
  sr_exit (fst run) = 0%Z /\
  fst (@login_user gmail_validators _ _ _ (@ADMIN_EMAIL gmail_admin) (@ADMIN_PASSWORD gmail_admin) 9 (snd run)) =
    Err (HttpError 401 "Invalid credentials").
Proof. split; vm_compute; reflexivity. Qed.

(** When a customer already has [ADMIN_EMAIL], the script reports that the
    administrator exists and exits with 0; the store has no administrator. *)
Example seed_customer_address_no_admin :
  @create_admin _ {| ADMIN_EMAIL := "ann@x.io"; ADMIN_PASSWORD := "Sup3rSecret" |} notEmpty true 5 db0 =
    (mkScriptRun 0 [connected_log; "Admin user already exists"], db0) /\
  find_docs (db_users db0) (fun u => bool_decide (u_role u = role_admin)) = [].
Proof. split; vm_compute; reflexivity. Qed.

(** The unused restaurant chain of [middleware/validation.js] checks the
    zip code and trims the address before [notEmpty]; the route's chain
    takes a street of one space, which the middleware refuses. *)
Example restaurant_chains_disagree :
  let b := mkRestaurantBody (Some "Eve Diner") None None None None None None None
             (Some ["Italian"]) (Some "eve@x.io") (Some "557") (Some "Home cooking daily")
             (Some (mkAddress " " "Town" "ST" "12345")) (Some 0) (Some 0) (Some "http://eve.io/logo.png")
             (Some "L-1") (Some "T-1") in
  validate_register b = true /\ validateRestaurantRegistration notEmpty b = ["Street address is required"].
Proof. split; reflexivity. Qed.

(** The unused menu chain wants a price of at least 0.01 and a preparation
    time; the route's chain takes a free dish. *)
Example menu_chains_disagree :
  let b := mkMenuItemBody (Some 10%N) (Some "Water") (Some 0) None (Some "Beverages")
             (Some "Still water, chilled") (Some ["w.png"]) in
  validate_menu_item b = true /\
  validateMenuItem b (Some "5") = ["Price must be a positive number"] /\
  validateMenuItem b None = ["Price must be a positive number"; "Preparation time must be between 1 and 120 minutes"].
Proof. split_and!; reflexivity. Qed.

(** The pagination chain reads decimal strings: "007" is the page 7, an
    empty [?limit=] is refused. *)
Example pagination_chain_strings :
  validatePagination (Some "007") (Some "100") = [] /\
  validatePagination None (Some "") = ["Limit must be between 1 and 100"] /\
  validatePagination (Some "-1") (Some "1e2") = ["Page must be a positive integer"; "Limit must be between 1 and 100"].
Proof. split_and!; reflexivity. Qed.

(** The order number the [pre("save")] hook writes: the clock in
    milliseconds, then the order count plus one on at least four digits. *)
Example order_number_rendering :
  order_number_string (Some (mkOrderNumber 1700000000000 7)) = "ORD17000000000000007" /\
  order_number_string (Some (mkOrderNumber 1700000000000 12345)) = "ORD170000000000012345".
Proof. split; vm_compute; reflexivity. Qed.

(** ** The header and its dialog *)

(** The page loaded with nothing stored, Zoe registered on the server. *)
Definition shell0 : Shell := mkShell header_initial empty_form false logged_out ls0 [] db_reg.

(** Zoe opens the dialog, types her credentials, submits, and clicks
    "Forgot your password?" while the login is awaited. *)
Definition zoe_clicks : list ShellEvent :=
  [ClickSignIn; TypeField FEmail "zoe@x.io"; TypeField FPassword "secret1"; PressSubmit 200;
   PressForgotPassword 201].

Lemma shell_invariant_witness :
  exists s, shell_run notEmpty notEmpty shell0 zoe_clicks = Some s /\ length (sh_inflight s) = 2%nat /\ shell_inv s.
Proof.
  destruct (shell_run notEmpty notEmpty shell0 zoe_clicks) as [s |] eqn:E; [| vm_compute in E; discriminate].
  exists s. split_and!; [reflexivity | revert E; vm_compute; intros E; by injection E as <- |].
  apply (shell_invariant notEmpty notEmpty). eapply reachable_run; [| exact E].
  by apply (reach_load _ _ ls0 db_reg).
Defined.

(** The dialog open on sign-in with Zoe's credentials typed in. *)
Definition shell_typed : Shell :=
  mkShell (mkHeaderState true SignIn) (mkFormData "zoe@x.io" "secret1" "" "" "") false logged_out ls0 [] db_reg.

Lemma forgot_password_resubmits_witness :
  exists s1 s2,
    shell_step notEmpty notEmpty shell_typed (PressSubmit 200) = Some s1 /\ au_isLoading (sh_auth s1) = true /\
    shell_step notEmpty notEmpty s1 (PressSubmit 201) = None /\
    shell_step notEmpty notEmpty s1 (PressForgotPassword 201) = Some s2 /\
    map if_sub (sh_inflight s2) = [SubmitLogin "zoe@x.io" "secret1"; SubmitLogin "zoe@x.io" "secret1"] /\
    sh_db s2 = snd (login_response "zoe@x.io" "secret1" 201 (snd (login_response "zoe@x.io" "secret1" 200 db_reg))).
Proof. apply (forgot_password_resubmits notEmpty notEmpty shell_typed 200 201); reflexivity. Defined.

Lemma dialog_login_witness :
  exists id tok db', login_user "zoe@x.io" "secret1" 200 db_reg = (Ok (id, tok), db') /\
    exists s', shell_run notEmpty notEmpty shell0
      [ClickSignIn; TypeField FEmail "zoe@x.io"; TypeField FPassword "secret1"; PressSubmit 200; Answer 0] = Some s' /\
      au_isAuthenticated (sh_auth s') = true /\ sh_form s' = empty_form.
Proof.
  destruct (login_user "zoe@x.io" "secret1" 200 db_reg) as [[[id tok] | e] db'] eqn:E;
    [| vm_compute in E; discriminate].
  exists id, tok, db'. split; [reflexivity |].
  destruct (dialog_login notEmpty notEmpty shell0 "zoe@x.io" "secret1" 200 id tok db') as (s' & H1 & H2 & _ & H3 & _);
    try reflexivity; [exact E |].
  exists s'. by split_and!.
Defined.

(** Doubles on the small integers of the sample table are exact: the
    witnesses below use the exact rounding of a rational. *)
#[local] Program Instance sample_double : ToDouble := {| to_double q := NNum (Qred q) |}.
Next Obligation. intros n _. cbn beta. f_equal. apply Qcanon.Qred_identity. cbn. apply Z.gcd_1_r. Qed.
Next Obligation. intros p q Hpq. cbn beta. f_equal. by apply Qred_complete. Qed.

(** The id a MongoDB restaurant document would put in the URL. *)
Lemma objectid_not_found_witness :
  str_all is_hex "65a1f0c2e4b0d1a2b3c4d5e6" = true /\ str_any hex_letter "65a1f0c2e4b0d1a2b3c4d5e6" = true /\
  restaurant_info (Some "65a1f0c2e4b0d1a2b3c4d5e6") = None.
Proof. split; [reflexivity | split; [reflexivity | apply objectid_not_found; reflexivity]]. Defined.

(** A 24-digit id of decimal digits finds Tokyo Sushi. *)
Lemma decimal_id_lookup_witness :
  exists r, restaurant_info (Some "000000000000000000000003") = Some r /\ sr_name r = "Tokyo Sushi".
Proof.
  exists (nth 2 sample_restaurants (hd (mkSampleRestaurant 0 "" "" 0 "" "" "" false [] "" "" "" "" "" 0) sample_restaurants)).
  split; [| reflexivity]. apply (decimal_id_lookup "000000000000000000000003" 3); try reflexivity; [done | |].
  - apply Z.leb_le. reflexivity.
  - split; [cbn; tauto | reflexivity].
Defined.

(** A visit: Zoe signs in on the home page, writes to the contact page,
    sends the form (a reload), goes to the menu and presses "Add to Cart". *)
Definition app_visit : list AppEvent :=
  [OnHeader ClickSignIn; OnHeader (TypeField FEmail "zoe@x.io"); OnHeader (TypeField FPassword "secret1");
   OnHeader (PressSubmit 200); OnHeader (Answer 0); FollowLink "/contact";
   OnContact (ContactType CMessage "Where is my order?"); OnContact ContactSend; FollowLink "/menu";
   PressInert AddToCartButton].

Lemma app_keeps_business_data_witness :
  exists a0 a, app_load HomePage ls0 db_reg = Some a0 /\ app_run notEmpty notEmpty a0 app_visit = Some a /\
    ap_page a = MenuPage /\ au_isAuthenticated (sh_auth (ap_shell a)) = true /\
    business_data (sh_db (ap_shell a)) = business_data db_reg.
Proof.
  destruct (app_load HomePage ls0 db_reg) as [a0|] eqn:L; [| vm_compute in L; discriminate].
  pose proof L as L'. vm_compute in L'. injection L' as Ha0.
  destruct (app_run notEmpty notEmpty a0 app_visit) as [a|] eqn:E; [| rewrite <- Ha0 in E; vm_compute in E; discriminate].
  pose proof E as E'. rewrite <- Ha0 in E'. vm_compute in E'. injection E' as <-.
  exists a0. eexists. split_and!; [reflexivity | exact E | reflexivity | reflexivity |].
  apply (app_keeps_business_data notEmpty notEmpty db_reg).
  eapply app_reachable_run; [eapply app_reach_load; exact L | exact E].
Defined.

(** ** The rendered pages *)

(** With nobody signed in, the header offers "Sign In", and the page
    accepts the click. *)
Lemma header_clicks_enabled_witness :
  ClickSignIn ∈ [ClickSignIn; ClickSignUp; ClickSignOut] /\
  (ClickSignIn ∈ node_clicks (header_view id (sh_auth shell0)) <-> is_Some (handle notEmpty notEmpty shell0 ClickSignIn)).
Proof. split; [apply list_elem_of_here | apply header_clicks_enabled; apply list_elem_of_here]. Defined.

(** The about page, Zoe's session loaded: "/about" is both rendered and in
    the table. *)
Definition about_app : App := mkApp AboutPage shell0 filters_initial sections_initial wizard_initial contact_form_initial.

Lemma page_links_rendered_witness :
  exists n, page_view about_app = Some n /\ ("/about" ∈ node_links n <-> "/about" ∈ page_links AboutPage).
Proof. eexists. split; [reflexivity | apply (page_links_rendered about_app); reflexivity]. Defined.


(** The menu page, Zoe's session loaded: the "Italian" checkbox of the
    open "Cuisine Type" section is rendered, and its change is an event
    [app_step] accepts. *)
Definition menu_app : App := mkApp MenuPage shell0 filters_initial sections_initial wizard_initial contact_form_initial.


(** ** The store *)

(** Ann's cart holds two pizzas and her session is stored; she signs out
    and Ben's login is dispatched. *)
Definition ann_cart : list FCartItem := [mkFCartItem (mkFMenuItem "m1" "r1" 12) 2 None].
Definition ann_ls : LocalStorage := mkLocalStorage (Some "tokA") None (Some ann_cart).
Definition ben_session : jsv := JObj [("user", JObj [("name", JStr "Ben")]); ("token", JStr "tokB")].
Definition switch_user : list RootAction := [RAuth Logout; RAuth LoginPending; RAuth (LoginFulfilled ben_session)].

Lemma cart_outlives_sessions_witness :
  exists s s' ls', store_init ann_ls = Some s /\ Forall is_auth_action switch_user /\
    root_run s ann_ls switch_user = Some (s', ls') /\
    root_cart s' = root_cart s /\ ls_cart ls' = Some ann_cart.
Proof.
  destruct (store_init ann_ls) as [s|] eqn:Ei; [| discriminate].
  destruct (root_run s ann_ls switch_user) as [[s' ls']|] eqn:Er.
  2: { pose proof Ei as Ei'. vm_compute in Ei'. injection Ei' as <-. vm_compute in Er. discriminate. }
  assert (HF : Forall is_auth_action switch_user) by (repeat constructor).
  destruct (cart_outlives_sessions s ann_ls switch_user s' ls' HF Er) as [Hc Hl].
  exists s, s', ls'. split_and!; try assumption; reflexivity.
Defined.
